(** * The adaptive ensemble forecasting engine of [predictionLogic.js]

    A shallow embedding of the learning core of the prediction engine
    (performance learner, drift detector, reflexive correction, market-context
    classifier, final fusion stage) together with the properties the
    specification states about it.

    Modelling conventions.
    - A JavaScript number is an exact rational ([Q]): the model is the
      real-arithmetic reading of the binary64 code.  Where the code stores
      [Infinity] (the drift detector) the extended type [Num.ext] is used.
    - [Math.sqrt], [Math.log2], [Math.sin], [Math.cos] and [Number.toFixed]
      are not rational functions; they are fields of a [MathOps] record the
      model is parameterised by.
    - [null] / [undefined] / absent results are [None] (or an explicit
      constructor where the code tells them apart).
    - Module-level mutable tables ([signalPerformance], [driftDetector],
      the reflexive-correction counters) are passed explicitly: a function
      that mutates one returns the new table.
    - A string is the sequence of its characters, each with a code below
      256; a string that is coerced to a number is read by
      [JS.stringToNumber].
    - The functions of the engine are modelled on the calls that run to
      their end.  The calls of the exported [ultraAIPredict] and of the
      request handler that throw are told apart by [Exported.ultraAIPredict]
      and [Server.handle], which return how the call ends. *)

From Stdlib Require Import QArith Qminmax Qabs Qround Lqa ZArith Lia Bool Ascii String.
From stdpp Require Import base option list gmap strings pretty.

Local Open Scope Q_scope.

(** ** Numbers *)

Module Num.

(** [a < b], [a <= b], [a > b], [a >= b] as the code's boolean tests. *)
Definition ltb (a b : Q) : bool := negb (Qle_bool b a).
Definition leb (a b : Q) : bool := Qle_bool a b.
Definition gtb (a b : Q) : bool := ltb b a.
Definition geb (a b : Q) : bool := leb b a.
Definition eqb (a b : Q) : bool := Qeq_bool a b.

(** A counter (an integer-valued JS number that only ever counts up). *)
Definition ofNat (n : nat) : Q := inject_Z (Z.of_nat n).
Definition ofZ (z : Z) : Q := inject_Z z.

(** [Math.min(Math.max(x, lo), hi)]. *)
Definition clampMinMax (x lo hi : Q) : Q := Qmin (Qmax x lo) hi.
(** [Math.max(lo, Math.min(hi, x))]. *)
Definition clampMaxMin (lo hi x : Q) : Q := Qmax lo (Qmin hi x).

(** JS numbers that may be infinite or NaN: the drift detector starts its
    minima at [Infinity]. *)
Inductive ext : Type :=
| Fin (q : Q)
| PInf
| NInf
| NaN.

Definition xadd (a b : ext) : ext :=
  match a, b with
  | NaN, _ | _, NaN => NaN
  | PInf, NInf | NInf, PInf => NaN
  | PInf, _ | _, PInf => PInf
  | NInf, _ | _, NInf => NInf
  | Fin x, Fin y => Fin (x + y)
  end.

(** The sign of a finite number: [Gt], [Eq] or [Lt] against zero. *)
Definition sgn (q : Q) : comparison := Qcompare q 0.

Definition xinf (positive : bool) : ext := if positive then PInf else NInf.

Definition xmul (a b : ext) : ext :=
  match a, b with
  | NaN, _ | _, NaN => NaN
  | Fin x, Fin y => Fin (x * y)
  | Fin x, PInf | PInf, Fin x =>
      match sgn x with Gt => PInf | Lt => NInf | Eq => NaN end
  | Fin x, NInf | NInf, Fin x =>
      match sgn x with Gt => NInf | Lt => PInf | Eq => NaN end
  | PInf, PInf | NInf, NInf => PInf
  | PInf, NInf | NInf, PInf => NInf
  end.

(** [a < b] on extended numbers; any comparison with NaN is false. *)
Definition xltb (a b : ext) : bool :=
  match a, b with
  | NaN, _ | _, NaN => false
  | Fin x, Fin y => ltb x y
  | NInf, NInf => false
  | NInf, _ => true
  | _, NInf => false
  | PInf, _ => false
  | Fin _, PInf => true
  end.
Definition xgtb (a b : ext) : bool := xltb b a.

(** [a <= b] on extended numbers. *)
Definition xleb (a b : ext) : bool :=
  match a, b with
  | NaN, _ | _, NaN => false
  | Fin x, Fin y => leb x y
  | NInf, _ => true
  | _, PInf => true
  | _, _ => false
  end.
Definition xgeb (a b : ext) : bool := xleb b a.

(** [- a] and [a - b]. *)
Definition xneg (a : ext) : ext :=
  match a with
  | Fin x => Fin (- x)
  | PInf => NInf
  | NInf => PInf
  | NaN => NaN
  end.
Definition xsub (a b : ext) : ext := xadd a (xneg b).

(** The one rounding of binary64 that changes the kind of a number: a
    magnitude of [2^1024 - 2^970] or more rounds to an infinity. *)
Definition overflowBound : Z := (2 ^ 1024 - 2 ^ 970)%Z.
Definition ofReal (q : Q) : ext :=
  if Qle_bool (inject_Z overflowBound) (Qabs q) then xinf (Qle_bool 0 q) else Fin q.

End Num.

(** The part of [Math] and [Number.prototype] that is not rational. *)
Record MathOps : Type := {
  sqrt : Q -> Q;                 (* Math.sqrt *)
  log2 : Q -> Q;                 (* Math.log2 *)
  sin : Q -> Q;                  (* Math.sin *)
  cos : Q -> Q;                  (* Math.cos *)
  toFixed : Q -> nat -> string;  (* x.toFixed(d) *)
  toText : Q -> string           (* String(x), as a template string prints x *)
}.

(** ** JavaScript values of the history and statistics objects *)

Module JS.

(** The two classes. *)
Inductive Outcome : Type := BIG | SMALL.

Definition Outcome_eqb (a b : Outcome) : bool :=
  match a, b with
  | BIG, BIG | SMALL, SMALL => true
  | _, _ => false
  end.

(** The string a class is in the code. *)
Definition outcomeStr (o : Outcome) : string :=
  match o with BIG => "BIG" | SMALL => "SMALL" end.

(** [a === b] on values that are a class string or [null]. *)
Definition optOutcome_eqb (a b : option Outcome) : bool :=
  match a, b with
  | Some x, Some y => Outcome_eqb x y
  | None, None => true
  | _, _ => false
  end.

(** A field of a history record or of the carried statistics as the callers
    fill it: a string, [null], or nothing at all. *)
Inductive Field : Type :=
| Undefined
| Null
| Str (s : string).

(** Truthiness: [undefined], [null] and the empty string are falsy. *)
Definition truthy (f : Field) : bool :=
  match f with
  | Str s => negb (String.eqb s "")
  | _ => false
  end.

(** [a || b]. *)
Definition orElse (a b : Field) : Field := if truthy a then a else b.

(** *** [parseInt] *)

Definition isWhite (c : ascii) : bool :=
  let n := nat_of_ascii c in
  ((9 <=? n) && (n <=? 13))%nat || (n =? 32)%nat || (n =? 160)%nat.

Fixpoint skipWhite (s : string) : string :=
  match s with
  | String c r => if isWhite c then skipWhite r else s
  | EmptyString => s
  end.

(** The value of a digit in the given radix (10 or 16), if it is one. *)
Definition digitVal (radix : Z) (c : ascii) : option Z :=
  let n := Z.of_nat (nat_of_ascii c) in
  let v := if ((48 <=? n) && (n <=? 57))%Z then Some (n - 48)%Z
           else if ((97 <=? n) && (n <=? 122))%Z then Some (n - 87)%Z
           else if ((65 <=? n) && (n <=? 90))%Z then Some (n - 55)%Z
           else None in
  match v with
  | Some d => if (d <? radix)%Z then Some d else None
  | None => None
  end.

(** The longest prefix of digits, read most significant first; [None] when
    the prefix is empty. *)
Fixpoint digits (radix : Z) (acc : option Z) (s : string) : option Z :=
  match s with
  | String c r =>
      match digitVal radix c with
      | Some d => digits radix (Some (match acc with Some a => a * radix + d | None => d end)%Z) r
      | None => acc
      end
  | EmptyString => acc
  end.

(** [parseInt(s)] with no radix argument: leading white space, a sign, a
    [0x] prefix, then digits; [None] is [NaN]. *)
Definition parseIntStr (s : string) : option Z :=
  let s1 := skipWhite s in
  let '(neg, s2) :=
    match s1 with
    | String "-" r => (true, r)
    | String "+" r => (false, r)
    | _ => (false, s1)
    end in
  let '(radix, s3) :=
    match s2 with
    | String "0" (String "x" r) => (16%Z, r)
    | String "0" (String "X" r) => (16%Z, r)
    | _ => (10%Z, s2)
    end in
  match digits radix None s3 with
  | Some v => Some (if neg then (- v)%Z else v)
  | None => None
  end.

(** [parseInt(f)]: [undefined] and [null] read as the strings
    ["undefined"] and ["null"], which hold no digit. *)
Definition parseInt (f : Field) : option Z :=
  match f with
  | Str s => parseIntStr s
  | _ => None
  end.

(** [getBigSmallFromNumber] *)
Definition getBigSmallFromNumber (number : Field) : option Outcome :=
  match number with
  | Undefined | Null => None
  | _ =>
      match parseInt number with
      | None => None
      | Some num =>
          if ((0 <=? num) && (num <=? 4))%Z then Some SMALL
          else if ((5 <=? num) && (num <=? 9))%Z then Some BIG
          else None
      end
  end.

(** [getOppositeOutcome] *)
Definition getOppositeOutcome (prediction : option Outcome) : option Outcome :=
  match prediction with
  | Some BIG => Some SMALL
  | Some SMALL => Some BIG
  | None => None
  end.

(** [s.includes(sub)] *)
Fixpoint includes (s sub : string) : bool :=
  String.prefix sub s ||
  match s with
  | String _ r => includes r sub
  | EmptyString => false
  end.

(** The property names every object inherits from [Object.prototype].  A
    table the code keeps in an object literal ([signalPerformance],
    [REGIME_SIGNAL_PROFILES]) answers a lookup with one of these names by the
    inherited value, which is truthy and is none of the table's records. *)
Definition inheritedKeys : list string :=
  ["constructor"; "__proto__"; "toString"; "toLocaleString"; "valueOf"; "hasOwnProperty";
   "isPrototypeOf"; "propertyIsEnumerable"; "__defineGetter__"; "__defineSetter__";
   "__lookupGetter__"; "__lookupSetter__"]%string.

Definition inherited (key : string) : bool := existsb (String.eqb key) inheritedKeys.

(** A period identifier as the callers pass it: [null], a number
    ([Date.now()]) or a string. *)
Inductive Period : Type :=
| PNull
| PNum (n : Z)
| PStr (s : string).

(** [a === b] on period identifiers. *)
Definition Period_eqb (a b : Period) : bool :=
  match a, b with
  | PNull, PNull => true
  | PNum x, PNum y => (x =? y)%Z
  | PStr x, PStr y => String.eqb x y
  | _, _ => false
  end.

(** *** [Number(s)] on a string

    The coercion of a string operand of [-], [<=], [>=] and [>]: white space
    around the text is dropped; the empty text is 0; then either a [0x], [0o]
    or [0b] literal, or an optional sign followed by [Infinity] or a decimal
    literal (digits, a fraction, an exponent); any other text is NaN. *)

Fixpoint trimEnd (s : string) : string :=
  match s with
  | String c r =>
      match trimEnd r with
      | EmptyString => if isWhite c then EmptyString else String c EmptyString
      | r' => String c r'
      end
  | EmptyString => EmptyString
  end.

(** The leading digits of [s]: their value, how many they are, and the rest
    of the string. *)
Fixpoint readDigits (radix : Z) (value : Z) (count : nat) (s : string) : Z * nat * string :=
  match s with
  | String c r =>
      match digitVal radix c with
      | Some d => readDigits radix (value * radix + d)%Z (S count) r
      | None => (value, count, s)
      end
  | EmptyString => (value, count, s)
  end.

(** A sign in front of [s]. *)
Definition readSign (s : string) : bool * string :=
  match s with
  | String "-" r => (true, r)
  | String "+" r => (false, r)
  | _ => (false, s)
  end.

(** The exponent part that ends a decimal literal: nothing, or [e] or [E],
    a sign, and at least one digit up to the end of the text. *)
Definition readExponent (s : string) : option Z :=
  match s with
  | EmptyString => Some 0%Z
  | String c r =>
      if Ascii.eqb c "e" || Ascii.eqb c "E" then
        let '(neg, r1) := readSign r in
        match readDigits 10 0 0 r1 with
        | (v, S _, EmptyString) => Some (if neg then (- v)%Z else v)
        | _ => None
        end
      else None
  end.

(** An unsigned decimal literal: [12], [12.], [12.5], [.5], each with an
    optional exponent. *)
Definition readDecimal (s : string) : option Q :=
  let '(i, ni, s1) := readDigits 10 0 0 s in
  let '(f, nf, s2) :=
    match s1 with
    | String "." r => readDigits 10 0 0 r
    | _ => (0%Z, 0%nat, s1)
    end in
  if (ni + nf =? 0)%nat then None
  else
    match readExponent s2 with
    | Some e => Some ((inject_Z i + inject_Z f / inject_Z (10 ^ Z.of_nat nf)) * 10 ^ e)
    | None => None
    end.

(** The radix a letter after a leading [0] announces. *)
Definition prefixRadix (c : ascii) : option Z :=
  if Ascii.eqb c "x" || Ascii.eqb c "X" then Some 16%Z
  else if Ascii.eqb c "o" || Ascii.eqb c "O" then Some 8%Z
  else if Ascii.eqb c "b" || Ascii.eqb c "B" then Some 2%Z
  else None.

Definition readSignedDecimal (t : string) : Num.ext :=
  let '(neg, body) := readSign t in
  if String.eqb body "Infinity" then Num.xinf (negb neg)
  else
    match readDecimal body with
    | Some q => Num.ofReal (if neg then - q else q)
    | None => Num.NaN
    end.

Definition stringToNumber (s : string) : Num.ext :=
  let t := trimEnd (skipWhite s) in
  match t with
  | EmptyString => Num.Fin 0
  | String "0" (String c r) =>
      match prefixRadix c with
      | Some radix =>
          match readDigits radix 0 0 r with
          | (v, S _, EmptyString) => Num.ofReal (inject_Z v)
          | _ => Num.NaN
          end
      | None => readSignedDecimal t
      end
  | _ => readSignedDecimal t
  end.

(** [Number(p)] as the subtraction [currentPeriodFull - lastActivePeriod]
    coerces its operands: [null] is 0, a number is itself, a string is read
    by [stringToNumber]. *)
Definition periodToNumber (p : Period) : Num.ext :=
  match p with
  | PNull => Num.Fin 0
  | PNum n => Num.Fin (inject_Z n)
  | PStr s => stringToNumber s
  end.

End JS.


(** ** A computable instance of [MathOps]

    Rational approximations of the four real functions, and [toFixed] on
    exact rationals, so that the model runs on concrete inputs.  The general
    theorems do not depend on this instance. *)

Module Approx.

(** [floor(sqrt(x) * 2^40) / 2^40]; 0 for a negative argument (where
    [Math.sqrt] is NaN). *)
Definition sqrtQ (x : Q) : Q :=
  if Qle_bool x 0 then 0
  else Z.sqrt (Qnum x * Zpos (Qden x) * 2 ^ 80) # (Qden x * 2 ^ 40).

(** Binary logarithm by repeated squaring on a fixed-point mantissa with 60
    fractional bits; 40 fractional bits of the result.  0 for an argument
    that is not positive. *)
Definition fixOne : Z := 2 ^ 60.

Fixpoint log2Frac (bits : nat) (m : Z) (acc : Z) : Z :=
  match bits with
  | O => acc
  | S k =>
      let m2 := (m * m / fixOne)%Z in
      if (2 * fixOne <=? m2)%Z then log2Frac k (m2 / 2)%Z (2 * acc + 1)%Z
      else log2Frac k m2 (2 * acc)%Z
  end.

Definition log2Q (x : Q) : Q :=
  if Qle_bool x 0 then 0
  else
    let num := Qnum x in
    let den := Zpos (Qden x) in
    (* 2^e <= x < 2^(e+1) *)
    let e0 := (Z.log2 num - Z.log2 den)%Z in
    let below (e : Z) : bool :=   (* x < 2^e *)
      if (0 <=? e)%Z then (num <? den * 2 ^ e)%Z else (num * 2 ^ (- e) <? den)%Z in
    let e := if below e0 then (e0 - 1)%Z else if below (e0 + 1)%Z then e0 else (e0 + 1)%Z in
    let m := if (0 <=? e)%Z then (num * fixOne / (den * 2 ^ e))%Z
             else (num * 2 ^ (- e) * fixOne / den)%Z in
    inject_Z e + (log2Frac 40 m 0 # 2 ^ 40).

(** Taylor polynomials of degree 41 and 40 around 0, in fixed point with
    100 fractional bits. *)
Definition trigOne : Z := 2 ^ 100.

Fixpoint taylor (terms : nat) (k : Z) (term x2 acc : Z) : Z :=
  match terms with
  | O => acc
  | S t =>
      let next := (- (term * x2 / trigOne) / ((k + 1) * (k + 2)))%Z in
      taylor t (k + 2)%Z next x2 (acc + term)%Z
  end.

Definition toFix (x : Q) : Z := (Qnum x * trigOne / Zpos (Qden x))%Z.

Definition sinQ (x : Q) : Q :=
  let fx := toFix x in
  taylor 21 1 fx (fx * fx / trigOne)%Z 0 # 2 ^ 100.

Definition cosQ (x : Q) : Q :=
  let fx := toFix x in
  taylor 21 0 trigOne (fx * fx / trigOne)%Z 0 # 2 ^ 100.

(** [x.toFixed(d)]: the integer nearest to [|x| * 10^d], the larger one at
    a tie, printed with [d] decimals, after a minus sign when [x < 0]. *)
Definition padLeft (width : nat) (s : string) : string :=
  String.concat "" (repeat "0"%string (width - String.length s)) +:+ s.

Definition toFixedQ (x : Q) (d : nat) : string :=
  let neg := negb (Qle_bool 0 x) in
  let a := Qabs x in
  let scaled := a * inject_Z (10 ^ Z.of_nat d) + (1 # 2) in
  let n := Qfloor scaled in
  let whole := (n / 10 ^ Z.of_nat d)%Z in
  let frac := (n mod 10 ^ Z.of_nat d)%Z in
  let body :=
    match d with
    | O => pretty whole
    | _ => pretty whole +:+ "." +:+ padLeft d (pretty frac)
    end in
  if neg then "-" +:+ body else body.

(** [String(x)]: an integer as it is, any other number with at most 16
    decimals. *)
Fixpoint stripZeros (s : string) : string :=
  match s with
  | String c r =>
      match stripZeros r with
      | EmptyString => if Ascii.eqb c "0" then EmptyString else String c EmptyString
      | r' => String c r'
      end
  | EmptyString => EmptyString
  end.

Definition toTextQ (x : Q) : string :=
  let r := Qred x in
  if Pos.eqb (Qden r) 1 then pretty (Qnum r) else stripZeros (toFixedQ x 16).

Definition math : MathOps :=
  {| sqrt := sqrtQ; log2 := log2Q; sin := sinQ; cos := cosQ; toFixed := toFixedQ;
     toText := toTextQ |}.

End Approx.

(** ** History records and the carried statistics *)

Module Carry.
Import JS.

(** One round of the history, newest first in the list. *)
Record HistoryRecord : Type := mkHistoryRecord {
  period : Field;
  actual : Field;
  actualNumber : Field;
  status : Field
}.

(** [parseInt(entry.actualNumber || entry.actual)] *)
Definition numberOf (entry : HistoryRecord) : option Z :=
  parseInt (orElse (actualNumber entry) (actual entry)).

(** [history.map(entry => parseInt(entry.actualNumber || entry.actual))
       .filter(n => !isNaN(n))] *)
Definition numbersOf (history : list HistoryRecord) : list Q :=
  omap (fun entry => inject_Z <$> numberOf entry) history.

(** A vote as one cycle hands it to the next ([lastPredictionSignals]). *)
Record Vote : Type := mkVote {
  v_source : string;
  v_prediction : option Outcome;
  v_weight : Q;
  v_isOnProbation : bool
}.

(** [currentSharedStats], the statistics the caller carries from cycle to
    cycle.  A field the caller left out or set to [null] is [None],
    [PNull], or one of [Undefined] / [Null] where the code tells the two
    apart. *)
Record Stats : Type := mkStats {
  periodFull : Period;
  longTermGlobalAccuracy : option Q;
  lastPredictionSignals : option (list Vote);
  lastActualOutcome : Field;
  lastPredictedOutcome : option Outcome;
  lastFinalConfidence : option Q;
  lastConfidenceLevel : Z;
  lastPeriodFull : Period;
  lastVolatilityRegime : Field;
  lastMacroRegime : Field;
  lastConcentrationModeEngaged : bool;
  lastMarketEntropyState : Field
}.

End Carry.

(** ** Primitive statistics *)

Module Stats.
Import JS.

(** [xs.slice(start, end)] for integer arguments. *)
Definition sliceIndex (len : nat) (i : Z) : nat :=
  if (i <? 0)%Z then Z.to_nat (Z.max (Z.of_nat len + i) 0)
  else Nat.min (Z.to_nat i) len.

Definition slice {A} (start stop : Z) (xs : list A) : list A :=
  let k := sliceIndex (length xs) start in
  let final := sliceIndex (length xs) stop in
  take (final - k) (drop k xs).

(** [xs.slice(start)] *)
Definition sliceFrom {A} (start : Z) (xs : list A) : list A :=
  drop (sliceIndex (length xs) start) xs.

(** [xs.reduce((a, b) => a + b, 0)] *)
Definition sum (xs : list Q) : Q := fold_left Qplus xs 0.

(** [calculateSMA] *)
Definition calculateSMA (data : list Q) (period : Z) : option Q :=
  if (Z.of_nat (length data) <? period)%Z || (period <=? 0)%Z then None
  else
    let relevantData := slice 0 period data in
    Some (sum relevantData / inject_Z period).

(** The loop of [calculateEMA] over the data after the seed window. *)
Definition emaRoll (k : Q) (seed : Q) (rest : list Q) : Q :=
  fold_left (fun ema x => (x * k) + (ema * (1 - k))) rest seed.

(** [calculateEMA] *)
Definition calculateEMA (data : list Q) (period : Z) : option Q :=
  if (Z.of_nat (length data) <? period)%Z || (period <=? 0)%Z then None
  else
    let k := 2 / (inject_Z period + 1) in
    let chronologicalData := rev data in
    let initialSliceForSma := slice 0 period chronologicalData in
    if (Z.of_nat (length initialSliceForSma) <? period)%Z then None
    else
      let ema :=
        match calculateSMA (rev initialSliceForSma) period with
        | Some e => Some e
        | None =>
            if (0 <? length initialSliceForSma)%nat
            then Some (sum initialSliceForSma / Num.ofNat (length initialSliceForSma))
            else None
        end in
      match ema with
      | None => None
      | Some e => Some (emaRoll k e (sliceFrom period chronologicalData))
      end.

Section WithMath.
Variable M : MathOps.

(** [calculateStdDev]; [Math.pow(x, 2)] is [x * x]. *)
Definition calculateStdDev (data : list Q) (period : Z) : option Q :=
  if (Z.of_nat (length data) <? period)%Z || (period <=? 0)%Z then None
  else
    let relevantData := slice 0 period data in
    if (length relevantData <? 2)%nat then None
    else
      let mean := sum relevantData / Num.ofNat (length relevantData) in
      let variance :=
        fold_left (fun acc val => acc + (val - mean) * (val - mean)) relevantData 0
        / Num.ofNat (length relevantData) in
      Some (sqrt M variance).

(** [calculateEntropyForSignal]; the result [None] is [null].  The
    window holds class labels or [null], as every caller builds it. *)
Definition calculateEntropyForSignal (outcomes : list (option Outcome)) (windowSize : Z)
  : option Q :=
  if (Z.of_nat (length outcomes) <? windowSize)%Z then None
  else
    let window := slice 0 windowSize outcomes in
    let countBIG :=
      Num.ofNat (length (List.filter (fun o => optOutcome_eqb o (Some BIG)) window)) in
    let countSMALL :=
      Num.ofNat (length (List.filter (fun o => optOutcome_eqb o (Some SMALL)) window)) in
    let totalValidOutcomes := countBIG + countSMALL in
    if Num.eqb totalValidOutcomes 0 then Some 1
    else
      let term (count : Q) (entropy : Q) : Q :=
        if Num.gtb count 0 then
          let p := count / totalValidOutcomes in
          entropy - p * log2 M p
        else entropy in
      Some (term countSMALL (term countBIG 0)).

End WithMath.

End Stats.

(** ** Market context analysis *)

Module Context.
Import JS Carry Stats.

(** The context object of [getTrendContext]. *)
Record TrendContext : Type := mkTrendContext {
  strength : string;
  direction : string;
  volatility : string;
  details : string;
  macroRegime : string;
  isTransitioning : bool
}.

Definition unknownContext (details : string) : TrendContext :=
  {| strength := "UNKNOWN"; direction := "NONE"; volatility := "UNKNOWN"; details := details;
     macroRegime := "UNKNOWN_REGIME"; isTransitioning := false |}.

(** A number is truthy unless it is 0 (or [null]). *)
Definition truthyNum (x : option Q) : bool :=
  match x with
  | Some q => negb (Num.eqb q 0)
  | None => false
  end.

Section WithMath.
Variable M : MathOps.

(** The direction and strength read off the three averages. *)
Definition stackOf (shortMA mediumMA longMA normalizedSpread : Q) : string * string :=
  if Num.gtb shortMA mediumMA && Num.gtb mediumMA longMA then
    ("BIG",
     if Num.gtb normalizedSpread 0.80 then "STRONG"
     else if Num.gtb normalizedSpread 0.45 then "MODERATE" else "WEAK")
  else if Num.ltb shortMA mediumMA && Num.ltb mediumMA longMA then
    ("SMALL",
     if Num.ltb normalizedSpread (-0.80) then "STRONG"
     else if Num.ltb normalizedSpread (-0.45) then "MODERATE" else "WEAK")
  else
    (if Num.gtb shortMA longMA then "BIG_BIASED_RANGE"
     else if Num.gtb longMA shortMA then "SMALL_BIASED_RANGE" else "NONE",
     "RANGING").

(** The volatility label and the text it adds to [details]. *)
Definition volatilityOf (numbers : list Q) : string * string :=
  let volSlice := slice 0 (Z.of_nat (Nat.min (length numbers) 30)) numbers in
  if (15 <=? length volSlice)%nat then
    match calculateStdDev M volSlice (Z.of_nat (length volSlice)) with
    | Some stdDevVol =>
        (if Num.gtb stdDevVol 3.3 then "HIGH"
         else if Num.gtb stdDevVol 2.0 then "MEDIUM"
         else if Num.gtb stdDevVol 0.9 then "LOW" else "VERY_LOW",
         " VolStdDev:" +:+ toFixed M stdDevVol 2)
    | None => ("UNKNOWN", "")
    end
  else ("UNKNOWN", "").

(** [getTrendContext] *)
Definition getTrendContext (history : list HistoryRecord)
    (shortMALookback mediumMALookback longMALookback : Z) : TrendContext :=
  if (Z.of_nat (length history) <? longMALookback)%Z
  then unknownContext "Insufficient history"
  else
    let numbers := numbersOf history in
    if (Z.of_nat (length numbers) <? longMALookback)%Z
    then unknownContext "Insufficient numbers"
    else
      match calculateEMA numbers shortMALookback, calculateEMA numbers mediumMALookback,
            calculateEMA numbers longMALookback with
      | Some shortMA, Some mediumMA, Some longMA =>
          let details0 :=
            "S:" +:+ toFixed M shortMA 1 +:+ ",M:" +:+ toFixed M mediumMA 1
            +:+ ",L:" +:+ toFixed M longMA 1 in
          let stdDevLong := calculateStdDev M numbers longMALookback in
          let epsilon := 0.001 in
          let normalizedSpread :=
            match stdDevLong with
            | Some sd =>
                if Num.gtb sd epsilon then (shortMA - longMA) / sd
                else (shortMA - longMA) / epsilon
            | None => (shortMA - longMA) / epsilon
            end in
          let details1 := details0 +:+ ",NormSpread:" +:+ toFixed M normalizedSpread 2 in
          let '(direction, strength) := stackOf shortMA mediumMA longMA normalizedSpread in
          let '(volatility, volDetails) := volatilityOf numbers in
          {| strength := strength; direction := direction; volatility := volatility;
             details := details1 +:+ volDetails;
             macroRegime := "PENDING_REGIME_CLASSIFICATION"; isTransitioning := false |}
      | _, _, _ => unknownContext "MA calculation failed"
      end.

(** The crossover test of [getMarketRegimeAndTrendContext]. *)
Definition transitioning (numbers : list Q) (shortMALookback mediumMALookback : Z) : bool :=
  if (mediumMALookback + 5 <? Z.of_nat (length numbers))%Z then
    let prevShortMA := calculateEMA (sliceFrom 1 numbers) shortMALookback in
    let prevMediumMA := calculateEMA (sliceFrom 1 numbers) mediumMALookback in
    let currentShortMA := calculateEMA numbers shortMALookback in
    let currentMediumMA := calculateEMA numbers mediumMALookback in
    if truthyNum prevShortMA && truthyNum prevMediumMA && truthyNum currentShortMA
       && truthyNum currentMediumMA then
      match prevShortMA, prevMediumMA, currentShortMA, currentMediumMA with
      | Some ps, Some pm, Some cs, Some cm =>
          (Num.leb ps pm && Num.gtb cs cm) || (Num.geb ps pm && Num.ltb cs cm)
      | _, _, _, _ => false
      end
    else false
  else false.

(** The regime named by a strength and a volatility. *)
Definition regimeOf (strength volatility : string) : string :=
  let low := String.eqb volatility "LOW" || String.eqb volatility "VERY_LOW" in
  let med := String.eqb volatility "MEDIUM" in
  if String.eqb strength "STRONG" then
    (if low then "TREND_STRONG_LOW_VOL" else if med then "TREND_STRONG_MED_VOL"
     else "TREND_STRONG_HIGH_VOL")
  else if String.eqb strength "MODERATE" then
    (if low then "TREND_MOD_LOW_VOL" else if med then "TREND_MOD_MED_VOL"
     else "TREND_MOD_HIGH_VOL")
  else if String.eqb strength "RANGING" then
    (if low then "RANGE_LOW_VOL" else if med then "RANGE_MED_VOL" else "RANGE_HIGH_VOL")
  else
    (if String.eqb volatility "HIGH" then "WEAK_HIGH_VOL"
     else if med then "WEAK_MED_VOL" else "WEAK_LOW_VOL").

(** The regime name with the transition suffix. *)
Definition macroRegimeOf (strength volatility : string) (isTransitioning : bool) : string :=
  let macroRegime := regimeOf strength volatility in
  if isTransitioning && negb (includes macroRegime "TRANSITION")
  then macroRegime +:+ "_TRANSITION" else macroRegime.

(** [getMarketRegimeAndTrendContext] *)
Definition getMarketRegimeAndTrendContext (history : list HistoryRecord)
    (shortMALookback mediumMALookback longMALookback : Z) : TrendContext :=
  let baseContext :=
    getTrendContext history shortMALookback mediumMALookback longMALookback in
  let numbers := numbersOf history in
  let isTransitioning := transitioning numbers shortMALookback mediumMALookback in
  let macroRegime :=
    macroRegimeOf (strength baseContext) (volatility baseContext) isTransitioning in
  {| strength := strength baseContext; direction := direction baseContext;
     volatility := volatility baseContext;
     details := details baseContext +:+ ",Regime:" +:+ macroRegime;
     macroRegime := macroRegime; isTransitioning := isTransitioning |}.

End WithMath.

End Context.

(** ** The context classifiers on a heap of mutable arrays

    The same two functions, and the statistics they call, written against a
    store of JavaScript arrays and objects: [slice], [map] and [filter]
    allocate a new array, [reverse] rewrites its array in place, and an
    object literal allocates an object whose fields are then assigned.  This
    is the model in which "the history array is not modified" can be stated. *)

Module HeapModel.
Import JS Carry Stats Context.

Inductive cell : Type :=
| NumArr (xs : list Q)               (* an array of numbers *)
| NanArr (xs : list (option Z))      (* an array of integers and NaNs *)
| HistArr (hs : list HistoryRecord)  (* an array of history records *)
| CtxObj (c : TrendContext).         (* a context object *)

(** A reference is an index into the store; allocation appends. *)
Abbreviation heap := (list cell).
Abbreviation ref := nat.

(** A computation reads and writes the store; [None] is a [TypeError]. *)
Definition Comp (A : Type) : Type := heap -> option (A * heap).

Definition ret {A} (a : A) : Comp A := fun h => Some (a, h).
Definition bind {A B} (m : Comp A) (k : A -> Comp B) : Comp B :=
  fun h => match m h with
           | Some (a, h') => k a h'
           | None => None
           end.

Notation "x <- m ;; k" := (bind m (fun x => k))
  (at level 100, m at next level, right associativity).

Definition alloc (c : cell) : Comp ref := fun h => Some (length h, h ++ [c]).

Definition numsAt (r : ref) : Comp (list Q) :=
  fun h => match h !! r with Some (NumArr xs) => Some (xs, h) | _ => None end.
Definition nansAt (r : ref) : Comp (list (option Z)) :=
  fun h => match h !! r with Some (NanArr xs) => Some (xs, h) | _ => None end.
Definition histAt (r : ref) : Comp (list HistoryRecord) :=
  fun h => match h !! r with Some (HistArr hs) => Some (hs, h) | _ => None end.
Definition ctxAt (r : ref) : Comp TrendContext :=
  fun h => match h !! r with Some (CtxObj c) => Some (c, h) | _ => None end.

Definition setNums (r : ref) (xs : list Q) : Comp unit :=
  fun h => match h !! r with
           | Some (NumArr _) => Some (tt, <[r := NumArr xs]> h)
           | _ => None
           end.
Definition setCtx (r : ref) (c : TrendContext) : Comp unit :=
  fun h => match h !! r with
           | Some (CtxObj _) => Some (tt, <[r := CtxObj c]> h)
           | _ => None
           end.

(** [a.slice(start, stop)], [a.slice(start)], [a.slice()]: a new array. *)
Definition arrSlice (a : ref) (start stop : Z) : Comp ref :=
  xs <- numsAt a ;; alloc (NumArr (slice start stop xs)).
Definition arrSliceFrom (a : ref) (start : Z) : Comp ref :=
  xs <- numsAt a ;; alloc (NumArr (sliceFrom start xs)).
Definition arrCopy (a : ref) : Comp ref :=
  xs <- numsAt a ;; alloc (NumArr xs).

(** [a.reverse()]: the same array, reversed in place. *)
Definition arrReverse (a : ref) : Comp ref :=
  xs <- numsAt a ;; _ <- setNums a (rev xs) ;; ret a.

(** [a.length], and [a.reduce((x, y) => x + y, 0)]. *)
Definition arrLength (a : ref) : Comp nat := xs <- numsAt a ;; ret (length xs).
Definition arrSum (a : ref) : Comp Q := xs <- numsAt a ;; ret (sum xs).

(** [history.map(entry => parseInt(entry.actualNumber || entry.actual))],
    then [.filter(n => !isNaN(n))]: two new arrays. *)
Definition histMapParse (history : ref) : Comp ref :=
  hs <- histAt history ;; alloc (NanArr (map numberOf hs)).
Definition nanFilter (a : ref) : Comp ref :=
  xs <- nansAt a ;; alloc (NumArr (omap (fun n => inject_Z <$> n) xs)).
Definition numbersOfH (history : ref) : Comp ref :=
  mapped <- histMapParse history ;; nanFilter mapped.

(** [calculateSMA] *)
Definition calculateSMA (data : ref) (period : Z) : Comp (option Q) :=
  len <- arrLength data ;;
  if (Z.of_nat len <? period)%Z || (period <=? 0)%Z then ret None
  else
    relevantData <- arrSlice data 0 period ;;
    total <- arrSum relevantData ;;
    ret (Some (total / inject_Z period)).

(** [calculateEMA] *)
Definition calculateEMA (data : ref) (period : Z) : Comp (option Q) :=
  len <- arrLength data ;;
  if (Z.of_nat len <? period)%Z || (period <=? 0)%Z then ret None
  else
    let k := 2 / (inject_Z period + 1) in
    copy <- arrCopy data ;;
    chronologicalData <- arrReverse copy ;;
    initialSliceForSma <- arrSlice chronologicalData 0 period ;;
    initLen <- arrLength initialSliceForSma ;;
    if (Z.of_nat initLen <? period)%Z then ret None
    else
      initCopy <- arrCopy initialSliceForSma ;;
      initReversed <- arrReverse initCopy ;;
      sma <- calculateSMA initReversed period ;;
      ema <- match sma with
             | Some e => ret (Some e)
             | None =>
                 if (0 <? initLen)%nat
                 then total <- arrSum initialSliceForSma ;;
                      ret (Some (total / Num.ofNat initLen))
                 else ret None
             end ;;
      match ema with
      | None => ret None
      | Some e =>
          chron <- numsAt chronologicalData ;;
          ret (Some (emaRoll k e (sliceFrom period chron)))
      end.

Section WithMath.
Variable M : MathOps.

(** [calculateStdDev] *)
Definition calculateStdDev (data : ref) (period : Z) : Comp (option Q) :=
  len <- arrLength data ;;
  if (Z.of_nat len <? period)%Z || (period <=? 0)%Z then ret None
  else
    relevantData <- arrSlice data 0 period ;;
    xs <- numsAt relevantData ;;
    if (length xs <? 2)%nat then ret None
    else
      let mean := sum xs / Num.ofNat (length xs) in
      let variance :=
        fold_left (fun acc val => acc + (val - mean) * (val - mean)) xs 0
        / Num.ofNat (length xs) in
      ret (Some (sqrt M variance)).

(** The volatility block of [getTrendContext]. *)
Definition volatilityOfH (numbers : ref) : Comp (string * string) :=
  len <- arrLength numbers ;;
  volSlice <- arrSlice numbers 0 (Z.of_nat (Nat.min len 30)) ;;
  volLen <- arrLength volSlice ;;
  if (15 <=? volLen)%nat then
    sd <- calculateStdDev volSlice (Z.of_nat volLen) ;;
    match sd with
    | Some stdDevVol =>
        ret (if Num.gtb stdDevVol 3.3 then "HIGH"
             else if Num.gtb stdDevVol 2.0 then "MEDIUM"
             else if Num.gtb stdDevVol 0.9 then "LOW" else "VERY_LOW",
             " VolStdDev:" +:+ toFixed M stdDevVol 2)
    | None => ret ("UNKNOWN", "")
    end
  else ret ("UNKNOWN", "").

(** [getTrendContext]: a reference to a new context object. *)
Definition getTrendContext (history : ref)
    (shortMALookback mediumMALookback longMALookback : Z) : Comp ref :=
  hs <- histAt history ;;
  if (Z.of_nat (length hs) <? longMALookback)%Z
  then alloc (CtxObj (unknownContext "Insufficient history"))
  else
    numbers <- numbersOfH history ;;
    len <- arrLength numbers ;;
    if (Z.of_nat len <? longMALookback)%Z
    then alloc (CtxObj (unknownContext "Insufficient numbers"))
    else
      shortMA <- calculateEMA numbers shortMALookback ;;
      mediumMA <- calculateEMA numbers mediumMALookback ;;
      longMA <- calculateEMA numbers longMALookback ;;
      match shortMA, mediumMA, longMA with
      | Some shortMA, Some mediumMA, Some longMA =>
          let details0 :=
            "S:" +:+ toFixed M shortMA 1 +:+ ",M:" +:+ toFixed M mediumMA 1
            +:+ ",L:" +:+ toFixed M longMA 1 in
          stdDevLong <- calculateStdDev numbers longMALookback ;;
          let epsilon := 0.001 in
          let normalizedSpread :=
            match stdDevLong with
            | Some sd =>
                if Num.gtb sd epsilon then (shortMA - longMA) / sd
                else (shortMA - longMA) / epsilon
            | None => (shortMA - longMA) / epsilon
            end in
          let details1 := details0 +:+ ",NormSpread:" +:+ toFixed M normalizedSpread 2 in
          let '(direction, strength) := stackOf shortMA mediumMA longMA normalizedSpread in
          vol <- volatilityOfH numbers ;;
          alloc (CtxObj
                   {| strength := strength; direction := direction; volatility := fst vol;
                      details := details1 +:+ snd vol;
                      macroRegime := "PENDING_REGIME_CLASSIFICATION";
                      isTransitioning := false |})
      | _, _, _ => alloc (CtxObj (unknownContext "MA calculation failed"))
      end.

(** The crossover block of [getMarketRegimeAndTrendContext]. *)
Definition transitioningH (numbers : ref) (shortMALookback mediumMALookback : Z) : Comp bool :=
  len <- arrLength numbers ;;
  if (mediumMALookback + 5 <? Z.of_nat len)%Z then
    tail1 <- arrSliceFrom numbers 1 ;;
    prevShortMA <- calculateEMA tail1 shortMALookback ;;
    tail2 <- arrSliceFrom numbers 1 ;;
    prevMediumMA <- calculateEMA tail2 mediumMALookback ;;
    currentShortMA <- calculateEMA numbers shortMALookback ;;
    currentMediumMA <- calculateEMA numbers mediumMALookback ;;
    ret (if truthyNum prevShortMA && truthyNum prevMediumMA && truthyNum currentShortMA
            && truthyNum currentMediumMA then
           match prevShortMA, prevMediumMA, currentShortMA, currentMediumMA with
           | Some ps, Some pm, Some cs, Some cm =>
               (Num.leb ps pm && Num.gtb cs cm) || (Num.geb ps pm && Num.ltb cs cm)
           | _, _, _, _ => false
           end
         else false)
  else ret false.

(** [getMarketRegimeAndTrendContext]: the object [getTrendContext]
    allocated, with three fields assigned. *)
Definition getMarketRegimeAndTrendContext (history : ref)
    (shortMALookback mediumMALookback longMALookback : Z) : Comp ref :=
  baseContext <- getTrendContext history shortMALookback mediumMALookback longMALookback ;;
  c <- ctxAt baseContext ;;
  numbers <- numbersOfH history ;;
  isTransitioning <- transitioningH numbers shortMALookback mediumMALookback ;;
  let macroRegime := macroRegimeOf (strength c) (volatility c) isTransitioning in
  _ <- setCtx baseContext
         {| strength := strength c; direction := direction c; volatility := volatility c;
            details := details c +:+ ",Regime:" +:+ macroRegime;
            macroRegime := macroRegime; isTransitioning := isTransitioning |} ;;
  ret baseContext.

End WithMath.

End HeapModel.
(** ** Signal and regime performance learning *)

Module Learner.
Import JS Carry.

Definition PERFORMANCE_WINDOW : Q := 30.
Definition SESSION_PERFORMANCE_WINDOW : Q := 15.
Definition MIN_OBSERVATIONS_FOR_ADJUST : Q := 10.
Definition MAX_WEIGHT_FACTOR : Q := 1.95.
Definition MIN_WEIGHT_FACTOR : Q := 0.05.
Definition MAX_ALPHA_FACTOR : Q := 1.6.
Definition MIN_ALPHA_FACTOR : Q := 0.4.
Definition MIN_ABSOLUTE_WEIGHT : Q := 0.0003.
Definition INACTIVITY_PERIOD_FOR_DECAY : Q := PERFORMANCE_WINDOW * 3.
Definition DECAY_RATE : Q := 0.025.
Definition ALPHA_UPDATE_RATE : Q := 0.04.
Definition PROBATION_THRESHOLD_ACCURACY : Q := 0.40.
Definition PROBATION_MIN_OBSERVATIONS : Q := 15.
Definition PROBATION_WEIGHT_CAP : Q := 0.10.

(** One bucket of [performanceByVolatility]. *)
Record VolPerf : Type := mkVolPerf { vcorrect : nat; vtotal : nat }.

(** One entry of the [signalPerformance] table.  [recentAccuracy] holds the
    pushed correctness bits, oldest first ([true] is the number 1). *)
Record SignalPerf : Type := mkSignalPerf {
  correct : nat;
  total : nat;
  recentAccuracy : list bool;
  sessionCorrect : nat;
  sessionTotal : nat;
  lastUpdatePeriod : Period;
  lastActivePeriod : Period;
  currentAdjustmentFactor : Q;
  alphaFactor : Q;
  longTermImportanceScore : Q;
  performanceByVolatility : gmap string VolPerf;
  isOnProbation : bool
}.

(** The record both functions create for a source they have not seen. *)
Definition freshPerf : SignalPerf :=
  {| correct := 0; total := 0; recentAccuracy := [];
     sessionCorrect := 0; sessionTotal := 0;
     lastUpdatePeriod := PNull; lastActivePeriod := PNull;
     currentAdjustmentFactor := 1.0; alphaFactor := 1.0; longTermImportanceScore := 0.5;
     performanceByVolatility := ∅; isOnProbation := false |}.

(** The [signalPerformance] table, keyed by source name. *)
Abbreviation PerfTable := (gmap string SignalPerf).

Definition bit (b : bool) : Q := if b then 1 else 0.

(** [recentAccuracy.reduce((sum, acc) => sum + acc, 0)] *)
Definition sumBits (l : list bool) : Q := fold_left (fun sum acc => sum + bit acc) l 0.

(** [recentCorrectCount / recentAccuracy.length] *)
Definition accuracyOf (l : list bool) : Q := sumBits l / Num.ofNat (length l).

(** [push] followed by a [shift] when the window overflows. *)
Definition pushWindow (window : Q) (l : list bool) (b : bool) : list bool :=
  let l' := l ++ [b] in
  if Num.gtb (Num.ofNat (length l')) window then tail l' else l'.

(** The target factor computed from the recent accuracy. *)
Definition adjustmentFactorOf (accuracy : Q) : Q :=
  let deviation := accuracy - 0.5 in
  let newAdjustmentFactor := 1 + (deviation * 3.5) in
  Qmin (Qmax newAdjustmentFactor MIN_WEIGHT_FACTOR) MAX_WEIGHT_FACTOR.

(** The learning rate of [alphaFactor]. *)
Definition alphaLearningRateOf (accuracy : Q) : Q :=
  if Num.ltb accuracy 0.35 then ALPHA_UPDATE_RATE * 1.75
  else if Num.ltb accuracy 0.45 then ALPHA_UPDATE_RATE * 1.4
  else ALPHA_UPDATE_RATE.

(** The step of [alphaFactor] towards the new adjustment factor. *)
Definition alphaStep (alpha newAdjustmentFactor alphaLearningRate : Q) : Q :=
  if Num.gtb newAdjustmentFactor alpha
  then Qmin MAX_ALPHA_FACTOR (alpha + alphaLearningRate * (newAdjustmentFactor - alpha))
  else Qmax MIN_ALPHA_FACTOR (alpha - alphaLearningRate * (alpha - newAdjustmentFactor)).

(** The probation flag after an adjustment. *)
Definition probationAfter (len : nat) (accuracy : Q) (was : bool) : bool :=
  if Num.geb (Num.ofNat len) PROBATION_MIN_OBSERVATIONS && Num.ltb accuracy PROBATION_THRESHOLD_ACCURACY
  then true
  else if Num.gtb accuracy (PROBATION_THRESHOLD_ACCURACY + 0.15) then false
  else was.

(** [performanceByVolatility[regime]], created empty when missing.  Under a
    regime that is an inherited property name the test of line 1390 finds
    the inherited value: no bucket is created, and the counters of lines
    1397 and 1402 are then set on that value, not in the table. *)
Definition ensureBucket (regime : string) (m : gmap string VolPerf) : gmap string VolPerf :=
  match m !! regime with
  | Some _ => m
  | None => if inherited regime then m else <[regime := mkVolPerf 0 0]> m
  end.

Definition bumpBucket (regime : string) (outcomeCorrect : bool) (m : gmap string VolPerf)
  : gmap string VolPerf :=
  match m !! regime with
  | Some b => <[regime := mkVolPerf (if outcomeCorrect then S (vcorrect b) else vcorrect b)
                                    (S (vtotal b))]> m
  | None => m
  end.

(** The long-term importance delta of one observation. *)
Definition importanceDeltaOf (outcomeCorrect isHighConfidencePrediction isOverallCorrect
                              concentrationModeActive chaos : bool) : Q :=
  let importanceDelta :=
    if outcomeCorrect then (if isHighConfidencePrediction then 0.025 else 0.01)
    else (if isHighConfidencePrediction && negb isOverallCorrect then -0.040 else -0.015) in
  if concentrationModeActive || chaos then importanceDelta * 1.5 else importanceDelta.

(** The body of the [if (lastActivePeriod !== periodFull || total === 0)]
    block, on a record whose volatility bucket exists. *)
Definition observe (perf : SignalPerf) (outcomeCorrect : bool) (periodFull : Period)
    (currentVolatilityRegime : string)
    (isHighConfidencePrediction isOverallCorrect concentrationModeActive chaos : bool)
  : SignalPerf :=
  let total' := S (total perf) in
  let recent' := pushWindow PERFORMANCE_WINDOW (recentAccuracy perf) outcomeCorrect in
  let importance' :=
    Qmin 1.0 (Qmax 0.0 (longTermImportanceScore perf +
      importanceDeltaOf outcomeCorrect isHighConfidencePrediction isOverallCorrect
                        concentrationModeActive chaos)) in
  let adjust :=
    Num.geb (Num.ofNat total') MIN_OBSERVATIONS_FOR_ADJUST &&
    Num.geb (Num.ofNat (length recent')) (PERFORMANCE_WINDOW / 2) in
  let accuracy := accuracyOf recent' in
  let newAdjustmentFactor := adjustmentFactorOf accuracy in
  {| correct := if outcomeCorrect then S (correct perf) else correct perf;
     total := total';
     recentAccuracy := recent';
     sessionCorrect := if outcomeCorrect then S (sessionCorrect perf) else sessionCorrect perf;
     sessionTotal := S (sessionTotal perf);
     lastUpdatePeriod := lastUpdatePeriod perf;
     lastActivePeriod := periodFull;
     currentAdjustmentFactor :=
       if adjust then newAdjustmentFactor else currentAdjustmentFactor perf;
     alphaFactor :=
       if adjust then alphaStep (alphaFactor perf) newAdjustmentFactor (alphaLearningRateOf accuracy)
       else alphaFactor perf;
     longTermImportanceScore := importance';
     performanceByVolatility :=
       bumpBucket currentVolatilityRegime outcomeCorrect (performanceByVolatility perf);
     isOnProbation :=
       if adjust then probationAfter (length recent') accuracy (isOnProbation perf)
       else isOnProbation perf |}.

Definition withBuckets (perf : SignalPerf) (m : gmap string VolPerf) : SignalPerf :=
  {| correct := correct perf; total := total perf; recentAccuracy := recentAccuracy perf;
     sessionCorrect := sessionCorrect perf; sessionTotal := sessionTotal perf;
     lastUpdatePeriod := lastUpdatePeriod perf; lastActivePeriod := lastActivePeriod perf;
     currentAdjustmentFactor := currentAdjustmentFactor perf; alphaFactor := alphaFactor perf;
     longTermImportanceScore := longTermImportanceScore perf;
     performanceByVolatility := m; isOnProbation := isOnProbation perf |}.

Definition withLastUpdate (perf : SignalPerf) (p : Period) : SignalPerf :=
  {| correct := correct perf; total := total perf; recentAccuracy := recentAccuracy perf;
     sessionCorrect := sessionCorrect perf; sessionTotal := sessionTotal perf;
     lastUpdatePeriod := p; lastActivePeriod := lastActivePeriod perf;
     currentAdjustmentFactor := currentAdjustmentFactor perf; alphaFactor := alphaFactor perf;
     longTermImportanceScore := longTermImportanceScore perf;
     performanceByVolatility := performanceByVolatility perf;
     isOnProbation := isOnProbation perf |}.

(** What [updateSignalPerformance] does to the record of one contributing
    signal (the body of its [forEach]). *)
Definition updateRecord (perf : SignalPerf) (prediction : option Outcome) (actualOutcome : Outcome)
    (periodFull : Period) (currentVolatilityRegime : string)
    (isHighConfidencePrediction isOverallCorrect concentrationModeActive chaos : bool)
  : SignalPerf :=
  let perf1 := withBuckets perf (ensureBucket currentVolatilityRegime (performanceByVolatility perf)) in
  let perf2 :=
    if negb (Period_eqb (lastActivePeriod perf1) periodFull) || (total perf1 =? 0)%nat
    then observe perf1 (optOutcome_eqb prediction (Some actualOutcome)) periodFull
                 currentVolatilityRegime isHighConfidencePrediction isOverallCorrect
                 concentrationModeActive chaos
    else perf1 in
  withLastUpdate perf2 periodFull.

(** [lastFinalConfidence > c], where a missing confidence compares false. *)
Definition confAbove (lastFinalConfidence : option Q) (c : Q) : bool :=
  match lastFinalConfidence with
  | Some x => Num.gtb x c
  | None => false
  end.

(** [updateSignalPerformance].  The table is looked up by its own keys: a
    vote whose source is an inherited property name ([JS.inheritedKeys]) is
    outside this definition, the code finds the inherited value for it at
    line 1380 and throws at line 1390 (see [Exported]). *)
Definition updateSignalPerformance (contributingSignals : option (list Vote))
    (actualOutcome : option Outcome) (periodFull : Period) (currentVolatilityRegime : string)
    (lastFinalConfidence : option Q) (concentrationModeActive : bool)
    (marketEntropyState : string) (signalPerformance : PerfTable) : PerfTable :=
  match actualOutcome, contributingSignals with
  | Some actual, Some signals =>
      let isHighConfidencePrediction := confAbove lastFinalConfidence 0.75 in
      let isOverallCorrect :=
        optOutcome_eqb (getBigSmallFromNumber (Str (outcomeStr actual)))
                       (Some (if confAbove lastFinalConfidence 0.5 then BIG else SMALL)) in
      fold_left
        (fun table signal =>
           let source := v_source signal in
           if String.eqb source "" then table
           else
             let perf := default freshPerf (table !! source) in
             <[source := updateRecord perf (v_prediction signal) actual periodFull
                           currentVolatilityRegime isHighConfidencePrediction isOverallCorrect
                           concentrationModeActive (includes marketEntropyState "CHAOS")]> table)
        signals signalPerformance
  | _, _ => signalPerformance
  end.

(** [currentPeriodFull - lastActivePeriod > INACTIVITY_PERIOD_FOR_DECAY],
    both operands coerced to numbers; false when the difference is NaN. *)
Definition inactiveTooLong (currentPeriodFull lastActive : Period) : bool :=
  Num.xgtb (Num.xsub (periodToNumber currentPeriodFull) (periodToNumber lastActive))
           (Num.Fin INACTIVITY_PERIOD_FOR_DECAY).

(** The first half of [getDynamicWeightAdjustment] on an existing record:
    session reset, inactivity decay, and the stamp of the current period. *)
Definition refreshRecord {A} (perf : SignalPerf) (currentPeriodFull : Period)
    (sessionHistory : list A) : SignalPerf :=
  let reset := (length sessionHistory <=? 1)%nat in
  let stale := negb (Period_eqb (lastUpdatePeriod perf) currentPeriodFull) in
  let decay :=
    stale && negb (Period_eqb (lastActivePeriod perf) PNull)
          && inactiveTooLong currentPeriodFull (lastActivePeriod perf) in
  let caf := currentAdjustmentFactor perf in
  {| correct := correct perf; total := total perf; recentAccuracy := recentAccuracy perf;
     sessionCorrect := if reset then 0%nat else sessionCorrect perf;
     sessionTotal := if reset then 0%nat else sessionTotal perf;
     lastUpdatePeriod := if stale then currentPeriodFull else lastUpdatePeriod perf;
     lastActivePeriod := lastActivePeriod perf;
     currentAdjustmentFactor :=
       if decay then
         (if Num.gtb caf 1.0 then Qmax 1.0 (caf - DECAY_RATE)
          else if Num.ltb caf 1.0 then Qmin 1.0 (caf + DECAY_RATE)
          else caf)
       else caf;
     alphaFactor := alphaFactor perf;
     longTermImportanceScore := longTermImportanceScore perf;
     performanceByVolatility := performanceByVolatility perf;
     isOnProbation := if decay then false else isOnProbation perf |}.

Definition volatilitySpecificAdjustmentOf (perf : SignalPerf) (regime : string) : Q :=
  match performanceByVolatility perf !! regime with
  | Some volPerf =>
      if Num.geb (Num.ofNat (vtotal volPerf)) (MIN_OBSERVATIONS_FOR_ADJUST / 2.0) then
        let volAccuracy := Num.ofNat (vcorrect volPerf) / Num.ofNat (vtotal volPerf) in
        let volDeviation := volAccuracy - 0.5 in
        Qmin (Qmax (1 + (volDeviation * 1.30)) 0.55) 1.45
      else 1.0
  | None => 1.0
  end.

Definition sessionAdjustmentFactorOf (perf : SignalPerf) : Q :=
  if Num.geb (Num.ofNat (sessionTotal perf)) 3 then
    let sessionAccuracy := Num.ofNat (sessionCorrect perf) / Num.ofNat (sessionTotal perf) in
    let sessionDeviation := sessionAccuracy - 0.5 in
    Qmin (Qmax (1 + (sessionDeviation * 1.5)) 0.6) 1.4
  else 1.0.

(** The second half: the multiplier read off the refreshed record. *)
Definition finalAdjustmentFactorOf (perf : SignalPerf) (regime : string) : Q :=
  let finalAdjustmentFactor :=
    currentAdjustmentFactor perf * alphaFactor perf * volatilitySpecificAdjustmentOf perf regime
    * sessionAdjustmentFactorOf perf * (0.70 + longTermImportanceScore perf * 0.6) in
  if isOnProbation perf then Qmin finalAdjustmentFactor PROBATION_WEIGHT_CAP
  else finalAdjustmentFactor.

(** [getDynamicWeightAdjustment]: the adjusted weight and the table it
    leaves behind. *)
Definition getDynamicWeightAdjustment {A} (signalSourceName : string) (baseWeight : Q)
    (currentPeriodFull : Period) (currentVolatilityRegime : string) (sessionHistory : list A)
    (signalPerformance : PerfTable) : Q * PerfTable :=
  match signalPerformance !! signalSourceName with
  | None =>
      (Qmax baseWeight MIN_ABSOLUTE_WEIGHT, <[signalSourceName := freshPerf]> signalPerformance)
  | Some perf =>
      let perf' := refreshRecord perf currentPeriodFull sessionHistory in
      let adjustedWeight := baseWeight * finalAdjustmentFactorOf perf' currentVolatilityRegime in
      (Qmax adjustedWeight MIN_ABSOLUTE_WEIGHT, <[signalSourceName := perf']> signalPerformance)
  end.

End Learner.

(** ** Training runs used by the examples *)

Module Scenario.
Import JS Carry Learner.

(** A run of consecutive cycles, one per entry of [hits], with period
    identifiers [period], [period + step], ...: in each cycle the one source
    voted BIG, and the outcome was BIG exactly when the entry is [true]. *)
Fixpoint train (source : string) (hits : list bool) (period step : Z) (table : PerfTable)
  : PerfTable :=
  match hits with
  | [] => table
  | hit :: rest =>
      train source rest (period + step) step
        (updateSignalPerformance (Some [mkVote source (Some BIG) 0.05 false])
           (Some (if hit then BIG else SMALL)) (PNum period) "MEDIUM" (Some 0.6) false
           "STABLE_MODERATE" table)
  end.

(** Five hits followed by nine misses: fourteen observations. *)
Definition fourteen : list bool :=
  [true; true; true; true; true; false; false; false; false; false; false; false; false; false].

(** The table after the fourteen cycles, started empty, with the period
    identifiers 1 .. 14. *)
Definition table14 : PerfTable := train "RSI" fourteen 1 1 ∅.

(** One more miss, in period 15: the window now holds 15 samples, 5 correct. *)
Definition table15 : PerfTable :=
  updateSignalPerformance (Some [mkVote "RSI" (Some BIG) 0.05 false]) (Some SMALL) (PNum 15)
    "MEDIUM" (Some 0.6) false "STABLE_MODERATE" table14.

(** Nine hits after the fifteen cycles of [table15], periods 16 .. 24. *)
Definition table24 : PerfTable :=
  train "RSI" [true; true; true; true; true; true; true; true; true] 16 1 table15.

End Scenario.

(** ** Concept drift detection (DDM) *)

Module Drift.

Inductive DriftState : Type := STABLE | WARNING | DRIFT.

(** [driftDetector].  The object starts without a [p_i] field; the field is
    read only once [n] exceeds 1, after the first call has written it, so
    the model starts it at 0. *)
Record DriftDetector : Type := mkDriftDetector {
  p_min : Num.ext;
  s_min : Num.ext;
  n : nat;
  warning_level : Q;
  drift_level : Q;
  p_i : Q
}.

Definition initial : DriftDetector :=
  {| p_min := Num.PInf; s_min := Num.PInf; n := 0; warning_level := 2.0; drift_level := 3.0;
     p_i := 0 |}.

Section WithMath.
Variable M : MathOps.

(** The running error mean after one more correctness bit. *)
Definition meanAfter (isCorrect : bool) (d : DriftDetector) : Q :=
  let n1 := S (n d) in
  let errorRate : Q := if isCorrect then 0 else 1 in
  let prev := if (1 <? n1)%nat then p_i d else 0 in
  prev + (errorRate - prev) / Num.ofNat n1.

(** Its standard error. *)
Definition stdErrAfter (isCorrect : bool) (d : DriftDetector) : Q :=
  let p := meanAfter isCorrect d in
  sqrt M (p * (1 - p) / Num.ofNat (S (n d))).

(** [detectConceptDrift]: the state it returns and the detector it
    leaves. *)
Definition detectConceptDrift (isCorrect : bool) (d : DriftDetector)
  : DriftState * DriftDetector :=
  let n1 := S (n d) in
  let p := meanAfter isCorrect d in
  let s := stdErrAfter isCorrect d in
  let refresh := Num.xltb (Num.Fin (p + s)) (Num.xadd (p_min d) (s_min d)) in
  let p_min1 := if refresh then Num.Fin p else p_min d in
  let s_min1 := if refresh then Num.Fin s else s_min d in
  if Num.xgtb (Num.Fin (p + s))
              (Num.xadd p_min1 (Num.xmul (Num.Fin (drift_level d)) s_min1))
  then (DRIFT,
        {| p_min := Num.PInf; s_min := Num.PInf; n := 1;
           warning_level := warning_level d; drift_level := drift_level d; p_i := p |})
  else if Num.xgtb (Num.Fin (p + s))
                   (Num.xadd p_min1 (Num.xmul (Num.Fin (warning_level d)) s_min1))
  then (WARNING,
        {| p_min := p_min1; s_min := s_min1; n := n1;
           warning_level := warning_level d; drift_level := drift_level d; p_i := p |})
  else (STABLE,
        {| p_min := p_min1; s_min := s_min1; n := n1;
           warning_level := warning_level d; drift_level := drift_level d; p_i := p |}).

(** The detector after a sequence of correctness bits, oldest first, and
    the states returned on the way. *)
Fixpoint feed (bits : list bool) (d : DriftDetector) : list DriftState * DriftDetector :=
  match bits with
  | [] => ([], d)
  | b :: rest =>
      let '(st, d1) := detectConceptDrift b d in
      let '(sts, d2) := feed rest d1 in
      (st :: sts, d2)
  end.

End WithMath.

End Drift.

(** ** Reflexive correction *)

Module Reflex.
Import JS Carry.

(** The module-level counters. *)
Record ReflexState : Type := mkReflexState {
  consecutiveHighConfLosses : nat;
  reflexiveCorrectionActive : nat   (* a countdown *)
}.

Definition initial : ReflexState :=
  {| consecutiveHighConfLosses := 0; reflexiveCorrectionActive := 0 |}.

(** The statistics describe a previous prediction and its outcome. *)
Definition scored (s : Stats) : bool :=
  match lastFinalConfidence s with Some _ => true | None => false end
  && truthy (lastActualOutcome s).

Definition lastPredWasCorrect (s : Stats) : bool :=
  optOutcome_eqb (getBigSmallFromNumber (lastActualOutcome s)) (lastPredictedOutcome s).

Definition lastPredWasHighConf (s : Stats) : bool := (lastConfidenceLevel s =? 3)%Z.

(** [checkForAnomalousPerformance]; [None] is a missing statistics
    object. *)
Definition checkForAnomalousPerformance (currentSharedStats : option Stats)
    (st : ReflexState) : bool * ReflexState :=
  if (0 <? reflexiveCorrectionActive st)%nat then
    (true, {| consecutiveHighConfLosses := consecutiveHighConfLosses st;
              reflexiveCorrectionActive := pred (reflexiveCorrectionActive st) |})
  else
    let losses :=
      match currentSharedStats with
      | Some s =>
          if scored s then
            (if lastPredWasHighConf s && negb (lastPredWasCorrect s)
             then S (consecutiveHighConfLosses st) else 0%nat)
          else consecutiveHighConfLosses st
      | None => consecutiveHighConfLosses st
      end in
    if (2 <=? losses)%nat then
      (true, {| consecutiveHighConfLosses := 0; reflexiveCorrectionActive := 5 |})
    else
      (false, {| consecutiveHighConfLosses := losses;
                 reflexiveCorrectionActive := reflexiveCorrectionActive st |}).

(** The aggression lines of [ultraAIPredict]:
    [(profile.contextualAggression || 1.0) * primeTimeAggression], cut to a
    quarter under reflexive correction or drift, to 0.6 in concentration
    mode. *)
Definition regimeContextualAggressionOf (contextualAggression primeTimeAggression : Q)
    (isReflexiveCorrection : bool) (driftState : Drift.DriftState)
    (concentrationModeEngaged : bool) : Q :=
  let regimeContextualAggression :=
    (if Num.eqb contextualAggression 0 then 1.0 else contextualAggression)
    * primeTimeAggression in
  if isReflexiveCorrection || match driftState with Drift.DRIFT => true | _ => false end
  then regimeContextualAggression * 0.25
  else if concentrationModeEngaged then regimeContextualAggression * 0.6
  else regimeContextualAggression.

(** A run of cycles, oldest first: what each call returned, and the
    counters at the end. *)
Fixpoint run (cycles : list (option Stats)) (st : ReflexState)
  : list bool * ReflexState :=
  match cycles with
  | [] => ([], st)
  | c :: rest =>
      let '(r, st1) := checkForAnomalousPerformance c st in
      let '(rs, st2) := run rest st1 in
      (r :: rs, st2)
  end.

End Reflex.

Module ReflexScenario.
Import JS Carry.



End ReflexScenario.

Module DriftScenario.
Import Drift.

(** The detector after a first cycle whose prediction was correct. *)
Definition afterOneHit : DriftDetector :=
  snd (detectConceptDrift Approx.math true initial).

(** ... and after a miss in the second cycle, which is declared a drift. *)
Definition afterDrift : DriftDetector :=
  snd (detectConceptDrift Approx.math false afterOneHit).

(** The detector after a miss, two hits and three more misses: all six
    cycles are STABLE, and the minima are those of the third cycle. *)
Definition afterSix : DriftDetector :=
  snd (feed Approx.math [false; true; true; false; false; false] initial).

End DriftScenario.

(** ** A sample history *)

Module HistoryScenario.
Import JS Carry.

(** A confirmed round with the given digit. *)
Definition round (period : string) (digit : string) : HistoryRecord :=
  {| period := Str period; actual := Str digit; actualNumber := Str digit;
     status := Str "Win" |}.

(** Rounds for a list of digits, newest first. *)
Definition rounds (digits : list string) : list HistoryRecord :=
  map (round "20240613300") digits.

(** Twenty-five rounds. *)
Definition sample25 : list HistoryRecord :=
  rounds ["7"; "2"; "3"; "8"; "1"; "6"; "9"; "4"; "0"; "5"; "7"; "3"; "2"; "8"; "6";
          "1"; "9"; "4"; "5"; "0"; "3"; "7"; "2"; "6"; "8"].

End HistoryScenario.

(** ** Signal analyzers *)

Module Analyzers.
Import JS Carry Stats Context.

(** What an analyzer returns: a class vote with a raw weight and a source
    tag.  [None] is [null]. *)
Record RawSignal : Type := mkRawSignal {
  r_prediction : Outcome;
  r_weight : Q;
  r_source : string
}.

(** [history.map(p => getBigSmallFromNumber(p.actual))] *)
Definition outcomesOf (history : list HistoryRecord) : list (option Outcome) :=
  map (fun p => getBigSmallFromNumber (actual p)) history.

(** ... followed by [.filter(bs => bs)]. *)
Definition validOutcomesOf (history : list HistoryRecord) : list Outcome :=
  omap (fun p => getBigSmallFromNumber (actual p)) history.

(** [xs[i] === o] *)
Definition isAt (xs : list Outcome) (i : nat) (o : Outcome) : bool :=
  match xs !! i with
  | Some x => Outcome_eqb x o
  | None => false
  end.

(** [xs[i] === ys[j]], where a missing element is [undefined]. *)
Definition sameAt {A} (eqb : A -> A -> bool) (xs : list A) (i j : nat) : bool :=
  match xs !! i, xs !! j with
  | Some x, Some y => eqb x y
  | None, None => true
  | _, _ => false
  end.

(** The number of adjacent pairs [history[i], history[i + 1]] in which the
    older round was [prev] and the newer one [cur]. *)
Fixpoint countTransitions (prev cur : Outcome) (outcomes : list (option Outcome)) : nat :=
  match outcomes with
  | c :: ((p :: _) as rest) =>
      (if optOutcome_eqb c (Some cur) && optOutcome_eqb p (Some prev) then 1 else 0)%nat
      + countTransitions prev cur rest
  | _ => 0%nat
  end.

(** [analyzeTransitions] *)
Definition analyzeTransitions (history : list HistoryRecord) (baseWeight : Q)
  : option RawSignal :=
  if (length history <? 15)%nat then None
  else
    let outcomes := outcomesOf history in
    match head outcomes with
    | Some (Some lastOutcome) =>
        let toBig := countTransitions lastOutcome BIG outcomes in
        let toSmall := countTransitions lastOutcome SMALL outcomes in
        let total := (toBig + toSmall)%nat in
        if (total <? 6)%nat then None
        else
          let nextBigProb := Num.ofNat toBig / Num.ofNat total in
          let nextSmallProb := Num.ofNat toSmall / Num.ofNat total in
          if Num.gtb nextBigProb (nextSmallProb + 0.30)
          then Some (mkRawSignal BIG (baseWeight * nextBigProb) "Transition")
          else if Num.gtb nextSmallProb (nextBigProb + 0.30)
          then Some (mkRawSignal SMALL (baseWeight * nextSmallProb) "Transition")
          else None
    | _ => None
    end.

(** The length of the leading run of [o]. *)
Fixpoint streakLength (o : Outcome) (actuals : list Outcome) : nat :=
  match actuals with
  | x :: rest => if Outcome_eqb x o then S (streakLength o rest) else 0%nat
  | [] => 0%nat
  end.

(** [analyzeStreaks] *)
Definition analyzeStreaks (history : list HistoryRecord) (baseWeight : Q) : option RawSignal :=
  if (length history <? 3)%nat then None
  else
    let actuals := validOutcomesOf history in
    if (length actuals <? 3)%nat then None
    else
      match actuals with
      | currentStreakType :: _ =>
          let currentStreakLength := streakLength currentStreakType actuals in
          if (2 <=? currentStreakLength)%nat then
            match getOppositeOutcome (Some currentStreakType) with
            | Some prediction =>
                let weightFactor := Qmin (0.45 + (Num.ofNat currentStreakLength * 0.18)) 0.95 in
                Some (mkRawSignal prediction (baseWeight * weightFactor)
                        ("StreakBreak-" +:+ pretty currentStreakLength))
            | None => None
            end
          else None
      | [] => None
      end.

(** [analyzeAlternatingPatterns] *)
Definition analyzeAlternatingPatterns (history : list HistoryRecord) (baseWeight : Q)
  : option RawSignal :=
  if (length history <? 5)%nat then None
  else
    let actuals := validOutcomesOf (slice 0 5 history) in
    if (length actuals <? 4)%nat then None
    else if isAt actuals 0 SMALL && isAt actuals 1 BIG && isAt actuals 2 SMALL
            && isAt actuals 3 BIG
    then Some (mkRawSignal SMALL (baseWeight * 1.15) "Alt-BSBS->S")
    else if isAt actuals 0 BIG && isAt actuals 1 SMALL && isAt actuals 2 BIG
            && isAt actuals 3 SMALL
    then Some (mkRawSignal BIG (baseWeight * 1.15) "Alt-SBSB->B")
    else None.

(** [outcomes.some(o => o === null)] *)
Definition someNull (outcomes : list (option Outcome)) : bool :=
  existsb (fun o => match o with None => true | Some _ => false end) outcomes.

(** [outcomes.join('')] on class strings. *)
Definition joinOutcomes (sep : string) (outcomes : list Outcome) : string :=
  String.concat sep (map outcomeStr outcomes).

(** [analyzeTwoPlusOnePatterns]: the joined pattern is made of the words
    BIG and SMALL, and is compared with the letters BBS and SSB. *)
Definition analyzeTwoPlusOnePatterns (history : list HistoryRecord) (baseWeight : Q)
  : option RawSignal :=
  if (length history <? 3)%nat then None
  else
    let outcomes := outcomesOf (slice 0 3 history) in
    if someNull outcomes then None
    else
      let pattern := joinOutcomes "" (omap id outcomes) in
      if String.eqb pattern "BBS"
      then Some (mkRawSignal BIG (baseWeight * 0.85) "Pattern-BBS->B")
      else if String.eqb pattern "SSB"
      then Some (mkRawSignal SMALL (baseWeight * 0.85) "Pattern-SSB->S")
      else None.

(** [analyzeDoublePatterns] *)
Definition analyzeDoublePatterns (history : list HistoryRecord) (baseWeight : Q)
  : option RawSignal :=
  if (length history <? 4)%nat then None
  else
    let outcomes := outcomesOf (slice 0 4 history) in
    if someNull outcomes then None
    else
      let os := omap id outcomes in
      if isAt os 0 BIG && isAt os 1 BIG && isAt os 2 SMALL && isAt os 3 SMALL
      then Some (mkRawSignal BIG (baseWeight * 1.1) "Pattern-SSBB->B")
      else if isAt os 0 SMALL && isAt os 1 SMALL && isAt os 2 BIG && isAt os 3 BIG
      then Some (mkRawSignal SMALL (baseWeight * 1.1) "Pattern-BBSS->S")
      else None.

(** [analyzeMirrorPatterns] *)
Definition analyzeMirrorPatterns (history : list HistoryRecord) (baseWeight : Q)
  : option RawSignal :=
  if (length history <? 4)%nat then None
  else
    let outcomes := outcomesOf (slice 0 4 history) in
    if someNull outcomes then None
    else
      let os := omap id outcomes in
      if sameAt Outcome_eqb os 0 3 && sameAt Outcome_eqb os 1 2
         && negb (sameAt Outcome_eqb os 0 1)
      then
        match os !! 0%nat with
        | Some o => Some (mkRawSignal o (baseWeight * 1.2)
                            ("Pattern-Mirror->" +:+ outcomeStr o))
        | None => None
        end
      else None.

(** [analyzeWaveformPatterns]; the wave of +1 and -1 is compared class by
    class. *)
Definition analyzeWaveformPatterns (history : list HistoryRecord) (baseWeight : Q)
  : option RawSignal :=
  let outcomes := validOutcomesOf history in
  if (length outcomes <? 8)%nat then None
  else
    let wave := slice 0 8 outcomes in
    if sameAt Outcome_eqb wave 0 1 && sameAt Outcome_eqb wave 2 3
       && negb (sameAt Outcome_eqb wave 0 2)
    then Some (mkRawSignal (if isAt wave 0 BIG then BIG else SMALL) (baseWeight * 1.2)
                 "Waveform-Constructive")
    else if negb (sameAt Outcome_eqb wave 0 1) && negb (sameAt Outcome_eqb wave 1 2)
            && negb (sameAt Outcome_eqb wave 2 3)
    then Some (mkRawSignal (if isAt wave 0 BIG then SMALL else BIG) baseWeight
                 "Waveform-Destructive")
    else None.

(** [Number(f)] for a comparison with a number: [undefined] is NaN, [null]
    is 0, a string is read by [stringToNumber]. *)
Definition toNumber (f : Field) : Num.ext :=
  match f with
  | Undefined => Num.NaN
  | Null => Num.Fin 0
  | Str s => stringToNumber s
  end.

(** [a <= c], [a >= c], [a > c] for a field against a number. *)
Definition fieldLe (a : Field) (c : Q) : bool := Num.xleb (toNumber a) (Num.Fin c).
Definition fieldGe (a : Field) (c : Q) : bool := Num.xgeb (toNumber a) (Num.Fin c).
Definition fieldGt (a : Field) (c : Q) : bool := Num.xgtb (toNumber a) (Num.Fin c).

(** [analyzeQuantumTunneling] *)
Definition analyzeQuantumTunneling (history : list HistoryRecord) (baseWeight : Q)
  : option RawSignal :=
  let actuals :=
    List.filter (fun n => match n with Null => false | _ => true end) (map actual history) in
  match actuals with
  | lastNum :: prevNum :: _ =>
      if (fieldLe lastNum 1 && fieldGe prevNum 8) || (fieldGe lastNum 8 && fieldLe prevNum 1)
      then Some (mkRawSignal (if fieldGt lastNum 4 then SMALL else BIG) baseWeight
                   "QuantumTunneling")
      else None
  | _ => None
  end.

End Analyzers.

Module Indicators.
Import JS Carry Stats Context Analyzers.

(** [Math.max(...xs)] and [Math.min(...xs)] of a non-empty list. *)
Definition maxOf (xs : list Q) : Q :=
  match xs with x :: rest => fold_left Qmax rest x | [] => 0 end.
Definition minOf (xs : list Q) : Q :=
  match xs with x :: rest => fold_left Qmin rest x | [] => 0 end.

(** [xs[i + 1] - xs[i]] for every [i]. *)
Fixpoint diffs (xs : list Q) : list Q :=
  match xs with
  | a :: ((b :: _) as rest) => (b - a) :: diffs rest
  | _ => []
  end.

(** [calculateRSI] *)
Definition calculateRSI (data : list Q) (period : Z) : option Q :=
  if (period <=? 0)%Z then None
  else
    let chronologicalData := rev data in
    if (Z.of_nat (length chronologicalData) <? period + 1)%Z then None
    else
      let changes := diffs chronologicalData in
      let first := take (Z.to_nat period) changes in
      let later := drop (Z.to_nat period) changes in
      let gains := fold_left (fun g change => if Num.gtb change 0 then g + change else g) first 0 in
      let losses :=
        fold_left (fun l change => if Num.gtb change 0 then l else l + Qabs change) first 0 in
      let p := inject_Z period in
      let '(avgGain, avgLoss) :=
        fold_left
          (fun '(avgGain, avgLoss) change =>
             let currentGain := if Num.gtb change 0 then change else 0 in
             let currentLoss := if Num.ltb change 0 then Qabs change else 0 in
             ((avgGain * (p - 1) + currentGain) / p, (avgLoss * (p - 1) + currentLoss) / p))
          later (gains / p, losses / p) in
      if Num.eqb avgLoss 0 then Some 100
      else
        let rs := avgGain / avgLoss in
        Some (100 - (100 / (1 + rs))).

(** [analyzeRSI] *)
Definition analyzeRSI (history : list HistoryRecord) (rsiPeriod : Z) (baseWeight : Q)
    (volatility : string) : option RawSignal :=
  if (rsiPeriod <=? 0)%Z then None
  else
    let actualNumbers := numbersOf history in
    if (Z.of_nat (length actualNumbers) <? rsiPeriod + 1)%Z then None
    else
      match calculateRSI actualNumbers rsiPeriod with
      | None => None
      | Some rsiValue =>
          let '(overbought, oversold) :=
            if String.eqb volatility "HIGH" then (80, 20)
            else if String.eqb volatility "MEDIUM" then (75, 25)
            else if String.eqb volatility "LOW" then (68, 32)
            else if String.eqb volatility "VERY_LOW" then (65, 35)
            else (70, 30) in
          if Num.ltb rsiValue oversold then
            let signalStrengthFactor := (oversold - rsiValue) / oversold in
            Some (mkRawSignal BIG (baseWeight * (0.60 + Qmin signalStrengthFactor 1.0 * 0.40))
                    "RSI")
          else if Num.gtb rsiValue overbought then
            let signalStrengthFactor := (rsiValue - overbought) / (100 - overbought) in
            Some (mkRawSignal SMALL (baseWeight * (0.60 + Qmin signalStrengthFactor 1.0 * 0.40))
                    "RSI")
          else None
      end.

(** The MACD line over the growing windows [actualNumbers.slice(len - 1 - i)],
    [i = longPeriod - 1 .. len - 1], oldest window first.  Each value is kept
    in lowest terms ([Qred] does not change the number). *)
Definition macdLineValuesOf (actualNumbers : list Q) (shortPeriod longPeriod : Z) : list Q :=
  let len := length actualNumbers in
  omap (fun i =>
          let currentSlice := sliceFrom (Z.of_nat len - 1 - Z.of_nat i) actualNumbers in
          match calculateEMA currentSlice shortPeriod, calculateEMA currentSlice longPeriod with
          | Some shortE, Some longE => Some (Qred (shortE - longE))
          | _, _ => None
          end)
       (seq (Z.to_nat (longPeriod - 1)) (len - Z.to_nat (longPeriod - 1))).

(** [analyzeMACD]; the two signal lines are kept in lowest terms. *)
Definition analyzeMACD (history : list HistoryRecord) (shortPeriod longPeriod signalPeriod : Z)
    (baseWeight : Q) : option RawSignal :=
  if (shortPeriod <=? 0)%Z || (longPeriod <=? 0)%Z || (signalPeriod <=? 0)%Z
     || (longPeriod <=? shortPeriod)%Z then None
  else
    let actualNumbers := numbersOf history in
    if (Z.of_nat (length actualNumbers) <? longPeriod + signalPeriod - 1)%Z then None
    else
      match calculateEMA actualNumbers shortPeriod, calculateEMA actualNumbers longPeriod with
      | Some emaShort, Some emaLong =>
          let macdLineCurrent := Qred (emaShort - emaLong) in
          let macdLineValues := macdLineValuesOf actualNumbers shortPeriod longPeriod in
          if (Z.of_nat (length macdLineValues) <? signalPeriod)%Z then None
          else
            match Qred <$> calculateEMA (rev macdLineValues) signalPeriod with
            | None => None
            | Some signalLine =>
                let macdHistogram := macdLineCurrent - signalLine in
                let crossover : option Outcome :=
                  if (signalPeriod + 1 <=? Z.of_nat (length macdLineValues))%Z then
                    let prevMacdSliceForSignal := slice 0 (-1) macdLineValues in
                    match Qred <$> calculateEMA (rev prevMacdSliceForSignal) signalPeriod,
                          macdLineValues !! (length macdLineValues - 2)%nat with
                    | Some prevSignalLine, Some prevMacdLine =>
                        if Num.leb prevMacdLine prevSignalLine
                           && Num.gtb macdLineCurrent signalLine then Some BIG
                        else if Num.geb prevMacdLine prevSignalLine
                                && Num.ltb macdLineCurrent signalLine then Some SMALL
                        else None
                    | _, _ => None
                    end
                  else None in
                let prediction :=
                  match crossover with
                  | Some o => Some o
                  | None =>
                      if Num.gtb macdHistogram 0.25 then Some BIG
                      else if Num.ltb macdHistogram (-0.25) then Some SMALL
                      else None
                  end in
                match prediction with
                | Some o =>
                    let strengthFactor := Qmin (Qabs macdHistogram / 0.6) 1.0 in
                    Some (mkRawSignal o (baseWeight * (0.55 + strengthFactor * 0.45))
                            ("MACD_" +:+ match o with BIG => "CrossB" | SMALL => "CrossS" end))
                | None => None
                end
            end
      | _, _ => None
      end.

Section WithMath.
Variable M : MathOps.

(** [analyzeBollingerBands] *)
Definition analyzeBollingerBands (history : list HistoryRecord) (period : Z)
    (stdDevMultiplier baseWeight : Q) : option RawSignal :=
  if (period <=? 0)%Z then None
  else
    let actualNumbers := numbersOf history in
    if (Z.of_nat (length actualNumbers) <? period)%Z then None
    else
      match calculateSMA (slice 0 period actualNumbers) period,
            calculateStdDev M actualNumbers period, actualNumbers with
      | Some sma, Some stdDev, lastNumber :: _ =>
          if Num.ltb stdDev 0.05 then None
          else
            let upperBand := sma + (stdDev * stdDevMultiplier) in
            let lowerBand := sma - (stdDev * stdDevMultiplier) in
            let prediction :=
              if Num.gtb lastNumber (upperBand * 1.01) then Some SMALL
              else if Num.ltb lastNumber (lowerBand * 0.99) then Some BIG
              else None in
            match prediction with
            | Some o =>
                let bandBreachStrength :=
                  Qabs (lastNumber - sma) / (stdDev * stdDevMultiplier + 0.001) in
                Some (mkRawSignal o (baseWeight * (0.65 + Qmin bandBreachStrength 0.9 * 0.35))
                        "Bollinger")
            | None => None
            end
      | _, _, _ => None
      end.

(** [analyzeZScoreAnomaly] *)
Definition analyzeZScoreAnomaly (history : list HistoryRecord) (period : Z)
    (threshold baseWeight : Q) : option RawSignal :=
  let numbers := numbersOf history in
  if (Z.of_nat (length numbers) <? period)%Z then None
  else
    let window := slice 0 period numbers in
    match calculateSMA window period, calculateStdDev M window period, numbers with
    | Some mean, Some stdDev, lastNumber :: _ =>
        if Num.ltb stdDev 0.1 then None
        else
          let zScore := (lastNumber - mean) / stdDev in
          let prediction :=
            if Num.gtb zScore threshold then Some SMALL
            else if Num.ltb zScore (- threshold) then Some BIG
            else None in
          match prediction with
          | Some o =>
              let strengthFactor := Qmin 1.0 ((Qabs zScore - threshold) / threshold) in
              Some (mkRawSignal o (baseWeight * (0.5 + strengthFactor * 0.5)) "ZScoreAnomaly")
          | None => None
          end
    | _, _, _ => None
    end.

End WithMath.

(** [analyzeStateSpaceMomentum]; the velocity is kept in lowest terms
    ([Qred] does not change the number). *)
Definition analyzeStateSpaceMomentum (history : list HistoryRecord) (period : Z)
    (baseWeight : Q) : option RawSignal :=
  let numbers := numbersOf history in
  if (Z.of_nat (length numbers) <? period * 2)%Z then None
  else
    let chronologicalNumbers := rev numbers in
    let gain := 0.6 in
    let velocities := diffs chronologicalNumbers in
    let velocity :=
      fold_left (fun velocity measurement =>
                   let prediction := velocity in
                   let error := measurement - prediction in
                   Qred (prediction + gain * error))
                velocities 0 in
    let avgVelocity := sum velocities / Num.ofNat (length velocities) in
    let prediction :=
      if Num.gtb velocity (avgVelocity * 1.8) && Num.gtb velocity 0.5 then Some BIG
      else if Num.ltb velocity (avgVelocity * 1.8) && Num.ltb velocity (-0.5) then Some SMALL
      else None in
    match prediction with
    | Some o =>
        let strengthFactor := Qmin 1 (Qabs (velocity - avgVelocity) / (Qabs avgVelocity + 1)) in
        Some (mkRawSignal o (baseWeight * strengthFactor) "StateSpaceMomentum")
    | None => None
    end.

(** The midpoint [(high + low) / 2] of the [period] numbers ending at
    index [i], as the Ichimoku loops fill their arrays: [None] is the
    [null] of a short window, and what an index outside the array reads. *)
Definition midAt (period : Z) (numbers : list Q) (i : Z) : option Q :=
  if (i <? 0)%Z || (Z.of_nat (length numbers) <=? i)%Z then None
  else if (i <? period - 1)%Z then None
  else
    match slice (i - period + 1) (i + 1) numbers with
    | [] => None
    | dataSlice => Some ((maxOf dataSlice + minOf dataSlice) / 2)
    end.

(** [numbers[i]] *)
Definition numAt (numbers : list Q) (i : Z) : option Q :=
  if (i <? 0)%Z then None else numbers !! Z.to_nat i.

(** The three readings of the cloud, strongest agreement first. *)
Definition ichimokuVerdict (tkCrossSignal priceVsCloudSignal chikouSignal : option Outcome)
  : option (Outcome * Q) :=
  match tkCrossSignal, priceVsCloudSignal with
  | Some tk, _ =>
      if optOutcome_eqb tkCrossSignal priceVsCloudSignal
         && optOutcome_eqb tkCrossSignal chikouSignal then Some (tk, 0.95)
      else
        match priceVsCloudSignal with
        | Some pvc =>
            if optOutcome_eqb priceVsCloudSignal tkCrossSignal
               && optOutcome_eqb chikouSignal priceVsCloudSignal then Some (pvc, 0.85)
            else if optOutcome_eqb priceVsCloudSignal tkCrossSignal then Some (pvc, 0.7)
            else if optOutcome_eqb priceVsCloudSignal chikouSignal then Some (pvc, 0.65)
            else Some (tk, 0.55)
        | None => None
        end
  | None, Some pvc =>
      if optOutcome_eqb priceVsCloudSignal chikouSignal then Some (pvc, 0.65)
      else Some (pvc, 0.5)
  | None, None => None
  end.

(** [analyzeIchimokuCloud] *)
Definition analyzeIchimokuCloud (history : list HistoryRecord)
    (tenkanPeriod kijunPeriod senkouBPeriod : Z) (baseWeight : Q) : option RawSignal :=
  if (tenkanPeriod <=? 0)%Z || (kijunPeriod <=? 0)%Z || (senkouBPeriod <=? 0)%Z then None
  else
    let chronologicalHistory := rev history in
    let numbers := numbersOf chronologicalHistory in
    let len := Z.of_nat (length numbers) in
    if (len <? Z.max senkouBPeriod kijunPeriod + kijunPeriod - 1)%Z then None
    else
      let tenkanSenValues := midAt tenkanPeriod numbers in
      let kijunSenValues := midAt kijunPeriod numbers in
      let senkouSpanAValues i :=
        match tenkanSenValues i, kijunSenValues i with
        | Some t, Some k => Some ((t + k) / 2)
        | _, _ => None
        end in
      let senkouSpanBValues := midAt senkouBPeriod numbers in
      let prevTenkan := tenkanSenValues (len - 2)%Z in
      let prevKijun := kijunSenValues (len - 2)%Z in
      let ahead := (kijunPeriod <? len)%Z in
      match numAt numbers (len - 1), tenkanSenValues (len - 1)%Z, kijunSenValues (len - 1)%Z,
            (if ahead then senkouSpanAValues (len - 1 - kijunPeriod)%Z else None),
            (if ahead then senkouSpanBValues (len - 1 - kijunPeriod)%Z else None),
            (if ahead then numAt numbers (len - 1 - kijunPeriod) else None) with
      | Some lastPrice, Some currentTenkan, Some currentKijun, Some currentSenkouA,
        Some currentSenkouB, Some priceKijunPeriodsAgo =>
          let chikouSpan := lastPrice in
          let tkCrossSignal :=
            match prevTenkan, prevKijun with
            | Some pt, Some pk =>
                if Num.leb pt pk && Num.gtb currentTenkan currentKijun then Some BIG
                else if Num.geb pt pk && Num.ltb currentTenkan currentKijun then Some SMALL
                else None
            | _, _ => None
            end in
          let cloudTop := Qmax currentSenkouA currentSenkouB in
          let cloudBottom := Qmin currentSenkouA currentSenkouB in
          let priceVsCloudSignal :=
            if Num.gtb lastPrice cloudTop then Some BIG
            else if Num.ltb lastPrice cloudBottom then Some SMALL else None in
          let chikouSignal :=
            if Num.gtb chikouSpan priceKijunPeriodsAgo then Some BIG
            else if Num.ltb chikouSpan priceKijunPeriodsAgo then Some SMALL else None in
          match ichimokuVerdict tkCrossSignal priceVsCloudSignal chikouSignal with
          | Some (prediction, strengthFactor) =>
              let bounce :=
                match prevKijun, numAt numbers (len - 2) with
                | Some pk, Some before =>
                    match prediction with
                    | BIG => Num.gtb lastPrice currentKijun && Num.leb before pk
                             && optOutcome_eqb priceVsCloudSignal (Some BIG)
                    | SMALL => Num.ltb lastPrice currentKijun && Num.geb before pk
                               && optOutcome_eqb priceVsCloudSignal (Some SMALL)
                    end
                | _, _ => false
                end in
              let strengthFactor :=
                if bounce then Qmin 1.0 (strengthFactor + 0.15) else strengthFactor in
              Some (mkRawSignal prediction (baseWeight * strengthFactor) "Ichimoku")
          | None => None
          end
      | _, _, _, _, _, _ => None
      end.

(** The [kValues] loop of [analyzeStochastic]: one value for each window of
    [kPeriod] numbers, oldest first; a flat window repeats the value before
    it, or 50. *)
Definition kValuesOf (chronologicalNumbers : list Q) (kPeriod : Z) : list Q :=
  fold_left
    (fun kValues i =>
       let currentSlice :=
         slice (Z.of_nat i - kPeriod + 1) (Z.of_nat i + 1) chronologicalNumbers in
       let currentClose := default 0 (last currentSlice) in
       let lowestLow := minOf currentSlice in
       let highestHigh := maxOf currentSlice in
       kValues ++
         [if Num.eqb highestHigh lowestLow then default 50 (last kValues)
          else 100 * (currentClose - lowestLow) / (highestHigh - lowestLow)])
    (seq (Z.to_nat (kPeriod - 1)) (length chronologicalNumbers - Z.to_nat (kPeriod - 1)))
    [].

(** The smoothing loops: the mean of every window of [period] values. *)
Definition smoothed (values : list Q) (period : Z) : list (option Q) :=
  map (fun i => calculateSMA (rev (slice (Z.of_nat i) (Z.of_nat i + period) values)) period)
      (seq 0 (Z.to_nat (Z.of_nat (length values) - period + 1))).

(** [Math.min(a, b, c)] and [Math.max(a, b, c)] *)
Definition min3 (a b c : Q) : Q := Qmin (Qmin a b) c.
Definition max3 (a b c : Q) : Q := Qmax (Qmax a b) c.

(** [analyzeStochastic].  [prevD] is read at the same index as
    [currentD]. *)
Definition analyzeStochastic (history : list HistoryRecord) (kPeriod dPeriod smoothK : Z)
    (baseWeight : Q) (volatility : string) : option RawSignal :=
  if (kPeriod <=? 0)%Z || (dPeriod <=? 0)%Z || (smoothK <=? 0)%Z then None
  else
    let actualNumbers := numbersOf history in
    if (Z.of_nat (length actualNumbers) <? kPeriod + smoothK - 1 + dPeriod - 1)%Z then None
    else
      let chronologicalNumbers := rev actualNumbers in
      let kValues := kValuesOf chronologicalNumbers kPeriod in
      if (Z.of_nat (length kValues) <? smoothK)%Z then None
      else
        let smoothedKValues := omap id (smoothed kValues smoothK) in
        if (Z.of_nat (length smoothedKValues) <? dPeriod)%Z then None
        else
          let dValues := omap id (smoothed smoothedKValues dPeriod) in
          if (length smoothedKValues <? 2)%nat || (length dValues <? 2)%nat then None
          else
            match last smoothedKValues, smoothedKValues !! (length smoothedKValues - 2)%nat,
                  last dValues with
            | Some currentK, Some prevK, Some currentD =>
                let prevD := currentD in
                let '(overbought, oversold) :=
                  if String.eqb volatility "HIGH" then (88, 12)
                  else if String.eqb volatility "MEDIUM" then (82, 18)
                  else if String.eqb volatility "LOW" then (75, 25)
                  else if String.eqb volatility "VERY_LOW" then (70, 30)
                  else (80, 20) in
                let half := (overbought - oversold) / 2 in
                let cross : option (Outcome * Q) :=
                  if Num.leb prevK prevD && Num.gtb currentK currentD
                     && Num.ltb currentK (overbought - 5)
                  then Some (BIG,
                             Qmax 0.35 ((oversold + 5 - min3 currentK currentD (oversold + 5))
                                        / (oversold + 5)))
                  else if Num.geb prevK prevD && Num.ltb currentK currentD
                          && Num.gtb currentK (oversold + 5)
                  then Some (SMALL,
                             Qmax 0.35 ((max3 currentK currentD (overbought - 5)
                                         - (overbought - 5)) / (100 - (overbought - 5))))
                  else None in
                let verdict :=
                  match cross with
                  | Some v => Some v
                  | None =>
                      if Num.ltb prevK oversold && Num.geb currentK oversold
                         && Num.ltb currentK (oversold + half)
                      then Some (BIG, Qmax 0.25 ((currentK - oversold) / half))
                      else if Num.gtb prevK overbought && Num.leb currentK overbought
                              && Num.gtb currentK (oversold + half)
                      then Some (SMALL, Qmax 0.25 ((overbought - currentK) / half))
                      else None
                  end in
                match verdict with
                | Some (prediction, strengthFactor) =>
                    Some (mkRawSignal prediction
                            (baseWeight * (0.5 + Qmin strengthFactor 1.0 * 0.5)) "Stochastic")
                | None => None
                end
            | _, _, _ => None
            end.

End Indicators.

(** ** Trend stability, market entropy and the probabilistic regime *)

Module Market.
Import JS Carry Stats Context Analyzers.

(** The result of [analyzeTrendStability]. *)
Record Stability : Type := mkStability {
  isStable : bool;
  reason : string;
  stabilityDetails : string;
  dominance : string
}.

(** The result of [analyzeMarketEntropyState]. *)
Record EntropyState : Type := mkEntropyState {
  state : string;
  entropyDetails : string
}.

(** The [probabilities] object of [analyzeAdvancedMarketRegime]. *)
Record Probabilities : Type := mkProbabilities {
  bullTrend : Q;
  bearTrend : Q;
  volatileRange : Q;
  quietRange : Q
}.

Record AdvancedRegime : Type := mkAdvancedRegime {
  probabilities : Probabilities;
  regimeDetails : string
}.

(** The number of [i] with [xs[i] !== xs[i + 1]]. *)
Fixpoint alternationsOf (xs : list Outcome) : nat :=
  match xs with
  | a :: ((b :: _) as rest) =>
      ((if Outcome_eqb a b then 0 else 1) + alternationsOf rest)%nat
  | _ => 0%nat
  end.

(** The filter of [analyzeTrendStability]: a settled round with an
    outcome. *)
Definition settledRound (p : HistoryRecord) : bool :=
  match status p with
  | Str s => String.eqb s "Win" || String.eqb s "Loss"
  | _ => false
  end
  && match actual p with Undefined | Null => false | Str _ => true end.

Section WithMath.
Variable M : MathOps.

(** [x?.toFixed(d)] inside a template string. *)
Definition optFixed (x : option Q) (d : nat) : string :=
  match x with
  | Some v => toFixed M v d
  | None => "undefined"
  end.

(** [analyzeTrendStability] *)
Definition analyzeTrendStability (history : list HistoryRecord) : Stability :=
  if (length history <? 25)%nat then
    mkStability true "Not enough data for stability check." "" "NONE"
  else
    let confirmedHistory := List.filter settledRound history in
    if (length confirmedHistory <? 20)%nat then
      mkStability true "Not enough confirmed results."
        ("Confirmed: " +:+ pretty (length confirmedHistory)) "NONE"
    else
      let recentResults := validOutcomesOf (slice 0 20 confirmedHistory) in
      if (length recentResults <? 18)%nat then
        mkStability true "Not enough valid B/S for stability."
          ("Valid B/S: " +:+ pretty (length recentResults)) "NONE"
      else
        let len := length recentResults in
        let bigCount := length (List.filter (fun r => Outcome_eqb r BIG) recentResults) in
        let smallCount := length (List.filter (fun r => Outcome_eqb r SMALL) recentResults) in
        let counts :=
          "BIG:" +:+ pretty bigCount +:+ ", SMALL:" +:+ pretty smallCount +:+ " in last "
          +:+ pretty len in
        if Num.geb (Num.ofNat bigCount / Num.ofNat len) 0.80 then
          mkStability false "Unstable: Extreme Outcome Dominance" counts "BIG_DOMINANCE"
        else if Num.geb (Num.ofNat smallCount / Num.ofNat len) 0.80 then
          mkStability false "Unstable: Extreme Outcome Dominance" counts "SMALL_DOMINANCE"
        else
          let outcomeDominance := "NONE" in
          let entropy :=
            calculateEntropyForSignal M (map Some recentResults) (Z.of_nat len) in
          let lowEntropy :=
            match entropy with Some e => Num.ltb e 0.45 | None => false end in
          if lowEntropy then
            mkStability false "Unstable: Very Low Entropy (Highly Predictable/Stuck)"
              ("Entropy: " +:+ optFixed entropy 2) outcomeDominance
          else
            let actualNumbersRecent := numbersOf (slice 0 15 confirmedHistory) in
            let stdDevNum :=
              if (10 <=? length actualNumbersRecent)%nat
              then calculateStdDev M actualNumbersRecent
                     (Z.of_nat (length actualNumbersRecent))
              else None in
            let highVol :=
              match stdDevNum with Some s => Num.gtb s 3.3 | None => false end in
            if highVol then
              mkStability false "Unstable: High Numerical Volatility"
                ("StdDev: " +:+ optFixed stdDevNum 2) outcomeDominance
            else
              let alternations := alternationsOf recentResults in
              if Num.gtb (Num.ofNat alternations / Num.ofNat len) 0.75 then
                mkStability false "Unstable: Excessive Choppiness"
                  ("Alternations: " +:+ pretty alternations +:+ "/" +:+ pretty len)
                  outcomeDominance
              else
                mkStability true "Trend appears stable."
                  ("Entropy: " +:+ match entropy with
                                   | Some e => toFixed M e 2
                                   | None => "N/A"
                                   end)
                  outcomeDominance.

(** [analyzeMarketEntropyState] *)
Definition analyzeMarketEntropyState (history : list HistoryRecord)
    (trendContext : TrendContext) (stability : Stability) : EntropyState :=
  let ENTROPY_WINDOW_SHORT := 10%Z in
  let ENTROPY_WINDOW_LONG := 25%Z in
  let VOL_CHANGE_THRESHOLD := 0.3 in
  if (Z.of_nat (length history) <? ENTROPY_WINDOW_LONG)%Z then
    mkEntropyState "UNCERTAIN_ENTROPY" "Insufficient history for entropy state."
  else
    let outcomesShort := outcomesOf (slice 0 ENTROPY_WINDOW_SHORT history) in
    let outcomesLong := outcomesOf (slice 0 ENTROPY_WINDOW_LONG history) in
    let entropyShort := calculateEntropyForSignal M outcomesShort ENTROPY_WINDOW_SHORT in
    let entropyLong := calculateEntropyForSignal M outcomesLong ENTROPY_WINDOW_LONG in
    let numbersShort := numbersOf (slice 0 ENTROPY_WINDOW_SHORT history) in
    let numbersLongPrev :=
      numbersOf (slice ENTROPY_WINDOW_SHORT (ENTROPY_WINDOW_SHORT + ENTROPY_WINDOW_SHORT)
                   history) in
    let enough (numbers : list Q) :=
      Num.geb (Num.ofNat (length numbers)) (inject_Z ENTROPY_WINDOW_SHORT * 0.8) in
    let shortTermVolatility :=
      if enough numbersShort
      then calculateStdDev M numbersShort (Z.of_nat (length numbersShort)) else None in
    let prevShortTermVolatility :=
      if enough numbersLongPrev
      then calculateStdDev M numbersLongPrev (Z.of_nat (length numbersLongPrev))
      else None in
    let details :=
      "E_S:" +:+ optFixed entropyShort 2 +:+ " E_L:" +:+ optFixed entropyLong 2
      +:+ " Vol_S:" +:+ optFixed shortTermVolatility 2
      +:+ " Vol_P:" +:+ optFixed prevShortTermVolatility 2 in
    match entropyShort, entropyLong with
    | Some eS, Some eL =>
        let orderly :=
          Num.ltb eS 0.5 && Num.ltb eL 0.6
          && match shortTermVolatility with Some v => Num.ltb v 1.5 | None => false end in
        let bothVols :=
          if truthyNum shortTermVolatility && truthyNum prevShortTermVolatility
          then match shortTermVolatility, prevShortTermVolatility with
               | Some v, Some pv => Some (v, pv)
               | _, _ => None
               end
          else None in
        let state :=
          if orderly then "ORDERLY"
          else if Num.gtb eS 0.95 && Num.gtb eL 0.9 then
            match bothVols with
            | Some (v, pv) =>
                if Num.gtb v (pv * (1 + VOL_CHANGE_THRESHOLD)) && Num.gtb v 2.5
                then "RISING_CHAOS" else "STABLE_CHAOS"
            | None => "STABLE_CHAOS"
            end
          else
            match bothVols with
            | Some (v, pv) =>
                if Num.gtb v (pv * (1 + VOL_CHANGE_THRESHOLD)) && Num.gtb eS 0.85
                   && Num.gtb v 2.0
                then "RISING_CHAOS"
                else if Num.ltb v (pv * (1 - VOL_CHANGE_THRESHOLD)) && Num.gtb eL 0.85
                        && Num.ltb eS 0.80
                then "SUBSIDING_CHAOS"
                else "STABLE_MODERATE"
            | None => "STABLE_MODERATE"
            end in
        if negb (isStable stability)
           && (String.eqb state "ORDERLY" || String.eqb state "STABLE_MODERATE")
        then mkEntropyState "POTENTIAL_CHAOS_FROM_INSTABILITY"
               (details +:+ " | StabilityOverride: " +:+ reason stability)
        else mkEntropyState state details
    | _, _ => mkEntropyState "UNCERTAIN_ENTROPY" details
    end.

(** [analyzeAdvancedMarketRegime] *)
Definition analyzeAdvancedMarketRegime (trendContext : TrendContext)
    (marketEntropyState : EntropyState) : AdvancedRegime :=
  let strength := strength trendContext in
  let volatility := volatility trendContext in
  let entropy := state marketEntropyState in
  let probabilities :=
    if String.eqb strength "STRONG" && negb (String.eqb volatility "HIGH")
       && String.eqb entropy "ORDERLY" then
      (if includes (direction trendContext) "BIG"
       then mkProbabilities 0.8 0.05 0.1 0.05
       else mkProbabilities 0.05 0.8 0.1 0.05)
    else if String.eqb strength "RANGING" && String.eqb volatility "HIGH"
            && includes entropy "CHAOS" then mkProbabilities 0.1 0.1 0.7 0.1
    else if String.eqb strength "RANGING" && String.eqb volatility "VERY_LOW"
    then mkProbabilities 0.1 0.1 0.1 0.7
    else mkProbabilities 0.25 0.25 0.25 0.25 in
  mkAdvancedRegime probabilities
    ("Prob(B:" +:+ toFixed M (bullTrend probabilities) 2 +:+ ",S:"
     +:+ toFixed M (bearTrend probabilities) 2 +:+ ")").

End WithMath.

End Market.

(** ** Meta signals and the scores of the ensemble *)

Module Ensemble.
Import JS Carry Stats Context Analyzers Indicators Market.

(** A signal in the [signals] array: what the analyzer returned and the
    [adjustedWeight] that [addSignal] attached to it. *)
Record Signal : Type := mkSignal {
  prediction : Outcome;
  weight : Q;
  source : string;
  adjustedWeight : Q
}.

(** A JavaScript value that is a number, [null] or [undefined], and the
    number a comparison coerces it to ([None] is NaN). *)
Inductive JSNum : Type := NUndef | NNull | NVal (q : Q).

Definition ofOpt (x : option Q) : JSNum :=
  match x with Some q => NVal q | None => NNull end.

Definition coerce (x : JSNum) : option Q :=
  match x with NUndef => None | NNull => Some 0 | NVal q => Some q end.

Definition jsGt (x : JSNum) (c : Q) : bool :=
  match coerce x with Some q => Num.gtb q c | None => false end.
Definition jsLt (x : JSNum) (c : Q) : bool :=
  match coerce x with Some q => Num.ltb q c | None => false end.

(** [getCurrentISTHour]'s result. *)
Record TimeOfDay : Type := mkTimeOfDay { raw : Z; time_sin_of : Q; time_cos_of : Q }.

(** The features [analyzeMLModelSignal] reads. *)
Record Features : Type := mkFeatures {
  time_sin : Q;
  time_cos : Q;
  last_5_mean : JSNum;
  last_20_mean : JSNum;
  stddev_10 : JSNum;
  stddev_30 : JSNum;
  rsi_14 : JSNum;
  stoch_k_14 : JSNum;
  macd_hist : JSNum;
  trend_strength : Q;
  volatility_level : Q
}.

(** [analyzeVolatilityTrendFusion]; [coin] is the value of its
    [Math.random()]. *)
Definition analyzeVolatilityTrendFusion (coin : Q) (trendContext : TrendContext)
    (marketEntropyState : EntropyState) (baseWeight : Q) : option RawSignal :=
  let direction := direction trendContext in
  let strength := strength trendContext in
  let volatility := volatility trendContext in
  let entropy := state marketEntropyState in
  let verdict : option (Outcome * Q) :=
    if String.eqb strength "STRONG"
       && (String.eqb volatility "LOW" || String.eqb volatility "MEDIUM")
       && String.eqb entropy "ORDERLY"
    then Some (if includes direction "BIG" then BIG else SMALL, 1.4)
    else if String.eqb strength "STRONG" && String.eqb volatility "HIGH"
            && includes entropy "CHAOS"
    then Some (if includes direction "BIG" then SMALL else BIG, 1.2)
    else if String.eqb strength "RANGING" && String.eqb volatility "LOW"
            && String.eqb entropy "ORDERLY"
    then Some (if Num.gtb coin 0.5 then BIG else SMALL, 0.8)
    else None in
  match verdict with
  | Some (prediction, weightFactor) =>
      Some (mkRawSignal prediction (baseWeight * weightFactor) "Vol-Trend-Fusion")
  | None => None
  end.

(** [analyzeMLModelSignal] *)
Definition analyzeMLModelSignal (features : Features) (baseWeight : Q) : option RawSignal :=
  let magnitude (x : JSNum) : Q :=
    match coerce x with Some q => Qabs q | None => 0 end in
  let rsi := match coerce (rsi_14 features) with Some q => q | None => 0 end in
  let verdict : option (Outcome * Q) :=
    if jsGt (rsi_14 features) 70 && jsLt (macd_hist features) (-0.1)
    then Some (SMALL, magnitude (macd_hist features) + (rsi - 70) / 30)
    else if jsLt (rsi_14 features) 30 && jsGt (macd_hist features) 0.1
    then Some (BIG, magnitude (macd_hist features) + (30 - rsi) / 30)
    else if jsLt (stddev_30 features) 1.0 && Num.gtb (time_sin features) 0
    then Some (BIG, 0.4)
    else None in
  match verdict with
  | Some (prediction, modelConfidence) =>
      Some (mkRawSignal prediction (baseWeight * Qmin 1.0 modelConfidence * 1.5)
              "ML-GradientBoost")
  | None => None
  end.

Section WithMath.
Variable M : MathOps.

(** [createFeatureSetForML].  The objects [analyzeStochastic] and
    [analyzeMACD] return have no [currentK] and no [macdHistogram]
    property, so the two features read from them are [undefined]
    whatever those calls return. *)
Definition createFeatureSetForML (history : list HistoryRecord)
    (trendContext : TrendContext) (time : TimeOfDay) : option Features :=
  let numbers := numbersOf history in
  if (length numbers <? 52)%nat then None
  else
    Some {| time_sin := time_sin_of time;
            time_cos := time_cos_of time;
            last_5_mean := ofOpt (calculateSMA numbers 5);
            last_20_mean := ofOpt (calculateSMA numbers 20);
            stddev_10 := ofOpt (calculateStdDev M numbers 10);
            stddev_30 := ofOpt (calculateStdDev M numbers 30);
            rsi_14 := ofOpt (calculateRSI numbers 14);
            stoch_k_14 :=
              match analyzeStochastic history 14 3 3 1.0 (volatility trendContext) with
              | Some _ | None => NUndef
              end;
            macd_hist :=
              match analyzeMACD history 12 26 9 1.0 with
              | Some _ | None => NUndef
              end;
            trend_strength :=
              if String.eqb (strength trendContext) "STRONG" then 2
              else if String.eqb (strength trendContext) "MODERATE" then 1 else 0;
            volatility_level :=
              if String.eqb (volatility trendContext) "HIGH" then 2
              else if String.eqb (volatility trendContext) "MEDIUM" then 1 else 0 |}.

End WithMath.

(** The evidence classes of [analyzeBayesianInference]. *)
Inductive Evidence : Type := EvTrend | EvMomentum | EvMeanRev.

Definition Evidence_eqb (a b : Evidence) : bool :=
  match a, b with
  | EvTrend, EvTrend | EvMomentum, EvMomentum | EvMeanRev, EvMeanRev => true
  | _, _ => false
  end.

Definition evidenceOf (source : string) : option Evidence :=
  if includes source "MACD" || includes source "Ichimoku" then Some EvTrend
  else if includes source "Stochastic" || includes source "RSI" then Some EvMomentum
  else if includes source "Bollinger" || includes source "MADev" || includes source "ZScore"
  then Some EvMeanRev
  else None.

(** The weight the signals of one class put on one outcome. *)
Definition weightFor {C} (classOf : string -> option C) (eqb : C -> C -> bool)
    (c : C) (o : Outcome) (signals : list Signal) : Q :=
  fold_left
    (fun acc s =>
       match classOf (source s) with
       | Some c' => if eqb c' c && Outcome_eqb (prediction s) o
                    then acc + adjustedWeight s else acc
       | None => acc
       end)
    signals 0.

(** [analyzeBayesianInference] *)
Definition analyzeBayesianInference (signals : list Signal) (baseWeight : Q)
  : option RawSignal :=
  if (length signals <? 5)%nat then None
  else
    let '(posteriorBig, posteriorSmall) :=
      fold_left
        (fun '(posteriorBig, posteriorSmall) cat =>
           let catBig := weightFor evidenceOf Evidence_eqb cat BIG signals in
           let catSmall := weightFor evidenceOf Evidence_eqb cat SMALL signals in
           let total := catBig + catSmall in
           if Num.gtb total 0 then
             let evidenceForBig := catBig / total in
             let evidenceForSmall := catSmall / total in
             let newPosteriorBig := evidenceForBig * posteriorBig in
             let newPosteriorSmall := evidenceForSmall * posteriorSmall in
             let normalization := newPosteriorBig + newPosteriorSmall in
             if Num.gtb normalization 0
             then (newPosteriorBig / normalization, newPosteriorSmall / normalization)
             else (posteriorBig, posteriorSmall)
           else (posteriorBig, posteriorSmall))
        [EvTrend; EvMomentum; EvMeanRev] (0.5, 0.5) in
    if Num.gtb posteriorBig posteriorSmall && Num.gtb posteriorBig 0.65
    then Some (mkRawSignal BIG (baseWeight * (posteriorBig - 0.5) * 2) "Bayesian")
    else if Num.gtb posteriorSmall posteriorBig && Num.gtb posteriorSmall 0.65
    then Some (mkRawSignal SMALL (baseWeight * (posteriorSmall - 0.5) * 2) "Bayesian")
    else None.

(** The categories of [analyzePredictionConsensus], in the order of the
    [categories] object. *)
Inductive Category : Type :=
| CatTrend | CatMomentum | CatMeanRev | CatPattern | CatVolatility | CatProbabilistic | CatMl.

Definition Category_eqb (a b : Category) : bool :=
  match a, b with
  | CatTrend, CatTrend | CatMomentum, CatMomentum | CatMeanRev, CatMeanRev
  | CatPattern, CatPattern | CatVolatility, CatVolatility
  | CatProbabilistic, CatProbabilistic | CatMl, CatMl => true
  | _, _ => false
  end.

Definition categoriesInOrder : list Category :=
  [CatTrend; CatMomentum; CatMeanRev; CatPattern; CatVolatility; CatProbabilistic; CatMl].

(** [getCategory] *)
Definition getCategory (source : string) : option Category :=
  if includes source "MACD" || includes source "Ichimoku" || includes source "StateSpace"
     || includes source "Fusion" then Some CatTrend
  else if includes source "Stochastic" || includes source "RSI" then Some CatMomentum
  else if includes source "Bollinger" || includes source "MADev" || includes source "ZScore"
  then Some CatMeanRev
  else if includes source "Gram" || includes source "Cycle" || includes source "Alt"
          || includes source "Harmonic" || includes source "Pattern" then Some CatPattern
  else if includes source "Vol" || includes source "Fractal"
          || includes source "QuantumTunnel" then Some CatVolatility
  else if includes source "Bayesian" || includes source "MonteCarlo"
          || includes source "Superposition" then Some CatProbabilistic
  else if includes source "ML-" then Some CatMl
  else None.

Record Consensus : Type := mkConsensus {
  consensusScore : Q;
  factor : Q;
  consensusDetails : string
}.

Record Confluence : Type := mkConfluence {
  confluenceScore : Q;
  diversePaths : nat;
  confluenceDetails : string
}.

Record Consistency : Type := mkConsistency {
  consistencyScore : Q;
  consistencyDetails : string
}.

Record Uncertainty : Type := mkUncertainty {
  uncertaintyScore : Q;
  reasons : string
}.

(** The classes of [analyzePathConfluenceStrength]. *)
Inductive Path : Type :=
| PathTrend | PathMomentum | PathMeanRev | PathPattern | PathVolatility | PathProbabilistic
| PathOther.

Definition Path_eqb (a b : Path) : bool :=
  match a, b with
  | PathTrend, PathTrend | PathMomentum, PathMomentum | PathMeanRev, PathMeanRev
  | PathPattern, PathPattern | PathVolatility, PathVolatility
  | PathProbabilistic, PathProbabilistic | PathOther, PathOther => true
  | _, _ => false
  end.

Definition pathOf (source : string) : Path :=
  if includes source "MACD" || includes source "Ichimoku" then PathTrend
  else if includes source "Stochastic" || includes source "RSI" then PathMomentum
  else if includes source "Bollinger" || includes source "ZScore" then PathMeanRev
  else if includes source "Gram" || includes source "Cycle" || includes source "Pattern"
  then PathPattern
  else if includes source "Vol" || includes source "FractalDim" then PathVolatility
  else if includes source "Bayesian" || includes source "Superposition"
          || includes source "ML-" then PathProbabilistic
  else PathOther.

(** The size of the set the paths are added to. *)
Fixpoint distinctPaths (seen : list Path) (paths : list Path) : nat :=
  match paths with
  | [] => length seen
  | p :: rest =>
      if existsb (Path_eqb p) seen then distinctPaths seen rest
      else distinctPaths (p :: seen) rest
  end.

(** [analyzeSignalConsistency] *)
Definition analyzeSignalConsistency (signals : list Signal) (trendContext : TrendContext)
  : Consistency :=
  if (length signals <? 3)%nat
  then mkConsistency 0.70 "Too few signals for consistency check"
  else
    let big := length (List.filter (fun s => Outcome_eqb (prediction s) BIG) signals) in
    let small := length (List.filter (fun s => Outcome_eqb (prediction s) SMALL) signals) in
    let totalPredictions := (big + small)%nat in
    if (totalPredictions =? 0)%nat then mkConsistency 0.5 "No directional signals"
    else
      mkConsistency (Num.ofNat (Nat.max big small) / Num.ofNat totalPredictions)
        ("Overall split B:" +:+ pretty big +:+ "/S:" +:+ pretty small).

(** [signals.reduce((sum, s) => sum + s.adjustedWeight, 0)] *)
Definition totalAdjusted (signals : list Signal) : Q :=
  fold_left (fun sum s => sum + adjustedWeight s) signals 0.

(** [analyzeQuantumSuperpositionState] *)
Definition analyzeQuantumSuperpositionState (signals : list Signal) (consensus : Consensus)
    (baseWeight : Q) : option RawSignal :=
  if (length signals <? 5)%nat then None
  else
    let totalWeight := totalAdjusted signals in
    if Num.ltb totalWeight 0.1 then None
    else
      let bigWeight :=
        totalAdjusted (List.filter (fun s => Outcome_eqb (prediction s) BIG) signals) in
      let smallWeight :=
        totalAdjusted (List.filter (fun s => Outcome_eqb (prediction s) SMALL) signals) in
      let bigCollapseProbability := (bigWeight / totalWeight) * factor consensus in
      let smallCollapseProbability := (smallWeight / totalWeight) * (2.0 - factor consensus) in
      if Num.gtb bigCollapseProbability (smallCollapseProbability * 1.3)
      then Some (mkRawSignal BIG
                   (baseWeight * Qmin 1.0 (bigCollapseProbability - smallCollapseProbability))
                   "QuantumSuperposition")
      else if Num.gtb smallCollapseProbability (bigCollapseProbability * 1.3)
      then Some (mkRawSignal SMALL
                   (baseWeight * Qmin 1.0 (smallCollapseProbability - bigCollapseProbability))
                   "QuantumSuperposition")
      else None.

(** [analyzePathConfluenceStrength] *)
Definition analyzePathConfluenceStrength (signals : list Signal) (finalPrediction : Outcome)
  : Confluence :=
  if (length signals =? 0)%nat then mkConfluence 0 0 "No valid signals or prediction."
  else
    let agreeingSignals :=
      List.filter
        (fun s => Outcome_eqb (prediction s) finalPrediction
                  && Num.gtb (adjustedWeight s) (Learner.MIN_ABSOLUTE_WEIGHT * 10))
        signals in
    if (length agreeingSignals <? 2)%nat
    then mkConfluence 0 (length agreeingSignals) "Insufficient agreeing signals."
    else
      let diversePathCount := distinctPaths [] (map (fun s => pathOf (source s)) agreeingSignals) in
      let confluenceScore :=
        if (4 <=? diversePathCount)%nat then 0.20
        else if (diversePathCount =? 3)%nat then 0.12
        else if (diversePathCount =? 2)%nat then 0.05
        else 0 in
      let veryStrongAgreeingCount :=
        length (List.filter (fun s => Num.gtb (adjustedWeight s) 0.10) agreeingSignals) in
      let confluenceScore :=
        confluenceScore + Qmin (Num.ofNat veryStrongAgreeingCount * 0.02) 0.10 in
      mkConfluence (Qmin confluenceScore 0.30) diversePathCount
        ("Paths:" +:+ pretty diversePathCount +:+ ",Strong:" +:+ pretty veryStrongAgreeingCount).

Section WithMath.
Variable M : MathOps.

(** [analyzePredictionConsensus] *)
Definition analyzePredictionConsensus (signals : list Signal) (trendContext : TrendContext)
  : Consensus :=
  if (length signals <? 4)%nat
  then mkConsensus 0.5 1.0 "Insufficient signals for consensus"
  else
    let big c := weightFor getCategory Category_eqb c BIG signals in
    let small c := weightFor getCategory Category_eqb c SMALL signals in
    let '(bigCats, smallCats, mixedCats) :=
      fold_left
        (fun '(bigCats, smallCats, mixedCats) cat =>
           let totalWeight := big cat + small cat in
           if Num.gtb totalWeight 0 then
             if Num.gtb (big cat) (small cat * 1.2) then (S bigCats, smallCats, mixedCats)
             else if Num.gtb (small cat) (big cat * 1.2)
             then (bigCats, S smallCats, mixedCats)
             else (bigCats, smallCats, S mixedCats)
           else (bigCats, smallCats, mixedCats))
        categoriesInOrder (0%nat, 0%nat, 0%nat) in
    let totalCats := (bigCats + smallCats + mixedCats)%nat in
    let consensusScore :=
      if (0 <? totalCats)%nat then
        let dominantCats := Nat.max bigCats smallCats in
        let nonDominantCats := Nat.min bigCats smallCats in
        (Num.ofNat dominantCats - Num.ofNat nonDominantCats) / Num.ofNat totalCats
      else 0.5 in
    let factor := 1.0 + (consensusScore * 0.4) in
    let conflict :=
      String.eqb (strength trendContext) "STRONG"
      && ((Num.gtb (big CatTrend) (small CatTrend)
           && Num.gtb (small CatMomentum) (big CatMomentum))
          || (Num.gtb (small CatTrend) (big CatTrend)
              && Num.gtb (big CatMomentum) (small CatMomentum))) in
    let factor := if conflict then factor * 0.6 else factor in
    mkConsensus consensusScore (Qmax 0.4 (Qmin 1.6 factor))
      ("Bcat:" +:+ pretty bigCats +:+ ",Scat:" +:+ pretty smallCats +:+ ",Mcat:"
       +:+ pretty mixedCats +:+ ",Score:" +:+ toFixed M consensusScore 2).

(** [calculateUncertaintyScore]: the score and the reasons, each with the
    points it adds. *)
Definition uncertaintyTerms (trendContext : TrendContext) (stability : Stability)
    (marketEntropyState : EntropyState) (signalConsistency : Consistency)
    (pathConfluence : Confluence) (globalAccuracy : Q) (isReflexiveCorrection : bool)
    (driftState : Drift.DriftState) : list (Q * string) :=
  (if isReflexiveCorrection then [(80, "ReflexiveCorrection")] else [])
  ++ match driftState with
     | Drift.DRIFT => [(70, "ConceptDrift")]
     | Drift.WARNING => [(40, "DriftWarning")]
     | Drift.STABLE => []
     end
  ++ (if negb (isStable stability) then
        [(if includes (reason stability) "Dominance"
             || includes (reason stability) "Choppiness" then 50 else 40,
          "Instability:" +:+ reason stability)]
      else [])
  ++ (if includes (state marketEntropyState) "CHAOS" then
        [(if String.eqb (state marketEntropyState) "RISING_CHAOS" then 45 else 35,
          state marketEntropyState)]
      else [])
  ++ (if Num.ltb (consistencyScore signalConsistency) 0.6 then
        [((1 - consistencyScore signalConsistency) * 50,
          "LowConsistency:" +:+ toFixed M (consistencyScore signalConsistency) 2)]
      else [])
  ++ (if (diversePaths pathConfluence <? 3)%nat then
        [((3 - Num.ofNat (diversePaths pathConfluence)) * 15,
          "LowConfluence:" +:+ pretty (diversePaths pathConfluence))]
      else [])
  ++ (if isTransitioning trendContext then [(25, "RegimeTransition")] else [])
  ++ (if String.eqb (volatility trendContext) "HIGH" then [(20, "HighVolatility")] else [])
  ++ (if Num.ltb globalAccuracy 0.48 then
        [((0.48 - globalAccuracy) * 150, "LowGlobalAcc:" +:+ toFixed M globalAccuracy 2)]
      else []).

Definition calculateUncertaintyScore (trendContext : TrendContext) (stability : Stability)
    (marketEntropyState : EntropyState) (signalConsistency : Consistency)
    (pathConfluence : Confluence) (globalAccuracy : Q) (isReflexiveCorrection : bool)
    (driftState : Drift.DriftState) : Uncertainty :=
  let terms :=
    uncertaintyTerms trendContext stability marketEntropyState signalConsistency
      pathConfluence globalAccuracy isReflexiveCorrection driftState in
  mkUncertainty (fold_left (fun score t => score + fst t) terms 0)
    (String.concat ";" (map snd terms)).

End WithMath.

End Ensemble.

(** ** The prediction cycle: state, environment and regime profiles *)

Module Engine.
Import JS Carry Stats Context Analyzers Indicators Market Ensemble.

(** One entry of [REGIME_SIGNAL_PROFILES]. *)
Record RegimeProfile : Type := mkRegimeProfile {
  baseWeightMultiplier : Q;
  activeSignalTypes : list string;
  contextualAggression : Q;
  recentAccuracy : list bool;
  totalPredictions : nat;
  correctPredictions : nat
}.

Definition profile (multiplier : Q) (types : list string) (aggression : Q) : RegimeProfile :=
  mkRegimeProfile multiplier types aggression [] 0 0.

Definition DEFAULT_PROFILE : RegimeProfile := profile 0.9 ["all"] 0.9.

(** [REGIME_SIGNAL_PROFILES] as the module starts with it. *)
Definition REGIME_SIGNAL_PROFILES : gmap string RegimeProfile :=
  list_to_map
    [("TREND_STRONG_LOW_VOL",
      profile 1.30 ["trend"; "momentum"; "ichimoku"; "volBreak"; "leadLag"; "stateSpace";
                    "fusion"; "ml"] 1.35);
     ("TREND_STRONG_MED_VOL",
      profile 1.20 ["trend"; "momentum"; "ichimoku"; "pattern"; "leadLag"; "stateSpace";
                    "fusion"; "ml"] 1.25);
     ("TREND_STRONG_HIGH_VOL",
      profile 0.70 ["trend"; "ichimoku"; "entropy"; "volPersist"; "zScore"; "fusion"] 0.70);
     ("TREND_MOD_LOW_VOL",
      profile 1.25 ["trend"; "momentum"; "ichimoku"; "pattern"; "volBreak"; "leadLag";
                    "stateSpace"; "ml"] 1.25);
     ("TREND_MOD_MED_VOL",
      profile 1.15 ["trend"; "momentum"; "ichimoku"; "pattern"; "rsi"; "leadLag"; "bayesian";
                    "fusion"; "ml"] 1.15);
     ("TREND_MOD_HIGH_VOL",
      profile 0.75 ["trend"; "ichimoku"; "meanRev"; "stochastic"; "volPersist"; "zScore"]
              0.75);
     ("RANGE_LOW_VOL",
      profile 1.30 ["meanRev"; "pattern"; "volBreak"; "stochastic"; "harmonic"; "fractalDim";
                    "zScore"; "bayesian"; "fusion"] 1.30);
     ("RANGE_MED_VOL",
      profile 1.15 ["meanRev"; "pattern"; "stochastic"; "rsi"; "bollinger"; "harmonic";
                    "zScore"] 1.15);
     ("RANGE_HIGH_VOL",
      profile 0.65 ["meanRev"; "entropy"; "bollinger"; "vwapDev"; "volPersist"; "zScore";
                    "fusion"] 0.65);
     ("WEAK_HIGH_VOL",
      profile 0.70 ["meanRev"; "entropy"; "stochastic"; "volPersist"; "fractalDim"; "zScore"]
              0.70);
     ("WEAK_MED_VOL",
      profile 0.75 ["momentum"; "meanRev"; "pattern"; "rsi"; "fractalDim"; "bayesian"] 0.75);
     ("WEAK_LOW_VOL", profile 0.85 ["all"] 0.85);
     ("DEFAULT", DEFAULT_PROFILE)].

Definition REGIME_ACCURACY_WINDOW : Q := 35.
Definition REGIME_LEARNING_RATE_BASE : Q := 0.028.

(** The property name a value indexes an object with. *)
Definition keyOf (f : Field) : string :=
  match f with
  | Str s => s
  | Null => "null"
  | Undefined => "undefined"
  end.

(** [updateRegimeProfilePerformance]; [globalAccuracy] is
    [GLOBAL_LONG_TERM_ACCURACY_FOR_LEARNING_RATE].  The table is looked up by
    its own keys: a regime that is an inherited property name
    ([JS.inheritedKeys]) is outside this definition, the code finds the
    inherited value for it and throws at line 1513 (see [Exported]). *)
Definition updateRegimeProfilePerformance (regime : Field) (actualOutcome : option Outcome)
    (predictedOutcome : option Outcome) (globalAccuracy : Q)
    (profiles : gmap string RegimeProfile) : gmap string RegimeProfile :=
  match profiles !! keyOf regime, predictedOutcome with
  | Some profile, Some _ =>
      let outcomeCorrect := optOutcome_eqb actualOutcome predictedOutcome in
      let pushed := recentAccuracy profile ++ [outcomeCorrect] in
      let window :=
        if Num.gtb (Num.ofNat (length pushed)) REGIME_ACCURACY_WINDOW
        then drop 1 pushed else pushed in
      let '(multiplier, aggression) :=
        if Num.geb (Num.ofNat (length window)) (REGIME_ACCURACY_WINDOW * 0.7) then
          let regimeAcc := Learner.sumBits window / Num.ofNat (length window) in
          let dynamicLearningRateFactor := 1.0 + Qabs (0.5 - globalAccuracy) * 0.7 in
          let dynamicLearningRateFactor := Qmax 0.65 (Qmin 1.5 dynamicLearningRateFactor) in
          let currentLearningRate := REGIME_LEARNING_RATE_BASE * dynamicLearningRateFactor in
          let currentLearningRate := Qmax 0.01 (Qmin 0.07 currentLearningRate) in
          if Num.gtb regimeAcc 0.62 then
            (Qmin 1.9 (baseWeightMultiplier profile + currentLearningRate),
             Qmin 1.8 (contextualAggression profile + currentLearningRate * 0.5))
          else if Num.ltb regimeAcc 0.38 then
            (Qmax 0.20 (baseWeightMultiplier profile - currentLearningRate * 1.3),
             Qmax 0.30 (contextualAggression profile - currentLearningRate * 0.7))
          else (baseWeightMultiplier profile, contextualAggression profile)
        else (baseWeightMultiplier profile, contextualAggression profile) in
      <[keyOf regime :=
          {| baseWeightMultiplier := multiplier;
             activeSignalTypes := activeSignalTypes profile;
             contextualAggression := aggression;
             recentAccuracy := window;
             totalPredictions := S (totalPredictions profile);
             correctPredictions :=
               if outcomeCorrect then S (correctPredictions profile)
               else correctPredictions profile |}]> profiles
  | _, _ => profiles
  end.

(** The module-level variables a prediction cycle reads and writes. *)
Record State : Type := mkState {
  signalPerformance : Learner.PerfTable;
  driftDetector : Drift.DriftDetector;
  regimeProfiles : gmap string RegimeProfile;
  GLOBAL_LONG_TERM_ACCURACY_FOR_LEARNING_RATE : Q;
  reflexState : Reflex.ReflexState
}.

(** The state the module is loaded with. *)
Definition initialState : State :=
  {| signalPerformance := ∅;
     driftDetector := Drift.initial;
     regimeProfiles := REGIME_SIGNAL_PROFILES;
     GLOBAL_LONG_TERM_ACCURACY_FOR_LEARNING_RATE := 0.5;
     reflexState := Reflex.initial |}.

(** What a cycle takes from outside the program: the clock, and the value
    of each [Math.random()] call it can reach, named by the place of the
    call. *)
Record Env : Type := mkEnv {
  istHour : Z;            (* the hour the IST formatter prints, parsed *)
  now : Z;                (* Date.now() *)
  rndWeather : Q;
  rndNews : Q;
  rndMarketVol : Q;
  rndInsufficient : Q;    (* the coin of the short-history return *)
  rndFusion : Q;          (* inside analyzeVolatilityTrendFusion *)
  rndNoSignals : Q;       (* the coin of the no-signal return *)
  rndTie : Q;             (* the coin used when the total score is 0 *)
  rndJitter : Q           (* the jitter of a forced confidence *)
}.

(** Every random value lies in [[0, 1)]. *)
Definition unitDraw (r : Q) : Prop := 0 <= r /\ r < 1.

Definition randomsInRange (env : Env) : Prop :=
  unitDraw (rndWeather env) /\ unitDraw (rndNews env) /\ unitDraw (rndMarketVol env)
  /\ unitDraw (rndInsufficient env) /\ unitDraw (rndFusion env)
  /\ unitDraw (rndNoSignals env) /\ unitDraw (rndTie env) /\ unitDraw (rndJitter env).

(** [Math.PI] *)
Definition PI : Q := 3.141592653589793.

Section WithMath.
Variable M : MathOps.

(** [getCurrentISTHour], on the path where the formatter works. *)
Definition getCurrentISTHour (env : Env) : TimeOfDay :=
  let hour := if (istHour env =? 24)%Z then 0%Z else istHour env in
  {| raw := hour;
     time_sin_of := sin M (inject_Z hour / 24 * 2 * PI);
     time_cos_of := cos M (inject_Z hour / 24 * 2 * PI) |}.

End WithMath.

(** [options[Math.floor(r * options.length)]] *)
Definition pick (options : list string) (r : Q) : string :=
  default "undefined" (options !! Z.to_nat (Qfloor (r * Num.ofNat (length options)))).

(** [getRealTimeExternalData]: the combined factor and the reason. *)
Definition getRealTimeExternalData (env : Env) : Q * string :=
  let randomWeather :=
    pick ["Clear"; "Clouds"; "Haze"; "Smoke"; "Rain"; "Drizzle"] (rndWeather env) in
  let weatherFactor :=
    if String.eqb randomWeather "Clear" || String.eqb randomWeather "Clouds" then 1.01
    else if String.eqb randomWeather "Rain" || String.eqb randomWeather "Drizzle" then 0.99
    else 1.0 in
  let randomNewsSentiment :=
    pick ["Strongly Positive"; "Positive"; "Neutral"; "Negative"; "Strongly Negative"]
         (rndNews env) in
  let newsFactor :=
    if String.eqb randomNewsSentiment "Strongly Positive" then 1.05
    else if String.eqb randomNewsSentiment "Positive" then 1.02
    else if String.eqb randomNewsSentiment "Negative" then 0.98
    else if String.eqb randomNewsSentiment "Strongly Negative" then 0.95
    else 1.0 in
  let randomMarketVol := pick ["Low"; "Normal"; "Elevated"; "High"] (rndMarketVol env) in
  let marketVolFactor :=
    if String.eqb randomMarketVol "Elevated" then 0.97
    else if String.eqb randomMarketVol "High" then 0.94
    else 1.0 in
  (weatherFactor * newsFactor * marketVolFactor,
   "ExtData(Weather:" +:+ randomWeather +:+ ",News:" +:+ randomNewsSentiment +:+ ",MktVol:"
   +:+ randomMarketVol +:+ ")").

(** A prime-time session: its name, aggression and confidence. *)
Record PrimeTime : Type := mkPrimeTime {
  session : string;
  aggression : Q;
  confidence : Q
}.

(** [getPrimeTimeSession] *)
Definition getPrimeTimeSession (istHour : Z) : option PrimeTime :=
  if ((10 <=? istHour) && (istHour <? 12))%Z then Some (mkPrimeTime "PRIME_MORNING" 1.25 1.15)
  else if ((13 <=? istHour) && (istHour <? 14))%Z
  then Some (mkPrimeTime "PRIME_AFTERNOON_1" 1.15 1.10)
  else if ((15 <=? istHour) && (istHour <? 16))%Z
  then Some (mkPrimeTime "PRIME_AFTERNOON_2" 1.15 1.10)
  else if ((17 <=? istHour) && (istHour <? 20))%Z then
    (if (istHour =? 19)%Z then Some (mkPrimeTime "PRIME_EVENING_PEAK" 1.35 1.25)
     else Some (mkPrimeTime "PRIME_EVENING" 1.30 1.20))
  else None.

(** The object [ultraAIPredict] returns.  [contributingSignals], a sorted
    display copy of [lastPredictionSignals], is left out, and so are the
    fields that repeat another one ([lastPredictedOutcome] is
    [finalDecision], [lastFinalConfidence] is [finalConfidence],
    [lastConfidenceLevel] is [confidenceLevel], [lastMacroRegime] is
    [currentMacroRegime], [lastConcentrationModeEngaged] is
    [concentrationModeEngaged], [lastMarketEntropyState] is
    [marketEntropyState]). *)
Record Output : Type := mkOutput {
  bigConfidence : Q;             (* predictions.BIG.confidence *)
  smallConfidence : Q;           (* predictions.SMALL.confidence *)
  predictionLogic : string;      (* predictions.BIG.logic, predictions.SMALL.logic *)
  finalDecision : Outcome;
  finalConfidence : Q;
  confidenceLevel : Z;
  isForcedPrediction : bool;
  overallLogic : string;
  outputSource : string;         (* source *)
  currentMacroRegime : string;
  concentrationModeEngaged : bool;
  marketEntropyState : string;
  predictionQualityScore : Q;
  reflexiveCorrectionActive : bool;
  lastPredictionSignals : list Vote;
  lastVolatilityRegime : string
}.

(** [masterLogic.join(' -> ')] *)
Definition joinLogic (masterLogic : list string) : string := String.concat " -> " masterLogic.

(** The filter that makes [confirmedHistory]. *)
Definition confirmed (p : HistoryRecord) : bool :=
  match actual p with Null => false | _ => true end
  && match actualNumber p with Undefined => false | _ => true end.

(** [currentSharedStats?.periodFull || Date.now()] *)
Definition periodOrNow (stats : option Stats) (env : Env) : Period :=
  match stats with
  | Some s =>
      match periodFull s with
      | PNull => PNum (now env)
      | PNum n => if (n =? 0)%Z then PNum (now env) else PNum n
      | PStr t => if String.eqb t "" then PNum (now env) else PStr t
      end
  | None => PNum (now env)
  end.

(** The signals gathered so far and the performance table they have
    touched. *)
Record Gathered : Type := mkGathered {
  signals : list Signal;
  table : Learner.PerfTable
}.

(** [profile.activeSignalTypes.includes('all') || ....includes(signalType)] *)
Definition isActive (profile : RegimeProfile) (signalType : string) : bool :=
  existsb (String.eqb "all") (activeSignalTypes profile)
  || existsb (String.eqb signalType) (activeSignalTypes profile).

(** The closure [addSignal]: [fn] is the analyzer applied to its
    arguments, given the signals gathered so far.  The weight is kept in
    lowest terms ([Qred] does not change the number). *)
Definition addSignal (profile : RegimeProfile) (regimeContextualAggression : Q)
    (currentPeriodFull : Period) (currentVolatilityRegimeForPerf : string)
    (currentSharedHistory : list HistoryRecord)
    (fn : list Signal -> option RawSignal) (signalType : string) (g : Gathered) : Gathered :=
  if negb (isActive profile signalType) then g
  else
    match fn (signals g) with
    | Some result =>
        let weight := Qred (r_weight result) in
        if Num.eqb weight 0 then g
        else
          let '(adjusted, table1) :=
            Learner.getDynamicWeightAdjustment (r_source result)
              (weight * regimeContextualAggression) currentPeriodFull
              currentVolatilityRegimeForPerf currentSharedHistory (table g) in
          {| signals :=
               signals g ++ [mkSignal (r_prediction result) weight (r_source result) adjusted];
             table := table1 |}
    | None => g
    end.

(** [signals.forEach]: the weight behind each class. *)
Definition scoreOf (o : Outcome) (validSignals : list Signal) : Q :=
  fold_left
    (fun score signal =>
       if Outcome_eqb (prediction signal) o then score + adjustedWeight signal else score)
    validSignals 0.

(** The votes handed to the next cycle. *)
Definition votesOf (validSignals : list Signal) : list Vote :=
  map (fun s => mkVote (source s) (Some (prediction s)) (adjustedWeight s) false) validSignals.

(** The locals of [ultraAIPredict] that are set before the history is
    counted, and the module state at that point. *)
Record Opening : Type := mkOpening {
  c_currentPeriodFull : Period;
  c_time : TimeOfDay;
  c_primeTimeSession : option PrimeTime;
  c_realTimeFactor : Q;                  (* realTimeData.factor *)
  c_masterLogic : list string;
  c_longTermGlobalAccuracy : Q;
  c_isReflexiveCorrection : bool;
  c_trendContext : TrendContext;
  c_stability : Stability;
  c_marketEntropyAnalysis : EntropyState;
  c_advancedRegime : AdvancedRegime;
  c_concentrationModeEngaged : bool;
  c_driftState : Drift.DriftState;
  c_state : State
}.

(** The object of the two forced returns. *)
Definition forcedOutput (c : Opening) (masterLogic : list string) (coin : Q)
    (source : string) : Output :=
  {| bigConfidence := 0.5; smallConfidence := 0.5; predictionLogic := "ForcedRandom";
     finalDecision := if Num.gtb coin 0.5 then BIG else SMALL;
     finalConfidence := 0.5; confidenceLevel := 1; isForcedPrediction := true;
     overallLogic := joinLogic masterLogic; outputSource := source;
     currentMacroRegime := macroRegime (c_trendContext c);
     concentrationModeEngaged := c_concentrationModeEngaged c;
     marketEntropyState := state (c_marketEntropyAnalysis c);
     predictionQualityScore := 0.01;
     reflexiveCorrectionActive := c_isReflexiveCorrection c;
     lastPredictionSignals := [];
     lastVolatilityRegime := volatility (c_trendContext c) |}.

(** [REGIME_SIGNAL_PROFILES[currentMacroRegime] ||
    REGIME_SIGNAL_PROFILES["DEFAULT"]]; the table always holds the key
    DEFAULT, no update removes one. *)
Definition currentRegimeProfileOf (c : Opening) : RegimeProfile :=
  let profiles := regimeProfiles (c_state c) in
  default (default DEFAULT_PROFILE (profiles !! "DEFAULT"))
          (profiles !! macroRegime (c_trendContext c)).

Definition regimeContextualAggression (c : Opening) : Q :=
  Reflex.regimeContextualAggressionOf (contextualAggression (currentRegimeProfileOf c))
    (match c_primeTimeSession c with Some p => aggression p | None => 1.0 end)
    (c_isReflexiveCorrection c) (c_driftState c) (c_concentrationModeEngaged c).

Definition withTable (st : State) (table : Learner.PerfTable) : State :=
  {| signalPerformance := table;
     driftDetector := driftDetector st;
     regimeProfiles := regimeProfiles st;
     GLOBAL_LONG_TERM_ACCURACY_FOR_LEARNING_RATE := GLOBAL_LONG_TERM_ACCURACY_FOR_LEARNING_RATE st;
     reflexState := reflexState st |}.

Section WithMath.
Variable M : MathOps.

(** The calls of the signal generation block, in order. *)
Definition gatherSignals (env : Env) (time : TimeOfDay) (profile : RegimeProfile)
    (regimeContextualAggression : Q) (currentPeriodFull : Period)
    (trendContext : TrendContext) (marketEntropyAnalysis : EntropyState)
    (currentSharedHistory confirmedHistory : list HistoryRecord)
    (table0 : Learner.PerfTable) : Gathered :=
  let add :=
    addSignal profile regimeContextualAggression currentPeriodFull
      (volatility trendContext) currentSharedHistory in
  let volatility := volatility trendContext in
  let g := mkGathered [] table0 in
  let g := add (fun _ => analyzeTransitions confirmedHistory 0.05) "pattern" g in
  let g := add (fun _ => analyzeStreaks confirmedHistory 0.045) "meanRev" g in
  let g := add (fun _ => analyzeAlternatingPatterns confirmedHistory 0.06) "pattern" g in
  let g := add (fun _ => analyzeTwoPlusOnePatterns confirmedHistory 0.07) "pattern" g in
  let g := add (fun _ => analyzeDoublePatterns confirmedHistory 0.075) "pattern" g in
  let g := add (fun _ => analyzeMirrorPatterns confirmedHistory 0.08) "pattern" g in
  let g := add (fun _ => analyzeRSI confirmedHistory 14 0.08 volatility) "momentum" g in
  let g := add (fun _ => analyzeMACD confirmedHistory 12 26 9 0.09) "trend" g in
  let g := add (fun _ => analyzeBollingerBands M confirmedHistory 20 2.1 0.07) "meanRev" g in
  let g := add (fun _ => analyzeIchimokuCloud confirmedHistory 9 26 52 0.14) "trend" g in
  let g :=
    add (fun _ => analyzeStochastic confirmedHistory 14 3 3 0.08 volatility) "momentum" g in
  let g := add (fun _ => analyzeZScoreAnomaly M confirmedHistory 20 2.0 0.12) "meanRev" g in
  let g := add (fun _ => analyzeStateSpaceMomentum confirmedHistory 15 0.11) "trend" g in
  let g := add (fun _ => analyzeWaveformPatterns confirmedHistory 0.035) "pattern" g in
  let g := add (fun _ => analyzeQuantumTunneling confirmedHistory 0.055) "volatility" g in
  let g :=
    add (fun _ => analyzeVolatilityTrendFusion (rndFusion env) trendContext
                    marketEntropyAnalysis 0.25) "fusion" g in
  let g :=
    add (fun _ =>
           match createFeatureSetForML M confirmedHistory trendContext time with
           | Some features => analyzeMLModelSignal features 0.40
           | None => None
           end) "ml" g in
  add (fun signals => analyzeBayesianInference signals 0.15) "probabilistic" g.

(** The first part of [ultraAIPredict], up to the performance update:
    the locals the rest of the function reads, and the module state the
    updates leave. *)
Definition openCycle (env : Env) (currentSharedHistory : list HistoryRecord)
    (currentSharedStats : option Stats) (st : State) : Opening :=
  let currentPeriodFull := periodOrNow currentSharedStats env in
  let time := getCurrentISTHour M env in
  let primeTimeSession := getPrimeTimeSession (raw time) in
  let '(realTimeFactor, realTimeReason) := getRealTimeExternalData env in
  let masterLogic := ["QAScore_v42.0(IST_Hr:" +:+ pretty (raw time) +:+ ")"; realTimeReason] in
  let masterLogic :=
    match primeTimeSession with
    | Some p => masterLogic ++ ["!!! PRIME TIME ACTIVE: " +:+ session p +:+ " !!!"]
    | None => masterLogic
    end in
  let longTermGlobalAccuracy :=
    match currentSharedStats with
    | Some s => default (GLOBAL_LONG_TERM_ACCURACY_FOR_LEARNING_RATE st)
                  (longTermGlobalAccuracy s)
    | None => GLOBAL_LONG_TERM_ACCURACY_FOR_LEARNING_RATE st
    end in
  let '(isReflexiveCorrection, reflex1) :=
    Reflex.checkForAnomalousPerformance currentSharedStats (reflexState st) in
  let masterLogic :=
    if isReflexiveCorrection
    then masterLogic ++ ["!!! REFLEXIVE CORRECTION ACTIVE !!! (Countdown: "
                         +:+ pretty (Reflex.reflexiveCorrectionActive reflex1) +:+ ")"]
    else masterLogic in
  let trendContext := getMarketRegimeAndTrendContext M currentSharedHistory 5 10 20 in
  let masterLogic :=
    masterLogic ++ ["TrendCtx(Dir:" +:+ direction trendContext +:+ ",Str:"
                    +:+ strength trendContext +:+ ",Vol:" +:+ volatility trendContext
                    +:+ ",Regime:" +:+ macroRegime trendContext +:+ ")"] in
  let stability := analyzeTrendStability M currentSharedHistory in
  let marketEntropyAnalysis :=
    analyzeMarketEntropyState M currentSharedHistory trendContext stability in
  let masterLogic := masterLogic ++ ["MarketEntropy:" +:+ state marketEntropyAnalysis] in
  let advancedRegime := analyzeAdvancedMarketRegime M trendContext marketEntropyAnalysis in
  let masterLogic := masterLogic ++ ["AdvRegime:" +:+ regimeDetails advancedRegime] in
  let concentrationModeEngaged :=
    negb (isStable stability) || isReflexiveCorrection
    || includes (state marketEntropyAnalysis) "CHAOS" in
  (* concept drift detection *)
  let '(driftState, detector1) :=
    match currentSharedStats with
    | Some s =>
        match lastActualOutcome s with
        | Undefined => (Drift.STABLE, driftDetector st)
        | _ =>
            Drift.detectConceptDrift M
              (optOutcome_eqb (getBigSmallFromNumber (lastActualOutcome s))
                              (lastPredictedOutcome s))
              (driftDetector st)
        end
    | None => (Drift.STABLE, driftDetector st)
    end in
  let drifting := match driftState with Drift.STABLE => false | _ => true end in
  let masterLogic :=
    if drifting
    then masterLogic ++ ["!!! DRIFT DETECTED: "
                         +:+ match driftState with
                             | Drift.STABLE => "STABLE"
                             | Drift.WARNING => "WARNING"
                             | Drift.DRIFT => "DRIFT"
                             end +:+ " !!!"]
    else masterLogic in
  let concentrationModeEngaged := concentrationModeEngaged || drifting in
  let masterLogic :=
    if concentrationModeEngaged then masterLogic ++ ["ConcentrationModeActive"]
    else masterLogic in
  (* performance update *)
  let currentVolatilityRegimeForPerf := volatility trendContext in
  let '(table1, profiles1) :=
    match currentSharedStats with
    | Some s =>
        match Carry.lastPredictionSignals s with
        | Some votes =>
            if truthy (lastActualOutcome s) then
              (Learner.updateSignalPerformance (Some votes)
                 (getBigSmallFromNumber (lastActualOutcome s))
                 (lastPeriodFull s)
                 (if truthy (Carry.lastVolatilityRegime s)
                  then keyOf (Carry.lastVolatilityRegime s)
                  else currentVolatilityRegimeForPerf)
                 (lastFinalConfidence s)
                 (lastConcentrationModeEngaged s)
                 (if truthy (lastMarketEntropyState s)
                  then keyOf (lastMarketEntropyState s) else "STABLE_MODERATE")
                 (signalPerformance st),
               match lastPredictedOutcome s with
               | Some _ =>
                   updateRegimeProfilePerformance (lastMacroRegime s)
                     (getBigSmallFromNumber (lastActualOutcome s))
                     (lastPredictedOutcome s) longTermGlobalAccuracy (regimeProfiles st)
               | None => regimeProfiles st
               end)
            else (signalPerformance st, regimeProfiles st)
        | None => (signalPerformance st, regimeProfiles st)
        end
    | None => (signalPerformance st, regimeProfiles st)
    end in
  {| c_currentPeriodFull := currentPeriodFull;
     c_time := time;
     c_primeTimeSession := primeTimeSession;
     c_realTimeFactor := realTimeFactor;
     c_masterLogic := masterLogic;
     c_longTermGlobalAccuracy := longTermGlobalAccuracy;
     c_isReflexiveCorrection := isReflexiveCorrection;
     c_trendContext := trendContext;
     c_stability := stability;
     c_marketEntropyAnalysis := marketEntropyAnalysis;
     c_advancedRegime := advancedRegime;
     c_concentrationModeEngaged := concentrationModeEngaged;
     c_driftState := driftState;
     c_state :=
       {| signalPerformance := table1;
          driftDetector := detector1;
          regimeProfiles := profiles1;
          GLOBAL_LONG_TERM_ACCURACY_FOR_LEARNING_RATE := longTermGlobalAccuracy;
          reflexState := reflex1 |} |}.

(** The signal generation block with the superposition signal: the
    signals, the table, and the consensus read before that last signal
    is added. *)
Definition collectSignals (env : Env) (currentSharedHistory : list HistoryRecord)
    (c : Opening) : Gathered * Consensus :=
  let confirmedHistory := List.filter confirmed currentSharedHistory in
  let g :=
    gatherSignals env (c_time c) (currentRegimeProfileOf c) (regimeContextualAggression c)
      (c_currentPeriodFull c) (c_trendContext c) (c_marketEntropyAnalysis c)
      currentSharedHistory confirmedHistory (signalPerformance (c_state c)) in
  let consensus := analyzePredictionConsensus M (signals g) (c_trendContext c) in
  match analyzeQuantumSuperpositionState (signals g) consensus 0.22 with
  | Some superpositionSignal =>
      let '(adjusted, table2) :=
        Learner.getDynamicWeightAdjustment (r_source superpositionSignal)
          (r_weight superpositionSignal) (c_currentPeriodFull c)
          (volatility (c_trendContext c)) currentSharedHistory (table g) in
      ({| signals :=
            signals g ++ [mkSignal (r_prediction superpositionSignal)
                            (r_weight superpositionSignal)
                            (r_source superpositionSignal) adjusted];
          table := table2 |}, consensus)
  | None => (g, consensus)
  end.

(** The last part of [ultraAIPredict]: the fusion of the valid signals
    into a decision and its confidence. *)
Definition fuse (env : Env) (c : Opening) (consensus : Consensus)
    (validSignals : list Signal) (masterLogic : list string) : Output :=
  let trendContext := c_trendContext c in
  let primeTimeConfidence :=
    match c_primeTimeSession c with Some p => confidence p | None => 1.0 end in
  let bull := bullTrend (probabilities (c_advancedRegime c)) in
  let bear := bearTrend (probabilities (c_advancedRegime c)) in
  let bigScore := scoreOf BIG validSignals * (1 + bull - bear) * factor consensus in
  let smallScore :=
    scoreOf SMALL validSignals * (1 + bear - bull) * (2.0 - factor consensus) in
  let totalScore := bigScore + smallScore in
  let finalDecision :=
    if Num.gtb totalScore 0 then (if Num.geb bigScore smallScore then BIG else SMALL)
    else (if Num.gtb (rndTie env) 0.5 then BIG else SMALL) in
  let finalConfidence :=
    if Num.gtb totalScore 0 then Qmax bigScore smallScore / totalScore else 0.5 in
  let finalConfidence :=
    0.5 + (finalConfidence - 0.5) * primeTimeConfidence * c_realTimeFactor c in
  let signalConsistency := analyzeSignalConsistency validSignals trendContext in
  let pathConfluence := analyzePathConfluenceStrength validSignals finalDecision in
  let uncertainty :=
    calculateUncertaintyScore M trendContext (c_stability c) (c_marketEntropyAnalysis c)
      signalConsistency pathConfluence (c_longTermGlobalAccuracy c)
      (c_isReflexiveCorrection c) (c_driftState c) in
  let uncertaintyFactor := 1.0 - Qmin 1.0 (uncertaintyScore uncertainty / 120.0) in
  let finalConfidence := 0.5 + (finalConfidence - 0.5) * uncertaintyFactor in
  let masterLogic :=
    masterLogic ++ ["Uncertainty(Score:" +:+ toFixed M (uncertaintyScore uncertainty) 0
                    +:+ ",Factor:" +:+ toFixed M uncertaintyFactor 2 +:+ ")"] in
  let pqs := 0.5 in
  let pqs := pqs + (consistencyScore signalConsistency - 0.5) * 0.4 in
  let pqs := pqs + confluenceScore pathConfluence * 1.2 in
  let pqs := Qmax 0.01 (Qmin 0.99 (pqs - (uncertaintyScore uncertainty / 500))) in
  let masterLogic := masterLogic ++ ["PQS:" +:+ toFixed M pqs 3] in
  let prime := match c_primeTimeSession c with Some _ => true | None => false end in
  let highConfThreshold := if prime then 0.72 else 0.78 in
  let medConfThreshold := if prime then 0.60 else 0.65 in
  let highPqsThreshold := if prime then 0.70 else 0.75 in
  let medPqsThreshold := if prime then 0.55 else 0.60 in
  let confidenceLevel :=
    if Num.gtb finalConfidence highConfThreshold && Num.gtb pqs highPqsThreshold then 3%Z
    else if Num.gtb finalConfidence medConfThreshold && Num.gtb pqs medPqsThreshold
    then 2%Z else 1%Z in
  let uncertaintyThreshold :=
    if c_isReflexiveCorrection c
       || match c_driftState c with Drift.DRIFT => true | _ => false end
    then 65 else 95 in
  let isForced :=
    Num.geb (uncertaintyScore uncertainty) uncertaintyThreshold || Num.ltb pqs 0.20 in
  let confidenceLevel := if isForced then 1%Z else confidenceLevel in
  let finalConfidence :=
    if isForced then 0.5 + (rndJitter env - 0.5) * 0.02 else finalConfidence in
  let masterLogic :=
    if isForced
    then masterLogic ++ ["FORCED_PREDICTION(Uncertainty:"
                         +:+ toText M (uncertaintyScore uncertainty) +:+ "/"
                         +:+ toText M uncertaintyThreshold +:+ ",PQS:" +:+ toText M pqs
                         +:+ ")"]
    else masterLogic in
  let bigDisplayConfidence :=
    match finalDecision with BIG => finalConfidence | SMALL => 1 - finalConfidence end in
  let smallDisplayConfidence :=
    match finalDecision with SMALL => finalConfidence | BIG => 1 - finalConfidence end in
  {| bigConfidence := Qmax 0.001 (Qmin 0.999 bigDisplayConfidence);
     smallConfidence := Qmax 0.001 (Qmin 0.999 smallDisplayConfidence);
     predictionLogic := "EnsembleV42";
     finalDecision := finalDecision;
     finalConfidence := finalConfidence;
     confidenceLevel := confidenceLevel;
     isForcedPrediction := isForced;
     overallLogic := joinLogic masterLogic;
     outputSource := "RealTimeFusionV42";
     currentMacroRegime := macroRegime trendContext;
     concentrationModeEngaged := c_concentrationModeEngaged c;
     marketEntropyState := state (c_marketEntropyAnalysis c);
     predictionQualityScore := pqs;
     reflexiveCorrectionActive := c_isReflexiveCorrection c;
     lastPredictionSignals := votesOf validSignals;
     lastVolatilityRegime := volatility trendContext |}.

(** The usable votes of a cycle: the signals whose adjusted weight is
    above [MIN_ABSOLUTE_WEIGHT]. *)
Definition validSignalsOf (g : Gathered) : list Signal :=
  List.filter (fun s => Num.gtb (adjustedWeight s) Learner.MIN_ABSOLUTE_WEIGHT) (signals g).

(** The decision once the signals are gathered: the forced return when no
    vote is usable, the fusion otherwise. *)
Definition decide (env : Env) (c : Opening) (g : Gathered) (consensus : Consensus)
  : Output * State :=
  let masterLogic :=
    c_masterLogic c ++ ["Consensus:" +:+ consensusDetails consensus +:+ ",Factor:"
                        +:+ toFixed M (factor consensus) 2] in
  let validSignals := validSignalsOf g in
  let masterLogic :=
    masterLogic ++ ["ValidSignals(" +:+ pretty (length validSignals) +:+ "/"
                    +:+ pretty (length (signals g)) +:+ ")"] in
  let st1 := withTable (c_state c) (table g) in
  if (length validSignals =? 0)%nat then
    (forcedOutput c (masterLogic ++ ["NoValidSignals_ForceRandom"]) (rndNoSignals env)
       "NoValidSignals",
     st1)
  else (fuse env c consensus validSignals masterLogic, st1).

(** [ultraAIPredict] on the calls that run to their end: the object it
    returns and the module state it leaves.  [None] for [currentSharedStats]
    is a missing object.  The history is an array of objects, and the vote
    sources and the macro regime of the statistics are not inherited
    property names; the calls outside this domain throw, and
    [Exported.ultraAIPredict] tells which. *)
Definition ultraAIPredict (env : Env) (currentSharedHistory : list HistoryRecord)
    (currentSharedStats : option Stats) (st : State) : Output * State :=
  let c := openCycle env currentSharedHistory currentSharedStats st in
  let confirmedHistory := List.filter confirmed currentSharedHistory in
  if (length confirmedHistory <? 52)%nat then
    (forcedOutput c (c_masterLogic c ++ ["InsufficientHistory_ForceRandom"])
       (rndInsufficient env) "InsufficientHistory",
     c_state c)
  else
    let gathered := collectSignals env currentSharedHistory c in
    decide env c (fst gathered) (snd gathered).

End WithMath.

(** The usable votes of a cycle, as [ultraAIPredict] computes them from its
    arguments and the module state. *)
Abbreviation usableVotes M env currentSharedHistory currentSharedStats st :=
  (validSignalsOf
     (fst (collectSignals M env currentSharedHistory
             (openCycle M env currentSharedHistory currentSharedStats st)))).

(** A trail that ends with the given marker. *)
Definition endsWith (marker : string) (logic : string) : Prop :=
  exists trail : list string, logic = joinLogic (trail ++ [marker]).
End Engine.

(** ** Sample cycles *)

Module EngineScenario.
Import JS Carry Engine.

(** The single characters of a string. *)
Fixpoint chars (s : string) : list string :=
  match s with
  | String c r => String c EmptyString :: chars r
  | EmptyString => []
  end.

(** [sharedStats] as [server.js] initialises it. *)
Definition serverStats : Stats :=
  mkStats PNull (Some 0.5) (Some []) Null None None 1 PNull (Str "UNKNOWN")
    (Str "UNKNOWN_REGIME") false (Str "STABLE_MODERATE").

(** Seven in the evening, IST; the random draws pick Haze, Neutral and
    Normal, whose factors are all 1. *)
Definition eveningPeak : Env :=
  {| istHour := 19; now := 1718270000000;
     rndWeather := 0.4; rndNews := 0.5; rndMarketVol := 0.3;
     rndInsufficient := 0.7; rndFusion := 0.7; rndNoSignals := 0.7; rndTie := 0.7;
     rndJitter := 0.7 |}.

(** Fifty-two settled rounds, newest first, that open with the mirror
    pattern BIG SMALL SMALL BIG and in which a BIG round mostly follows a BIG
    round. *)
Definition mirrorHistory : list HistoryRecord :=
  HistoryScenario.rounds (chars "6325987765302142157869430125678943210567894321056789").

(** Fifty-two settled rounds of widely spread digits: a weak trend in high
    volatility, where only the mean-reversion analyzers run and none of them
    votes. *)
Definition silentHistory : list HistoryRecord :=
  HistoryScenario.rounds (chars "2987001007909281272290109977900028100919022080997919").

(** The cycle on [mirrorHistory] in a freshly loaded module. *)
Definition mirrorCycle : Output :=
  fst (ultraAIPredict Approx.math eveningPeak mirrorHistory (Some serverStats) initialState).

(** What the claims read off an output: the flag, the decision, the level,
    the votes, and whether the three confidences are the given numbers. *)
Definition digest (out : Output) (final big small : Q)
  : bool * Outcome * Z * list (string * option Outcome) * bool * bool * bool :=
  (isForcedPrediction out, finalDecision out, confidenceLevel out,
   map (fun v => (v_source v, v_prediction v)) (Engine.lastPredictionSignals out),
   Qeq_bool (finalConfidence out) final, Qeq_bool (bigConfidence out) big,
   Qeq_bool (smallConfidence out) small).

End EngineScenario.

(** ** More sample cycles *)

Module EngineScenario2.
Import JS Carry Engine EngineScenario.

(** Fifty-two settled rounds of widely spread digits that open with two BIG
    rounds: a weak trend in high volatility, where the streak analyzer is
    the only one to vote and the uncertainty score reaches 125. *)
Definition streakHistory : list HistoryRecord :=
  HistoryScenario.rounds (chars "7912900709007981201719299081799909199107897909109118").

(** The cycle on [streakHistory] in a freshly loaded module. *)
Definition streakCycle : Output :=
  fst (ultraAIPredict Approx.math eveningPeak streakHistory (Some serverStats) initialState).

End EngineScenario2.

(** ** Sample number series *)

Module StatsScenario.

(** Sixteen digits, newest first. *)
Definition digits16 : list Q := [7; 2; 3; 8; 1; 6; 9; 4; 0; 5; 7; 3; 2; 8; 6; 1].

(** The value of an RSI that is not [null]. *)
Definition rsiOf (data : list Q) (period : Z) : Q :=
  default 0 (Indicators.calculateRSI data period).

End StatsScenario.

(** ** [ultraAIPredict] as the module exports it

    [Engine.ultraAIPredict] is the function on the inputs it runs to its end
    on: a history whose entries are all objects, and statistics whose vote
    sources and macro regime name records of the module's own tables.  A
    caller of the exported function can pass more than that, and three lines
    of the code then throw a [TypeError]:
    - line 196, in [getMarketRegimeAndTrendContext], reads [entry.actualNumber]
      of every entry of the history, so a [null] entry throws there (the
      filter of [confirmedHistory], which skips such entries, comes later);
      when the history has 20 entries or more, line 244 of [getTrendContext]
      has done the same read before and is the line that throws;
    - line 1390, in [updateSignalPerformance], reads
      [signalPerformance[source].performanceByVolatility[...]]: for a source
      that is an inherited name, line 1380 finds the inherited value, creates
      no record, and the read is a property of [undefined];
    - line 1513, in [updateRegimeProfilePerformance], calls
      [profile.recentAccuracy.push]: for a macro regime that is an inherited
      name, [profile] is the inherited value and has no [recentAccuracy].
    After a throw the module variables are not described.  A volatility
    regime that is an inherited name throws nothing: it only gets no bucket
    ([Learner.ensureBucket]). *)

Module Exported.
Import JS Carry Engine.

(** The error and the line that throws it. *)
Inductive Thrown : Type := TypeErrorAt (line : nat).

(** How a call ends. *)
Inductive Completion (A : Type) : Type :=
| Returns (a : A)
| Throws (e : Thrown).
Arguments Returns {A} a.
Arguments Throws {A} e.

(** The entries of a history array when none of them is [null]. *)
Fixpoint records (history : list (option HistoryRecord)) : option (list HistoryRecord) :=
  match history with
  | [] => Some []
  | Some entry :: rest =>
      match records rest with
      | Some l => Some (entry :: l)
      | None => None
      end
  | None :: _ => None
  end.

(** [updateSignalPerformance] is called, gets past its first line, and meets
    a vote whose source is an inherited name. *)
Definition signalUpdateThrows (s : Stats) : bool :=
  match Carry.lastPredictionSignals s, getBigSmallFromNumber (lastActualOutcome s) with
  | Some votes, Some _ =>
      truthy (lastActualOutcome s) && existsb (fun v => inherited (v_source v)) votes
  | _, _ => false
  end.

(** [updateRegimeProfilePerformance] is called with a predicted outcome and
    a macro regime that is an inherited name. *)
Definition profileUpdateThrows (s : Stats) : bool :=
  match Carry.lastPredictionSignals s, lastPredictedOutcome s with
  | Some _, Some _ => truthy (lastActualOutcome s) && inherited (keyOf (lastMacroRegime s))
  | _, _ => false
  end.

Section WithMath.
Variable M : MathOps.

(** [ultraAIPredict(currentSharedHistory, currentSharedStats)]; a [null]
    entry of the history is [None]. *)
Definition ultraAIPredict (env : Env) (currentSharedHistory : list (option HistoryRecord))
    (currentSharedStats : option Stats) (st : State) : Completion (Output * State) :=
  match records currentSharedHistory with
  | None => Throws (TypeErrorAt (if (length currentSharedHistory <? 20)%nat then 196 else 244))
  | Some history =>
      if match currentSharedStats with Some s => signalUpdateThrows s | None => false end
      then Throws (TypeErrorAt 1390)
      else if match currentSharedStats with Some s => profileUpdateThrows s | None => false end
      then Throws (TypeErrorAt 1513)
      else Returns (Engine.ultraAIPredict M env history currentSharedStats st)
  end.

End WithMath.

End Exported.

(** ** The prediction endpoint of [server.js] *)

Module Server.
Import JS Carry Engine.

(** The variables of the server: its history, newest first, the statistics
    it carries from one request to the next, and the state of the prediction
    module it has loaded. *)
Record ServerState : Type := mkServerState {
  sharedHistory : list HistoryRecord;
  sharedStats : Stats;
  engine : State
}.

(** The server as it starts. *)
Definition initial : ServerState :=
  {| sharedHistory := []; sharedStats := EngineScenario.serverStats; engine := initialState |}.

(** What one [POST /predict] brings from outside: the history in the
    request body ([[]] when the body has none), the clock and the draws of
    the [ultraAIPredict] call, the two later readings of [Date.now()], and
    the draw of the simulated result. *)
Record Request : Type := mkRequest {
  clientHistory : list HistoryRecord;
  env : Env;
  nowStats : Z;
  nowEntry : Z;
  rndDigit : Q
}.

(** The body of the answer: [predictionResult] and [pendingPredictions]. *)
Record Response : Type := mkResponse {
  predictionResult : Output;
  pendingPredictions : list HistoryRecord
}.

(** A [POST /predict] whose body is any JSON array of entries: an entry is
    an object or [null] ([None]).  The other fields are those of
    [Request]. *)
Record Post : Type := mkPost {
  posted : list (option HistoryRecord);
  postEnv : Env;
  postNowStats : Z;
  postNowEntry : Z;
  postRndDigit : Q
}.

(** The request the handler sees in a body whose history does not start
    with [null]: it reads the first entry only. *)
Definition requestOf (p : Post) : Request :=
  {| clientHistory := omap id (posted p); env := postEnv p; nowStats := postNowStats p;
     nowEntry := postNowEntry p; rndDigit := postRndDigit p |}.

(** What the handler sends: status 200 with a body, or status 500. *)
Inductive Answer : Type :=
| Success (response : Response)
| InternalServerError.

(** [s.slice(-n)] *)
Definition sliceLast (n : nat) (s : string) : string :=
  String.substring (String.length s - n) n s.

(** [String(Math.floor(r * 10))] *)
Definition simulatedActual (r : Q) : string := pretty (Qfloor (r * 10)).

(** The statistics after a prediction: the spread of the old object, the
    fields of the result, and the newest [actual] of the client when it has
    one. *)
Definition nextStats (old : Stats) (result : Output) (clientHistory : list HistoryRecord)
    (now : Z) : Stats :=
  {| periodFull := periodFull old;
     longTermGlobalAccuracy := longTermGlobalAccuracy old;
     Carry.lastPredictionSignals := Some (Engine.lastPredictionSignals result);
     lastActualOutcome :=
       match clientHistory with
       | newest :: _ => if truthy (actual newest) then actual newest else lastActualOutcome old
       | [] => lastActualOutcome old
       end;
     lastPredictedOutcome := Some (finalDecision result);
     lastFinalConfidence := Some (finalConfidence result);
     lastConfidenceLevel := confidenceLevel result;
     lastPeriodFull := PNum now;
     Carry.lastVolatilityRegime := Str (Engine.lastVolatilityRegime result);
     lastMacroRegime := Str (currentMacroRegime result);
     lastConcentrationModeEngaged := concentrationModeEngaged result;
     lastMarketEntropyState := Str (marketEntropyState result) |}.

(** The entry the server files for the prediction it has just made. *)
Definition newHistoryEntry (now : Z) (r : Q) : HistoryRecord :=
  {| period := Str (sliceLast 8 (pretty now));
     actual := Str (simulatedActual r);
     actualNumber := Str (simulatedActual r);
     status := Str "Win" |}.

(** [sharedHistory.unshift(entry)], then [pop()] above 200 entries. *)
Definition fileEntry (entry : HistoryRecord) (history : list HistoryRecord)
  : list HistoryRecord :=
  let history := entry :: history in
  if (200 <? length history)%nat then removelast history else history.

Section WithMath.
Variable M : MathOps.

(** The [try] block of the handler of [POST /predict] when it runs to its
    end, which it does for a body whose history is missing, empty, or starts
    with an object: the answer it sends and the variables it leaves. *)
Definition predict (rq : Request) (sv : ServerState) : Response * ServerState :=
  let '(result, engine1) :=
    ultraAIPredict M (env rq) (sharedHistory sv) (Some (sharedStats sv)) (engine sv) in
  let stats1 := nextStats (sharedStats sv) result (clientHistory rq) (nowStats rq) in
  let history1 := fileEntry (newHistoryEntry (nowEntry rq) (rndDigit rq)) (sharedHistory sv) in
  ({| predictionResult := result; pendingPredictions := Stats.slice 0 50 history1 |},
   {| sharedHistory := history1; sharedStats := stats1; engine := engine1 |}).

(** The server after a sequence of such requests, the first one first. *)
Definition serve (requests : list Request) (sv : ServerState) : ServerState :=
  fold_left (fun sv rq => snd (predict rq sv)) requests sv.

(** The handler of [POST /predict] on any body.  When the history of the
    body starts with [null], line 65 reads [clientHistory[0].actual] and
    throws: by then [ultraAIPredict] has run and [sharedStats] has been
    replaced, but no entry has been filed; the [catch] block answers with
    status 500. *)
Definition handle (p : Post) (sv : ServerState) : Answer * ServerState :=
  let '(result, engine1) :=
    ultraAIPredict M (postEnv p) (sharedHistory sv) (Some (sharedStats sv)) (engine sv) in
  match posted p with
  | None :: _ =>
      (InternalServerError,
       {| sharedHistory := sharedHistory sv;
          sharedStats := nextStats (sharedStats sv) result [] (postNowStats p);
          engine := engine1 |})
  | _ =>
      let stats1 :=
        nextStats (sharedStats sv) result (omap id (posted p)) (postNowStats p) in
      let history1 :=
        fileEntry (newHistoryEntry (postNowEntry p) (postRndDigit p)) (sharedHistory sv) in
      (Success {| predictionResult := result; pendingPredictions := Stats.slice 0 50 history1 |},
       {| sharedHistory := history1; sharedStats := stats1; engine := engine1 |})
  end.

(** The server after a sequence of requests of any kind, the first one
    first. *)
Definition run (posts : list Post) (sv : ServerState) : ServerState :=
  fold_left (fun sv p => snd (handle p sv)) posts sv.

End WithMath.

End Server.

(** * Properties *)

(** ** Boolean tests on numbers *)

Module NumFacts.
Import Num.

Lemma ltb_true a b : ltb a b = true <-> a < b.
Proof.
  unfold ltb. rewrite negb_true_iff, <- not_true_iff_false, Qle_bool_iff.
  split; intros H; [apply Qnot_le_lt | apply Qlt_not_le]; exact H.
Qed.

Lemma ltb_false a b : ltb a b = false <-> b <= a.
Proof. unfold ltb. rewrite negb_false_iff. apply Qle_bool_iff. Qed.

Lemma leb_true a b : leb a b = true <-> a <= b.
Proof. apply Qle_bool_iff. Qed.

Lemma leb_false a b : leb a b = false <-> b < a.
Proof.
  unfold leb. rewrite <- not_true_iff_false, Qle_bool_iff.
  split; intros H; [apply Qnot_le_lt | apply Qlt_not_le]; exact H.
Qed.

Lemma gtb_true a b : gtb a b = true <-> b < a.
Proof. apply ltb_true. Qed.

Lemma gtb_false a b : gtb a b = false <-> a <= b.
Proof. apply ltb_false. Qed.

Lemma geb_true a b : geb a b = true <-> b <= a.
Proof. apply leb_true. Qed.

Lemma geb_false a b : geb a b = false <-> a < b.
Proof. apply leb_false. Qed.

Lemma ofNat_le n m : (n <= m)%nat <-> ofNat n <= ofNat m.
Proof. unfold ofNat. rewrite <- Zle_Qle. lia. Qed.

Lemma ofNat_nonneg n : 0 <= ofNat n.
Proof. change 0 with (ofNat 0). apply ofNat_le. lia. Qed.


Lemma ofNat_pos n : (0 < n)%nat -> 0 < ofNat n.
Proof.
  intros H. unfold ofNat. change 0 with (inject_Z 0). rewrite <- Zlt_Qlt. lia.
Qed.

(** [Math.min] and [Math.max] by cases, for linear arithmetic. *)
Lemma Qmin_cases a b : (a <= b /\ Qmin a b == a) \/ (b <= a /\ Qmin a b == b).
Proof.
  destruct (Qlt_le_dec b a) as [H|H].
  - right. split; [apply Qlt_le_weak, H | apply Q.min_r, Qlt_le_weak, H].
  - left. split; [exact H | apply Q.min_l, H].
Qed.

Lemma Qmax_cases a b : (a <= b /\ Qmax a b == b) \/ (b <= a /\ Qmax a b == a).
Proof.
  destruct (Qlt_le_dec b a) as [H|H].
  - right. split; [apply Qlt_le_weak, H | apply Q.max_l, Qlt_le_weak, H].
  - left. split; [exact H | apply Q.max_r, H].
Qed.

End NumFacts.

(** Turns every boolean test on numbers in the context into its
    proposition, and every [Math.min] / [Math.max] into its two cases. *)
Ltac num_props :=
  repeat match goal with
  | H : Num.ltb _ _ = true |- _ => apply NumFacts.ltb_true in H
  | H : Num.ltb _ _ = false |- _ => apply NumFacts.ltb_false in H
  | H : Num.leb _ _ = true |- _ => apply NumFacts.leb_true in H
  | H : Num.leb _ _ = false |- _ => apply NumFacts.leb_false in H
  | H : Num.gtb _ _ = true |- _ => apply NumFacts.gtb_true in H
  | H : Num.gtb _ _ = false |- _ => apply NumFacts.gtb_false in H
  | H : Num.geb _ _ = true |- _ => apply NumFacts.geb_true in H
  | H : Num.geb _ _ = false |- _ => apply NumFacts.geb_false in H
  end.

Ltac minmax_cases :=
  repeat match goal with
  | |- context [Qmin ?a ?b] =>
      let H := fresh "Hmin" in let E := fresh "Emin" in
      destruct (NumFacts.Qmin_cases a b) as [[H E]|[H E]];
      generalize dependent (Qmin a b); intros
  | |- context [Qmax ?a ?b] =>
      let H := fresh "Hmax" in let E := fresh "Emax" in
      destruct (NumFacts.Qmax_cases a b) as [[H E]|[H E]];
      generalize dependent (Qmax a b); intros
  end.

(** ** The entropy of a window *)

Module EntropyFacts.
Import JS Stats NumFacts.

Lemma count_none (c : Outcome) (window : list (option Outcome)) :
  (forall o, In o window -> o = None) ->
  List.filter (fun o => optOutcome_eqb o (Some c)) window = [].
Proof.
  induction window as [|o w IH]; intros H; simpl; [reflexivity|].
  rewrite (H o) by now left. simpl. apply IH. intros o' Ho'. apply H. now right.
Qed.

End EntropyFacts.

(** C7, as the code has it.  [calculateEntropyForSignal] returns [null]
    when the list of outcomes is shorter than the window, and 1 when the
    window it can cut holds no BIG and no SMALL outcome. *)
Theorem calculateEntropyForSignal_degenerate
    (M : MathOps) (outcomes : list (option JS.Outcome)) (windowSize : Z) :
  ((Z.of_nat (length outcomes) < windowSize)%Z ->
   Stats.calculateEntropyForSignal M outcomes windowSize = None) /\
  ((windowSize <= Z.of_nat (length outcomes))%Z ->
   (forall o, In o (Stats.slice 0 windowSize outcomes) -> o = None) ->
   Stats.calculateEntropyForSignal M outcomes windowSize = Some 1).
Proof.
  unfold Stats.calculateEntropyForSignal. split.
  - intros H. apply Z.ltb_lt in H. now rewrite H.
  - intros H Hnone. apply Z.ltb_ge in H. rewrite H.
    rewrite !(EntropyFacts.count_none _ _ Hnone). reflexivity.
Qed.

(** C7 as the specification words it: a list shorter than the window gives
    [null], not 1. *)
Lemma calculateEntropyForSignal_short_is_null :
  Stats.calculateEntropyForSignal Approx.math [Some JS.BIG] 2 = None /\
  Stats.calculateEntropyForSignal Approx.math [Some JS.BIG] 2 <> Some 1.
Proof. split; [reflexivity | discriminate]. Qed.

(** ** The performance learner *)

Module LearnerFacts.
Import JS Carry Learner NumFacts.

Lemma Period_eqb_refl p : Period_eqb p p = true.
Proof. destruct p; simpl; [reflexivity | apply Z.eqb_refl | apply String.eqb_refl]. Qed.

Lemma Period_eqb_eq p q : Period_eqb p q = true <-> p = q.
Proof.
  split; [| intros ->; apply Period_eqb_refl].
  destruct p, q; simpl; try discriminate; try reflexivity.
  - intros H. apply Z.eqb_eq in H. now subst.
  - intros H. apply String.eqb_eq in H. now subst.
Qed.

(** *** One record *)

(** A record is settled for a period and a volatility regime when a call
    for that period has nothing left to do on it. *)
Definition settled (perf : SignalPerf) (periodFull : Period) (regime : string) : Prop :=
  lastActivePeriod perf = periodFull /\ total perf <> 0%nat /\
  lastUpdatePeriod perf = periodFull /\
  ensureBucket regime (performanceByVolatility perf) = performanceByVolatility perf.

Lemma ensureBucket_lookup regime m :
  inherited regime = false -> is_Some (ensureBucket regime m !! regime).
Proof.
  intros Hi. unfold ensureBucket. destruct (m !! regime) eqn:E.
  - rewrite E. eauto.
  - rewrite Hi, lookup_insert_eq. eauto.
Qed.

Lemma ensureBucket_id regime m : is_Some (m !! regime) -> ensureBucket regime m = m.
Proof. intros [b Hb]. unfold ensureBucket. now rewrite Hb. Qed.

Lemma ensureBucket_idem regime m :
  ensureBucket regime (ensureBucket regime m) = ensureBucket regime m.
Proof.
  destruct (m !! regime) as [b|] eqn:E.
  - rewrite (ensureBucket_id regime m) by (rewrite E; eauto).
    apply ensureBucket_id. rewrite E. eauto.
  - destruct (inherited regime) eqn:Hi.
    + assert (ensureBucket regime m = m) as -> by (unfold ensureBucket; now rewrite E, Hi).
      unfold ensureBucket. now rewrite E, Hi.
    + apply ensureBucket_id. unfold ensureBucket. rewrite E, Hi, lookup_insert_eq. eauto.
Qed.

Lemma bumpBucket_lookup regime c m :
  is_Some (m !! regime) -> is_Some (bumpBucket regime c m !! regime).
Proof.
  intros [b Hb]. unfold bumpBucket. rewrite Hb, lookup_insert_eq. eauto.
Qed.

Lemma ensureBucket_bump regime c m :
  ensureBucket regime m = m -> ensureBucket regime (bumpBucket regime c m) = bumpBucket regime c m.
Proof.
  intros H. destruct (m !! regime) as [b|] eqn:E.
  - apply ensureBucket_id, bumpBucket_lookup. rewrite E. eauto.
  - unfold bumpBucket. rewrite E. exact H.
Qed.

Lemma updateRecord_settled perf prediction actual periodFull regime hi oc conc chaos :
  settled (updateRecord perf prediction actual periodFull regime hi oc conc chaos)
          periodFull regime.
Proof.
  unfold settled, updateRecord.
  destruct (negb (Period_eqb _ periodFull) || (_ =? 0)%nat) eqn:E; simpl.
  - repeat split; try discriminate.
    apply ensureBucket_bump, ensureBucket_idem.
  - apply orb_false_iff in E as [E1 E2].
    apply negb_false_iff, Period_eqb_eq in E1. apply Nat.eqb_neq in E2.
    simpl in E1, E2. repeat split; try assumption. apply ensureBucket_idem.
Qed.

Lemma updateRecord_fixed perf prediction actual periodFull regime hi oc conc chaos :
  settled perf periodFull regime ->
  updateRecord perf prediction actual periodFull regime hi oc conc chaos = perf.
Proof.
  intros (Ha & Ht & Hu & Hb). unfold updateRecord.
  rewrite Hb. destruct perf; simpl in *. subst.
  rewrite Period_eqb_refl. apply Nat.eqb_neq in Ht. rewrite Ht. reflexivity.
Qed.

(** A second pass over a record for the same period changes nothing,
    whatever the vote and the flags of the second pass. *)
Lemma updateRecord_idempotent perf periodFull regime
      prediction actual hi oc conc chaos prediction' actual' hi' oc' conc' chaos' :
  updateRecord (updateRecord perf prediction actual periodFull regime hi oc conc chaos)
               prediction' actual' periodFull regime hi' oc' conc' chaos'
  = updateRecord perf prediction actual periodFull regime hi oc conc chaos.
Proof. apply updateRecord_fixed, updateRecord_settled. Qed.

(** *** The table *)

(** The first vote of a list that names a source. *)
Definition firstVote (source : string) (signals : list Vote) : option Vote :=
  List.find (fun v => negb (String.eqb (v_source v) "") && String.eqb (v_source v) source)
            signals.

(** The entry of a source after [updateSignalPerformance]: the record it
    had (or a fresh one), passed once through [updateRecord] with the first
    vote that names the source. *)
Lemma updateSignalPerformance_lookup signals actual periodFull regime conf conc entropy
      (table : PerfTable) source :
  updateSignalPerformance (Some signals) (Some actual) periodFull regime conf conc entropy table
    !! source
  = match firstVote source signals with
    | Some v =>
        Some (updateRecord (default freshPerf (table !! source)) (v_prediction v) actual
                periodFull regime (confAbove conf 0.75)
                (optOutcome_eqb (getBigSmallFromNumber (Str (outcomeStr actual)))
                   (Some (if confAbove conf 0.5 then BIG else SMALL)))
                conc (includes entropy "CHAOS"))
    | None => table !! source
    end.
Proof.
  unfold updateSignalPerformance.
  set (hi := confAbove conf 0.75). set (oc := optOutcome_eqb _ _).
  set (chaos := includes entropy "CHAOS").
  revert table. induction signals as [|v l IH]; intros table; simpl; [reflexivity|].
  rewrite IH. clear IH.
  destruct (String.eqb_spec (v_source v) "") as [E|E]; simpl; [reflexivity|].
  destruct (String.eqb_spec (v_source v) source) as [Es|Es].
  - subst source. rewrite lookup_insert_eq. simpl.
    destruct (firstVote (v_source v) l); [|reflexivity].
    now rewrite updateRecord_idempotent.
  - rewrite lookup_insert_ne by assumption. reflexivity.
Qed.

Lemma updateSignalPerformance_noop signals periodFull regime conf conc entropy
      (table : PerfTable) :
  updateSignalPerformance signals None periodFull regime conf conc entropy table = table.
Proof. reflexivity. Qed.

End LearnerFacts.

Module LearnerAdjust.
Import JS Carry Learner NumFacts LearnerFacts.

Lemma adjust_guard (total' len : nat) :
  (10 <= total')%nat -> (15 <= len)%nat ->
  Num.geb (Num.ofNat total') MIN_OBSERVATIONS_FOR_ADJUST &&
  Num.geb (Num.ofNat len) (PERFORMANCE_WINDOW / 2) = true.
Proof.
  intros Ht Hl. apply andb_true_iff. split; apply geb_true.
  - apply ofNat_le in Ht. exact Ht.
  - apply ofNat_le in Hl. change (Num.ofNat 15) with 15 in Hl.
    assert (PERFORMANCE_WINDOW / 2 == 15) as -> by reflexivity. exact Hl.
Qed.

(** The record after an observation, and after one that triggers the
    adjustment. *)
Lemma updateRecord_observed perf prediction actual periodFull regime hi oc conc chaos :
  lastActivePeriod perf <> periodFull \/ total perf = 0%nat ->
  recentAccuracy (updateRecord perf prediction actual periodFull regime hi oc conc chaos)
  = pushWindow 30 (recentAccuracy perf) (optOutcome_eqb prediction (Some actual)) /\
  total (updateRecord perf prediction actual periodFull regime hi oc conc chaos)
  = S (total perf) /\
  ((10 <= S (total perf))%nat ->
   (15 <= length (pushWindow 30 (recentAccuracy perf)
                    (optOutcome_eqb prediction (Some actual))))%nat ->
   currentAdjustmentFactor
     (updateRecord perf prediction actual periodFull regime hi oc conc chaos)
   = adjustmentFactorOf (accuracyOf (pushWindow 30 (recentAccuracy perf)
                                       (optOutcome_eqb prediction (Some actual)))) /\
   alphaFactor (updateRecord perf prediction actual periodFull regime hi oc conc chaos)
   = alphaStep (alphaFactor perf)
       (adjustmentFactorOf (accuracyOf (pushWindow 30 (recentAccuracy perf)
                                          (optOutcome_eqb prediction (Some actual)))))
       (alphaLearningRateOf (accuracyOf (pushWindow 30 (recentAccuracy perf)
                                           (optOutcome_eqb prediction (Some actual))))) /\
   isOnProbation (updateRecord perf prediction actual periodFull regime hi oc conc chaos)
   = probationAfter
       (length (pushWindow 30 (recentAccuracy perf) (optOutcome_eqb prediction (Some actual))))
       (accuracyOf (pushWindow 30 (recentAccuracy perf)
                      (optOutcome_eqb prediction (Some actual))))
       (isOnProbation perf)).
Proof.
  intros Happ. unfold updateRecord.
  cbn [lastActivePeriod total withBuckets].
  assert (negb (Period_eqb (lastActivePeriod perf) periodFull) || (total perf =? 0)%nat = true)
    as ->.
  { destruct Happ as [H|H].
    - destruct (Period_eqb _ _) eqn:E; [apply Period_eqb_eq in E; contradiction | reflexivity].
    - rewrite H. apply orb_true_r. }
  simpl. repeat split; try reflexivity.
  all: change PERFORMANCE_WINDOW with 30; rewrite adjust_guard by assumption; reflexivity.
Qed.

(** The model's helpers, written out. *)
Lemma adjustmentFactorOf_eq accuracy :
  adjustmentFactorOf accuracy = Qmin (Qmax (1 + (accuracy - 0.5) * 3.5) 0.05) 1.95.
Proof. reflexivity. Qed.

Lemma accuracyOf_eq l : accuracyOf l = sumBits l / Num.ofNat (length l).
Proof. reflexivity. Qed.

Lemma alphaLearningRateOf_eq accuracy :
  alphaLearningRateOf accuracy
  = if Num.ltb accuracy 0.35 then 0.04 * 1.75
    else if Num.ltb accuracy 0.45 then 0.04 * 1.4 else 0.04.
Proof. reflexivity. Qed.

Lemma alphaStep_eq alpha target rate :
  alphaStep alpha target rate
  = if Num.gtb target alpha then Qmin 1.6 (alpha + rate * (target - alpha))
    else Qmax 0.4 (alpha - rate * (alpha - target)).
Proof. reflexivity. Qed.

Lemma alphaLearningRateOf_cases accuracy :
  (accuracy < 0.35 /\ alphaLearningRateOf accuracy = ALPHA_UPDATE_RATE * 1.75) \/
  (0.35 <= accuracy < 0.45 /\ alphaLearningRateOf accuracy = ALPHA_UPDATE_RATE * 1.4) \/
  (0.45 <= accuracy /\ alphaLearningRateOf accuracy = ALPHA_UPDATE_RATE).
Proof.
  unfold alphaLearningRateOf.
  destruct (Num.ltb accuracy 0.35) eqn:E1; num_props; [left; split; [lra | reflexivity]|].
  destruct (Num.ltb accuracy 0.45) eqn:E2; num_props.
  - right; left. split; [lra | reflexivity].
  - right; right. split; [lra | reflexivity].
Qed.

(** [alphaFactor] moves towards the target and stays in its range. *)
Lemma alphaStep_towards alpha target rate :
  0.4 <= alpha <= 1.6 -> 0 <= rate <= 1 ->
  0.4 <= alphaStep alpha target rate <= 1.6 /\
  (alpha < target -> alpha <= alphaStep alpha target rate <= target) /\
  (target <= alpha -> target <= alphaStep alpha target rate <= alpha).
Proof.
  intros Ha Hr. unfold alphaStep, MAX_ALPHA_FACTOR, MIN_ALPHA_FACTOR.
  destruct (Num.gtb target alpha) eqn:E; num_props.
  - assert (0 <= rate * (target - alpha) <= target - alpha) by nra.
    minmax_cases; repeat split; intros; lra.
  - assert (0 <= rate * (alpha - target) <= alpha - target) by nra.
    minmax_cases; repeat split; intros; lra.
Qed.

End LearnerAdjust.

(** C4. Once a source has at least 10 observations and its recent window
    holds at least 15 samples, [updateSignalPerformance] sets
    [currentAdjustmentFactor] to [clamp(1 + (accuracy - 0.5) * 3.5, 0.05, 1.95)],
    where [accuracy] is the share of correct bits in the window, and moves
    [alphaFactor] towards that target by the fraction 0.04 of the gap
    (0.04 * 1.4 when the accuracy is below 0.45, 0.04 * 1.75 when it is below
    0.35), the result cut off at 1.6 from above or at 0.4 from below; an
    [alphaFactor] that was in [0.4, 1.6] stays there. *)
Theorem updateSignalPerformance_adjusts_factors
    (signals : list Carry.Vote) (actual : JS.Outcome) (periodFull : JS.Period) (regime : string)
    (conf : option Q) (conc : bool) (entropy : string) (table : gmap string Learner.SignalPerf)
    (source : string) (v : Carry.Vote) :
  let old := default Learner.freshPerf (table !! source) in
  let window := Learner.pushWindow 30 (Learner.recentAccuracy old)
                  (JS.optOutcome_eqb (Carry.v_prediction v) (Some actual)) in
  let accuracy := Learner.sumBits window / Num.ofNat (length window) in
  let target := Qmin (Qmax (1 + (accuracy - 0.5) * 3.5) 0.05) 1.95 in
  let rate := if Num.ltb accuracy 0.35 then 0.04 * 1.75
              else if Num.ltb accuracy 0.45 then 0.04 * 1.4 else 0.04 in
  LearnerFacts.firstVote source signals = Some v ->
  Learner.lastActivePeriod old <> periodFull \/ Learner.total old = 0%nat ->
  (10 <= S (Learner.total old))%nat ->
  (15 <= length window)%nat ->
  0.4 <= Learner.alphaFactor old <= 1.6 ->
  exists new,
    Learner.updateSignalPerformance (Some signals) (Some actual) periodFull regime conf conc
      entropy table !! source = Some new /\
    Learner.total new = S (Learner.total old) /\
    Learner.recentAccuracy new = window /\
    Learner.currentAdjustmentFactor new = target /\
    Learner.alphaFactor new =
      (if Num.gtb target (Learner.alphaFactor old)
       then Qmin 1.6 (Learner.alphaFactor old + rate * (target - Learner.alphaFactor old))
       else Qmax 0.4 (Learner.alphaFactor old - rate * (Learner.alphaFactor old - target))) /\
    0.4 <= Learner.alphaFactor new <= 1.6 /\
    (Learner.alphaFactor old < target ->
     Learner.alphaFactor old <= Learner.alphaFactor new <= target) /\
    (target <= Learner.alphaFactor old ->
     target <= Learner.alphaFactor new <= Learner.alphaFactor old).
Proof.
  cbv zeta. intros Hv Happ Ht Hl Ha.
  rewrite LearnerFacts.updateSignalPerformance_lookup, Hv.
  destruct (LearnerAdjust.updateRecord_observed
              (default Learner.freshPerf (table !! source)) (Carry.v_prediction v) actual
              periodFull regime (Learner.confAbove conf 0.75)
              (JS.optOutcome_eqb (JS.getBigSmallFromNumber (JS.Str (JS.outcomeStr actual)))
                 (Some (if Learner.confAbove conf 0.5 then JS.BIG else JS.SMALL)))
              conc (JS.includes entropy "CHAOS") Happ) as (Hw & Htot & Hadj).
  destruct (Hadj Ht Hl) as (Hc & Hal & _). clear Hadj.
  eexists. split; [reflexivity|].
  split; [exact Htot|]. split; [exact Hw|].
  rewrite Hc, Hal. clear Hc Hal Hw Htot.
  assert (0 <= Learner.alphaLearningRateOf
                 (Learner.accuracyOf
                    (Learner.pushWindow 30
                       (Learner.recentAccuracy (default Learner.freshPerf (table !! source)))
                       (JS.optOutcome_eqb (Carry.v_prediction v) (Some actual)))) <= 1) as Hr.
  { destruct (LearnerAdjust.alphaLearningRateOf_cases
                (Learner.accuracyOf
                   (Learner.pushWindow 30
                      (Learner.recentAccuracy (default Learner.freshPerf (table !! source)))
                      (JS.optOutcome_eqb (Carry.v_prediction v) (Some actual)))))
      as [[_ ->]|[[_ ->]|[_ ->]]]; unfold Learner.ALPHA_UPDATE_RATE; lra. }
  pose proof (LearnerAdjust.alphaStep_towards _
                (Learner.adjustmentFactorOf
                   (Learner.accuracyOf
                      (Learner.pushWindow 30
                         (Learner.recentAccuracy (default Learner.freshPerf (table !! source)))
                         (JS.optOutcome_eqb (Carry.v_prediction v) (Some actual)))))
                _ Ha Hr) as Hstep.
  rewrite LearnerAdjust.alphaStep_eq in Hstep |- *.
  rewrite LearnerAdjust.alphaLearningRateOf_eq in Hstep |- *.
  rewrite LearnerAdjust.adjustmentFactorOf_eq in Hstep |- *.
  rewrite LearnerAdjust.accuracyOf_eq in Hstep |- *.
  split; [reflexivity|]. split; [reflexivity|]. exact Hstep.
Qed.

Module LearnerProbation.
Import JS Carry Learner NumFacts LearnerFacts LearnerAdjust.








(** The idle test reads a period identifier that is a string as the number
    the string spells: an exponent, a sign, a fraction, a [0x] prefix and
    white space around the digits are all understood; a string that spells
    no number makes the difference NaN and the test false. *)
Lemma inactiveTooLong_strings :
  inactiveTooLong (PNum 2000) (PStr "1e3") = true /\
  inactiveTooLong (PNum 0) (PStr "-100") = true /\
  inactiveTooLong (PNum 200) (PStr "12.5") = true /\
  inactiveTooLong (PStr "0x100") (PStr " 12 ") = true /\
  inactiveTooLong (PStr "100") (PStr "12") = false /\
  inactiveTooLong (PNum 2000) (PStr "period 7") = false /\
  inactiveTooLong (PStr "Infinity") (PStr "Infinity") = false.
Proof. vm_compute. repeat split; reflexivity. Qed.

End LearnerProbation.

Module LearnerOnce.
Import JS Carry Learner NumFacts LearnerFacts.







End LearnerOnce.

(** C4, at a concrete table: the fifteenth observation of a source (five
    hits, then ten misses) triggers the first adjustment. *)
Lemma updateSignalPerformance_adjusts_factors_witness :
  exists new,
    Learner.updateSignalPerformance
      (Some [Carry.mkVote "RSI" (Some JS.BIG) 0.05 false]) (Some JS.SMALL) (JS.PNum 15)
      "MEDIUM" (Some 0.6) false "STABLE_MODERATE" Scenario.table14 !! "RSI" = Some new /\
    Learner.total new = 15%nat /\
    Learner.currentAdjustmentFactor new == 5 # 12 /\
    0.4 <= Learner.alphaFactor new <= 1.6.
Proof.
  destruct (updateSignalPerformance_adjusts_factors
              [Carry.mkVote "RSI" (Some JS.BIG) 0.05 false] JS.SMALL (JS.PNum 15) "MEDIUM"
              (Some 0.6) false "STABLE_MODERATE" Scenario.table14 "RSI"
              (Carry.mkVote "RSI" (Some JS.BIG) 0.05 false))
    as (new & Hl & Ht & _ & Hc & _ & Ha & _).
  - reflexivity.
  - left. vm_compute. discriminate.
  - vm_compute. lia.
  - vm_compute. lia.
  - vm_compute. split; discriminate.
  - exists new. split; [exact Hl|]. split; [exact Ht|]. split; [|exact Ha].
    rewrite Hc. vm_compute. reflexivity.
Defined.







(** ** The drift detector *)

Module DriftFacts.
Import Num NumFacts Drift.

(** The detector states the code can be in: the two levels as the object
    literal sets them, an error mean in [0, 1], and minima that are either
    both still infinite or both finite with a non-negative [s_min]. *)
Definition wf (d : DriftDetector) : Prop :=
  warning_level d == 2 /\ drift_level d == 3 /\ 0 <= p_i d <= 1 /\
  match p_min d, s_min d with
  | PInf, PInf => True
  | Fin _, Fin s => 0 <= s
  | _, _ => False
  end.

Lemma wf_initial : wf initial.
Proof. unfold wf, initial; simpl. repeat split; try reflexivity; discriminate. Qed.

Lemma ltb_compat a a' b b' : a == a' -> b == b' -> ltb a b = ltb a' b'.
Proof.
  intros Ha Hb. destruct (ltb a b) eqn:E1, (ltb a' b') eqn:E2; try reflexivity;
    num_props; rewrite Ha, Hb in E1; lra.
Qed.

Lemma meanAfter_range b d : 0 <= p_i d <= 1 -> 0 <= meanAfter b d <= 1.
Proof.
  intros Hp. unfold meanAfter.
  set (k := ofNat (S (n d))).
  assert (1 <= k) as Hk.
  { subst k. change 1 with (ofNat 1). apply ofNat_le. lia. }
  set (e := if b then 0 else 1).
  assert (0 <= e <= 1) as He by (subst e; destruct b; lra).
  set (prev := if (1 <? S (n d))%nat then p_i d else 0).
  assert (0 <= prev <= 1) as Hprev by (subst prev; destruct (1 <? S (n d))%nat; lra).
  assert ((e - prev) / k * k == e - prev) as Hx.
  { rewrite Qmult_comm. apply Qmult_div_r. intros Hz. lra. }
  generalize dependent ((e - prev) / k). intros x Hx.
  split; nra.
Qed.

Section WithMath.
Variable M : MathOps.
Hypothesis sqrt_nonneg : forall x, 0 <= x -> 0 <= sqrt M x.

Lemma stdErrAfter_nonneg b d : 0 <= p_i d <= 1 -> 0 <= stdErrAfter M b d.
Proof.
  intros Hp. unfold stdErrAfter. apply sqrt_nonneg.
  pose proof (meanAfter_range b d Hp) as Hm.
  apply Qle_shift_div_l.
  - apply ofNat_pos. lia.
  - nra.
Qed.

(** The transitions of [detectConceptDrift], read against the minima the
    detector held before the call. *)
Lemma detectConceptDrift_cases b d :
  wf d ->
  p_i (snd (detectConceptDrift M b d)) = meanAfter b d /\
  (if xgtb (Fin (meanAfter b d + stdErrAfter M b d))
           (xadd (p_min d) (xmul (Fin 3) (s_min d)))
   then fst (detectConceptDrift M b d) = DRIFT /\
        p_min (snd (detectConceptDrift M b d)) = PInf /\
        s_min (snd (detectConceptDrift M b d)) = PInf /\
        n (snd (detectConceptDrift M b d)) = 1%nat
   else if xgtb (Fin (meanAfter b d + stdErrAfter M b d))
                (xadd (p_min d) (xmul (Fin 2) (s_min d)))
   then fst (detectConceptDrift M b d) = WARNING /\
        p_min (snd (detectConceptDrift M b d)) = p_min d /\
        s_min (snd (detectConceptDrift M b d)) = s_min d /\
        n (snd (detectConceptDrift M b d)) = S (n d)
   else fst (detectConceptDrift M b d) = STABLE /\
        n (snd (detectConceptDrift M b d)) = S (n d) /\
        (if xltb (Fin (meanAfter b d + stdErrAfter M b d)) (xadd (p_min d) (s_min d))
         then p_min (snd (detectConceptDrift M b d)) = Fin (meanAfter b d) /\
              s_min (snd (detectConceptDrift M b d)) = Fin (stdErrAfter M b d)
         else p_min (snd (detectConceptDrift M b d)) = p_min d /\
              s_min (snd (detectConceptDrift M b d)) = s_min d)).
Proof.
  intros (Hw & Hd & Hp & Hmin).
  pose proof (stdErrAfter_nonneg b d Hp) as Hs.
  unfold detectConceptDrift.
  generalize dependent (stdErrAfter M b d). intros s Hs.
  generalize dependent (meanAfter b d). intros p.
  generalize dependent (warning_level d). intros wl Hw.
  generalize dependent (drift_level d). intros dl Hd.
  assert (dl * s == 3 * s) as Hds by now rewrite Hd.
  assert (wl * s == 2 * s) as Hws by now rewrite Hw.
  destruct (p_min d) as [pm| | |], (s_min d) as [sm| | |]; try contradiction.
  - (* finite minima *)
    assert (dl * sm == 3 * sm) as Hdm by now rewrite Hd.
    assert (wl * sm == 2 * sm) as Hwm by now rewrite Hw.
    unfold xgtb. cbn [xadd xmul xltb].
    destruct (ltb (p + s) (pm + sm)) eqn:Er; cbn [xadd xmul xltb];
      repeat match goal with
             | |- context [ltb ?a ?b] =>
                 let E := fresh "E" in destruct (ltb a b) eqn:E
             end;
      num_props; cbn [fst snd p_i p_min s_min n];
      try (repeat split; reflexivity); exfalso; lra.
  - (* both minima still infinite *)
    unfold xgtb. cbn [xadd xmul xltb sgn]. simpl Qcompare. cbn [xadd xmul xltb].
    repeat match goal with
           | |- context [ltb ?a ?b] =>
               let E := fresh "E" in destruct (ltb a b) eqn:E
           end;
      num_props; cbn [fst snd p_i p_min s_min n];
      try (repeat split; reflexivity); exfalso; lra.
Qed.

(** The invariant is kept. *)
Lemma detectConceptDrift_wf b d : wf d -> wf (snd (detectConceptDrift M b d)).
Proof.
  intros Hwf. pose proof Hwf as (Hw & Hd & Hp & Hmin).
  pose proof (stdErrAfter_nonneg b d Hp) as Hs.
  pose proof (meanAfter_range b d Hp) as Hm.
  unfold wf, detectConceptDrift.
  destruct (xltb _ (xadd (p_min d) (s_min d)));
    repeat match goal with |- context [if ?c then _ else _] => destruct c end;
    simpl; repeat split; try assumption; try apply Hp; try apply Hm.
Qed.

Lemma feed_wf bits d : wf d -> wf (snd (feed M bits d)).
Proof.
  revert d. induction bits as [|b rest IH]; intros d Hwf; simpl; [exact Hwf|].
  pose proof (detectConceptDrift_wf b d Hwf) as H1.
  destruct (detectConceptDrift M b d) as [st d1]. simpl in H1.
  specialize (IH d1 H1). destruct (feed M rest d1) as [sts d2]. exact IH.
Qed.

End WithMath.

End DriftFacts.

Module ApproxFacts.

Lemma sqrtQ_nonneg x : 0 <= x -> 0 <= sqrt Approx.math x.
Proof.
  intros _. simpl. unfold Approx.sqrtQ. destruct (Qle_bool x 0); [apply Qle_refl|].
  unfold Qle. simpl. rewrite Z.mul_1_r. apply Z.sqrt_nonneg.
Qed.

End ApproxFacts.

(** C5. On a detector in a state the code can reach ([DriftFacts.wf]), let
    [count] be [n + 1], let [p] be the running error mean after the new
    correctness bit, [prev + (errorRate - prev) / count] with [prev] the
    stored mean (0 on the first sample), and let [s] be its standard error
    [sqrt (p * (1 - p) / count)].  Then [detectConceptDrift] stores [p] as
    [p_i] and
    - returns DRIFT and resets [(p_min, s_min, n)] to [(Infinity, Infinity, 1)]
      when [p + s > p_min + 3 * s_min];
    - otherwise returns WARNING, minima unchanged and [n] one higher, when
      [p + s > p_min + 2 * s_min];
    - otherwise returns STABLE with [n] one higher, the minima replaced by
      [(p, s)] exactly when [p + s < p_min + s_min];
    where [p_min] and [s_min] are the minima before the call.  The mean stays
    in [0, 1], the standard error is not negative, and the reachable states
    are closed under the call. *)
Theorem detectConceptDrift_transitions (M : MathOps) (b : bool) (d : Drift.DriftDetector) :
  (forall x, 0 <= x -> 0 <= sqrt M x) ->
  DriftFacts.wf d ->
  let count := S (Drift.n d) in
  let errorRate : Q := if b then 0 else 1 in
  let prev := if (1 <? count)%nat then Drift.p_i d else 0 in
  let p := prev + (errorRate - prev) / Num.ofNat count in
  let s := sqrt M (p * (1 - p) / Num.ofNat count) in
  let st := fst (Drift.detectConceptDrift M b d) in
  let d' := snd (Drift.detectConceptDrift M b d) in
  p == (if (Drift.n d =? 0)%nat then errorRate
        else Drift.p_i d + (errorRate - Drift.p_i d) / Num.ofNat count) /\
  0 <= p <= 1 /\ 0 <= s /\
  Drift.p_i d' = p /\
  (if Num.xgtb (Num.Fin (p + s)) (Num.xadd (Drift.p_min d) (Num.xmul (Num.Fin 3) (Drift.s_min d)))
   then st = Drift.DRIFT /\ Drift.p_min d' = Num.PInf /\ Drift.s_min d' = Num.PInf /\
        Drift.n d' = 1%nat
   else if Num.xgtb (Num.Fin (p + s))
                    (Num.xadd (Drift.p_min d) (Num.xmul (Num.Fin 2) (Drift.s_min d)))
   then st = Drift.WARNING /\ Drift.p_min d' = Drift.p_min d /\
        Drift.s_min d' = Drift.s_min d /\ Drift.n d' = count
   else st = Drift.STABLE /\ Drift.n d' = count /\
        (if Num.xltb (Num.Fin (p + s)) (Num.xadd (Drift.p_min d) (Drift.s_min d))
         then Drift.p_min d' = Num.Fin p /\ Drift.s_min d' = Num.Fin s
         else Drift.p_min d' = Drift.p_min d /\ Drift.s_min d' = Drift.s_min d)) /\
  DriftFacts.wf d'.
Proof.
  cbv zeta. intros Hsqrt Hwf.
  change ((if (1 <? S (Drift.n d))%nat then Drift.p_i d else 0)
          + ((if b then 0 else 1) - (if (1 <? S (Drift.n d))%nat then Drift.p_i d else 0))
            / Num.ofNat (S (Drift.n d)))
    with (Drift.meanAfter b d).
  change (sqrt M (Drift.meanAfter b d * (1 - Drift.meanAfter b d) / Num.ofNat (S (Drift.n d))))
    with (Drift.stdErrAfter M b d).
  split.
  { unfold Drift.meanAfter. destruct (Drift.n d) as [|k]; simpl Nat.ltb; simpl Nat.eqb.
    - change (Num.ofNat 1) with 1. destruct b; field.
    - reflexivity. }
  pose proof Hwf as (_ & _ & Hrange & _).
  split; [apply DriftFacts.meanAfter_range; exact Hrange|].
  split; [apply DriftFacts.stdErrAfter_nonneg; assumption|].
  destruct (DriftFacts.detectConceptDrift_cases M Hsqrt b d Hwf) as [Hp Hcases].
  split; [exact Hp|]. split; [exact Hcases|].
  apply DriftFacts.detectConceptDrift_wf; assumption.
Qed.

(** C5, at a concrete detector.  After a miss, two hits and three misses
    the minima are [p_min = 1/3] and [s_min], a little above 0.27, and six
    samples are counted; a seventh cycle that is a miss brings the mean to
    5/7, which alone is below [p_min + 2 * s_min]: it is the standard error
    of the seventh cycle, above 0.17, that takes [p + s] over the warning
    level, and WARNING is returned. *)
Lemma detectConceptDrift_transitions_witness :
  let p := 5 # 7 in
  let s := sqrt Approx.math (p * (1 - p) / 7) in
  Drift.p_min DriftScenario.afterSix = Num.Fin (4 # 12) /\
  Num.xgtb (Num.Fin p)
    (Num.xadd (Drift.p_min DriftScenario.afterSix)
       (Num.xmul (Num.Fin 2) (Drift.s_min DriftScenario.afterSix))) = false /\
  Num.xgtb (Num.Fin (p + s))
    (Num.xadd (Drift.p_min DriftScenario.afterSix)
       (Num.xmul (Num.Fin 2) (Drift.s_min DriftScenario.afterSix))) = true /\
  fst (Drift.detectConceptDrift Approx.math false DriftScenario.afterSix) = Drift.WARNING /\
  Drift.n (snd (Drift.detectConceptDrift Approx.math false DriftScenario.afterSix)) = 7%nat.
Proof.
  cbv zeta.
  split; [vm_compute; reflexivity|].
  split; [vm_compute; reflexivity|].
  split; [vm_compute; reflexivity|].
  pose proof (detectConceptDrift_transitions Approx.math false DriftScenario.afterSix
                ApproxFacts.sqrtQ_nonneg
                (DriftFacts.feed_wf Approx.math ApproxFacts.sqrtQ_nonneg
                   [false; true; true; false; false; false] Drift.initial
                   DriftFacts.wf_initial)) as H.
  cbv zeta in H. destruct H as (_ & _ & _ & _ & H & _).
  match type of H with
  | (if ?c then _ else _) =>
      assert (c = false) as E1 by (vm_compute; reflexivity); rewrite E1 in H
  end.
  match type of H with
  | (if ?c then _ else _) =>
      assert (c = true) as E2 by (vm_compute; reflexivity); rewrite E2 in H
  end.
  destruct H as (Hst & _ & _ & Hn). split; [exact Hst | exact Hn].
Defined.

(** C10. When [detectConceptDrift] declares DRIFT it resets [p_min], [s_min]
    and [n] only: [p_i] keeps the error mean computed in that call.  The next
    call therefore counts itself as the second sample and stores the average
    of that stale mean and its own error bit, where a detector started from
    scratch would store the error bit itself. *)
Theorem drift_reset_keeps_stale_mean (M : MathOps) (b b' : bool) (d : Drift.DriftDetector) :
  fst (Drift.detectConceptDrift M b d) = Drift.DRIFT ->
  let d' := snd (Drift.detectConceptDrift M b d) in
  Drift.p_min d' = Num.PInf /\ Drift.s_min d' = Num.PInf /\ Drift.n d' = 1%nat /\
  Drift.p_i d' = Drift.meanAfter b d /\
  Drift.p_i (snd (Drift.detectConceptDrift M b' d'))
    == (Drift.p_i d' + (if b' then 0 else 1)) / 2 /\
  Drift.p_i (snd (Drift.detectConceptDrift M b' Drift.initial)) == (if b' then 0 else 1).
Proof.
  cbv zeta. intros Hdrift.
  assert (snd (Drift.detectConceptDrift M b d)
          = {| Drift.p_min := Num.PInf; Drift.s_min := Num.PInf; Drift.n := 1;
               Drift.warning_level := Drift.warning_level d;
               Drift.drift_level := Drift.drift_level d;
               Drift.p_i := Drift.meanAfter b d |}) as ->.
  { unfold Drift.detectConceptDrift in *.
    repeat match goal with
           | H : context [if ?c then _ else _] |- _ => destruct c
           end; simpl in Hdrift; try discriminate; reflexivity. }
  cbn [Drift.p_min Drift.s_min Drift.n Drift.p_i].
  generalize (Drift.meanAfter b d). intros m.
  repeat split.
  - destruct b'; unfold Drift.detectConceptDrift;
      repeat match goal with |- context [if ?c then _ else _] => destruct c end;
      cbn [snd Drift.p_i]; unfold Drift.meanAfter;
      cbn [Drift.n Drift.p_i Nat.ltb Nat.leb]; change (Num.ofNat 2) with 2; field.
  - destruct b'; unfold Drift.detectConceptDrift;
      repeat match goal with |- context [if ?c then _ else _] => destruct c end;
      cbn [snd Drift.p_i]; unfold Drift.meanAfter, Drift.initial;
      cbn [Drift.n Drift.p_i Nat.ltb Nat.leb]; change (Num.ofNat 1) with 1; field.
Qed.

(** C10, at the detector that has just declared a drift on a miss (stale
    mean 1/2): a correct prediction next leaves [p_i] at 1/4, not at 0. *)
Lemma drift_reset_keeps_stale_mean_witness :
  Drift.p_i DriftScenario.afterDrift == 1 # 2 /\
  Drift.p_i (snd (Drift.detectConceptDrift Approx.math true DriftScenario.afterDrift)) == 1 # 4.
Proof.
  destruct (drift_reset_keeps_stale_mean Approx.math false true DriftScenario.afterOneHit)
    as (_ & _ & _ & Hp & Hnext & _).
  - vm_compute. reflexivity.
  - fold DriftScenario.afterDrift in Hp, Hnext. split.
    + rewrite Hp. vm_compute. reflexivity.
    + rewrite Hnext, Hp. vm_compute. reflexivity.
Defined.

(** ** Reflexive correction *)

Module ReflexFacts.
Import JS Carry Reflex.

(** The counters the code can reach from [initial]. *)
Definition reachable (st : ReflexState) : Prop :=
  (consecutiveHighConfLosses st <= 1)%nat /\ (reflexiveCorrectionActive st <= 5)%nat /\
  ((0 < reflexiveCorrectionActive st)%nat -> consecutiveHighConfLosses st = 0%nat).

Lemma reachable_initial : reachable initial.
Proof. unfold reachable, initial; simpl. repeat split; lia. Qed.






Lemma check_reachable c st :
  reachable st -> reachable (snd (checkForAnomalousPerformance c st)).
Proof.
  intros (Hl & Ha & Hz). unfold reachable, checkForAnomalousPerformance.
  destruct (0 <? reflexiveCorrectionActive st)%nat eqn:E.
  - apply Nat.ltb_lt in E. simpl. repeat split; lia.
  - apply Nat.ltb_ge in E.
    destruct (2 <=? _)%nat eqn:E2; simpl; repeat split; try lia.
    apply Nat.leb_gt in E2. lia.
Qed.

End ReflexFacts.




(** ** The classifiers on the heap: they compute the pure functions and
    only ever write to cells they allocated *)

Module HeapFacts.
Import JS Carry HeapModel.

Lemma lookup_snoc (h : heap) (c : cell) : (h ++ [c]) !! length h = Some c.
Proof. now apply list_lookup_middle. Qed.

Lemma bind_run {A B} (m : Comp A) (k : A -> Comp B) h a h' :
  m h = Some (a, h') -> bind m k h = k a h'.
Proof. intros H. unfold bind. now rewrite H. Qed.

Lemma numsAt_run h r xs : h !! r = Some (NumArr xs) -> numsAt r h = Some (xs, h).
Proof. intros H. unfold numsAt. now rewrite H. Qed.

Lemma nansAt_run h r xs : h !! r = Some (NanArr xs) -> nansAt r h = Some (xs, h).
Proof. intros H. unfold nansAt. now rewrite H. Qed.

Lemma histAt_run h r hs : h !! r = Some (HistArr hs) -> histAt r h = Some (hs, h).
Proof. intros H. unfold histAt. now rewrite H. Qed.

Lemma ctxAt_run h r c : h !! r = Some (CtxObj c) -> ctxAt r h = Some (c, h).
Proof. intros H. unfold ctxAt. now rewrite H. Qed.

Lemma arrLength_run h r xs : h !! r = Some (NumArr xs) -> arrLength r h = Some (length xs, h).
Proof. intros H. unfold arrLength. now rewrite (bind_run _ _ _ _ _ (numsAt_run _ _ _ H)). Qed.

Lemma arrSum_run h r xs : h !! r = Some (NumArr xs) -> arrSum r h = Some (Stats.sum xs, h).
Proof. intros H. unfold arrSum. now rewrite (bind_run _ _ _ _ _ (numsAt_run _ _ _ H)). Qed.

Lemma arrSlice_run h r xs start stop :
  h !! r = Some (NumArr xs) ->
  arrSlice r start stop h = Some (length h, h ++ [NumArr (Stats.slice start stop xs)]).
Proof. intros H. unfold arrSlice. now rewrite (bind_run _ _ _ _ _ (numsAt_run _ _ _ H)). Qed.

Lemma arrSliceFrom_run h r xs start :
  h !! r = Some (NumArr xs) ->
  arrSliceFrom r start h = Some (length h, h ++ [NumArr (Stats.sliceFrom start xs)]).
Proof.
  intros H. unfold arrSliceFrom. now rewrite (bind_run _ _ _ _ _ (numsAt_run _ _ _ H)).
Qed.

Lemma arrCopy_run h r xs :
  h !! r = Some (NumArr xs) -> arrCopy r h = Some (length h, h ++ [NumArr xs]).
Proof. intros H. unfold arrCopy. now rewrite (bind_run _ _ _ _ _ (numsAt_run _ _ _ H)). Qed.

(** Reversing the array that was allocated last touches that cell only. *)
Lemma arrReverse_last h xs :
  arrReverse (length h) (h ++ [NumArr xs]) = Some (length h, h ++ [NumArr (rev xs)]).
Proof.
  unfold arrReverse.
  rewrite (bind_run _ _ _ _ _ (numsAt_run _ _ _ (lookup_snoc h (NumArr xs)))).
  unfold bind, setNums, ret. cbv beta. rewrite lookup_snoc. cbv beta iota.
  rewrite insert_app_r_alt by lia. now rewrite Nat.sub_diag.
Qed.

(** [data.slice().reverse()] *)
Lemma copy_reverse_run h r xs :
  h !! r = Some (NumArr xs) ->
  bind (arrCopy r) arrReverse h = Some (length h, h ++ [NumArr (rev xs)]).
Proof.
  intros H. rewrite (bind_run _ _ _ _ _ (arrCopy_run _ _ _ H)). apply arrReverse_last.
Qed.

Lemma histMapParse_run h r hs :
  h !! r = Some (HistArr hs) ->
  histMapParse r h = Some (length h, h ++ [NanArr (map numberOf hs)]).
Proof. intros H. unfold histMapParse. now rewrite (bind_run _ _ _ _ _ (histAt_run _ _ _ H)). Qed.

Lemma nanFilter_run h r xs :
  h !! r = Some (NanArr xs) ->
  nanFilter r h = Some (length h, h ++ [NumArr (omap (fun n => inject_Z <$> n) xs)]).
Proof. intros H. unfold nanFilter. now rewrite (bind_run _ _ _ _ _ (nansAt_run _ _ _ H)). Qed.

Lemma omap_map {A B C} (f : B -> option C) (g : A -> B) (l : list A) :
  omap f (map g l) = omap (fun x => f (g x)) l.
Proof.
  induction l as [|x l IH]; [reflexivity|].
  change (omap f (map g (x :: l)))
    with (match f (g x) with Some y => y :: omap f (map g l) | None => omap f (map g l) end).
  rewrite IH. reflexivity.
Qed.

Lemma numbersOfH_run h r hs :
  h !! r = Some (HistArr hs) ->
  numbersOfH r h
  = Some (length (h ++ [NanArr (map numberOf hs)]),
          (h ++ [NanArr (map numberOf hs)]) ++ [NumArr (numbersOf hs)]).
Proof.
  intros H. unfold numbersOfH.
  rewrite (bind_run _ _ _ _ _ (histMapParse_run _ _ _ H)).
  rewrite (nanFilter_run _ _ _ (lookup_snoc h _)).
  unfold numbersOf. now rewrite omap_map.
Qed.

End HeapFacts.

(** *** Specifications of the heap computations *)

Module HeapSpecs.
Import JS Carry HeapModel HeapFacts.

(** The computation succeeds from [h] with a result and a final store
    that satisfy [Q]. *)
Definition yields {A} (m : Comp A) (h : heap) (Q : A -> heap -> Prop) : Prop :=
  exists a h', m h = Some (a, h') /\ Q a h'.

Lemma yields_ret {A} (a : A) h (Q : A -> heap -> Prop) : Q a h -> yields (ret a) h Q.
Proof. intros H. exists a, h. now split. Qed.

Lemma yields_alloc c h (Q : ref -> heap -> Prop) :
  Q (length h) (h ++ [c]) -> yields (alloc c) h Q.
Proof. intros H. exists (length h), (h ++ [c]). now split. Qed.

Lemma yields_step {A B} (m : Comp A) (k : A -> Comp B) h a h1 (Q : B -> heap -> Prop) :
  m h = Some (a, h1) -> yields (k a) h1 Q -> yields (bind m k) h Q.
Proof.
  intros Hm (b & h' & Hk & HQ). exists b, h'. split; [|exact HQ].
  now rewrite (bind_run _ _ _ _ _ Hm).
Qed.

Lemma yields_bind {A B} (m : Comp A) (k : A -> Comp B) h (P : A -> heap -> Prop)
      (Q : B -> heap -> Prop) :
  yields m h P -> (forall a h1, P a h1 -> yields (k a) h1 Q) -> yields (bind m k) h Q.
Proof.
  intros (a & h1 & Hm & HP) Hk. exact (yields_step _ _ _ _ _ _ Hm (Hk _ _ HP)).
Qed.

Lemma yields_assoc {A B C} (m : Comp A) (f : A -> Comp B) (g : B -> Comp C) h
      (Q : C -> heap -> Prop) :
  yields (bind m (fun x => bind (f x) g)) h Q -> yields (bind (bind m f) g) h Q.
Proof.
  intros (c & h' & H & HQ). exists c, h'. split; [|exact HQ].
  unfold bind in *. destruct (m h) as [[a h1]|]; [exact H | discriminate].
Qed.

Lemma yields_weaken {A} (m : Comp A) h (P Q : A -> heap -> Prop) :
  yields m h P -> (forall a h', P a h' -> Q a h') -> yields m h Q.
Proof. intros (a & h' & Hm & HP) H. exists a, h'. split; [exact Hm | now apply H]. Qed.

(** An assignment to a cell allocated after [h0] keeps [h0] a prefix. *)
Lemma prefix_insert (h0 h : heap) r c :
  h0 `prefix_of` h -> (length h0 <= r)%nat -> h0 `prefix_of` <[r := c]> h.
Proof.
  intros [t ->] Hr. rewrite insert_app_r_alt by exact Hr. now apply prefix_app_r.
Qed.

Lemma prefix_snoc (h0 h : heap) c : h0 `prefix_of` h -> h0 `prefix_of` h ++ [c].
Proof. intros H. etransitivity; [exact H | now apply prefix_app_r]. Qed.

End HeapSpecs.

(** Looks a reference up in a store built by appending cells. *)
Ltac heap_lookup :=
  first [ eassumption
        | apply HeapFacts.lookup_snoc
        | apply lookup_app_l_Some; heap_lookup
        | match goal with
          | H : ?a `prefix_of` ?b |- ?b !! _ = Some _ =>
              refine (prefix_lookup_Some a b _ _ _ H); heap_lookup
          end ].

(** [h0] is a prefix of a store built from it by appending cells. *)
Ltac heap_prefix :=
  first [ reflexivity
        | eassumption
        | apply HeapSpecs.prefix_snoc; heap_prefix
        | etransitivity; [ | eassumption ]; heap_prefix ].

(** One step of a computation whose equation is [lem]. *)
Ltac heap_step lem :=
  eapply HeapSpecs.yields_step; [ eapply lem; heap_lookup | ].

Module HeapRuns.
Import JS Carry HeapModel HeapFacts HeapSpecs.

Lemma calculateSMA_spec h r xs period :
  h !! r = Some (NumArr xs) ->
  yields (HeapModel.calculateSMA r period) h
    (fun v h' => v = Stats.calculateSMA xs period /\ h `prefix_of` h').
Proof.
  intros Hr. unfold HeapModel.calculateSMA, Stats.calculateSMA.
  heap_step arrLength_run.
  destruct ((Z.of_nat (length xs) <? period)%Z || (period <=? 0)%Z).
  - apply yields_ret. split; [reflexivity | heap_prefix].
  - heap_step arrSlice_run. heap_step arrSum_run.
    apply yields_ret. split; [reflexivity | heap_prefix].
Qed.

Lemma calculateEMA_spec h r xs period :
  h !! r = Some (NumArr xs) ->
  yields (HeapModel.calculateEMA r period) h
    (fun v h' => v = Stats.calculateEMA xs period /\ h `prefix_of` h').
Proof.
  intros Hr. unfold HeapModel.calculateEMA, Stats.calculateEMA.
  heap_step arrLength_run.
  destruct ((Z.of_nat (length xs) <? period)%Z || (period <=? 0)%Z).
  { apply yields_ret. split; [reflexivity | heap_prefix]. }
  heap_step arrCopy_run.
  eapply yields_step; [apply arrReverse_last|].
  heap_step arrSlice_run. heap_step arrLength_run.
  destruct (Z.of_nat (length (Stats.slice 0 period (rev xs))) <? period)%Z.
  { apply yields_ret. split; [reflexivity | heap_prefix]. }
  heap_step arrCopy_run.
  eapply yields_step; [apply arrReverse_last|].
  eapply yields_bind; [apply calculateSMA_spec; heap_lookup|].
  intros sma h1 [-> Hpre].
  destruct (Stats.calculateSMA (rev (Stats.slice 0 period (rev xs))) period) as [e|].
  - eapply yields_step; [reflexivity|].
    heap_step numsAt_run.
    apply yields_ret. split; [reflexivity|].
    etransitivity; [|exact Hpre]. heap_prefix.
  - destruct (0 <? length (Stats.slice 0 period (rev xs)))%nat.
    + apply yields_assoc. heap_step arrSum_run.
      eapply yields_step; [reflexivity|].
      heap_step numsAt_run.
      apply yields_ret. split; [reflexivity|].
      etransitivity; [|exact Hpre]. heap_prefix.
    + eapply yields_step; [reflexivity|].
      apply yields_ret. split; [reflexivity|].
      etransitivity; [|exact Hpre]. heap_prefix.
Qed.

Section WithMath.
Variable M : MathOps.

Lemma calculateStdDev_spec h r xs period :
  h !! r = Some (NumArr xs) ->
  yields (HeapModel.calculateStdDev M r period) h
    (fun v h' => v = Stats.calculateStdDev M xs period /\ h `prefix_of` h').
Proof.
  intros Hr. unfold HeapModel.calculateStdDev, Stats.calculateStdDev.
  heap_step arrLength_run.
  destruct ((Z.of_nat (length xs) <? period)%Z || (period <=? 0)%Z).
  { apply yields_ret. split; [reflexivity | heap_prefix]. }
  heap_step arrSlice_run. heap_step numsAt_run.
  destruct (length (Stats.slice 0 period xs) <? 2)%nat;
    apply yields_ret; (split; [reflexivity | heap_prefix]).
Qed.

Lemma volatilityOfH_spec h r xs :
  h !! r = Some (NumArr xs) ->
  yields (volatilityOfH M r) h
    (fun v h' => v = Context.volatilityOf M xs /\ h `prefix_of` h').
Proof.
  intros Hr. unfold volatilityOfH, Context.volatilityOf.
  heap_step arrLength_run. heap_step arrSlice_run. heap_step arrLength_run.
  destruct (15 <=? length (Stats.slice 0 (Z.of_nat (Nat.min (length xs) 30)) xs))%nat.
  - eapply yields_bind; [apply calculateStdDev_spec; heap_lookup|].
    intros sd h1 [-> Hpre].
    destruct (Stats.calculateStdDev M _ _);
      apply yields_ret; (split; [reflexivity|]);
      (etransitivity; [|exact Hpre]); heap_prefix.
  - apply yields_ret. split; [reflexivity | heap_prefix].
Qed.

(** [getTrendContext] allocates its result after everything it was
    given, and fills it with the context the pure function computes. *)
Lemma getTrendContext_spec h r hs s m l :
  h !! r = Some (HistArr hs) ->
  yields (HeapModel.getTrendContext M r s m l) h
    (fun res h' => h' !! res = Some (CtxObj (Context.getTrendContext M hs s m l)) /\
                   (length h <= res)%nat /\ h `prefix_of` h').
Proof.
  intros Hr. unfold HeapModel.getTrendContext, Context.getTrendContext.
  heap_step histAt_run.
  destruct (Z.of_nat (length hs) <? l)%Z.
  { apply yields_alloc. split; [heap_lookup|]. split; [lia | heap_prefix]. }
  heap_step numbersOfH_run. heap_step arrLength_run.
  destruct (Z.of_nat (length (numbersOf hs)) <? l)%Z.
  { apply yields_alloc.
    split; [heap_lookup|]. split; [rewrite !length_app; lia | heap_prefix]. }
  eapply yields_bind; [apply calculateEMA_spec; heap_lookup|].
  intros shortMA h1 [-> Hp1].
  eapply yields_bind; [apply calculateEMA_spec; heap_lookup|].
  intros mediumMA h2 [-> Hp2].
  eapply yields_bind; [apply calculateEMA_spec; heap_lookup|].
  intros longMA h3 [-> Hp3].
  assert (h `prefix_of` h3) as Hp.
  { etransitivity; [|exact Hp3]. etransitivity; [|exact Hp2].
    etransitivity; [|exact Hp1]. heap_prefix. }
  destruct (Stats.calculateEMA (numbersOf hs) s) as [shortMA|];
    [|apply yields_alloc;
      split; [heap_lookup|]; split; [now apply prefix_length | heap_prefix]].
  destruct (Stats.calculateEMA (numbersOf hs) m) as [mediumMA|];
    [|apply yields_alloc;
      split; [heap_lookup|]; split; [now apply prefix_length | heap_prefix]].
  destruct (Stats.calculateEMA (numbersOf hs) l) as [longMA|];
    [|apply yields_alloc;
      split; [heap_lookup|]; split; [now apply prefix_length | heap_prefix]].
  eapply yields_bind; [apply calculateStdDev_spec; heap_lookup|].
  intros sd h4 [-> Hp4].
  destruct (Context.stackOf _ _ _ _) as [direction strength].
  eapply yields_bind; [apply volatilityOfH_spec; heap_lookup|].
  intros vol h5 [-> Hp5].
  apply yields_alloc.
  assert (h `prefix_of` h5) as Hp'.
  { etransitivity; [|exact Hp5]. etransitivity; [|exact Hp4]. exact Hp. }
  split; [|split; [now apply prefix_length | heap_prefix]].
  destruct (Context.volatilityOf M (numbersOf hs)) as [volatility volDetails].
  heap_lookup.
Qed.

Lemma transitioningH_spec h r xs s m :
  h !! r = Some (NumArr xs) ->
  yields (transitioningH r s m) h
    (fun v h' => v = Context.transitioning xs s m /\ h `prefix_of` h').
Proof.
  intros Hr. unfold transitioningH, Context.transitioning.
  heap_step arrLength_run.
  destruct (m + 5 <? Z.of_nat (length xs))%Z.
  - heap_step arrSliceFrom_run.
    eapply yields_bind; [apply calculateEMA_spec; heap_lookup|].
    intros prevShortMA h1 [-> Hp1].
    heap_step arrSliceFrom_run.
    eapply yields_bind; [apply calculateEMA_spec; heap_lookup|].
    intros prevMediumMA h2 [-> Hp2].
    eapply yields_bind; [apply calculateEMA_spec; heap_lookup|].
    intros currentShortMA h3 [-> Hp3].
    eapply yields_bind; [apply calculateEMA_spec; heap_lookup|].
    intros currentMediumMA h4 [-> Hp4].
    apply yields_ret. split; [reflexivity|].
    etransitivity; [|exact Hp4]. etransitivity; [|exact Hp3].
    etransitivity; [|exact Hp2]. etransitivity; [|apply prefix_app_r; reflexivity].
    etransitivity; [|exact Hp1]. heap_prefix.
  - apply yields_ret. split; [reflexivity | heap_prefix].
Qed.

(** [getMarketRegimeAndTrendContext] returns the object [getTrendContext]
    allocated, filled with the context the pure function computes. *)
Lemma getMarketRegimeAndTrendContext_spec h r hs s m l :
  h !! r = Some (HistArr hs) ->
  yields (HeapModel.getMarketRegimeAndTrendContext M r s m l) h
    (fun res h' =>
       h' !! res = Some (CtxObj (Context.getMarketRegimeAndTrendContext M hs s m l)) /\
       (length h <= res)%nat /\ h `prefix_of` h').
Proof.
  intros Hr.
  unfold HeapModel.getMarketRegimeAndTrendContext, Context.getMarketRegimeAndTrendContext.
  eapply yields_bind; [apply getTrendContext_spec; exact Hr|].
  intros base h1 (Hbase & Hlen & Hp1).
  heap_step ctxAt_run. heap_step numbersOfH_run.
  eapply yields_bind; [apply transitioningH_spec; heap_lookup|].
  intros isTransitioning h2 [-> Hp2].
  assert (h2 !! base = Some (CtxObj (Context.getTrendContext M hs s m l))) as Hbase2
    by heap_lookup.
  eapply yields_step.
  { unfold setCtx. rewrite Hbase2. reflexivity. }
  apply yields_ret. split; [|split; [exact Hlen|]].
  - apply list_lookup_insert_eq. now apply lookup_lt_Some in Hbase2.
  - apply prefix_insert; [|exact Hlen].
    etransitivity; [|exact Hp2]. etransitivity; [exact Hp1|]. heap_prefix.
Qed.

End WithMath.

End HeapRuns.

(** C9. [getTrendContext] and [getMarketRegimeAndTrendContext], run on a
    store that holds the history array, each return a reference to a context
    object whose six fields are those the pure classifier computes from the
    records of the array; a second call, on the store the first one left,
    returns an object with the same fields; and both calls leave every cell
    that existed before them as it was (they write only to arrays and objects
    they allocated themselves), so the history array still holds the same
    records, and the object the first call returned is not changed by the
    second. *)
Theorem classifiers_repeatable_and_pure
    (M : MathOps) (h : list HeapModel.cell) (history : nat) (hs : list Carry.HistoryRecord)
    (s m l : Z) :
  h !! history = Some (HeapModel.HistArr hs) ->
  (exists r1 h1 r2 h2,
     HeapModel.getTrendContext M history s m l h = Some (r1, h1) /\
     HeapModel.getTrendContext M history s m l h1 = Some (r2, h2) /\
     h1 !! r1 = Some (HeapModel.CtxObj (Context.getTrendContext M hs s m l)) /\
     h2 !! r2 = Some (HeapModel.CtxObj (Context.getTrendContext M hs s m l)) /\
     h2 !! r1 = Some (HeapModel.CtxObj (Context.getTrendContext M hs s m l)) /\
     h `prefix_of` h1 /\ h1 `prefix_of` h2 /\
     h1 !! history = Some (HeapModel.HistArr hs) /\
     h2 !! history = Some (HeapModel.HistArr hs)) /\
  (exists r1 h1 r2 h2,
     HeapModel.getMarketRegimeAndTrendContext M history s m l h = Some (r1, h1) /\
     HeapModel.getMarketRegimeAndTrendContext M history s m l h1 = Some (r2, h2) /\
     h1 !! r1 = Some (HeapModel.CtxObj (Context.getMarketRegimeAndTrendContext M hs s m l)) /\
     h2 !! r2 = Some (HeapModel.CtxObj (Context.getMarketRegimeAndTrendContext M hs s m l)) /\
     h2 !! r1 = Some (HeapModel.CtxObj (Context.getMarketRegimeAndTrendContext M hs s m l)) /\
     h `prefix_of` h1 /\ h1 `prefix_of` h2 /\
     h1 !! history = Some (HeapModel.HistArr hs) /\
     h2 !! history = Some (HeapModel.HistArr hs)).
Proof.
  intros Hh. split.
  - destruct (HeapRuns.getTrendContext_spec M h history hs s m l Hh)
      as (r1 & h1 & Hrun1 & Hc1 & _ & Hp1).
    assert (h1 !! history = Some (HeapModel.HistArr hs)) as Hh1
      by exact (prefix_lookup_Some _ _ _ _ Hh Hp1).
    destruct (HeapRuns.getTrendContext_spec M h1 history hs s m l Hh1)
      as (r2 & h2 & Hrun2 & Hc2 & _ & Hp2).
    exists r1, h1, r2, h2. repeat split; try assumption.
    + exact (prefix_lookup_Some _ _ _ _ Hc1 Hp2).
    + exact (prefix_lookup_Some _ _ _ _ Hh1 Hp2).
  - destruct (HeapRuns.getMarketRegimeAndTrendContext_spec M h history hs s m l Hh)
      as (r1 & h1 & Hrun1 & Hc1 & _ & Hp1).
    assert (h1 !! history = Some (HeapModel.HistArr hs)) as Hh1
      by exact (prefix_lookup_Some _ _ _ _ Hh Hp1).
    destruct (HeapRuns.getMarketRegimeAndTrendContext_spec M h1 history hs s m l Hh1)
      as (r2 & h2 & Hrun2 & Hc2 & _ & Hp2).
    exists r1, h1, r2, h2. repeat split; try assumption.
    + exact (prefix_lookup_Some _ _ _ _ Hc1 Hp2).
    + exact (prefix_lookup_Some _ _ _ _ Hh1 Hp2).
Qed.

(** C9, on a store that holds a history of 25 rounds in its first cell. *)
Lemma classifiers_repeatable_and_pure_witness :
  exists r1 h1 r2 h2,
    HeapModel.getMarketRegimeAndTrendContext Approx.math 0 5 10 20
      [HeapModel.HistArr HistoryScenario.sample25] = Some (r1, h1) /\
    HeapModel.getMarketRegimeAndTrendContext Approx.math 0 5 10 20 h1 = Some (r2, h2) /\
    h1 !! r1 = h2 !! r2 /\
    h2 !! 0%nat = Some (HeapModel.HistArr HistoryScenario.sample25).
Proof.
  destruct (classifiers_repeatable_and_pure Approx.math
              [HeapModel.HistArr HistoryScenario.sample25] 0 HistoryScenario.sample25 5 10 20
              eq_refl) as [_ (r1 & h1 & r2 & h2 & H1 & H2 & Hc1 & Hc2 & _ & _ & _ & _ & Hh)].
  exists r1, h1, r2, h2. repeat split; try assumption. now rewrite Hc1, Hc2.
Defined.

(** ** The prediction cycle *)

Module EngineFacts.
Import JS Carry Ensemble Engine.

(** What both forced returns have in common. *)
Definition forcedResult (out : Output) : Prop :=
  isForcedPrediction out = true /\ confidenceLevel out = 1%Z /\ finalConfidence out = 0.5
  /\ bigConfidence out = 0.5 /\ smallConfidence out = 0.5
  /\ lastPredictionSignals out = [].

Lemma forcedOutput_forced c masterLogic coin source :
  forcedResult (forcedOutput c masterLogic coin source).
Proof. repeat split. Qed.

Lemma forcedOutput_logic c trail marker coin source :
  endsWith marker (overallLogic (forcedOutput c (trail ++ [marker]) coin source)).
Proof. exists trail. reflexivity. Qed.

Lemma forcedOutput_source c masterLogic coin source :
  outputSource (forcedOutput c masterLogic coin source) = source.
Proof. reflexivity. Qed.

Section WithMath.
Variable M : MathOps.

(** The return for a short history. *)
Lemma ultraAIPredict_short env history stats st :
  (length (List.filter confirmed history) < 52)%nat ->
  exists trail,
    fst (ultraAIPredict M env history stats st)
    = forcedOutput (openCycle M env history stats st)
        (trail ++ ["InsufficientHistory_ForceRandom"]) (rndInsufficient env)
        "InsufficientHistory".
Proof.
  intros Hshort. unfold ultraAIPredict. cbv zeta.
  apply Nat.ltb_lt in Hshort. rewrite Hshort.
  eexists. reflexivity.
Qed.

(** The forced return of [decide]. *)
Lemma decide_no_votes env c g consensus :
  validSignalsOf g = [] ->
  exists trail,
    fst (decide M env c g consensus)
    = forcedOutput c (trail ++ ["NoValidSignals_ForceRandom"]) (rndNoSignals env)
        "NoValidSignals".
Proof.
  intros Hnone. unfold decide. cbv zeta. rewrite Hnone.
  eexists. reflexivity.
Qed.

(** The return when the history is long enough and no vote is usable. *)
Lemma ultraAIPredict_no_votes env history stats st :
  (52 <= length (List.filter confirmed history))%nat ->
  usableVotes M env history stats st = [] ->
  exists trail,
    fst (ultraAIPredict M env history stats st)
    = forcedOutput (openCycle M env history stats st)
        (trail ++ ["NoValidSignals_ForceRandom"]) (rndNoSignals env) "NoValidSignals".
Proof.
  intros Hlong Hnone. unfold ultraAIPredict. cbv zeta.
  apply Nat.ltb_ge in Hlong. rewrite Hlong.
  apply decide_no_votes. exact Hnone.
Qed.

End WithMath.

(** Both forced returns, read off the output. *)
Lemma ultraAIPredict_degenerate
    (M : MathOps) (env : Engine.Env) (history : list Carry.HistoryRecord)
    (stats : option Carry.Stats) (st : Engine.State) :
  (length (List.filter Engine.confirmed history) < 52)%nat
  \/ Engine.usableVotes M env history stats st = [] ->
  let out := fst (Engine.ultraAIPredict M env history stats st) in
  Engine.isForcedPrediction out = true
  /\ Engine.confidenceLevel out = 1%Z
  /\ Engine.finalConfidence out = 0.5
  /\ 0.49 <= Engine.finalConfidence out <= 0.51
  /\ Engine.bigConfidence out = 0.5 /\ Engine.smallConfidence out = 0.5
  /\ (Engine.endsWith "InsufficientHistory_ForceRandom" (Engine.overallLogic out)
      /\ Engine.outputSource out = "InsufficientHistory"
      \/ Engine.endsWith "NoValidSignals_ForceRandom" (Engine.overallLogic out)
         /\ Engine.outputSource out = "NoValidSignals").
Proof.
  intros Hdegenerate. cbv zeta.
  assert (exists c trail marker coin source,
             fst (Engine.ultraAIPredict M env history stats st)
             = Engine.forcedOutput c (trail ++ [marker]) coin source
             /\ (marker = "InsufficientHistory_ForceRandom" /\ source = "InsufficientHistory"
                 \/ marker = "NoValidSignals_ForceRandom" /\ source = "NoValidSignals"))
    as (c & trail & marker & coin & source & -> & Hmarker).
  { destruct (Nat.lt_ge_cases (length (List.filter Engine.confirmed history)) 52)
      as [Hshort | Hlong].
    - destruct (ultraAIPredict_short M env history stats st Hshort) as [trail E].
      do 5 eexists. split; [exact E | left; split; reflexivity].
    - destruct Hdegenerate as [Hshort | Hnone]; [lia |].
      destruct (ultraAIPredict_no_votes M env history stats st Hlong Hnone)
        as [trail E].
      do 5 eexists. split; [exact E | right; split; reflexivity]. }
  destruct (forcedOutput_forced c (trail ++ [marker]) coin source)
    as (Hforced & Hlevel & Hconf & Hbig & Hsmall & _).
  rewrite Hconf.
  repeat split; try assumption; try (cbv; discriminate).
  pose proof (forcedOutput_logic c trail marker coin source) as Hlogic.
  destruct Hmarker as [[-> ->] | [-> ->]]; [left | right]; split; auto.
Qed.

End EngineFacts.

(** ** The exported entry point *)

Module ExportedFacts.
Import JS Carry Engine Exported.

Lemma records_null before after : records (before ++ None :: after) = None.
Proof.
  induction before as [|[entry|] before IH]; cbn [app records]; [reflexivity| |reflexivity].
  now rewrite IH.
Qed.

Lemma records_objects history : records (map Some history) = Some history.
Proof.
  induction history as [|entry history IH]; cbn [map records]; [reflexivity|].
  now rewrite IH.
Qed.

Lemma inherited_false key : ~ In key inheritedKeys -> inherited key = false.
Proof.
  intros H. unfold inherited. destruct (existsb _ _) eqn:E; [|reflexivity].
  apply existsb_exists in E as (k & Hk & Ek). apply String.eqb_eq in Ek. now subst.
Qed.

Lemma not_inherited key : inherited key = false -> ~ In key inheritedKeys.
Proof.
  intros H Hin. unfold inherited in H.
  assert (existsb (String.eqb key) inheritedKeys = true) as E; [|congruence].
  apply existsb_exists. exists key. split; [exact Hin | apply String.eqb_refl].
Qed.

(** Statistics that name no inherited property. *)
Lemma signalUpdateThrows_false s :
  (forall votes v, Carry.lastPredictionSignals s = Some votes -> In v votes ->
                   ~ In (v_source v) inheritedKeys) ->
  signalUpdateThrows s = false.
Proof.
  intros H. unfold signalUpdateThrows.
  destruct (Carry.lastPredictionSignals s) as [votes|]; [|reflexivity].
  destruct (getBigSmallFromNumber _); [|reflexivity].
  assert (existsb (fun v => inherited (v_source v)) votes = false) as ->;
    [|apply andb_false_r].
  destruct (existsb _ votes) eqn:E; [|reflexivity].
  apply existsb_exists in E as (v & Hv & Ev).
  rewrite (inherited_false _ (H votes v eq_refl Hv)) in Ev. discriminate.
Qed.

Lemma profileUpdateThrows_false s :
  ~ In (keyOf (lastMacroRegime s)) inheritedKeys -> profileUpdateThrows s = false.
Proof.
  intros H. unfold profileUpdateThrows.
  destruct (Carry.lastPredictionSignals s); [|reflexivity].
  destruct (lastPredictedOutcome s); [|reflexivity].
  rewrite (inherited_false _ H). apply andb_false_r.
Qed.

(** On objects and such statistics the call returns what the model of the
    function computes. *)
Lemma ultraAIPredict_returns M env history stats st :
  (forall s votes v, stats = Some s -> Carry.lastPredictionSignals s = Some votes ->
                     In v votes -> ~ In (v_source v) inheritedKeys) ->
  (forall s, stats = Some s -> ~ In (keyOf (lastMacroRegime s)) inheritedKeys) ->
  Exported.ultraAIPredict M env (map Some history) stats st
  = Returns (Engine.ultraAIPredict M env history stats st).
Proof.
  intros Hv Hr. unfold Exported.ultraAIPredict. rewrite records_objects.
  destruct stats as [s|]; [|reflexivity].
  rewrite signalUpdateThrows_false by (intros votes v; apply Hv; reflexivity).
  rewrite profileUpdateThrows_false by (apply Hr; reflexivity).
  reflexivity.
Qed.

(** The macro regime of the carried statistics is an inherited name, and
    the statistics score a prediction: line 1513 throws. *)
Lemma ultraAIPredict_throws_on_inherited_regime M env st :
  Exported.ultraAIPredict M env []
    (Some (mkStats PNull (Some 0.5) (Some []) (Str "7") (Some BIG) (Some 0.5) 1 PNull
             (Str "UNKNOWN") (Str "constructor") false (Str "STABLE_MODERATE"))) st
  = Throws (TypeErrorAt 1513).
Proof. reflexivity. Qed.

End ExportedFacts.

(** C2.  The claim holds on a history whose entries are all objects, not on
    every history the function can be handed: when the array holds a [null]
    entry, anywhere, the call throws a [TypeError], whatever the statistics
    and the state of the module, at the first line that reads a field of
    every entry (line 196, or line 244 for 20 entries or more), before the
    filter of line 1995 that would have skipped the entry is reached.  In
    particular [ultraAIPredict([null], stats)], a history with no confirmed
    record at all, throws instead of returning the forced result. *)
Theorem ultraAIPredict_throws_on_null_entry
    (M : MathOps) (env : Engine.Env) (before after : list (option Carry.HistoryRecord))
    (stats : option Carry.Stats) (st : Engine.State) :
  Exported.ultraAIPredict M env (before ++ None :: after) stats st
  = Exported.Throws
      (Exported.TypeErrorAt
         (if (length (before ++ None :: after) <? 20)%nat then 196 else 244))
  /\ Exported.ultraAIPredict M env [None] stats st = Exported.Throws (Exported.TypeErrorAt 196).
Proof.
  unfold Exported.ultraAIPredict. split.
  - now rewrite ExportedFacts.records_null.
  - reflexivity.
Qed.

(** X30.  On a history whose entries are all objects, and with carried
    statistics in which no vote source and no macro regime is an inherited
    property name, the exported call returns.  When moreover the history
    holds fewer than 52 confirmed records, or no signal of the cycle is
    usable, what it returns is a forced result: [isForcedPrediction] is true,
    the confidence level is 1, the final confidence is 0.5, inside
    [0.49, 0.51], both displayed confidences are 0.5, and the trail
    [overallLogic] ends with the marker of the path taken. *)
Theorem exported_call_forced_when_degenerate
    (M : MathOps) (env : Engine.Env) (history : list Carry.HistoryRecord)
    (stats : option Carry.Stats) (st : Engine.State) :
  (forall s votes v,
     stats = Some s -> Carry.lastPredictionSignals s = Some votes -> In v votes ->
     ~ In (Carry.v_source v) JS.inheritedKeys) ->
  (forall s, stats = Some s ->
     ~ In (Engine.keyOf (Carry.lastMacroRegime s)) JS.inheritedKeys) ->
  exists out st',
    Exported.ultraAIPredict M env (map Some history) stats st = Exported.Returns (out, st')
    /\ ((length (List.filter Engine.confirmed history) < 52)%nat
        \/ Engine.usableVotes M env history stats st = [] ->
        Engine.isForcedPrediction out = true
        /\ Engine.confidenceLevel out = 1%Z
        /\ Engine.finalConfidence out = 0.5
        /\ 0.49 <= Engine.finalConfidence out <= 0.51
        /\ Engine.bigConfidence out = 0.5 /\ Engine.smallConfidence out = 0.5
        /\ (Engine.endsWith "InsufficientHistory_ForceRandom" (Engine.overallLogic out)
            /\ Engine.outputSource out = "InsufficientHistory"
            \/ Engine.endsWith "NoValidSignals_ForceRandom" (Engine.overallLogic out)
               /\ Engine.outputSource out = "NoValidSignals")).
Proof.
  intros Hv Hr.
  exists (fst (Engine.ultraAIPredict M env history stats st)),
         (snd (Engine.ultraAIPredict M env history stats st)).
  split.
  - rewrite (ExportedFacts.ultraAIPredict_returns M env history stats st Hv Hr).
    now destruct (Engine.ultraAIPredict M env history stats st).
  - apply EngineFacts.ultraAIPredict_degenerate.
Qed.

(** A short history (25 rounds), with the statistics the server starts
    with. *)
Lemma exported_call_forced_when_degenerate_witness :
  exists out st',
    Exported.ultraAIPredict Approx.math EngineScenario.eveningPeak
      (map Some HistoryScenario.sample25) (Some EngineScenario.serverStats)
      Engine.initialState = Exported.Returns (out, st')
    /\ Engine.isForcedPrediction out = true
    /\ Engine.confidenceLevel out = 1%Z
    /\ Engine.finalConfidence out = 0.5.
Proof.
  destruct (exported_call_forced_when_degenerate Approx.math EngineScenario.eveningPeak
              HistoryScenario.sample25 (Some EngineScenario.serverStats) Engine.initialState)
    as (out & st' & Hcall & Hforced).
  - intros s votes v [= <-] [= <-] [].
  - intros s [= <-]. apply ExportedFacts.not_inherited. reflexivity.
  - exists out, st'. split; [exact Hcall |].
    destruct Hforced as (Hf & Hl & Hc & _).
    + left. vm_compute. lia.
    + split; [exact Hf |]. split; [exact Hl | exact Hc].
Defined.

Module EngineRuns.
Import JS Carry Engine EngineScenario.

(** The cycle on [mirrorHistory], evaluated. *)
Lemma mirrorCycle_digest :
  digest mirrorCycle 1.046875 0.999 0.001
  = (false, BIG, 2%Z, [("Transition", Some BIG); ("Pattern-Mirror->BIG", Some BIG)],
     true, true, true).
Proof. vm_compute. reflexivity. Qed.

End EngineRuns.

(** C1 (the divergence).  In a freshly loaded module, at seven in the
    evening IST, on the 52 settled rounds of [mirrorHistory] with the
    statistics [server.js] starts from, two analyzers vote, both for BIG
    (Transition and Pattern-Mirror); the raw confidence 1 is stretched by the
    prime-time factor 1.25 to 1.125 and shrunk by the uncertainty factor
    0.875 (score 15), so [ultraAIPredict] returns, not forced and at level 2,
    the final confidence 1.046875, which is above 1; the displayed
    confidences are the clamped 0.999 and 0.001. *)
Theorem ultraAIPredict_confidence_above_one :
  Engine.isForcedPrediction EngineScenario.mirrorCycle = false
  /\ Engine.finalDecision EngineScenario.mirrorCycle = JS.BIG
  /\ Engine.confidenceLevel EngineScenario.mirrorCycle = 2%Z
  /\ map (fun v => (Carry.v_source v, Carry.v_prediction v))
         (Engine.lastPredictionSignals EngineScenario.mirrorCycle)
     = [("Transition", Some JS.BIG); ("Pattern-Mirror->BIG", Some JS.BIG)]
  /\ Engine.finalConfidence EngineScenario.mirrorCycle == 1.046875
  /\ 1 < Engine.finalConfidence EngineScenario.mirrorCycle
  /\ Engine.bigConfidence EngineScenario.mirrorCycle == 0.999
  /\ Engine.smallConfidence EngineScenario.mirrorCycle == 0.001.
Proof.
  pose proof EngineRuns.mirrorCycle_digest as Hrun.
  unfold EngineScenario.digest in Hrun.
  generalize dependent EngineScenario.mirrorCycle. intros out Hrun.
  injection Hrun as Hforced Hdecision Hlevel Hvotes Hconf Hbig Hsmall.
  apply Qeq_bool_eq in Hconf, Hbig, Hsmall.
  split; [exact Hforced |]. split; [exact Hdecision |]. split; [exact Hlevel |].
  split; [exact Hvotes |]. split; [exact Hconf |].
  split; [rewrite Hconf; reflexivity |].
  split; [exact Hbig | exact Hsmall].
Qed.

(** ** The fusion stage *)

Module FusionFacts.
Import JS Carry Market Ensemble Engine.

(** The two clamped, complementary displays. *)
Lemma clamp_pair (x : Q) :
  (0.001 <= Qmax 0.001 (Qmin 0.999 x) <= 0.999)
  /\ (0.001 <= Qmax 0.001 (Qmin 0.999 (1 - x)) <= 0.999)
  /\ Qmax 0.001 (Qmin 0.999 x) + Qmax 0.001 (Qmin 0.999 (1 - x)) == 1.
Proof. minmax_cases; repeat split; lra. Qed.

(** What the displays of an output satisfy. *)
Definition displaysOk (out : Output) : Prop :=
  (0.001 <= bigConfidence out <= 0.999) /\ (0.001 <= smallConfidence out <= 0.999)
  /\ bigConfidence out + smallConfidence out == 1.

Lemma forcedOutput_display c masterLogic coin source :
  displaysOk (forcedOutput c masterLogic coin source).
Proof. unfold displaysOk. cbn [forcedOutput bigConfidence smallConfidence]. lra. Qed.

Section WithMath.
Variable M : MathOps.

Lemma fuse_display env c consensus validSignals masterLogic :
  displaysOk (fuse M env c consensus validSignals masterLogic).
Proof.
  unfold displaysOk, fuse. cbv zeta. cbn [bigConfidence smallConfidence].
  match goal with
  | |- context [match ?d with BIG => ?fc | SMALL => _ end] =>
      generalize fc; intros x; destruct d
  end.
  - apply clamp_pair.
  - pose proof (clamp_pair x) as (Hb & Hs & Hsum). repeat split; try tauto. lra.
Qed.

Lemma decide_display env c g consensus :
  displaysOk (fst (decide M env c g consensus)).
Proof.
  unfold decide. cbv zeta.
  destruct (length (validSignalsOf g) =? 0)%nat; cbn [fst].
  - apply forcedOutput_display.
  - apply fuse_display.
Qed.

(** Every return of [ultraAIPredict] goes through [forcedOutput] or
    [fuse]. *)
Lemma ultraAIPredict_cases env history stats st (P : Output -> Prop) :
  (forall masterLogic coin source,
      P (forcedOutput (openCycle M env history stats st) masterLogic coin source)) ->
  (forall consensus validSignals masterLogic,
      validSignals
      = validSignalsOf (fst (collectSignals M env history (openCycle M env history stats st))) ->
      consensus = snd (collectSignals M env history (openCycle M env history stats st)) ->
      P (fuse M env (openCycle M env history stats st) consensus validSignals masterLogic)) ->
  P (fst (ultraAIPredict M env history stats st)).
Proof.
  intros Hforced Hfuse. unfold ultraAIPredict. cbv zeta.
  destruct (length (List.filter confirmed history) <? 52)%nat; cbn [fst].
  - apply Hforced.
  - generalize (collectSignals M env history (openCycle M env history stats st)) Hfuse.
    intros gathered Hfuse'. unfold decide. cbv zeta.
    destruct (length (validSignalsOf (fst gathered)) =? 0)%nat; cbn [fst].
    + apply Hforced.
    + apply Hfuse'; reflexivity.
Qed.

End WithMath.

End FusionFacts.

(** X1.  Whatever the history, the statistics, the module state, the clock
    and the random draws, the two displayed confidences of the object
    [ultraAIPredict] returns lie in [0.001, 0.999] and add up to 1. *)
Theorem ultraAIPredict_display_confidences
    (M : MathOps) (env : Engine.Env) (history : list Carry.HistoryRecord)
    (stats : option Carry.Stats) (st : Engine.State) :
  0.001 <= Engine.bigConfidence (fst (Engine.ultraAIPredict M env history stats st)) <= 0.999
  /\ 0.001 <= Engine.smallConfidence (fst (Engine.ultraAIPredict M env history stats st))
     <= 0.999
  /\ Engine.bigConfidence (fst (Engine.ultraAIPredict M env history stats st))
     + Engine.smallConfidence (fst (Engine.ultraAIPredict M env history stats st)) == 1.
Proof.
  apply (FusionFacts.ultraAIPredict_cases M env history stats st FusionFacts.displaysOk).
  - intros. apply FusionFacts.forcedOutput_display.
  - intros. apply FusionFacts.fuse_display.
Qed.

(** ** Levels, quality score and the range of the confidence *)

Module FusionBounds.
Import JS Carry Context Market Ensemble Engine.

(** How the level, the forced flag, the confidence and the quality score of
    an output hang together. *)
Definition levelsOk (env : Env) (out : Output) : Prop :=
  (confidenceLevel out = 1 \/ confidenceLevel out = 2 \/ confidenceLevel out = 3)%Z
  /\ (isForcedPrediction out = true ->
      confidenceLevel out = 1%Z
      /\ (finalConfidence out = 0.5
          \/ finalConfidence out = 0.5 + (rndJitter env - 0.5) * 0.02))
  /\ (confidenceLevel out = 3%Z ->
      isForcedPrediction out = false /\ 0.72 < finalConfidence out
      /\ 0.70 < predictionQualityScore out)
  /\ (confidenceLevel out = 2%Z ->
      isForcedPrediction out = false /\ 0.60 < finalConfidence out
      /\ 0.55 < predictionQualityScore out)
  /\ 0.01 <= predictionQualityScore out <= 0.99.

Lemma forcedOutput_levels env c masterLogic coin source :
  levelsOk env (forcedOutput c masterLogic coin source).
Proof.
  unfold levelsOk.
  cbn [forcedOutput confidenceLevel isForcedPrediction finalConfidence predictionQualityScore].
  repeat split; auto; try discriminate; lra.
Qed.

Section WithMath.
Variable M : MathOps.

Lemma fuse_levels env c consensus validSignals masterLogic :
  levelsOk env (fuse M env c consensus validSignals masterLogic).
Proof.
  unfold levelsOk, fuse. cbv zeta.
  cbn [confidenceLevel isForcedPrediction finalConfidence predictionQualityScore].
  match goal with
  | |- context [calculateUncertaintyScore M ?a ?b ?d ?e ?f ?g ?h ?i] =>
      generalize (uncertaintyScore (calculateUncertaintyScore M a b d e f g h i))
  end.
  intros u.
  match goal with
  | |- context [Qmin 0.99 ?p] => generalize p
  end.
  intros pqs0.
  match goal with
  | |- context [Num.gtb ?fc (if _ then 0.72 else 0.78)] => generalize fc
  end.
  intros fc.
  generalize (if c_isReflexiveCorrection c
                 || match c_driftState c with Drift.DRIFT => true | _ => false end
              then 65 else 95).
  intros threshold.
  assert (0.01 <= Qmax 0.01 (Qmin 0.99 pqs0) <= 0.99) as Hpqs
      by (minmax_cases; split; lra).
  revert Hpqs. generalize (Qmax 0.01 (Qmin 0.99 pqs0)). intros pqs Hpqs.
  destruct (c_primeTimeSession c) as [p|];
    destruct (Num.geb u threshold); cbn [orb];
    try destruct (Num.ltb pqs 0.20) eqn:Elow;
    try (repeat split; auto; intros; try discriminate; tauto);
    match goal with
    | |- context [Num.gtb fc ?a && Num.gtb pqs ?b] =>
        destruct (Num.gtb fc a) eqn:E3; destruct (Num.gtb pqs b) eqn:E3'; cbn [andb]
    end;
    try match goal with
    | |- context [Num.gtb fc ?a && Num.gtb pqs ?b] =>
        destruct (Num.gtb fc a) eqn:E2; destruct (Num.gtb pqs b) eqn:E2'; cbn [andb]
    end;
    num_props;
    (split; [auto |]);
    (split; [intros; discriminate |]);
    (split; [intros; try discriminate; repeat split; auto; lra |]);
    (split; [intros; try discriminate; repeat split; auto; lra |]);
    exact Hpqs.
Qed.

End WithMath.

End FusionBounds.

(** X2.  The confidence level [ultraAIPredict] returns is 1, 2 or 3 and its
    quality score lies in [0.01, 0.99]; level 3 is only returned unforced
    with a final confidence above 0.72 and a quality score above 0.70, level
    2 only unforced with a final confidence above 0.60 and a quality score
    above 0.55. *)
Theorem ultraAIPredict_levels
    (M : MathOps) (env : Engine.Env) (history : list Carry.HistoryRecord)
    (stats : option Carry.Stats) (st : Engine.State) :
  (Engine.confidenceLevel (fst (Engine.ultraAIPredict M env history stats st)) = 1
   \/ Engine.confidenceLevel (fst (Engine.ultraAIPredict M env history stats st)) = 2
   \/ Engine.confidenceLevel (fst (Engine.ultraAIPredict M env history stats st)) = 3)%Z
  /\ (Engine.confidenceLevel (fst (Engine.ultraAIPredict M env history stats st)) = 3%Z ->
      Engine.isForcedPrediction (fst (Engine.ultraAIPredict M env history stats st)) = false
      /\ 0.72 < Engine.finalConfidence (fst (Engine.ultraAIPredict M env history stats st))
      /\ 0.70
         < Engine.predictionQualityScore (fst (Engine.ultraAIPredict M env history stats st)))
  /\ (Engine.confidenceLevel (fst (Engine.ultraAIPredict M env history stats st)) = 2%Z ->
      Engine.isForcedPrediction (fst (Engine.ultraAIPredict M env history stats st)) = false
      /\ 0.60 < Engine.finalConfidence (fst (Engine.ultraAIPredict M env history stats st))
      /\ 0.55
         < Engine.predictionQualityScore (fst (Engine.ultraAIPredict M env history stats st)))
  /\ 0.01 <= Engine.predictionQualityScore (fst (Engine.ultraAIPredict M env history stats st))
     <= 0.99.
Proof.
  assert (FusionBounds.levelsOk env (fst (Engine.ultraAIPredict M env history stats st)))
    as (Hlevel & _ & H3 & H2 & Hpqs).
  { apply (FusionFacts.ultraAIPredict_cases M env history stats st
             (FusionBounds.levelsOk env)).
    - intros. apply FusionBounds.forcedOutput_levels.
    - intros. apply FusionBounds.fuse_levels. }
  auto.
Qed.

(** X3.  Whenever [ultraAIPredict] marks its result as forced, on any of its
    three forced paths (short history, no usable vote, uncertainty or quality
    beyond the threshold), the confidence level is 1 and, the jitter draw
    being in [0, 1), the final confidence lies in [0.49, 0.51]. *)
Theorem ultraAIPredict_forced_is_near_even
    (M : MathOps) (env : Engine.Env) (history : list Carry.HistoryRecord)
    (stats : option Carry.Stats) (st : Engine.State) :
  Engine.unitDraw (Engine.rndJitter env) ->
  Engine.isForcedPrediction (fst (Engine.ultraAIPredict M env history stats st)) = true ->
  Engine.confidenceLevel (fst (Engine.ultraAIPredict M env history stats st)) = 1%Z
  /\ 0.49 <= Engine.finalConfidence (fst (Engine.ultraAIPredict M env history stats st))
     <= 0.51.
Proof.
  intros [Hlo Hhi] Hforced.
  assert (FusionBounds.levelsOk env (fst (Engine.ultraAIPredict M env history stats st)))
    as (_ & Hf & _).
  { apply (FusionFacts.ultraAIPredict_cases M env history stats st
             (FusionBounds.levelsOk env)).
    - intros. apply FusionBounds.forcedOutput_levels.
    - intros. apply FusionBounds.fuse_levels. }
  destruct (Hf Hforced) as [Hlevel [-> | ->]]; split; auto; lra.
Qed.

(** The cycle on [streakHistory]: one signal votes, the uncertainty score
    is 125, and the result is forced. *)
Lemma ultraAIPredict_forced_is_near_even_witness :
  Engine.confidenceLevel EngineScenario2.streakCycle = 1%Z
  /\ 0.49 <= Engine.finalConfidence EngineScenario2.streakCycle <= 0.51.
Proof.
  apply (ultraAIPredict_forced_is_near_even Approx.math EngineScenario.eveningPeak
           EngineScenario2.streakHistory (Some EngineScenario.serverStats)
           Engine.initialState).
  - split; vm_compute; [discriminate | reflexivity].
  - vm_compute. reflexivity.
Defined.

(** ** The range of the final confidence *)

Module FusionRange.
Import JS Carry Context Market Ensemble Engine.

(** A fold that only adds non-negative amounts stays non-negative. *)
Lemma fold_left_nonneg {A} (f : Q -> A -> Q) (P : A -> Prop) :
  (forall acc a, 0 <= acc -> P a -> 0 <= f acc a) ->
  forall l acc, Forall P l -> 0 <= acc -> 0 <= fold_left f l acc.
Proof.
  intros Hf l. induction l as [| a rest IH]; intros acc Hall Hacc; cbn [fold_left].
  - exact Hacc.
  - inversion Hall; subst. apply IH; [assumption |]. apply Hf; assumption.
Qed.

Lemma scoreOf_nonneg o validSignals :
  Forall (fun s => 0 <= adjustedWeight s) validSignals -> 0 <= scoreOf o validSignals.
Proof.
  intros Hall. unfold scoreOf.
  apply (fold_left_nonneg _ (fun s => 0 <= adjustedWeight s)); [| exact Hall | lra].
  intros acc s Hacc Hs. destruct (Outcome_eqb (prediction s) o); lra.
Qed.

Lemma validSignalsOf_positive g :
  Forall (fun s => 0 <= adjustedWeight s) (validSignalsOf g).
Proof.
  unfold validSignalsOf. induction (signals g) as [| s rest IH]; cbn [List.filter].
  - constructor.
  - destruct (Num.gtb (adjustedWeight s) Learner.MIN_ABSOLUTE_WEIGHT) eqn:E; [| exact IH].
    constructor; [| exact IH].
    num_props. unfold Learner.MIN_ABSOLUTE_WEIGHT in E. lra.
Qed.

(** The four probability tables of [analyzeAdvancedMarketRegime]. *)
Lemma advancedRegime_tilt :
  forall (M : MathOps) trendContext marketEntropyState,
    let p := probabilities (analyzeAdvancedMarketRegime M trendContext marketEntropyState) in
    0.25 <= 1 + bullTrend p - bearTrend p <= 1.75
    /\ 0.25 <= 1 + bearTrend p - bullTrend p <= 1.75.
Proof.
  intros M trendContext marketEntropyState. cbv zeta.
  unfold analyzeAdvancedMarketRegime. cbv zeta. cbn [probabilities].
  repeat match goal with
         | |- context [if ?b then _ else _] => destruct b
         end;
    cbn [bullTrend bearTrend]; split; lra.
Qed.

Lemma getPrimeTimeSession_bounds istHour p :
  getPrimeTimeSession istHour = Some p ->
  1.10 <= confidence p <= 1.25 /\ 1.15 <= aggression p <= 1.35.
Proof.
  unfold getPrimeTimeSession.
  repeat match goal with
         | |- context [if ?b then _ else _] => destruct b
         end;
    intros H; inversion H; subst; cbn [confidence aggression]; split; lra.
Qed.

Lemma getRealTimeExternalData_bounds env :
  0.88407 <= fst (getRealTimeExternalData env) <= 1.0605.
Proof.
  unfold getRealTimeExternalData. cbv zeta. cbn [fst].
  repeat match goal with
         | |- context [if ?b then _ else _] => destruct b
         end;
    split; lra.
Qed.

Section WithMath.
Variable M : MathOps.

Lemma consensus_factor_bounds signals trendContext :
  0.4 <= factor (analyzePredictionConsensus M signals trendContext) <= 1.6.
Proof.
  unfold analyzePredictionConsensus. cbv zeta.
  destruct (length signals <? 4)%nat; [cbn [factor]; lra |].
  match goal with
  | |- context [fold_left ?f ?l ?a] => destruct (fold_left f l a) as [[bigCats smallCats] mixedCats]
  end.
  cbn [factor]. minmax_cases; lra.
Qed.

Lemma uncertaintyTerms_nonneg trendContext stability marketEntropyState signalConsistency
    pathConfluence globalAccuracy isReflexiveCorrection driftState :
  Forall (fun t => 0 <= fst t)
    (uncertaintyTerms M trendContext stability marketEntropyState signalConsistency
       pathConfluence globalAccuracy isReflexiveCorrection driftState).
Proof.
  unfold uncertaintyTerms.
  repeat apply Forall_app_2.
  - destruct isReflexiveCorrection; repeat constructor; cbn [fst]; lra.
  - destruct driftState; repeat constructor; cbn [fst]; lra.
  - destruct (negb (isStable stability)); repeat constructor; cbn [fst].
    destruct (_ || _); lra.
  - destruct (includes (state marketEntropyState) "CHAOS"); repeat constructor; cbn [fst].
    destruct (String.eqb _ _); lra.
  - destruct (Num.ltb (consistencyScore signalConsistency) 0.6) eqn:E;
      repeat constructor; cbn [fst]. num_props. lra.
  - destruct (diversePaths pathConfluence <? 3)%nat eqn:E; repeat constructor; cbn [fst].
    apply Nat.ltb_lt in E.
    assert (Num.ofNat (diversePaths pathConfluence) <= Num.ofNat 3) as Hle
        by (apply NumFacts.ofNat_le; lia).
    change (Num.ofNat 3) with 3 in Hle. lra.
  - destruct (isTransitioning trendContext); repeat constructor; cbn [fst]; lra.
  - destruct (String.eqb (volatility trendContext) "HIGH"); repeat constructor; cbn [fst]; lra.
  - destruct (Num.ltb globalAccuracy 0.48) eqn:E; repeat constructor; cbn [fst].
    num_props. lra.
Qed.

Lemma uncertaintyScore_nonneg trendContext stability marketEntropyState signalConsistency
    pathConfluence globalAccuracy isReflexiveCorrection driftState :
  0 <= uncertaintyScore
         (calculateUncertaintyScore M trendContext stability marketEntropyState
            signalConsistency pathConfluence globalAccuracy isReflexiveCorrection driftState).
Proof.
  unfold calculateUncertaintyScore. cbv zeta. cbn [uncertaintyScore].
  pose proof (uncertaintyTerms_nonneg trendContext stability marketEntropyState
                signalConsistency pathConfluence globalAccuracy isReflexiveCorrection
                driftState) as Hall.
  apply (fold_left_nonneg _ (fun t => 0 <= fst t)); [| exact Hall | lra].
  intros acc t Hacc Ht. lra.
Qed.

(** The locals [openCycle] leaves for the fusion. *)
Lemma openCycle_fields env history stats st :
  let c := openCycle M env history stats st in
  c_primeTimeSession c = getPrimeTimeSession (raw (getCurrentISTHour M env))
  /\ c_realTimeFactor c = fst (getRealTimeExternalData env)
  /\ c_trendContext c = getMarketRegimeAndTrendContext M history 5 10 20
  /\ c_stability c = analyzeTrendStability M history
  /\ c_marketEntropyAnalysis c
     = analyzeMarketEntropyState M history (c_trendContext c) (c_stability c)
  /\ c_advancedRegime c
     = analyzeAdvancedMarketRegime M (c_trendContext c) (c_marketEntropyAnalysis c).
Proof.
  cbv zeta. unfold openCycle. cbv zeta.
  destruct (getRealTimeExternalData env) as [realTimeFactor realTimeReason].
  destruct (Reflex.checkForAnomalousPerformance stats (reflexState st))
    as [isReflexiveCorrection reflex1].
  repeat match goal with
         | |- context [let '(a, b) := ?x in _] => destruct x
         end.
  cbn [c_primeTimeSession c_realTimeFactor c_trendContext c_stability
       c_marketEntropyAnalysis c_advancedRegime fst].
  repeat split; reflexivity.
Qed.

(** The consensus [collectSignals] returns is the consensus of some list of
    signals. *)
Lemma collectSignals_consensus env history c :
  exists signals,
    snd (collectSignals M env history c)
    = analyzePredictionConsensus M signals (c_trendContext c).
Proof.
  unfold collectSignals. cbv zeta.
  match goal with
  | |- context [gatherSignals M ?a ?b ?d ?e ?f ?g ?h ?i ?j ?k] =>
      generalize (gatherSignals M a b d e f g h i j k)
  end.
  intros g. exists (signals g).
  destruct (analyzeQuantumSuperpositionState (signals g)
              (analyzePredictionConsensus M (signals g) (c_trendContext c)) 0.22)
    as [superpositionSignal|]; [| reflexivity].
  destruct (Learner.getDynamicWeightAdjustment _ _ _ _ _ _). reflexivity.
Qed.

(** The range of the confidence [fuse] returns, for inputs as
    [ultraAIPredict] passes them. *)
Lemma fuse_range env c consensus validSignals masterLogic :
  unitDraw (rndJitter env) ->
  Forall (fun s => 0 <= adjustedWeight s) validSignals ->
  0.4 <= factor consensus <= 1.6 ->
  0 <= 1 + bullTrend (probabilities (c_advancedRegime c))
       - bearTrend (probabilities (c_advancedRegime c)) ->
  0 <= 1 + bearTrend (probabilities (c_advancedRegime c))
       - bullTrend (probabilities (c_advancedRegime c)) ->
  (forall p, c_primeTimeSession c = Some p -> 1 <= confidence p <= 1.25) ->
  0 <= c_realTimeFactor c <= 1.0605 ->
  0.49 <= finalConfidence (fuse M env c consensus validSignals masterLogic) <= 1.1628125.
Proof.
  intros [Hj0 Hj1] Hall Hfactor Hbull Hbear Hprime Hreal.
  pose proof (scoreOf_nonneg BIG validSignals Hall) as Hbig.
  pose proof (scoreOf_nonneg SMALL validSignals Hall) as Hsmall.
  unfold fuse. cbv zeta. cbn [finalConfidence].
  match goal with
  | |- context [calculateUncertaintyScore M ?a ?b ?d ?e ?f ?g ?h ?i] =>
      pose proof (uncertaintyScore_nonneg a b d e f g h i) as Hu;
      revert Hu;
      generalize (uncertaintyScore (calculateUncertaintyScore M a b d e f g h i))
  end.
  intros u Hu.
  match goal with
  | |- context [if ?forced then 0.5 + (rndJitter env - 0.5) * 0.02 else _] =>
      destruct forced
  end; [split; lra |].
  assert (1 <= match c_primeTimeSession c with Some p => confidence p | None => 1.0 end
          <= 1.25) as Hptc.
  { destruct (c_primeTimeSession c) as [p|]; [apply Hprime; reflexivity | split; lra]. }
  revert Hptc.
  generalize (match c_primeTimeSession c with Some p => confidence p | None => 1.0 end).
  intros ptc Hptc.
  revert Hreal. generalize (c_realTimeFactor c). intros rtf Hreal.
  set (b := scoreOf BIG validSignals
            * (1 + bullTrend (probabilities (c_advancedRegime c))
               - bearTrend (probabilities (c_advancedRegime c))) * factor consensus).
  set (s := scoreOf SMALL validSignals
            * (1 + bearTrend (probabilities (c_advancedRegime c))
               - bullTrend (probabilities (c_advancedRegime c)))
            * (2.0 - factor consensus)).
  assert (0 <= b) as Hb.
  { unfold b. apply Qmult_le_0_compat; [apply Qmult_le_0_compat |]; lra. }
  assert (0 <= s) as Hs.
  { unfold s. apply Qmult_le_0_compat; [apply Qmult_le_0_compat |]; lra. }
  clearbody b s.
  assert (0.5 <= (if Num.gtb (b + s) 0 then Qmax b s / (b + s) else 0.5) <= 1) as Hraw.
  { destruct (Num.gtb (b + s) 0) eqn:E; [| split; lra].
    num_props. split.
    - apply Qle_shift_div_l; [exact E |]. minmax_cases; lra.
    - apply Qle_shift_div_r; [exact E |]. minmax_cases; lra. }
  revert Hraw. generalize (if Num.gtb (b + s) 0 then Qmax b s / (b + s) else 0.5).
  intros raw Hraw.
  assert (0 <= 1.0 - Qmin 1.0 (u / 120.0) <= 1) as Huf.
  { assert (0 <= u / 120.0) by (apply Qle_shift_div_l; lra).
    minmax_cases; split; lra. }
  revert Huf. generalize (1.0 - Qmin 1.0 (u / 120.0)). intros uf Huf.
  assert (0 <= (raw - 0.5) * ptc <= 0.625) as H1 by (split; nra).
  assert (0 <= (raw - 0.5) * ptc * rtf <= 0.6628125) as H2.
  { revert H1. generalize ((raw - 0.5) * ptc). intros x H1. split; nra. }
  revert H2. generalize ((raw - 0.5) * ptc * rtf). intros x H2.
  split; nra.
Qed.

End WithMath.

End FusionRange.

(** X4.  The jitter draw being in [0, 1), the final confidence
    [ultraAIPredict] returns always lies in [0.49, 1.1628125]: at least 0.49
    on a forced path and at least 0.5 otherwise, and at most
    0.5 + 0.5 * 1.25 * 1.0605, the raw confidence stretched by the largest
    prime-time and external-data factors. *)
Theorem ultraAIPredict_confidence_range
    (M : MathOps) (env : Engine.Env) (history : list Carry.HistoryRecord)
    (stats : option Carry.Stats) (st : Engine.State) :
  Engine.unitDraw (Engine.rndJitter env) ->
  0.49 <= Engine.finalConfidence (fst (Engine.ultraAIPredict M env history stats st))
  <= 1.1628125.
Proof.
  intros Hjitter.
  apply (FusionFacts.ultraAIPredict_cases M env history stats st
           (fun out => 0.49 <= Engine.finalConfidence out <= 1.1628125)).
  - intros. cbn [Engine.forcedOutput Engine.finalConfidence]. split; lra.
  - intros consensus validSignals masterLogic -> ->.
    destruct (FusionRange.openCycle_fields M env history stats st)
      as (Hprime & Hreal & _ & _ & _ & Hadv).
    apply FusionRange.fuse_range.
    + exact Hjitter.
    + apply FusionRange.validSignalsOf_positive.
    + destruct (FusionRange.collectSignals_consensus M env history
                  (Engine.openCycle M env history stats st)) as [signals ->].
      apply FusionRange.consensus_factor_bounds.
    + rewrite Hadv.
      pose proof (FusionRange.advancedRegime_tilt M
                    (Engine.c_trendContext (Engine.openCycle M env history stats st))
                    (Engine.c_marketEntropyAnalysis
                       (Engine.openCycle M env history stats st))) as [H _].
      cbv zeta in H. lra.
    + rewrite Hadv.
      pose proof (FusionRange.advancedRegime_tilt M
                    (Engine.c_trendContext (Engine.openCycle M env history stats st))
                    (Engine.c_marketEntropyAnalysis
                       (Engine.openCycle M env history stats st))) as [_ H].
      cbv zeta in H. lra.
    + intros p Hp. rewrite Hprime in Hp.
      destruct (FusionRange.getPrimeTimeSession_bounds _ _ Hp) as [H _]. lra.
    + rewrite Hreal. pose proof (FusionRange.getRealTimeExternalData_bounds env). lra.
Qed.

(** The cycle on [mirrorHistory], whose confidence is above 1 and inside the
    range. *)
Lemma ultraAIPredict_confidence_range_witness :
  0.49 <= Engine.finalConfidence
            (fst (Engine.ultraAIPredict Approx.math EngineScenario.eveningPeak
                    EngineScenario.mirrorHistory (Some EngineScenario.serverStats)
                    Engine.initialState))
  <= 1.1628125.
Proof.
  apply (ultraAIPredict_confidence_range Approx.math EngineScenario.eveningPeak
           EngineScenario.mirrorHistory (Some EngineScenario.serverStats)
           Engine.initialState).
  split; vm_compute; [discriminate | reflexivity].
Defined.

(** ** Moving averages and the RSI *)

Module StatsFacts.
Import JS Carry Stats Indicators.


Lemma slice_prefix {A} (n : Z) (xs : list A) :
  (0 <= n)%Z -> slice 0 n xs = take (Z.to_nat n) xs.
Proof.
  intros Hn. unfold slice, sliceIndex.
  assert ((0 <? 0)%Z = false) as -> by reflexivity.
  assert ((n <? 0)%Z = false) as -> by (apply Z.ltb_ge; lia).
  change (Z.to_nat 0) with 0%nat. cbn [Nat.min drop].
  rewrite Nat.sub_0_r.
  destruct (Nat.le_ge_cases (Z.to_nat n) (length xs)) as [H|H].
  - rewrite Nat.min_l by exact H. reflexivity.
  - rewrite Nat.min_r by exact H. rewrite (take_ge xs (Z.to_nat n)) by lia.
    apply take_ge. lia.
Qed.

Lemma sliceFrom_suffix {A} (n : Z) (xs : list A) :
  (0 <= n)%Z -> sliceFrom n xs = drop (Z.to_nat n) xs.
Proof.
  intros Hn. unfold sliceFrom, sliceIndex.
  assert ((n <? 0)%Z = false) as -> by (apply Z.ltb_ge; lia).
  destruct (Nat.le_ge_cases (Z.to_nat n) (length xs)) as [H|H].
  - rewrite Nat.min_l by exact H. reflexivity.
  - rewrite Nat.min_r by exact H. rewrite (drop_ge xs (Z.to_nat n)) by lia.
    apply drop_ge. lia.
Qed.





Lemma calculateSMA_some data period :
  calculateSMA data period
  = if (Z.of_nat (length data) <? period)%Z || (period <=? 0)%Z then None
    else Some (sum (take (Z.to_nat period) data) / inject_Z period).
Proof.
  unfold calculateSMA.
  destruct (Z.of_nat (length data) <? period)%Z eqn:E1; [reflexivity |].
  destruct (period <=? 0)%Z eqn:E2; [reflexivity |]. cbn [orb].
  rewrite slice_prefix by lia. reflexivity.
Qed.


Lemma fold_left_invariant {A B} (f : B -> A -> B) (P : B -> Prop) :
  (forall b a, P b -> P (f b a)) -> forall l b, P b -> P (fold_left f l b).
Proof.
  intros Hf l. induction l as [| a rest IH]; intros b Hb; cbn [fold_left]; auto.
Qed.


Lemma calculateEMA_some data period :
  calculateEMA data period
  = if (Z.of_nat (length data) <? period)%Z || (period <=? 0)%Z then None
    else Some (emaRoll (2 / (inject_Z period + 1))
                 (sum (rev (take (Z.to_nat period) (rev data))) / inject_Z period)
                 (drop (Z.to_nat period) (rev data))).
Proof.
  unfold calculateEMA.
  destruct (Z.of_nat (length data) <? period)%Z eqn:E1; [reflexivity |].
  destruct (period <=? 0)%Z eqn:E2; [reflexivity |]. cbn [orb]. cbv zeta.
  apply Z.ltb_ge in E1. apply Z.leb_gt in E2.
  rewrite slice_prefix, sliceFrom_suffix by lia.
  assert (length (take (Z.to_nat period) (rev data)) = Z.to_nat period) as Hlen.
  { rewrite length_take, length_rev. lia. }
  rewrite Hlen.
  assert ((Z.of_nat (Z.to_nat period) <? period)%Z = false) as -> by (apply Z.ltb_ge; lia).
  rewrite calculateSMA_some, length_rev, Hlen.
  assert ((Z.of_nat (Z.to_nat period) <? period)%Z = false) as -> by (apply Z.ltb_ge; lia).
  assert ((period <=? 0)%Z = false) as -> by (apply Z.leb_gt; lia).
  cbn [orb].
  rewrite (take_ge (rev (take (Z.to_nat period) (rev data)))) by (rewrite length_rev; lia).
  reflexivity.
Qed.


Lemma calculateEMA_null data period :
  calculateEMA data period = None
  <-> (Z.of_nat (length data) < period)%Z \/ (period <= 0)%Z.
Proof.
  rewrite calculateEMA_some.
  destruct (Z.of_nat (length data) <? period)%Z eqn:E1;
    destruct (period <=? 0)%Z eqn:E2; cbn [orb];
    try apply Z.ltb_lt in E1; try apply Z.ltb_ge in E1;
    try apply Z.leb_le in E2; try apply Z.leb_gt in E2;
    split; intros H; try discriminate; auto; lia.
Qed.

End StatsFacts.



(** X6.  An RSI that is not [null] lies between 0 and 100. *)
Theorem calculateRSI_range (data : list Q) (period : Z) (r : Q) :
  Indicators.calculateRSI data period = Some r -> 0 <= r <= 100.
Proof.
  unfold Indicators.calculateRSI.
  destruct (period <=? 0)%Z eqn:Ep; [discriminate |].
  cbv zeta.
  destruct (Z.of_nat (length (rev data)) <? period + 1)%Z; [discriminate |].
  apply Z.leb_gt in Ep.
  assert (1 <= inject_Z period) as Hp
      by (change 1 with (inject_Z 1); rewrite <- Zle_Qle; lia).
  set (P := fun gl : Q * Q => 0 <= fst gl /\ 0 <= snd gl).
  match goal with
  | |- context [fold_left ?f ?l (?g / _, ?lo / _)] =>
      assert (P (fold_left f l (g / inject_Z period, lo / inject_Z period))) as Hinv
  end.
  { apply StatsFacts.fold_left_invariant.
    - intros [g l] change [Hg Hl]. unfold P in *. cbn [fst snd] in *.
      assert (0 <= (if Num.gtb change 0 then change else 0)) as Hcg
          by (destruct (Num.gtb change 0) eqn:E; num_props; lra).
      assert (0 <= (if Num.ltb change 0 then Qabs change else 0)) as Hcl
          by (destruct (Num.ltb change 0); [apply Qabs_nonneg | lra]).
      split; apply Qle_shift_div_l; try lra; nra.
    - unfold P. cbn [fst snd]. split; apply Qle_shift_div_l; try lra.
      + rewrite Qmult_0_l.
        apply (StatsFacts.fold_left_invariant _ (fun g => 0 <= g)); [| lra].
        intros g change Hg. destruct (Num.gtb change 0) eqn:E; num_props; lra.
      + rewrite Qmult_0_l.
        apply (StatsFacts.fold_left_invariant _ (fun l => 0 <= l)); [| lra].
        intros l change Hl. pose proof (Qabs_nonneg change).
        destruct (Num.gtb change 0); lra. }
  revert Hinv.
  match goal with
  | |- context [fold_left ?f ?l ?a] => generalize (fold_left f l a)
  end.
  intros [avgGain avgLoss] [Hg Hl]. cbn [fst snd] in Hg, Hl.
  destruct (Num.eqb avgLoss 0) eqn:E; intros H; inversion H; subst; clear H.
  - split; lra.
  - assert (0 < avgLoss) as Hpos.
    { destruct (Qlt_le_dec 0 avgLoss) as [Hlt|Hle]; [exact Hlt |].
      exfalso. unfold Num.eqb in E. apply not_true_iff_false in E. apply E.
      apply Qeq_bool_iff. lra. }
    assert (0 <= avgGain / avgLoss) as Hrs by (apply Qle_shift_div_l; lra).
    revert Hrs. generalize (avgGain / avgLoss). intros rs Hrs.
    assert (0 <= 100 / (1 + rs) <= 100) as Hq.
    { split; [apply Qle_shift_div_l | apply Qle_shift_div_r]; lra. }
    lra.
Qed.

(** Sixteen digits and the period 14. *)
Lemma calculateRSI_range_witness :
  0 <= StatsScenario.rsiOf StatsScenario.digits16 14 <= 100.
Proof.
  apply (calculateRSI_range StatsScenario.digits16 14).
  vm_compute. reflexivity.
Defined.

(** ** Invariants of the performance table *)

Module LearnerInvariant.
Import JS Carry Learner.

(** The counters of a volatility bucket. *)
Definition wfBuckets (m : gmap string VolPerf) : Prop :=
  map_Forall (fun _ b => (vcorrect b <= vtotal b)%nat) m.

Definition wfPerf (perf : SignalPerf) : Prop :=
  (correct perf <= total perf)%nat
  /\ (sessionCorrect perf <= sessionTotal perf)%nat
  /\ (length (recentAccuracy perf) <= 30)%nat
  /\ 0.05 <= currentAdjustmentFactor perf <= 1.95
  /\ 0.4 <= alphaFactor perf <= 1.6
  /\ 0 <= longTermImportanceScore perf <= 1
  /\ wfBuckets (performanceByVolatility perf).

Definition wfTable (table : PerfTable) : Prop := map_Forall (fun _ perf => wfPerf perf) table.

Lemma freshPerf_wf : wfPerf freshPerf.
Proof.
  unfold wfPerf, freshPerf; cbn. repeat split; try lia; try lra.
  apply map_Forall_empty.
Qed.

Lemma ensureBucket_wf regime m : wfBuckets m -> wfBuckets (ensureBucket regime m).
Proof.
  intros H. unfold ensureBucket. destruct (m !! regime); [exact H |].
  destruct (inherited regime); [exact H |].
  apply map_Forall_insert_2; [cbn; lia | exact H].
Qed.

Lemma bumpBucket_wf regime c m : wfBuckets m -> wfBuckets (bumpBucket regime c m).
Proof.
  intros H. unfold bumpBucket. destruct (m !! regime) as [b|] eqn:E; [| exact H].
  apply map_Forall_insert_2; [| exact H].
  pose proof (map_Forall_lookup_1 _ _ _ _ H E) as Hb. cbn in *.
  destruct c; lia.
Qed.

Lemma pushWindow_length l b :
  (length l <= 30)%nat -> (length (pushWindow PERFORMANCE_WINDOW l b) <= 30)%nat.
Proof.
  intros H. unfold pushWindow. cbv zeta.
  destruct (Num.gtb (Num.ofNat (length (l ++ [b]))) PERFORMANCE_WINDOW) eqn:E.
  - pose proof (length_app l [b]) as Hlen. cbn [length] in Hlen.
    destruct (l ++ [b]) as [| x xs]; cbn [tail length] in *; lia.
  - num_props. unfold PERFORMANCE_WINDOW in E. change 30 with (Num.ofNat 30) in E.
    apply NumFacts.ofNat_le in E. exact E.
Qed.

Lemma adjustmentFactorOf_range accuracy : 0.05 <= adjustmentFactorOf accuracy <= 1.95.
Proof.
  unfold adjustmentFactorOf, MIN_WEIGHT_FACTOR, MAX_WEIGHT_FACTOR. cbv zeta.
  destruct (NumFacts.Qmax_cases (1 + (accuracy - 0.5) * 3.5) 0.05) as [[? ?]|[? ?]];
    destruct (NumFacts.Qmin_cases (Qmax (1 + (accuracy - 0.5) * 3.5) 0.05) 1.95)
      as [[? ?]|[? ?]];
    split; lra.
Qed.

Lemma alphaLearningRateOf_range accuracy : 0 <= alphaLearningRateOf accuracy <= 1.
Proof.
  unfold alphaLearningRateOf, ALPHA_UPDATE_RATE.
  destruct (Num.ltb accuracy 0.35); [split; lra |].
  destruct (Num.ltb accuracy 0.45); split; lra.
Qed.

Lemma alphaStep_range alpha target rate :
  0.4 <= alpha <= 1.6 -> 0 <= rate <= 1 -> 0.4 <= alphaStep alpha target rate <= 1.6.
Proof.
  intros Ha Hr. unfold alphaStep, MAX_ALPHA_FACTOR, MIN_ALPHA_FACTOR.
  destruct (Num.gtb target alpha) eqn:E; num_props.
  - assert (0 <= rate * (target - alpha)) by nra. minmax_cases; split; lra.
  - assert (0 <= rate * (alpha - target)) by nra. minmax_cases; split; lra.
Qed.

Lemma observe_wf perf oc periodFull regime hi ov conc chaos :
  wfPerf perf -> wfPerf (observe perf oc periodFull regime hi ov conc chaos).
Proof.
  intros (Hc & Hs & Hl & Hcaf & Ha & Hi & Hb).
  unfold wfPerf, observe. cbv zeta.
  cbn [correct total sessionCorrect sessionTotal recentAccuracy currentAdjustmentFactor
       alphaFactor longTermImportanceScore performanceByVolatility].
  split; [destruct oc; lia |].
  split; [destruct oc; lia |].
  split; [apply pushWindow_length, Hl |].
  split.
  { destruct (_ && _); [apply adjustmentFactorOf_range | exact Hcaf]. }
  split.
  { destruct (_ && _); [| exact Ha].
    apply alphaStep_range; [exact Ha | apply alphaLearningRateOf_range]. }
  split.
  { match goal with
    | |- context [Qmin 1.0 (Qmax 0.0 ?y)] =>
        destruct (NumFacts.Qmax_cases 0.0 y) as [[? ?]|[? ?]];
        destruct (NumFacts.Qmin_cases 1.0 (Qmax 0.0 y)) as [[? ?]|[? ?]]
    end; split; lra. }
  apply bumpBucket_wf, Hb.
Qed.

Lemma updateRecord_wf perf prediction actual periodFull regime hi ov conc chaos :
  wfPerf perf -> wfPerf (updateRecord perf prediction actual periodFull regime hi ov conc chaos).
Proof.
  intros (Hc & Hs & Hl & Hcaf & Ha & Hi & Hb).
  assert (wfPerf (withBuckets perf (ensureBucket regime (performanceByVolatility perf))))
    as H1.
  { unfold wfPerf, withBuckets. cbn. repeat split; try tauto. apply ensureBucket_wf, Hb. }
  unfold updateRecord. cbv zeta.
  match goal with
  | |- wfPerf (withLastUpdate ?p _) => assert (wfPerf p) as H2
  end.
  { destruct (_ || _); [apply observe_wf, H1 | exact H1]. }
  revert H2. match goal with |- wfPerf ?p -> wfPerf (withLastUpdate ?p _) => generalize p end.
  intros p H2. unfold wfPerf, withLastUpdate in *. cbn. exact H2.
Qed.

Lemma refreshRecord_wf {A} perf cur (hist : list A) :
  wfPerf perf -> wfPerf (refreshRecord perf cur hist).
Proof.
  intros (Hc & Hs & Hl & Hcaf & Ha & Hi & Hb).
  unfold wfPerf, refreshRecord. cbv zeta.
  cbn [correct total sessionCorrect sessionTotal recentAccuracy currentAdjustmentFactor
       alphaFactor longTermImportanceScore performanceByVolatility].
  split; [exact Hc |].
  split; [destruct (length hist <=? 1)%nat; [lia | exact Hs] |].
  split; [exact Hl |].
  split.
  { unfold DECAY_RATE. destruct (_ && _ && _); [| exact Hcaf].
    destruct (Num.gtb (currentAdjustmentFactor perf) 1.0) eqn:E1;
      [num_props; minmax_cases; split; lra |].
    destruct (Num.ltb (currentAdjustmentFactor perf) 1.0) eqn:E2;
      [num_props; minmax_cases; split; lra | exact Hcaf]. }
  repeat split; tauto.
Qed.

Lemma lookup_default_wf (table : PerfTable) source :
  wfTable table -> wfPerf (default freshPerf (table !! source)).
Proof.
  intros H. destruct (table !! source) as [perf|] eqn:E; cbn [default].
  - exact (map_Forall_lookup_1 _ _ _ _ H E).
  - apply freshPerf_wf.
Qed.

Lemma volatilitySpecificAdjustmentOf_range perf regime :
  0.55 <= volatilitySpecificAdjustmentOf perf regime <= 1.45.
Proof.
  unfold volatilitySpecificAdjustmentOf.
  destruct (performanceByVolatility perf !! regime) as [b|]; [| split; lra].
  destruct (Num.geb _ _); [| split; lra]. cbv zeta.
  match goal with
  | |- context [Qmin (Qmax ?y 0.55) 1.45] =>
      destruct (NumFacts.Qmax_cases y 0.55) as [[? ?]|[? ?]];
      destruct (NumFacts.Qmin_cases (Qmax y 0.55) 1.45) as [[? ?]|[? ?]]
  end; split; lra.
Qed.

Lemma sessionAdjustmentFactorOf_range perf :
  0.6 <= sessionAdjustmentFactorOf perf <= 1.4.
Proof.
  unfold sessionAdjustmentFactorOf.
  destruct (Num.geb _ _); [| split; lra]. cbv zeta.
  match goal with
  | |- context [Qmin (Qmax ?y 0.6) 1.4] =>
      destruct (NumFacts.Qmax_cases y 0.6) as [[? ?]|[? ?]];
      destruct (NumFacts.Qmin_cases (Qmax y 0.6) 1.4) as [[? ?]|[? ?]]
  end; split; lra.
Qed.

Lemma finalAdjustmentFactorOf_range perf regime :
  wfPerf perf -> 0 <= finalAdjustmentFactorOf perf regime <= 8.23368.
Proof.
  intros (_ & _ & _ & Hcaf & Ha & Hi & _).
  pose proof (volatilitySpecificAdjustmentOf_range perf regime) as Hv.
  pose proof (sessionAdjustmentFactorOf_range perf) as Hs.
  unfold finalAdjustmentFactorOf, PROBATION_WEIGHT_CAP. cbv zeta.
  revert Hv Hs Hcaf Ha Hi.
  generalize (volatilitySpecificAdjustmentOf perf regime) (sessionAdjustmentFactorOf perf)
             (currentAdjustmentFactor perf) (alphaFactor perf) (longTermImportanceScore perf).
  intros v s caf a i Hv Hs Hcaf Ha Hi.
  assert (0 <= caf * a <= 3.12) as H1 by (split; nra).
  assert (0 <= caf * a * v <= 4.524) as H2.
  { revert H1. generalize (caf * a). intros x H1. split; nra. }
  assert (0 <= caf * a * v * s <= 6.3336) as H3.
  { revert H2. generalize (caf * a * v). intros x H2. split; nra. }
  assert (0 <= caf * a * v * s * (0.70 + i * 0.6) <= 8.23368) as H4.
  { revert H3. generalize (caf * a * v * s). intros x H3. split; nra. }
  revert H4. generalize (caf * a * v * s * (0.70 + i * 0.6)). intros f H4.
  destruct (isOnProbation perf); [| exact H4].
  destruct (NumFacts.Qmin_cases f 0.10) as [[? ?]|[? ?]]; split; lra.
Qed.

Lemma overall_test_never_holds actual c :
  optOutcome_eqb (getBigSmallFromNumber (Str (outcomeStr actual))) (Some c) = false.
Proof. destruct actual; reflexivity. Qed.

Lemma updateSignalPerformance_wf signals actual periodFull regime conf conc entropy table :
  wfTable table ->
  wfTable (updateSignalPerformance signals actual periodFull regime conf conc entropy table).
Proof.
  intros H. unfold updateSignalPerformance.
  destruct actual as [a|]; [| exact H]. destruct signals as [l|]; [| exact H].
  cbv zeta. apply StatsFacts.fold_left_invariant; [| exact H].
  intros t v Ht. destruct (String.eqb (v_source v) ""); [exact Ht |].
  apply map_Forall_insert_2; [| exact Ht].
  apply updateRecord_wf, lookup_default_wf, Ht.
Qed.

Lemma getDynamicWeightAdjustment_wf {A} source baseWeight cur regime (hist : list A) table :
  wfTable table ->
  wfTable (snd (getDynamicWeightAdjustment source baseWeight cur regime hist table)).
Proof.
  intros H. unfold getDynamicWeightAdjustment.
  destruct (table !! source) as [perf|] eqn:E; cbn [snd].
  - apply map_Forall_insert_2; [| exact H].
    apply refreshRecord_wf. exact (map_Forall_lookup_1 _ _ _ _ H E).
  - apply map_Forall_insert_2; [apply freshPerf_wf | exact H].
Qed.

Lemma train_wf source hits period step table :
  wfTable table -> wfTable (Scenario.train source hits period step table).
Proof.
  revert period table. induction hits as [| hit rest IH]; intros period table H;
    cbn [Scenario.train]; [exact H |].
  apply IH, updateSignalPerformance_wf, H.
Qed.

Lemma table15_wf : wfTable Scenario.table15.
Proof.
  unfold Scenario.table15, Scenario.table14.
  apply updateSignalPerformance_wf, train_wf. unfold wfTable. apply map_Forall_empty.
Qed.

End LearnerInvariant.

(** X7.  The performance table keeps its records well formed: in every
    record [correct] is at most [total], [sessionCorrect] at most
    [sessionTotal], the window [recentAccuracy] holds at most 30 bits,
    [currentAdjustmentFactor] lies in [0.05, 1.95], [alphaFactor] in
    [0.4, 1.6], [longTermImportanceScore] in [0, 1], and in every volatility
    bucket [correct] is at most [total].  The empty table has the property,
    and [updateSignalPerformance] and [getDynamicWeightAdjustment] preserve
    it, whatever their other arguments. *)
Theorem signalPerformance_stays_well_formed (table : Learner.PerfTable) :
  LearnerInvariant.wfTable table ->
  (forall signals actual periodFull regime conf conc entropy,
      LearnerInvariant.wfTable
        (Learner.updateSignalPerformance signals actual periodFull regime conf conc entropy
           table))
  /\ (forall source baseWeight cur regime (hist : list Carry.HistoryRecord),
        LearnerInvariant.wfTable
          (snd (Learner.getDynamicWeightAdjustment source baseWeight cur regime hist table))).
Proof.
  intros H. split.
  - intros. apply LearnerInvariant.updateSignalPerformance_wf, H.
  - intros. apply LearnerInvariant.getDynamicWeightAdjustment_wf, H.
Qed.

(** The empty table. *)
Lemma signalPerformance_stays_well_formed_witness :
  (forall signals actual periodFull regime conf conc entropy,
      LearnerInvariant.wfTable
        (Learner.updateSignalPerformance signals actual periodFull regime conf conc entropy
           ∅))
  /\ (forall source baseWeight cur regime (hist : list Carry.HistoryRecord),
        LearnerInvariant.wfTable
          (snd (Learner.getDynamicWeightAdjustment source baseWeight cur regime hist ∅))).
Proof.
  apply (signalPerformance_stays_well_formed ∅).
  unfold LearnerInvariant.wfTable. apply map_Forall_empty.
Defined.

(** X8.  On a well-formed table and for a non-negative base weight, the
    weight [getDynamicWeightAdjustment] returns is at least
    [MIN_ABSOLUTE_WEIGHT] (0.0003) and at most the larger of 0.0003 and
    8.23368 times the base weight (1.95 x 1.6 x 1.45 x 1.4 x 1.3, the upper
    ends of the five factors). *)
Theorem getDynamicWeightAdjustment_bounds
    (source : string) (baseWeight : Q) (cur : JS.Period) (regime : string)
    (hist : list Carry.HistoryRecord) (table : Learner.PerfTable) :
  LearnerInvariant.wfTable table -> 0 <= baseWeight ->
  Learner.MIN_ABSOLUTE_WEIGHT
  <= fst (Learner.getDynamicWeightAdjustment source baseWeight cur regime hist table)
  /\ fst (Learner.getDynamicWeightAdjustment source baseWeight cur regime hist table)
     <= Qmax (baseWeight * 8.23368) Learner.MIN_ABSOLUTE_WEIGHT.
Proof.
  intros H Hb. unfold Learner.getDynamicWeightAdjustment.
  destruct (table !! source) as [perf|] eqn:E; cbn [fst].
  - pose proof (LearnerInvariant.finalAdjustmentFactorOf_range (Learner.refreshRecord perf cur hist) regime
                  (LearnerInvariant.refreshRecord_wf perf cur hist (map_Forall_lookup_1 _ _ _ _ H E))) as Hf.
    revert Hf. generalize (Learner.finalAdjustmentFactorOf (Learner.refreshRecord perf cur hist) regime).
    intros f Hf.
    assert (baseWeight * f <= baseWeight * 8.23368) as Hle by nra.
    destruct (NumFacts.Qmax_cases (baseWeight * f) Learner.MIN_ABSOLUTE_WEIGHT) as [[? ?]|[? ?]];
      destruct (NumFacts.Qmax_cases (baseWeight * 8.23368) Learner.MIN_ABSOLUTE_WEIGHT)
        as [[? ?]|[? ?]];
      split; lra.
  - destruct (NumFacts.Qmax_cases baseWeight Learner.MIN_ABSOLUTE_WEIGHT) as [[? ?]|[? ?]];
      destruct (NumFacts.Qmax_cases (baseWeight * 8.23368) Learner.MIN_ABSOLUTE_WEIGHT)
        as [[? ?]|[? ?]];
      split; lra.
Qed.

(** The table after fifteen observations of the source RSI, read again for
    the period of the last one. *)
Lemma getDynamicWeightAdjustment_bounds_witness :
  Learner.MIN_ABSOLUTE_WEIGHT
  <= fst (Learner.getDynamicWeightAdjustment "RSI" 0.08 (JS.PNum 15) "MEDIUM"
            HistoryScenario.sample25 Scenario.table15)
  /\ fst (Learner.getDynamicWeightAdjustment "RSI" 0.08 (JS.PNum 15) "MEDIUM"
            HistoryScenario.sample25 Scenario.table15)
     <= Qmax (0.08 * 8.23368) Learner.MIN_ABSOLUTE_WEIGHT.
Proof.
  apply (getDynamicWeightAdjustment_bounds "RSI" 0.08 (JS.PNum 15) "MEDIUM"
           HistoryScenario.sample25 Scenario.table15).
  - apply LearnerInvariant.table15_wf.
  - lra.
Defined.

(** ** What the learner leaves alone *)

Module LearnerFrame.
Import JS Carry Learner.

Lemma updateSignalPerformance_frame signals actual periodFull regime conf conc entropy
    (table : PerfTable) source :
  (forall v, In v signals -> v_source v <> source) ->
  updateSignalPerformance (Some signals) actual periodFull regime conf conc entropy table
    !! source
  = table !! source.
Proof.
  unfold updateSignalPerformance. destruct actual as [a|]; [| reflexivity]. cbv zeta.
  revert table. induction signals as [| v l IH]; intros table Hv; cbn [fold_left].
  - reflexivity.
  - rewrite IH by (intros w Hw; apply Hv; right; exact Hw).
    destruct (String.eqb (v_source v) ""); [reflexivity |].
    apply lookup_insert_ne. apply Hv. left. reflexivity.
Qed.

Lemma updateSignalPerformance_keeps signals actual periodFull regime conf conc entropy
    (table : PerfTable) source :
  is_Some (table !! source) ->
  is_Some (updateSignalPerformance signals actual periodFull regime conf conc entropy table
             !! source).
Proof.
  unfold updateSignalPerformance. destruct actual as [a|]; [| auto].
  destruct signals as [l|]; [| auto]. cbv zeta.
  revert table. induction l as [| v l IH]; intros table Hs; cbn [fold_left].
  - exact Hs.
  - apply IH. destruct (String.eqb (v_source v) ""); [exact Hs |].
    destruct (String.eqb_spec (v_source v) source) as [->|Hne].
    + rewrite lookup_insert_eq. eauto.
    + rewrite lookup_insert_ne by exact Hne. exact Hs.
Qed.

End LearnerFrame.

(** X9.  Both operations on the performance table touch only the sources
    they are given.  [getDynamicWeightAdjustment] leaves a record for its
    source (registering a fresh one for a source it has not seen) and changes
    the entry of no other source; [updateSignalPerformance] changes the entry
    of no source that is not the source of one of the contributing signals,
    and never removes an entry. *)
Theorem signalPerformance_frame (table : Learner.PerfTable) :
  (forall source baseWeight cur regime (hist : list Carry.HistoryRecord),
      is_Some (snd (Learner.getDynamicWeightAdjustment source baseWeight cur regime hist
                      table) !! source)
      /\ forall other, other <> source ->
           snd (Learner.getDynamicWeightAdjustment source baseWeight cur regime hist table)
             !! other
           = table !! other)
  /\ (forall signals actual periodFull regime conf conc entropy source,
        (forall v, In v signals -> Carry.v_source v <> source) ->
        Learner.updateSignalPerformance (Some signals) actual periodFull regime conf conc
          entropy table !! source
        = table !! source)
  /\ (forall signals actual periodFull regime conf conc entropy source,
        is_Some (table !! source) ->
        is_Some (Learner.updateSignalPerformance signals actual periodFull regime conf conc
                   entropy table !! source)).
Proof.
  split; [| split].
  - intros source baseWeight cur regime hist.
    unfold Learner.getDynamicWeightAdjustment.
    destruct (table !! source) as [perf|]; cbn [snd]; split;
      try (rewrite lookup_insert_eq; eauto);
      intros other Hne; apply lookup_insert_ne; congruence.
  - intros. apply LearnerFrame.updateSignalPerformance_frame. assumption.
  - intros. apply LearnerFrame.updateSignalPerformance_keeps. assumption.
Qed.

(** X10.  [updateSignalPerformance] reads [lastFinalConfidence] only through
    the test [lastFinalConfidence > 0.75]: its other use, the test
    [isOverallCorrect], compares [getBigSmallFromNumber] of an outcome that
    is already the word BIG or SMALL, which is [null], with a class word, and
    never holds.  Two calls that differ only in a confidence on the same side
    of 0.75 leave the same table. *)
Theorem updateSignalPerformance_reads_confidence_once
    (signals : option (list Carry.Vote)) (actual : option JS.Outcome) (periodFull : JS.Period)
    (regime : string) (c1 c2 : option Q) (conc : bool) (entropy : string)
    (table : Learner.PerfTable) :
  Learner.confAbove c1 0.75 = Learner.confAbove c2 0.75 ->
  Learner.updateSignalPerformance signals actual periodFull regime c1 conc entropy table
  = Learner.updateSignalPerformance signals actual periodFull regime c2 conc entropy table.
Proof.
  intros H. unfold Learner.updateSignalPerformance.
  destruct actual as [a|]; [| reflexivity]. destruct signals as [l|]; [| reflexivity].
  cbv zeta. rewrite !LearnerInvariant.overall_test_never_holds, H. reflexivity.
Qed.

(** A miss of the source RSI, scored once after a confidence of 0.55 and
    once after a confidence of 0.45. *)
Lemma updateSignalPerformance_reads_confidence_once_witness :
  Learner.updateSignalPerformance (Some [Carry.mkVote "RSI" (Some JS.BIG) 0.05 false])
    (Some JS.SMALL) (JS.PNum 16) "MEDIUM" (Some 0.55) false "STABLE_MODERATE" Scenario.table15
  = Learner.updateSignalPerformance (Some [Carry.mkVote "RSI" (Some JS.BIG) 0.05 false])
      (Some JS.SMALL) (JS.PNum 16) "MEDIUM" (Some 0.45) false "STABLE_MODERATE"
      Scenario.table15.
Proof.
  apply (updateSignalPerformance_reads_confidence_once
           (Some [Carry.mkVote "RSI" (Some JS.BIG) 0.05 false]) (Some JS.SMALL) (JS.PNum 16)
           "MEDIUM" (Some 0.55) (Some 0.45) false "STABLE_MODERATE" Scenario.table15).
  reflexivity.
Defined.

(** ** The regime profiles *)

Module ProfileFacts.
Import JS Carry Context Engine.

(** The ranges the learning rule keeps a profile in, and its counters. *)
Definition wfProfile (p : RegimeProfile) : Prop :=
  0.20 <= baseWeightMultiplier p <= 1.9
  /\ 0.30 <= contextualAggression p <= 1.8
  /\ (length (recentAccuracy p) <= 35)%nat
  /\ (correctPredictions p <= totalPredictions p)%nat.

Definition wfProfiles (profiles : gmap string RegimeProfile) : Prop :=
  map_Forall (fun _ p => wfProfile p) profiles.

Lemma initial_profiles_wf : wfProfiles REGIME_SIGNAL_PROFILES.
Proof.
  unfold wfProfiles, REGIME_SIGNAL_PROFILES.
  repeat (apply map_Forall_insert_2;
          [unfold wfProfile, DEFAULT_PROFILE, profile; cbn; repeat split; try lia; lra |]).
  apply map_Forall_empty.
Qed.

Lemma updateRegimeProfilePerformance_wf regime actual predicted globalAccuracy profiles :
  wfProfiles profiles ->
  wfProfiles (updateRegimeProfilePerformance regime actual predicted globalAccuracy profiles).
Proof.
  intros H. unfold updateRegimeProfilePerformance.
  destruct (profiles !! keyOf regime) as [p|] eqn:E; [| exact H].
  destruct predicted as [o|]; [| exact H].
  cbv zeta.
  pose proof (map_Forall_lookup_1 _ _ _ _ H E) as (Hm & Ha & Hl & Hc).
  match goal with
  | |- context [let '(m, a) := ?x in _] =>
      assert (0.20 <= fst x <= 1.9 /\ 0.30 <= snd x <= 1.8) as Hx
  end.
  { destruct (Num.geb _ _); [| cbn [fst snd]; tauto].
    match goal with
    | |- context [Qmax 0.01 (Qmin 0.07 ?r)] =>
        assert (0.01 <= Qmax 0.01 (Qmin 0.07 r) <= 0.07) as Hr
            by (destruct (NumFacts.Qmin_cases 0.07 r) as [[? ?]|[? ?]];
                destruct (NumFacts.Qmax_cases 0.01 (Qmin 0.07 r)) as [[? ?]|[? ?]];
                split; lra);
        revert Hr; generalize (Qmax 0.01 (Qmin 0.07 r))
    end.
    intros rate Hr.
    destruct (Num.gtb _ 0.62).
    - cbn [fst snd].
      destruct (NumFacts.Qmin_cases 1.9 (baseWeightMultiplier p + rate)) as [[? ?]|[? ?]];
        destruct (NumFacts.Qmin_cases 1.8 (contextualAggression p + rate * 0.5))
          as [[? ?]|[? ?]];
        repeat split; lra.
    - destruct (Num.ltb _ 0.38); cbn [fst snd]; [| tauto].
      destruct (NumFacts.Qmax_cases 0.20 (baseWeightMultiplier p - rate * 1.3))
        as [[? ?]|[? ?]];
        destruct (NumFacts.Qmax_cases 0.30 (contextualAggression p - rate * 0.7))
          as [[? ?]|[? ?]];
        repeat split; lra. }
  revert Hx.
  match goal with
  | |- context [let '(m, a) := ?x in _] => generalize x
  end.
  intros [m a] (Hm' & Ha'). cbn [fst snd] in Hm', Ha'.
  apply map_Forall_insert_2; [| exact H].
  unfold wfProfile.
  cbn [baseWeightMultiplier contextualAggression recentAccuracy correctPredictions
       totalPredictions].
  split; [exact Hm' |]. split; [exact Ha' |]. split.
  - destruct (Num.gtb (Num.ofNat (length (recentAccuracy p ++ [optOutcome_eqb actual (Some o)])))
                REGIME_ACCURACY_WINDOW) eqn:Eg.
    + rewrite length_drop, length_app. cbn [length]. lia.
    + num_props. unfold REGIME_ACCURACY_WINDOW in Eg. change 35 with (Num.ofNat 35) in Eg.
      apply NumFacts.ofNat_le in Eg. exact Eg.
  - destruct (optOutcome_eqb actual (Some o)); lia.
Qed.

Lemma updateRegimeProfilePerformance_types regime actual predicted globalAccuracy profiles key :
  activeSignalTypes
    <$> (updateRegimeProfilePerformance regime actual predicted globalAccuracy profiles !! key)
  = activeSignalTypes <$> (profiles !! key).
Proof.
  unfold updateRegimeProfilePerformance.
  destruct (profiles !! keyOf regime) as [p|] eqn:E; [| reflexivity].
  destruct predicted as [o|]; [| reflexivity].
  cbv zeta.
  match goal with
  | |- context [let '(m, a) := ?x in _] => destruct x as [m a]
  end.
  destruct (String.eqb_spec (keyOf regime) key) as [<-|Hne].
  - rewrite lookup_insert_eq, E. reflexivity.
  - rewrite lookup_insert_ne by exact Hne. reflexivity.
Qed.

Lemma updateRegimeProfilePerformance_unknown regime actual predicted globalAccuracy profiles :
  profiles !! keyOf regime = None ->
  updateRegimeProfilePerformance regime actual predicted globalAccuracy profiles = profiles.
Proof. intros E. unfold updateRegimeProfilePerformance. rewrite E. reflexivity. Qed.

Lemma regimeOf_cases strength volatility :
  In (regimeOf strength volatility)
     ["TREND_STRONG_LOW_VOL"; "TREND_STRONG_MED_VOL"; "TREND_STRONG_HIGH_VOL";
      "TREND_MOD_LOW_VOL"; "TREND_MOD_MED_VOL"; "TREND_MOD_HIGH_VOL";
      "RANGE_LOW_VOL"; "RANGE_MED_VOL"; "RANGE_HIGH_VOL";
      "WEAK_HIGH_VOL"; "WEAK_MED_VOL"; "WEAK_LOW_VOL"].
Proof.
  unfold regimeOf. cbv zeta.
  repeat match goal with
         | |- context [if ?b then _ else _] => destruct b
         end;
    cbn [In]; tauto.
Qed.

Lemma regimeOf_known strength volatility :
  is_Some (REGIME_SIGNAL_PROFILES !! regimeOf strength volatility).
Proof.
  pose proof (regimeOf_cases strength volatility) as H. cbn [In] in H.
  repeat (destruct H as [<- | H]; [vm_compute; eauto |]). contradiction.
Qed.

Lemma macroRegimeOf_transition strength volatility :
  REGIME_SIGNAL_PROFILES !! macroRegimeOf strength volatility true = None.
Proof.
  unfold macroRegimeOf. cbv zeta.
  pose proof (regimeOf_cases strength volatility) as H. cbn [In] in H.
  repeat (destruct H as [<- | H]; [vm_compute; reflexivity |]). contradiction.
Qed.


(** The key set and the active signal types of the table the module is
    loaded with. *)
Definition sameShape (profiles : gmap string RegimeProfile) : Prop :=
  forall key,
    activeSignalTypes <$> (profiles !! key)
    = activeSignalTypes <$> (REGIME_SIGNAL_PROFILES !! key).

Lemma sameShape_initial : sameShape REGIME_SIGNAL_PROFILES.
Proof. intros key. reflexivity. Qed.

Lemma default_profile_types :
  activeSignalTypes <$> (REGIME_SIGNAL_PROFILES !! "DEFAULT") = Some ["all"].
Proof. vm_compute. reflexivity. Qed.

Lemma updateRegimeProfilePerformance_shape regime actual predicted globalAccuracy profiles :
  sameShape profiles ->
  sameShape (updateRegimeProfilePerformance regime actual predicted globalAccuracy profiles).
Proof.
  intros H key. rewrite updateRegimeProfilePerformance_types. apply H.
Qed.

Lemma sameShape_None profiles key :
  sameShape profiles -> REGIME_SIGNAL_PROFILES !! key = None -> profiles !! key = None.
Proof.
  intros H E. specialize (H key). rewrite E in H.
  destruct (profiles !! key); [discriminate | reflexivity].
Qed.

Lemma sameShape_Some profiles key :
  sameShape profiles -> is_Some (REGIME_SIGNAL_PROFILES !! key) -> is_Some (profiles !! key).
Proof.
  intros H [p E]. specialize (H key). rewrite E in H.
  destruct (profiles !! key); [eauto | discriminate].
Qed.

(** A lookup other than the updated key. *)
Lemma updateRegimeProfilePerformance_frame regime actual predicted globalAccuracy profiles key :
  key <> keyOf regime ->
  updateRegimeProfilePerformance regime actual predicted globalAccuracy profiles !! key
  = profiles !! key.
Proof.
  intros Hne. unfold updateRegimeProfilePerformance.
  destruct (profiles !! keyOf regime) as [p|]; [| reflexivity].
  destruct predicted as [o|]; [| reflexivity].
  cbv zeta.
  match goal with
  | |- context [let '(m, a) := ?x in _] => destruct x as [m a]
  end.
  apply lookup_insert_ne. congruence.
Qed.

End ProfileFacts.

(** ** The module state *)

Module StateFacts.
Import JS Carry Context Market Ensemble Engine.

(** The module state the code can reach. *)
Definition wfState (st : State) : Prop :=
  LearnerInvariant.wfTable (signalPerformance st)
  /\ DriftFacts.wf (driftDetector st)
  /\ ProfileFacts.wfProfiles (regimeProfiles st)
  /\ ProfileFacts.sameShape (regimeProfiles st)
  /\ ReflexFacts.reachable (reflexState st).

Lemma initialState_wf : wfState initialState.
Proof.
  unfold wfState, initialState. cbn [signalPerformance driftDetector regimeProfiles reflexState].
  split; [apply map_Forall_empty |].
  split; [apply DriftFacts.wf_initial |].
  split; [apply ProfileFacts.initial_profiles_wf |].
  split; [apply ProfileFacts.sameShape_initial | apply ReflexFacts.reachable_initial].
Qed.

Lemma withTable_wf st table :
  wfState st -> LearnerInvariant.wfTable table -> wfState (withTable st table).
Proof.
  intros (_ & Hd & Hp & Hs & Hr) Ht. unfold wfState, withTable.
  cbn [signalPerformance driftDetector regimeProfiles reflexState]. tauto.
Qed.

Lemma addSignal_wf profile aggression cur regime hist fn signalType g :
  LearnerInvariant.wfTable (table g) ->
  LearnerInvariant.wfTable
    (table (addSignal profile aggression cur regime hist fn signalType g)).
Proof.
  intros H. unfold addSignal.
  destruct (negb (isActive profile signalType)); [exact H |].
  destruct (fn (signals g)) as [result|]; [| exact H].
  cbv zeta. destruct (Num.eqb _ 0); [exact H |].
  match goal with
  | |- context [Learner.getDynamicWeightAdjustment ?a ?b ?c ?d ?e ?f] =>
      pose proof (LearnerInvariant.getDynamicWeightAdjustment_wf a b c d e f H) as Hw;
      destruct (Learner.getDynamicWeightAdjustment a b c d e f) as [adjusted table1]
  end.
  exact Hw.
Qed.

Section Opening.
Variable M : MathOps.

(** The profile table [openCycle] leaves: the one it found, or that one
    after one call of [updateRegimeProfilePerformance]. *)
Lemma openCycle_profiles env hist stats st :
  regimeProfiles (c_state (openCycle M env hist stats st)) = regimeProfiles st
  \/ exists regime actual predicted globalAccuracy,
      regimeProfiles (c_state (openCycle M env hist stats st))
      = updateRegimeProfilePerformance regime actual predicted globalAccuracy
          (regimeProfiles st).
Proof.
  unfold openCycle. cbv zeta.
  destruct (getRealTimeExternalData env) as [realTimeFactor realTimeReason].
  destruct (Reflex.checkForAnomalousPerformance stats (reflexState st))
    as [isReflexiveCorrection reflex1].
  match goal with
  | |- context [let '(a, b) := ?x in _] => destruct x as [driftState detector1]
  end.
  match goal with
  | |- context [let '(a, b) := ?x in _] =>
      assert (snd x = regimeProfiles st
              \/ exists regime actual predicted globalAccuracy,
                  snd x = updateRegimeProfilePerformance regime actual predicted
                            globalAccuracy (regimeProfiles st)) as Hx
  end.
  { destruct stats as [s|]; [| left; reflexivity].
    destruct (Carry.lastPredictionSignals s) as [votes|]; [| left; reflexivity].
    destruct (truthy (lastActualOutcome s)); [| left; reflexivity].
    cbn [snd]. destruct (lastPredictedOutcome s) eqn:E; [| left; reflexivity].
    right. eauto. }
  revert Hx.
  match goal with
  | |- context [let '(a, b) := ?x in _] => generalize x
  end.
  intros [table1 profiles1] Hx. cbn [snd] in Hx.
  cbn [c_state regimeProfiles]. exact Hx.
Qed.

Lemma openCycle_shape env hist stats st :
  ProfileFacts.sameShape (regimeProfiles st) ->
  ProfileFacts.sameShape (regimeProfiles (c_state (openCycle M env hist stats st))).
Proof.
  intros H.
  destruct (openCycle_profiles env hist stats st) as [-> | (r & a & p & g & ->)];
    [exact H | apply ProfileFacts.updateRegimeProfilePerformance_shape, H].
Qed.

End Opening.

Section WithMath.
Variable M : MathOps.
Hypothesis sqrt_nonneg : forall x, 0 <= x -> 0 <= sqrt M x.

Lemma gatherSignals_wf env time profile aggression cur trendContext entropy hist confirmedHistory
    table0 :
  LearnerInvariant.wfTable table0 ->
  LearnerInvariant.wfTable
    (table (gatherSignals M env time profile aggression cur trendContext entropy hist
              confirmedHistory table0)).
Proof.
  intros H. unfold gatherSignals. cbv zeta.
  repeat apply addSignal_wf. exact H.
Qed.

Lemma collectSignals_wf env hist c :
  LearnerInvariant.wfTable (signalPerformance (c_state c)) ->
  LearnerInvariant.wfTable (table (fst (collectSignals M env hist c))).
Proof.
  intros H. unfold collectSignals. cbv zeta.
  match goal with
  | |- context [gatherSignals M ?a ?b ?d ?e ?f ?g ?h ?i ?j ?k] =>
      pose proof (gatherSignals_wf a b d e f g h i j k H) as Hg;
      revert Hg; generalize (gatherSignals M a b d e f g h i j k)
  end.
  intros g Hg.
  destruct (analyzeQuantumSuperpositionState (signals g)
              (analyzePredictionConsensus M (signals g) (c_trendContext c)) 0.22)
    as [superpositionSignal|]; [| exact Hg].
  match goal with
  | |- context [Learner.getDynamicWeightAdjustment ?a ?b ?c ?d ?e ?f] =>
      pose proof (LearnerInvariant.getDynamicWeightAdjustment_wf a b c d e f Hg) as Hw;
      destruct (Learner.getDynamicWeightAdjustment a b c d e f) as [adjusted table1]
  end.
  exact Hw.
Qed.

Lemma openCycle_wf env hist stats st :
  wfState st -> wfState (c_state (openCycle M env hist stats st)).
Proof.
  intros (Ht & Hd & Hp & Hs & Hr). unfold openCycle. cbv zeta.
  destruct (getRealTimeExternalData env) as [realTimeFactor realTimeReason].
  pose proof (ReflexFacts.check_reachable stats (reflexState st) Hr) as Hr1.
  destruct (Reflex.checkForAnomalousPerformance stats (reflexState st))
    as [isReflexiveCorrection reflex1].
  cbn [snd] in Hr1.
  match goal with
  | |- context [let '(a, b) := ?x in _] =>
      assert (DriftFacts.wf (snd x)) as Hd1
  end.
  { destruct stats as [s|]; [| exact Hd].
    destruct (lastActualOutcome s); try exact Hd;
      apply DriftFacts.detectConceptDrift_wf; assumption. }
  revert Hd1.
  match goal with
  | |- context [let '(a, b) := ?x in _] => generalize x
  end.
  intros [driftState detector1] Hd1. cbn [snd] in Hd1.
  match goal with
  | |- context [let '(a, b) := ?x in _] =>
      assert (LearnerInvariant.wfTable (fst x)
              /\ ProfileFacts.wfProfiles (snd x) /\ ProfileFacts.sameShape (snd x)) as Hx
  end.
  { destruct stats as [s|]; [| cbn [fst snd]; tauto].
    destruct (Carry.lastPredictionSignals s) as [votes|]; [| cbn [fst snd]; tauto].
    destruct (truthy (lastActualOutcome s)); [| cbn [fst snd]; tauto].
    cbn [fst snd]. split; [apply LearnerInvariant.updateSignalPerformance_wf, Ht |].
    destruct (lastPredictedOutcome s); [| tauto].
    split.
    - apply ProfileFacts.updateRegimeProfilePerformance_wf, Hp.
    - apply ProfileFacts.updateRegimeProfilePerformance_shape, Hs. }
  revert Hx.
  match goal with
  | |- context [let '(a, b) := ?x in _] => generalize x
  end.
  intros [table1 profiles1] (Ht1 & Hp1 & Hs1). cbn [fst snd] in Ht1, Hp1, Hs1.
  unfold wfState.
  cbn [c_state signalPerformance driftDetector regimeProfiles reflexState]. tauto.
Qed.

Lemma decide_wf env c g consensus :
  wfState (c_state c) -> LearnerInvariant.wfTable (table g) ->
  wfState (snd (decide M env c g consensus)).
Proof.
  intros Hc Hg. unfold decide. cbv zeta.
  destruct (length (validSignalsOf g) =? 0)%nat; cbn [snd]; apply withTable_wf; assumption.
Qed.

Lemma ultraAIPredict_wf env hist stats st :
  wfState st -> wfState (snd (ultraAIPredict M env hist stats st)).
Proof.
  intros H. unfold ultraAIPredict. cbv zeta.
  pose proof (openCycle_wf env hist stats st H) as Hc.
  revert Hc. generalize (openCycle M env hist stats st). intros c Hc.
  destruct (length (List.filter confirmed hist) <? 52)%nat; [exact Hc |].
  apply decide_wf; [exact Hc |].
  apply collectSignals_wf, Hc.
Qed.

End WithMath.
End StateFacts.

(** X11.  [updateRegimeProfilePerformance] keeps every regime profile in
    range: [baseWeightMultiplier] in [0.20, 1.9], [contextualAggression] in
    [0.30, 1.8], at most 35 bits in [recentAccuracy], and
    [correctPredictions] at most [totalPredictions].  The table the module
    is loaded with has the property. *)
Theorem regimeProfiles_stay_in_range
    (regime : JS.Field) (actual predicted : option JS.Outcome) (globalAccuracy : Q)
    (profiles : gmap string Engine.RegimeProfile) :
  ProfileFacts.wfProfiles profiles ->
  ProfileFacts.wfProfiles
    (Engine.updateRegimeProfilePerformance regime actual predicted globalAccuracy profiles).
Proof. apply ProfileFacts.updateRegimeProfilePerformance_wf. Qed.

(** A hit in the regime RANGE_MED_VOL, on the table the module is loaded
    with. *)
Lemma regimeProfiles_stay_in_range_witness :
  ProfileFacts.wfProfiles
    (Engine.updateRegimeProfilePerformance (JS.Str "RANGE_MED_VOL") (Some JS.BIG)
       (Some JS.BIG) 0.5 Engine.REGIME_SIGNAL_PROFILES).
Proof.
  apply (regimeProfiles_stay_in_range (JS.Str "RANGE_MED_VOL") (Some JS.BIG) (Some JS.BIG) 0.5
           Engine.REGIME_SIGNAL_PROFILES).
  apply ProfileFacts.initial_profiles_wf.
Defined.

(** X12.  What [updateRegimeProfilePerformance] leaves alone: the profile
    of every other regime, the set of keys and the [activeSignalTypes] of
    every profile; and the whole table when the regime is not a key of it or
    when there is no predicted outcome. *)
Theorem regimeProfiles_frame
    (regime : JS.Field) (actual predicted : option JS.Outcome) (globalAccuracy : Q)
    (profiles : gmap string Engine.RegimeProfile) :
  let updated :=
    Engine.updateRegimeProfilePerformance regime actual predicted globalAccuracy profiles in
  (forall key, key <> Engine.keyOf regime -> updated !! key = profiles !! key)
  /\ (forall key, Engine.activeSignalTypes <$> (updated !! key)
                  = Engine.activeSignalTypes <$> (profiles !! key))
  /\ (forall key, is_Some (updated !! key) <-> is_Some (profiles !! key))
  /\ (profiles !! Engine.keyOf regime = None -> updated = profiles)
  /\ (predicted = None -> updated = profiles).
Proof.
  cbv zeta. split; [| split; [| split; [| split]]].
  - intros key Hne. apply ProfileFacts.updateRegimeProfilePerformance_frame, Hne.
  - intros key. apply ProfileFacts.updateRegimeProfilePerformance_types.
  - intros key.
    pose proof (ProfileFacts.updateRegimeProfilePerformance_types regime actual predicted
                  globalAccuracy profiles key) as H.
    destruct (Engine.updateRegimeProfilePerformance regime actual predicted globalAccuracy
                profiles !! key), (profiles !! key); cbn in H; try discriminate;
      split; intros [? ?]; try discriminate; eauto.
  - apply ProfileFacts.updateRegimeProfilePerformance_unknown.
  - intros ->. unfold Engine.updateRegimeProfilePerformance.
    destruct (profiles !! Engine.keyOf regime); reflexivity.
Qed.

(** X13.  The regime name [getMarketRegimeAndTrendContext] gives is a key
    of [REGIME_SIGNAL_PROFILES] exactly when the context is not
    transitioning.  So on a table with the keys of the one the module is
    loaded with, a cycle reads the profile of its regime when the context is
    not transitioning and the DEFAULT profile, whose active types are
    ['all'], when it is; and [updateRegimeProfilePerformance] called with the
    regime name of a transitioning context changes nothing. *)
Theorem transition_cycles_use_default_profile
    (M : MathOps) (env : Engine.Env) (hist : list Carry.HistoryRecord)
    (stats : option Carry.Stats) (st : Engine.State) :
  ProfileFacts.sameShape (Engine.regimeProfiles st) ->
  let ctx := Context.getMarketRegimeAndTrendContext M hist 5 10 20 in
  let c := Engine.openCycle M env hist stats st in
  (is_Some (Engine.REGIME_SIGNAL_PROFILES !! Context.macroRegime ctx)
   <-> Context.isTransitioning ctx = false)
  /\ Some (Engine.currentRegimeProfileOf c)
     = Engine.regimeProfiles (Engine.c_state c)
         !! (if Context.isTransitioning ctx then "DEFAULT" else Context.macroRegime ctx)
  /\ (Context.isTransitioning ctx = true ->
      Engine.activeSignalTypes (Engine.currentRegimeProfileOf c) = ["all"]
      /\ forall actual predicted globalAccuracy,
          Engine.updateRegimeProfilePerformance (JS.Str (Context.macroRegime ctx)) actual
            predicted globalAccuracy (Engine.regimeProfiles (Engine.c_state c))
          = Engine.regimeProfiles (Engine.c_state c)).
Proof.
  intros Hs. cbv zeta.
  pose proof (StateFacts.openCycle_shape M env hist stats st Hs) as Hs1.
  pose proof (FusionRange.openCycle_fields M env hist stats st) as (_ & _ & Hctx & _).
  unfold Engine.currentRegimeProfileOf. cbv zeta. rewrite Hctx.
  revert Hs1.
  generalize (Engine.regimeProfiles (Engine.c_state (Engine.openCycle M env hist stats st))).
  intros profiles Hs1.
  assert (is_Some (profiles !! "DEFAULT")) as [d Ed].
  { apply (ProfileFacts.sameShape_Some _ _ Hs1). vm_compute. eauto. }
  assert (Engine.activeSignalTypes d = ["all"]) as Hd.
  { pose proof (Hs1 "DEFAULT") as H.
    rewrite Ed, ProfileFacts.default_profile_types in H. cbn in H. congruence. }
  unfold Context.getMarketRegimeAndTrendContext. cbv zeta.
  cbn [Context.macroRegime Context.isTransitioning].
  generalize (Context.strength (Context.getTrendContext M hist 5 10 20)).
  generalize (Context.volatility (Context.getTrendContext M hist 5 10 20)).
  intros volatility strength.
  destruct (Context.transitioning (Carry.numbersOf hist) 5 10).
  - pose proof (ProfileFacts.macroRegimeOf_transition strength volatility) as Hn.
    pose proof (ProfileFacts.sameShape_None _ _ Hs1 Hn) as Hn1.
    split; [| split; [| split]].
    + rewrite Hn. split; [intros [? ?]; discriminate | discriminate].
    + rewrite Hn1, Ed. reflexivity.
    + rewrite Hn1, Ed. exact Hd.
    + intros. apply ProfileFacts.updateRegimeProfilePerformance_unknown. exact Hn1.
  - change (Context.macroRegimeOf strength volatility false)
      with (Context.regimeOf strength volatility).
    pose proof (ProfileFacts.regimeOf_known strength volatility) as Hk.
    destruct (ProfileFacts.sameShape_Some _ _ Hs1 Hk) as [p Ep].
    split; [| split].
    + split; [reflexivity | intros _; exact Hk].
    + rewrite Ep. reflexivity.
    + discriminate.
Qed.

(** A transitioning history, in a freshly loaded module. *)
Lemma transition_cycles_use_default_profile_witness :
  let ctx :=
    Context.getMarketRegimeAndTrendContext Approx.math HistoryScenario.sample25 5 10 20 in
  let c :=
    Engine.openCycle Approx.math EngineScenario.eveningPeak HistoryScenario.sample25
      (Some EngineScenario.serverStats) Engine.initialState in
  (is_Some (Engine.REGIME_SIGNAL_PROFILES !! Context.macroRegime ctx)
   <-> Context.isTransitioning ctx = false)
  /\ Some (Engine.currentRegimeProfileOf c)
     = Engine.regimeProfiles (Engine.c_state c)
         !! (if Context.isTransitioning ctx then "DEFAULT" else Context.macroRegime ctx)
  /\ (Context.isTransitioning ctx = true ->
      Engine.activeSignalTypes (Engine.currentRegimeProfileOf c) = ["all"]
      /\ forall actual predicted globalAccuracy,
          Engine.updateRegimeProfilePerformance (JS.Str (Context.macroRegime ctx)) actual
            predicted globalAccuracy (Engine.regimeProfiles (Engine.c_state c))
          = Engine.regimeProfiles (Engine.c_state c)).
Proof.
  apply (transition_cycles_use_default_profile Approx.math EngineScenario.eveningPeak
           HistoryScenario.sample25 (Some EngineScenario.serverStats) Engine.initialState).
  apply ProfileFacts.sameShape_initial.
Defined.

(** X14.  The module state stays well formed over the calls of
    [ultraAIPredict].  In the state the module is loaded with, and after a
    call from any well-formed state with any history, statistics, clock and
    random draws: every record of [signalPerformance] has its counters
    ordered, at most 30 bits in its window and its factors in range;
    [driftDetector] has an error mean in [0, 1] and minima that are both
    infinite or both finite; every regime profile has its multiplier in
    [0.20, 1.9], its aggression in [0.30, 1.8] and at most 35 bits in its
    window, and the table has the keys and active types it was loaded with;
    the reflexive countdown is at most 5 and the consecutive-miss counter at
    most 1.  [Math.sqrt] is taken to return a non-negative number on a
    non-negative one. *)
Theorem ultraAIPredict_keeps_state_well_formed (M : MathOps) :
  (forall x, 0 <= x -> 0 <= sqrt M x) ->
  StateFacts.wfState Engine.initialState
  /\ forall env hist stats st,
      StateFacts.wfState st ->
      StateFacts.wfState (snd (Engine.ultraAIPredict M env hist stats st)).
Proof.
  intros Hsqrt. split.
  - apply StateFacts.initialState_wf.
  - intros. apply StateFacts.ultraAIPredict_wf; assumption.
Qed.

(** With the square root of [Approx.math]. *)
Lemma ultraAIPredict_keeps_state_well_formed_witness :
  StateFacts.wfState Engine.initialState
  /\ forall env hist stats st,
      StateFacts.wfState st ->
      StateFacts.wfState (snd (Engine.ultraAIPredict Approx.math env hist stats st)).
Proof.
  apply (ultraAIPredict_keeps_state_well_formed Approx.math).
  apply ApproxFacts.sqrtQ_nonneg.
Defined.

(** ** The server *)

Module ServerFacts.
Import JS Carry Engine Server.

(** A history entry as the server files it: the same digit in [actual] and
    [actualNumber]. *)
Definition settled (r : HistoryRecord) : Prop :=
  exists d : Z, (0 <= d <= 9)%Z
    /\ actual r = Str (pretty d) /\ actualNumber r = Str (pretty d).

Lemma digit_cases (d : Z) :
  (0 <= d <= 9)%Z ->
  In d [0; 1; 2; 3; 4; 5; 6; 7; 8; 9]%Z.
Proof. intros H. cbn [In]. lia. Qed.

Lemma Qfloor_digit r : unitDraw r -> (0 <= Qfloor (r * 10) <= 9)%Z.
Proof.
  intros [H0 H1]. split.
  - change 0%Z with (Qfloor 0). apply Qfloor_resp_le. nra.
  - assert (Qfloor (r * 10) < 10)%Z; [| lia].
    rewrite Zlt_Qlt. pose proof (Qfloor_le (r * 10)) as Hf.
    change (inject_Z 10) with 10. lra.
Qed.

Lemma simulatedActual_number r :
  unitDraw r -> parseIntStr (simulatedActual r) = Some (Qfloor (r * 10)).
Proof.
  intros H. unfold simulatedActual.
  pose proof (digit_cases _ (Qfloor_digit r H)) as Hd. revert Hd.
  generalize (Qfloor (r * 10)). intros d Hd. cbn [In] in Hd.
  repeat (destruct Hd as [<- | Hd]; [vm_compute; reflexivity |]). contradiction.
Qed.

Lemma simulatedActual_truthy r : unitDraw r -> truthy (Str (simulatedActual r)) = true.
Proof.
  intros H. unfold simulatedActual.
  pose proof (digit_cases _ (Qfloor_digit r H)) as Hd. revert Hd.
  generalize (Qfloor (r * 10)). intros d Hd. cbn [In] in Hd.
  repeat (destruct Hd as [<- | Hd]; [vm_compute; reflexivity |]). contradiction.
Qed.

Lemma newHistoryEntry_settled now r : unitDraw r -> settled (newHistoryEntry now r).
Proof.
  intros H. exists (Qfloor (r * 10)). split; [apply Qfloor_digit, H |].
  split; reflexivity.
Qed.

Lemma settled_number rec d :
  (0 <= d <= 9)%Z -> actual rec = Str (pretty d) -> actualNumber rec = Str (pretty d) ->
  numberOf rec = Some d /\ confirmed rec = true.
Proof.
  intros Hd Ha Hn. unfold numberOf, confirmed. rewrite Ha, Hn.
  pose proof (digit_cases _ Hd) as Hc. cbn [In] in Hc.
  repeat (destruct Hc as [<- | Hc]; [vm_compute; split; reflexivity |]). contradiction.
Qed.

Lemma removelast_size {A} (l : list A) : length (removelast l) = pred (length l).
Proof.
  induction l as [| x l IH]; [reflexivity |].
  cbn [removelast]. destruct l; [reflexivity |].
  cbn [length] in IH |- *. rewrite IH. reflexivity.
Qed.

Lemma fileEntry_length entry history :
  (length history <= 200)%nat ->
  length (fileEntry entry history) = Nat.min (S (length history)) 200.
Proof.
  intros H. unfold fileEntry. cbv zeta.
  destruct (200 <? length (entry :: history))%nat eqn:E.
  - apply Nat.ltb_lt in E. cbn [length] in E.
    rewrite removelast_size. cbn [length]. lia.
  - apply Nat.ltb_ge in E. cbn [length] in E |- *. lia.
Qed.

Lemma Forall_removelast {A} (P : A -> Prop) l : Forall P l -> Forall P (removelast l).
Proof.
  induction 1 as [| x l Hx Hl IH]; [constructor |].
  cbn [removelast]. destruct l; [constructor |]. constructor; assumption.
Qed.

Lemma fileEntry_Forall (P : HistoryRecord -> Prop) entry history :
  P entry -> Forall P history -> Forall P (fileEntry entry history).
Proof.
  intros He Hh. unfold fileEntry. cbv zeta.
  destruct (200 <? _)%nat; [apply Forall_removelast |]; constructor; assumption.
Qed.

Section WithMath.
Variable M : MathOps.

Lemma predict_history rq sv :
  sharedHistory (snd (predict M rq sv))
  = fileEntry (newHistoryEntry (nowEntry rq) (rndDigit rq)) (sharedHistory sv).
Proof.
  unfold predict. destruct (ultraAIPredict M _ _ _ _) as [result engine1]. reflexivity.
Qed.

Lemma predict_result rq sv :
  predictionResult (fst (predict M rq sv))
  = fst (ultraAIPredict M (env rq) (sharedHistory sv) (Some (sharedStats sv)) (engine sv)).
Proof.
  unfold predict. destruct (ultraAIPredict M _ _ _ _) as [result engine1]. reflexivity.
Qed.

Lemma predict_engine rq sv :
  engine (snd (predict M rq sv))
  = snd (ultraAIPredict M (env rq) (sharedHistory sv) (Some (sharedStats sv)) (engine sv)).
Proof.
  unfold predict. destruct (ultraAIPredict M _ _ _ _) as [result engine1]. reflexivity.
Qed.

Lemma predict_stats rq sv :
  sharedStats (snd (predict M rq sv))
  = nextStats (sharedStats sv) (predictionResult (fst (predict M rq sv))) (clientHistory rq)
      (nowStats rq).
Proof.
  unfold predict. destruct (ultraAIPredict M _ _ _ _) as [result engine1]. reflexivity.
Qed.

Lemma serve_snoc requests rq sv :
  serve M (requests ++ [rq]) sv = snd (predict M rq (serve M requests sv)).
Proof. unfold serve. rewrite fold_left_app. reflexivity. Qed.

(** The history after a sequence of requests. *)
Lemma serve_history requests sv :
  (length (sharedHistory sv) <= 200)%nat ->
  Forall settled (sharedHistory sv) ->
  Forall (fun rq => unitDraw (rndDigit rq)) requests ->
  length (sharedHistory (serve M requests sv))
  = Nat.min (length requests + length (sharedHistory sv)) 200
  /\ Forall settled (sharedHistory (serve M requests sv)).
Proof.
  intros Hl Hs. induction requests as [| rq requests IH] using rev_ind; intros Hr.
  - cbn. split; [lia | exact Hs].
  - apply Forall_app in Hr as [Hr Hq]. apply Forall_inv in Hq.
    destruct (IH Hr) as [IHl IHs].
    rewrite serve_snoc, predict_history. split.
    + rewrite fileEntry_length by lia. rewrite IHl, length_app. cbn [length]. lia.
    + apply fileEntry_Forall; [apply newHistoryEntry_settled, Hq | exact IHs].
Qed.

(** Every entry the server has filed counts as confirmed. *)
Lemma settled_confirmed history :
  Forall settled history -> List.filter confirmed history = history.
Proof.
  induction 1 as [| r l (d & Hd & Ha & Hn) Hl IH]; [reflexivity |].
  cbn [List.filter]. rewrite (proj2 (settled_number r d Hd Ha Hn)), IH. reflexivity.
Qed.

(** The source a long enough history gives. *)
Lemma ultraAIPredict_long env0 history stats st :
  (52 <= length (List.filter confirmed history))%nat ->
  outputSource (fst (ultraAIPredict M env0 history stats st)) <> "InsufficientHistory".
Proof.
  intros Hlong. unfold ultraAIPredict. cbv zeta.
  apply Nat.ltb_ge in Hlong. rewrite Hlong.
  generalize (collectSignals M env0 history (openCycle M env0 history stats st)).
  intros gathered. unfold decide. cbv zeta.
  destruct (length (validSignalsOf (fst gathered)) =? 0)%nat; cbn [fst].
  - cbn [forcedOutput outputSource]. discriminate.
  - unfold fuse. cbv zeta. cbn [outputSource]. discriminate.
Qed.

(** The accuracy the module keeps after a call. *)
Lemma ultraAIPredict_accuracy env0 history s st :
  GLOBAL_LONG_TERM_ACCURACY_FOR_LEARNING_RATE
    (snd (ultraAIPredict M env0 history (Some s) st))
  = default (GLOBAL_LONG_TERM_ACCURACY_FOR_LEARNING_RATE st) (longTermGlobalAccuracy s).
Proof.
  assert (GLOBAL_LONG_TERM_ACCURACY_FOR_LEARNING_RATE
            (c_state (openCycle M env0 history (Some s) st))
          = default (GLOBAL_LONG_TERM_ACCURACY_FOR_LEARNING_RATE st)
              (longTermGlobalAccuracy s)) as Hc.
  { unfold openCycle. cbv zeta.
    destruct (getRealTimeExternalData env0) as [realTimeFactor realTimeReason].
    destruct (Reflex.checkForAnomalousPerformance (Some s) (reflexState st))
      as [isReflexiveCorrection reflex1].
    repeat match goal with
           | |- context [let '(a, b) := ?x in _] => destruct x
           end.
    reflexivity. }
  unfold ultraAIPredict. cbv zeta. revert Hc.
  generalize (openCycle M env0 history (Some s) st). intros c Hc.
  destruct (length (List.filter confirmed history) <? 52)%nat; [exact Hc |].
  generalize (collectSignals M env0 history c). intros gathered.
  unfold decide. cbv zeta.
  destruct (length (validSignalsOf (fst gathered)) =? 0)%nat; cbn [snd]; exact Hc.
Qed.

(** What no request changes in the statistics and in the module. *)
Lemma serve_constants requests :
  periodFull (sharedStats (serve M requests initial)) = PNull
  /\ longTermGlobalAccuracy (sharedStats (serve M requests initial)) = Some 0.5
  /\ GLOBAL_LONG_TERM_ACCURACY_FOR_LEARNING_RATE (engine (serve M requests initial)) = 0.5.
Proof.
  induction requests as [| rq requests (IHp & IHa & IHg)] using rev_ind.
  - repeat split.
  - rewrite serve_snoc, predict_stats, predict_engine, ultraAIPredict_accuracy.
    cbn [nextStats periodFull longTermGlobalAccuracy]. rewrite IHa. cbn [default].
    repeat split; assumption.
Qed.

End WithMath.
End ServerFacts.

(** ** The handler and its failing path *)

Module HandlerFacts.
Import JS Carry Engine Server ServerFacts.

(** The history of the body starts with [null]. *)
Definition failing (p : Post) : bool :=
  match posted p with
  | None :: _ => true
  | _ => false
  end.

Section WithMath.
Variable M : MathOps.

Lemma handle_failing p sv :
  failing p = true ->
  handle M p sv
  = (InternalServerError,
     {| sharedHistory := sharedHistory sv;
        sharedStats :=
          nextStats (sharedStats sv)
            (fst (ultraAIPredict M (postEnv p) (sharedHistory sv) (Some (sharedStats sv))
                    (engine sv)))
            [] (postNowStats p);
        engine :=
          snd (ultraAIPredict M (postEnv p) (sharedHistory sv) (Some (sharedStats sv))
                 (engine sv)) |}).
Proof.
  unfold failing, handle. intros H.
  destruct (ultraAIPredict M _ _ _ _) as [result engine1].
  destruct (posted p) as [|[entry|] rest]; try discriminate. reflexivity.
Qed.

Lemma handle_answered p sv :
  failing p = false ->
  handle M p sv
  = (Success (fst (predict M (requestOf p) sv)), snd (predict M (requestOf p) sv)).
Proof.
  unfold failing, handle, predict, requestOf.
  cbn [env clientHistory nowStats nowEntry rndDigit]. intros H.
  destruct (ultraAIPredict M _ _ _ _) as [result engine1].
  destruct (posted p) as [|[entry|] rest]; try discriminate; reflexivity.
Qed.

Lemma run_snoc posts p sv : run M (posts ++ [p]) sv = snd (handle M p (run M posts sv)).
Proof. unfold run. rewrite fold_left_app. reflexivity. Qed.

(** The history after a sequence of requests: one entry for each request
    that was answered. *)
Lemma run_history posts sv :
  (length (sharedHistory sv) <= 200)%nat ->
  Forall settled (sharedHistory sv) ->
  Forall (fun p => unitDraw (postRndDigit p)) posts ->
  length (sharedHistory (run M posts sv))
  = Nat.min (length (List.filter (fun p => negb (failing p)) posts)
             + length (sharedHistory sv)) 200
  /\ Forall settled (sharedHistory (run M posts sv)).
Proof.
  intros Hl Hs. induction posts as [| p posts IH] using rev_ind; intros Hr.
  - cbn. split; [lia | exact Hs].
  - apply Forall_app in Hr as [Hr Hq]. apply Forall_inv in Hq.
    destruct (IH Hr) as [IHl IHs].
    rewrite run_snoc, List.filter_app, length_app. cbn [List.filter].
    destruct (failing p) eqn:E; cbn [negb length].
    + rewrite (handle_failing p _ E). cbn [snd sharedHistory].
      split; [rewrite IHl; lia | exact IHs].
    + rewrite (handle_answered p _ E). cbn [snd]. rewrite predict_history.
      cbn [requestOf nowEntry rndDigit]. split.
      * rewrite fileEntry_length by lia. rewrite IHl. cbn [length]. lia.
      * apply fileEntry_Forall; [apply newHistoryEntry_settled, Hq | exact IHs].
Qed.

End WithMath.
End HandlerFacts.

(** X15.  The history the server keeps.  A request whose body's history
    starts with [null] is answered with status 500 and files no entry; every
    other request is answered with the prediction and files one entry.  So
    after any sequence of requests whose simulated-result draws lie in
    [0, 1), the history holds one entry per answered request up to 200
    entries and exactly 200 from then on, and every entry carries the same
    single digit 0..9 in [actual] and [actualNumber], reads as that number
    and passes the filter of [confirmedHistory]; an answer lists the newest
    50 entries. *)
Theorem server_history_is_capped_and_settled (M : MathOps) (posts : list Server.Post) :
  Forall (fun p => Engine.unitDraw (Server.postRndDigit p)) posts ->
  let startsWithNull (p : Server.Post) : bool :=
    match Server.posted p with None :: _ => true | _ => false end in
  let answered := List.filter (fun p => negb (startsWithNull p)) posts in
  let sv := Server.run M posts Server.initial in
  length (Server.sharedHistory sv) = Nat.min (length answered) 200
  /\ Forall (fun r => exists d : Z,
                 (0 <= d <= 9)%Z
                 /\ Carry.actual r = JS.Str (pretty d)
                 /\ Carry.actualNumber r = JS.Str (pretty d)
                 /\ Carry.numberOf r = Some d
                 /\ Engine.confirmed r = true)
       (Server.sharedHistory sv)
  /\ forall p,
       if startsWithNull p
       then fst (Server.handle M p sv) = Server.InternalServerError
            /\ Server.sharedHistory (snd (Server.handle M p sv)) = Server.sharedHistory sv
       else exists response,
            fst (Server.handle M p sv) = Server.Success response
            /\ Server.pendingPredictions response
               = take 50 (Server.sharedHistory (snd (Server.handle M p sv)))
            /\ length (Server.sharedHistory (snd (Server.handle M p sv)))
               = Nat.min (S (length (Server.sharedHistory sv))) 200.
Proof.
  intros Hr. cbv zeta.
  change (fun p : Server.Post =>
            negb match Server.posted p with None :: _ => true | _ => false end)
    with (fun p => negb (HandlerFacts.failing p)).
  destruct (HandlerFacts.run_history M posts Server.initial) as [Hl Hs];
    [cbn; lia | constructor | exact Hr |].
  split; [| split].
  - rewrite Hl. cbn [Server.initial Server.sharedHistory length].
    rewrite Nat.add_0_r. reflexivity.
  - eapply Forall_impl; [exact Hs |].
    intros r (d & Hd & Ha & Hn). exists d.
    destruct (ServerFacts.settled_number r d Hd Ha Hn) as [Hv Hc]. tauto.
  - intros p.
    change (match Server.posted p with None :: _ => true | _ => false end)
      with (HandlerFacts.failing p).
    destruct (HandlerFacts.failing p) eqn:E.
    + rewrite (HandlerFacts.handle_failing M p _ E). split; reflexivity.
    + rewrite (HandlerFacts.handle_answered M p _ E). cbn [fst snd].
      eexists. split; [reflexivity |]. split.
      * unfold Server.predict.
        destruct (Engine.ultraAIPredict M _ _ _ _) as [result engine1].
        cbn [fst snd Server.pendingPredictions Server.sharedHistory].
        apply (StatsFacts.slice_prefix 50). lia.
      * rewrite ServerFacts.predict_history. apply ServerFacts.fileEntry_length.
        rewrite Hl. lia.
Qed.

(** Three requests; the body of the second one is [[null]]. *)
Lemma server_history_is_capped_and_settled_witness :
  let posts :=
    [Server.mkPost [] EngineScenario.eveningPeak 1718270000001 1718270000002 0.35;
     Server.mkPost [None] EngineScenario.eveningPeak 1718270060001 1718270060002 0.81;
     Server.mkPost (map Some HistoryScenario.sample25) EngineScenario.eveningPeak
       1718270120001 1718270120002 0] in
  let sv := Server.run Approx.math posts Server.initial in
  length (Server.sharedHistory sv) = 2%nat
  /\ fst (Server.handle Approx.math
            (Server.mkPost [None] EngineScenario.eveningPeak 1718270180001 1718270180002 0.5)
            sv) = Server.InternalServerError.
Proof.
  pose proof (server_history_is_capped_and_settled Approx.math
           [Server.mkPost [] EngineScenario.eveningPeak 1718270000001 1718270000002 0.35;
            Server.mkPost [None] EngineScenario.eveningPeak 1718270060001 1718270060002 0.81;
            Server.mkPost (map Some HistoryScenario.sample25) EngineScenario.eveningPeak
              1718270120001 1718270120002 0]) as H.
  cbv zeta in H. destruct H as (Hl & _ & Hp).
  - repeat constructor; cbn; lra.
  - cbv zeta. split.
    + rewrite Hl. reflexivity.
    + exact (proj1 (Hp (Server.mkPost [None] EngineScenario.eveningPeak 1718270180001
                          1718270180002 0.5))).
Defined.

(** X16.  The warm-up of the server.  Until 52 requests have been answered
    (a request whose body's history starts with [null] is not answered: it
    gets status 500), every answer is the forced return for a short history:
    [isForcedPrediction] is true, the source is InsufficientHistory, the
    confidence is 0.5 at level 1, no signal is handed on, and the decision
    is BIG exactly when the coin draw is above 0.5.  Once 52 requests have
    been answered, when the simulated-result draws lie in [0, 1), the engine
    never answers with that source again. *)
Theorem server_warm_up
    (M : MathOps) (posts : list Server.Post) (p : Server.Post) :
  Forall (fun p => Engine.unitDraw (Server.postRndDigit p)) posts ->
  let startsWithNull (p : Server.Post) : bool :=
    match Server.posted p with None :: _ => true | _ => false end in
  let answered := List.filter (fun p => negb (startsWithNull p)) posts in
  match fst (Server.handle M p (Server.run M posts Server.initial)) with
  | Server.Success response =>
      let out := Server.predictionResult response in
      startsWithNull p = false
      /\ ((length answered < 52)%nat ->
          Engine.isForcedPrediction out = true
          /\ Engine.outputSource out = "InsufficientHistory"
          /\ Engine.finalConfidence out = 0.5
          /\ Engine.confidenceLevel out = 1%Z
          /\ Engine.lastPredictionSignals out = []
          /\ Engine.finalDecision out
             = if Num.gtb (Engine.rndInsufficient (Server.postEnv p)) 0.5
               then JS.BIG else JS.SMALL)
      /\ ((52 <= length answered)%nat ->
          Engine.outputSource out <> "InsufficientHistory")
  | Server.InternalServerError => startsWithNull p = true
  end.
Proof.
  intros Hr. cbv zeta.
  change (match Server.posted p with None :: _ => true | _ => false end)
    with (HandlerFacts.failing p).
  destruct (HandlerFacts.run_history M posts Server.initial) as [Hl Hs];
    [cbn; lia | constructor | exact Hr |].
  cbn [Server.initial Server.sharedHistory length] in Hl. rewrite Nat.add_0_r in Hl.
  unfold HandlerFacts.failing in Hl.
  pose proof (ServerFacts.settled_confirmed _ Hs) as Hc.
  revert Hl Hc. generalize (Server.run M posts Server.initial). intros sv Hl Hc.
  destruct (HandlerFacts.failing p) eqn:E.
  - rewrite (HandlerFacts.handle_failing M p _ E). exact E.
  - rewrite (HandlerFacts.handle_answered M p _ E). cbn [fst].
    rewrite ServerFacts.predict_result. cbn [Server.requestOf Server.env].
    split; [exact E |]. split.
    + intros Hshort.
      destruct (EngineFacts.ultraAIPredict_short M (Server.postEnv p)
                  (Server.sharedHistory sv) (Some (Server.sharedStats sv))
                  (Server.engine sv)) as [trail ->].
      * rewrite Hc, Hl. lia.
      * repeat split.
    + intros Hlong. apply ServerFacts.ultraAIPredict_long. rewrite Hc, Hl. lia.
Qed.

(** The fourth request of a server that has answered two of three. *)
Lemma server_warm_up_witness :
  exists response,
    fst (Server.handle Approx.math
           (Server.mkPost [] EngineScenario.eveningPeak 1718270180001 1718270180002 0)
           (Server.run Approx.math
              [Server.mkPost [] EngineScenario.eveningPeak 1718270000001 1718270000002 0.35;
               Server.mkPost [None] EngineScenario.eveningPeak 1718270060001 1718270060002
                 0.81;
               Server.mkPost (map Some HistoryScenario.sample25) EngineScenario.eveningPeak
                 1718270120001 1718270120002 0]
              Server.initial))
    = Server.Success response
    /\ Engine.isForcedPrediction (Server.predictionResult response) = true
    /\ Engine.outputSource (Server.predictionResult response) = "InsufficientHistory"
    /\ Engine.finalDecision (Server.predictionResult response) = JS.BIG.
Proof.
  pose proof (server_warm_up Approx.math
           [Server.mkPost [] EngineScenario.eveningPeak 1718270000001 1718270000002 0.35;
            Server.mkPost [None] EngineScenario.eveningPeak 1718270060001 1718270060002 0.81;
            Server.mkPost (map Some HistoryScenario.sample25) EngineScenario.eveningPeak
              1718270120001 1718270120002 0]
           (Server.mkPost [] EngineScenario.eveningPeak 1718270180001 1718270180002 0)) as H.
  cbv zeta in H.
  destruct (fst (Server.handle Approx.math _ _)) as [response|].
  - destruct H as (_ & Hshort & _); [repeat constructor; cbn; lra |].
    destruct Hshort as (Hf & Hs & _ & _ & _ & Hd); [cbn; lia |].
    exists response. split; [reflexivity |]. split; [exact Hf |]. split; [exact Hs |].
    rewrite Hd. reflexivity.
  - discriminate H. repeat constructor; cbn; lra.
Defined.

(** X17.  The server never sets [periodFull] or [longTermGlobalAccuracy] in
    the statistics it carries.  So after any sequence of requests the
    accuracy the module learns with is still 0.5, and the period of the next
    cycle is the reading of [Date.now()]. *)
Theorem server_never_reports_accuracy (M : MathOps) (requests : list Server.Request) :
  let sv := Server.serve M requests Server.initial in
  Carry.periodFull (Server.sharedStats sv) = JS.PNull
  /\ Carry.longTermGlobalAccuracy (Server.sharedStats sv) = Some 0.5
  /\ Engine.GLOBAL_LONG_TERM_ACCURACY_FOR_LEARNING_RATE (Server.engine sv) = 0.5
  /\ forall env, Engine.periodOrNow (Some (Server.sharedStats sv)) env = JS.PNum (Engine.now env).
Proof.
  cbv zeta. destruct (ServerFacts.serve_constants M requests) as (Hp & Ha & Hg).
  split; [exact Hp |]. split; [exact Ha |]. split; [exact Hg |].
  intros env. unfold Engine.periodOrNow. rewrite Hp. reflexivity.
Qed.

(** ** Cycles under correction or drift *)

Module ForcedFacts.
Import JS Carry Context Market Ensemble Engine.

(** A sum of non-negative points is at least what it starts from. *)
Lemma points_ge (terms : list (Q * string)) acc :
  Forall (fun t => 0 <= fst t) terms ->
  acc <= fold_left (fun score t => score + fst t) terms acc.
Proof.
  intros H. revert acc. induction H as [| t rest Ht Hrest IH]; intros acc; cbn [fold_left].
  - lra.
  - specialize (IH (acc + fst t)). lra.
Qed.

Section WithMath.
Variable M : MathOps.

(** The points of a cycle under reflexive correction or drift. *)
Lemma uncertaintyScore_alarm trendContext stability marketEntropyState signalConsistency
    pathConfluence globalAccuracy isReflexiveCorrection driftState :
  isReflexiveCorrection = true \/ driftState = Drift.DRIFT ->
  70 <= uncertaintyScore
          (calculateUncertaintyScore M trendContext stability marketEntropyState
             signalConsistency pathConfluence globalAccuracy isReflexiveCorrection
             driftState).
Proof.
  intros Halarm.
  pose proof (FusionRange.uncertaintyTerms_nonneg M trendContext stability marketEntropyState
                signalConsistency pathConfluence globalAccuracy isReflexiveCorrection
                driftState) as Hall.
  unfold calculateUncertaintyScore. cbv zeta. cbn [uncertaintyScore].
  revert Hall. unfold uncertaintyTerms.
  match goal with
  | |- context [?a ++ ?b ++ ?rest] => generalize rest
  end.
  intros rest Hall.
  apply Forall_app in Hall as [_ Hall]. apply Forall_app in Hall as [_ Hall].
  rewrite !fold_left_app.
  destruct Halarm as [-> | ->].
  - cbn [fold_left fst].
    match goal with
    | |- _ <= fold_left ?f rest (fold_left ?f ?l ?a) =>
        pose proof (points_ge rest (fold_left f l a) Hall) as H1;
        assert (80 <= fold_left f l a) as H2
    end.
    { destruct driftState; cbn [fold_left fst]; lra. }
    lra.
  - cbn [fold_left fst].
    match goal with
    | |- _ <= fold_left ?f rest ?a =>
        pose proof (points_ge rest a Hall) as H1; assert (70 <= a) as H2
    end.
    { destruct isReflexiveCorrection; cbn [fold_left fst]; lra. }
    lra.
Qed.

Lemma fuse_alarm env c consensus validSignals masterLogic :
  c_isReflexiveCorrection c = true \/ c_driftState c = Drift.DRIFT ->
  isForcedPrediction (fuse M env c consensus validSignals masterLogic) = true.
Proof.
  intros Halarm. unfold fuse. cbv zeta. cbn [isForcedPrediction].
  match goal with
  | |- context [calculateUncertaintyScore M ?a ?b ?d ?e ?f ?g ?h ?i] =>
      pose proof (uncertaintyScore_alarm a b d e f g h i Halarm) as Hu;
      revert Hu;
      generalize (uncertaintyScore (calculateUncertaintyScore M a b d e f g h i))
  end.
  intros u Hu.
  assert ((c_isReflexiveCorrection c
           || match c_driftState c with Drift.DRIFT => true | _ => false end) = true) as ->.
  { destruct Halarm as [-> | ->]; [reflexivity | apply orb_true_r]. }
  assert (Num.geb u 65 = true) as ->; [| reflexivity].
  apply NumFacts.geb_true. lra.
Qed.

Lemma openCycle_alarm env history stats st :
  c_isReflexiveCorrection (openCycle M env history stats st)
  = fst (Reflex.checkForAnomalousPerformance stats (reflexState st))
  /\ c_driftState (openCycle M env history stats st)
     = match stats with
       | Some s =>
           match lastActualOutcome s with
           | Undefined => Drift.STABLE
           | _ =>
               fst (Drift.detectConceptDrift M
                      (optOutcome_eqb (getBigSmallFromNumber (lastActualOutcome s))
                                      (lastPredictedOutcome s))
                      (driftDetector st))
           end
       | None => Drift.STABLE
       end.
Proof.
  unfold openCycle. cbv zeta.
  destruct (getRealTimeExternalData env) as [realTimeFactor realTimeReason].
  destruct (Reflex.checkForAnomalousPerformance stats (reflexState st))
    as [isReflexiveCorrection reflex1].
  match goal with
  | |- context [let '(a, b) := ?x in _] =>
      assert (fst x
              = match stats with
                | Some s =>
                    match lastActualOutcome s with
                    | Undefined => Drift.STABLE
                    | _ =>
                        fst (Drift.detectConceptDrift M
                               (optOutcome_eqb (getBigSmallFromNumber (lastActualOutcome s))
                                               (lastPredictedOutcome s))
                               (driftDetector st))
                    end
                | None => Drift.STABLE
                end) as Hd
  end.
  { destruct stats as [s|]; [| reflexivity]. destruct (lastActualOutcome s); reflexivity. }
  revert Hd.
  match goal with
  | |- context [let '(a, b) := ?x in _] => generalize x
  end.
  intros [driftState detector1] Hd. cbn [fst] in Hd.
  match goal with
  | |- context [let '(a, b) := ?x in _] => destruct x
  end.
  cbn [c_isReflexiveCorrection c_driftState fst]. split; [reflexivity | exact Hd].
Qed.

Lemma ultraAIPredict_alarm env history stats st :
  c_isReflexiveCorrection (openCycle M env history stats st) = true
  \/ c_driftState (openCycle M env history stats st) = Drift.DRIFT ->
  isForcedPrediction (fst (ultraAIPredict M env history stats st)) = true.
Proof.
  intros Halarm. apply FusionFacts.ultraAIPredict_cases.
  - intros. reflexivity.
  - intros. apply fuse_alarm, Halarm.
Qed.

End WithMath.
End ForcedFacts.

(** X18.  A cycle under reflexive correction, or one in which the drift
    detector reports DRIFT, is always forced: [calculateUncertaintyScore]
    then gives at least 70 points, and the threshold of such a cycle is 65.
    So whenever [checkForAnomalousPerformance] returns true, or
    [detectConceptDrift] returns DRIFT on statistics that carry a last
    outcome, [ultraAIPredict] returns [isForcedPrediction] true at
    confidence level 1, and its [reflexiveCorrectionActive] is what
    [checkForAnomalousPerformance] returned. *)
Theorem correction_and_drift_cycles_are_forced
    (M : MathOps) (env : Engine.Env) (history : list Carry.HistoryRecord)
    (stats : option Carry.Stats) (st : Engine.State) :
  fst (Reflex.checkForAnomalousPerformance stats (Engine.reflexState st)) = true
  \/ (exists s,
        stats = Some s /\ Carry.lastActualOutcome s <> JS.Undefined
        /\ fst (Drift.detectConceptDrift M
                  (JS.optOutcome_eqb (JS.getBigSmallFromNumber (Carry.lastActualOutcome s))
                     (Carry.lastPredictedOutcome s))
                  (Engine.driftDetector st))
           = Drift.DRIFT) ->
  let out := fst (Engine.ultraAIPredict M env history stats st) in
  Engine.isForcedPrediction out = true
  /\ Engine.confidenceLevel out = 1%Z
  /\ Engine.reflexiveCorrectionActive out
     = fst (Reflex.checkForAnomalousPerformance stats (Engine.reflexState st)).
Proof.
  intros Halarm. cbv zeta.
  destruct (ForcedFacts.openCycle_alarm M env history stats st) as [Hr Hd].
  assert (Engine.isForcedPrediction (fst (Engine.ultraAIPredict M env history stats st))
          = true) as Hforced.
  { apply ForcedFacts.ultraAIPredict_alarm.
    destruct Halarm as [H | (s & -> & Hdef & H)]; [left; congruence | right].
    rewrite Hd. destruct (Carry.lastActualOutcome s); [congruence | exact H | exact H]. }
  split; [exact Hforced |]. split.
  - assert (FusionBounds.levelsOk env (fst (Engine.ultraAIPredict M env history stats st)))
      as (_ & Hf & _).
    { apply (FusionFacts.ultraAIPredict_cases M env history stats st
               (FusionBounds.levelsOk env)).
      - intros. apply FusionBounds.forcedOutput_levels.
      - intros. apply FusionBounds.fuse_levels. }
    apply Hf, Hforced.
  - rewrite <- Hr.
    apply (FusionFacts.ultraAIPredict_cases M env history stats st
             (fun out => Engine.reflexiveCorrectionActive out
                         = Engine.c_isReflexiveCorrection
                             (Engine.openCycle M env history stats st))).
    + intros. reflexivity.
    + intros. unfold Engine.fuse. cbv zeta. reflexivity.
Qed.

(** The mirror history, three cycles into a reflexive correction. *)
Lemma correction_and_drift_cycles_are_forced_witness :
  let st :=
    Engine.mkState ∅ Drift.initial Engine.REGIME_SIGNAL_PROFILES 0.5
      (Reflex.mkReflexState 0 3) in
  let out :=
    fst (Engine.ultraAIPredict Approx.math EngineScenario.eveningPeak
           EngineScenario.mirrorHistory (Some EngineScenario.serverStats) st) in
  Engine.isForcedPrediction out = true
  /\ Engine.confidenceLevel out = 1%Z
  /\ Engine.reflexiveCorrectionActive out
     = fst (Reflex.checkForAnomalousPerformance (Some EngineScenario.serverStats)
              (Engine.reflexState st)).
Proof.
  apply (correction_and_drift_cycles_are_forced Approx.math EngineScenario.eveningPeak
           EngineScenario.mirrorHistory (Some EngineScenario.serverStats)
           (Engine.mkState ∅ Drift.initial Engine.REGIME_SIGNAL_PROFILES 0.5
              (Reflex.mkReflexState 0 3))).
  left. reflexivity.
Defined.

(** ** Analyzers that cannot vote as written *)

Module AnalyzerFacts.
Import JS Carry Stats Context Analyzers Indicators Market Ensemble Engine.

(** A pattern joined from class words is neither of the two letter
    patterns. *)
Lemma joinOutcomes_words outcomes :
  String.eqb (joinOutcomes "" outcomes) "BBS" = false
  /\ String.eqb (joinOutcomes "" outcomes) "SSB" = false.
Proof.
  unfold joinOutcomes.
  destruct outcomes as [| o [| o2 rest]]; [split; reflexivity | |];
    destruct o; cbn; split; reflexivity.
Qed.

Section WithMath.
Variable M : MathOps.

(** The call of the model signal as [addSignal] makes it. *)
Lemma mlCall_cases history trendContext time baseWeight :
  match createFeatureSetForML M history trendContext time with
  | Some features => analyzeMLModelSignal features baseWeight
  | None => None
  end
  = if (52 <=? length (numbersOf history))%nat
       && jsLt (ofOpt (calculateStdDev M (numbersOf history) 30)) 1.0
       && Num.gtb (time_sin_of time) 0
    then Some (mkRawSignal BIG (baseWeight * Qmin 1.0 0.4 * 1.5) "ML-GradientBoost")
    else None.
Proof.
  unfold createFeatureSetForML. cbv zeta.
  destruct (length (numbersOf history) <? 52)%nat eqn:E.
  - apply Nat.ltb_lt in E. assert ((52 <=? length (numbersOf history))%nat = false) as ->
        by (apply Nat.leb_gt; exact E). reflexivity.
  - apply Nat.ltb_ge in E. assert ((52 <=? length (numbersOf history))%nat = true) as ->
        by (apply Nat.leb_le; exact E).
    unfold analyzeMLModelSignal. cbv zeta.
    cbn [rsi_14 macd_hist stddev_30 time_sin andb].
    assert (forall q, jsLt NUndef q = false) as Hlt by reflexivity.
    assert (forall q, jsGt NUndef q = false) as Hgt by reflexivity.
    destruct (analyzeMACD history 12 26 9 1.0); rewrite Hlt, Hgt, !andb_false_r;
      destruct (jsLt _ 1.0 && Num.gtb (time_sin_of time) 0); reflexivity.
Qed.

End WithMath.
End AnalyzerFacts.

(** X19.  [analyzeTwoPlusOnePatterns] never returns a signal: the pattern
    it builds is a concatenation of the words BIG and SMALL, which is never
    one of the letter strings BBS and SSB it is compared with. *)
Theorem analyzeTwoPlusOnePatterns_never_votes
    (history : list Carry.HistoryRecord) (baseWeight : Q) :
  Analyzers.analyzeTwoPlusOnePatterns history baseWeight = None.
Proof.
  unfold Analyzers.analyzeTwoPlusOnePatterns. cbv zeta.
  destruct (length history <? 3)%nat; [reflexivity |].
  destruct (Analyzers.someNull _); [reflexivity |].
  destruct (AnalyzerFacts.joinOutcomes_words
              (omap id (Analyzers.outcomesOf (Stats.slice 0 3 history)))) as [-> ->].
  reflexivity.
Qed.

(** X20.  The model signal as [addSignal] calls it, on the features of
    [createFeatureSetForML]: the feature [macd_hist] is always [undefined],
    so the two branches that read it are never taken.  The signal votes
    exactly when the history holds at least 52 numbers, [stddev_30] compares
    below 1.0 and [time_sin] is positive; the vote is then BIG with weight
    0.6 times the base weight.  It never votes SMALL. *)
Theorem ml_signal_votes_only_big
    (M : MathOps) (history : list Carry.HistoryRecord) (trendContext : Context.TrendContext)
    (time : Ensemble.TimeOfDay) (baseWeight : Q) :
  let call :=
    match Ensemble.createFeatureSetForML M history trendContext time with
    | Some features => Ensemble.analyzeMLModelSignal features baseWeight
    | None => None
    end in
  (is_Some call
   <-> (52 <= length (Carry.numbersOf history))%nat
       /\ Ensemble.jsLt (Ensemble.ofOpt (Stats.calculateStdDev M (Carry.numbersOf history) 30))
            1.0 = true
       /\ 0 < Ensemble.time_sin_of time)
  /\ forall s,
      call = Some s ->
      Analyzers.r_prediction s = JS.BIG /\ Analyzers.r_weight s == baseWeight * 0.6
      /\ Analyzers.r_source s = "ML-GradientBoost".
Proof.
  cbv zeta. rewrite AnalyzerFacts.mlCall_cases.
  destruct (52 <=? length (Carry.numbersOf history))%nat eqn:El;
    [apply Nat.leb_le in El | apply Nat.leb_gt in El];
    destruct (Ensemble.jsLt _ 1.0) eqn:Es;
    destruct (Num.gtb (Ensemble.time_sin_of time) 0) eqn:Et;
    cbn [andb]; num_props; split;
    try (split; [intros [? ?]; discriminate | intros (? & ? & ?); try discriminate; lia || lra]);
    try (intros s Hs; discriminate).
  - split; [intros _; repeat split; assumption | intros _; eauto].
  - intros s Hs. injection Hs as <-. cbn [Analyzers.r_prediction Analyzers.r_weight
                                          Analyzers.r_source].
    split; [reflexivity |]. split; [| reflexivity].
    assert (Qmin 1.0 0.4 == 0.4) as -> by (apply Q.min_r; lra). lra.
Qed.

(** ** The tie-break of the final decision *)

Module TieFacts.
Import JS Carry Context Market Ensemble Engine.

(** The weight behind a class, at least the weight of any one of its
    votes. *)
Lemma scoreOf_acc o (validSignals : list Signal) acc :
  Forall (fun s => 0 <= adjustedWeight s) validSignals ->
  fold_left
    (fun score signal =>
       if Outcome_eqb (prediction signal) o then score + adjustedWeight signal else score)
    validSignals acc
  == acc + scoreOf o validSignals.
Proof.
  unfold scoreOf. intros H. revert acc.
  induction H as [| s rest Hs Hrest IH]; intros acc; cbn [fold_left].
  - lra.
  - rewrite (IH (if Outcome_eqb (prediction s) o then acc + adjustedWeight s else acc)).
    rewrite (IH (if Outcome_eqb (prediction s) o then 0 + adjustedWeight s else 0)).
    destruct (Outcome_eqb (prediction s) o); lra.
Qed.

Lemma scores_positive (validSignals : list Signal) :
  validSignals <> [] ->
  Forall (fun s => Learner.MIN_ABSOLUTE_WEIGHT < adjustedWeight s) validSignals ->
  0 <= scoreOf BIG validSignals /\ 0 <= scoreOf SMALL validSignals
  /\ 0 < scoreOf BIG validSignals + scoreOf SMALL validSignals.
Proof.
  intros Hne Hall.
  assert (Forall (fun s => 0 <= adjustedWeight s) validSignals) as Hnn.
  { eapply Forall_impl; [exact Hall |]. intros s Hs. cbn beta in Hs.
    unfold Learner.MIN_ABSOLUTE_WEIGHT in Hs. lra. }
  pose proof (FusionRange.scoreOf_nonneg BIG validSignals Hnn) as Hb.
  pose proof (FusionRange.scoreOf_nonneg SMALL validSignals Hnn) as Hs.
  split; [exact Hb |]. split; [exact Hs |].
  destruct validSignals as [| s rest]; [congruence |].
  inversion Hall as [| ? ? Hs0 Hrest]; subst. inversion Hnn as [| ? ? _ Hnn']; subst.
  unfold Learner.MIN_ABSOLUTE_WEIGHT in Hs0.
  pose proof (FusionRange.scoreOf_nonneg BIG rest Hnn') as Hb'.
  pose proof (FusionRange.scoreOf_nonneg SMALL rest Hnn') as Hs'.
  unfold scoreOf. cbn [fold_left].
  rewrite (scoreOf_acc BIG rest _ Hnn'), (scoreOf_acc SMALL rest _ Hnn').
  destruct (prediction s); cbn [Outcome_eqb]; lra.
Qed.

Lemma validSignalsOf_above g :
  Forall (fun s => Learner.MIN_ABSOLUTE_WEIGHT < adjustedWeight s) (validSignalsOf g).
Proof.
  unfold validSignalsOf. induction (signals g) as [| s rest IH]; cbn [List.filter].
  - constructor.
  - destruct (Num.gtb (adjustedWeight s) Learner.MIN_ABSOLUTE_WEIGHT) eqn:E; [| exact IH].
    constructor; [| exact IH]. num_props. exact E.
Qed.

Section WithMath.
Variable M : MathOps.

(** The total score of a fusion with at least one vote. *)
Lemma totalScore_positive c signals0 validSignals :
  validSignals <> [] ->
  Forall (fun s => Learner.MIN_ABSOLUTE_WEIGHT < adjustedWeight s) validSignals ->
  let consensus := analyzePredictionConsensus M signals0 (c_trendContext c) in
  let p :=
    probabilities
      (analyzeAdvancedMarketRegime M (c_trendContext c) (c_marketEntropyAnalysis c)) in
  0 < scoreOf BIG validSignals * (1 + bullTrend p - bearTrend p) * factor consensus
      + scoreOf SMALL validSignals * (1 + bearTrend p - bullTrend p)
        * (2.0 - factor consensus).
Proof.
  intros Hne Hall. cbv zeta.
  destruct (scores_positive validSignals Hne Hall) as (Hb & Hs & Hsum).
  pose proof (FusionRange.consensus_factor_bounds M signals0 (c_trendContext c)) as Hf.
  pose proof (FusionRange.advancedRegime_tilt M (c_trendContext c)
                (c_marketEntropyAnalysis c)) as Ht.
  cbv zeta in Ht. revert Hf Ht.
  generalize (factor (analyzePredictionConsensus M signals0 (c_trendContext c))).
  generalize (probabilities
                (analyzeAdvancedMarketRegime M (c_trendContext c)
                   (c_marketEntropyAnalysis c))).
  intros p f Hf [Ht1 Ht2].
  revert Hb Hs Hsum. generalize (scoreOf BIG validSignals) (scoreOf SMALL validSignals).
  intros b s Hb Hs Hsum.
  assert (0.25 * b <= b * (1 + bullTrend p - bearTrend p)) as Hb1 by nra.
  assert (0.25 * s <= s * (1 + bearTrend p - bullTrend p)) as Hs1 by nra.
  revert Hb1 Hs1.
  generalize (b * (1 + bullTrend p - bearTrend p)) (s * (1 + bearTrend p - bullTrend p)).
  intros bt st Hb1 Hs1.
  assert (0.4 * bt <= bt * f) by nra.
  assert (0.4 * st <= st * (2.0 - f)) by nra.
  lra.
Qed.

(** With a positive total score the fusion does not read the tie draw. *)
Lemma fuse_tie env env' c consensus validSignals masterLogic :
  rndJitter env = rndJitter env' ->
  0 < scoreOf BIG validSignals
      * (1 + bullTrend (probabilities (c_advancedRegime c))
         - bearTrend (probabilities (c_advancedRegime c)))
      * factor consensus
      + scoreOf SMALL validSignals
        * (1 + bearTrend (probabilities (c_advancedRegime c))
           - bullTrend (probabilities (c_advancedRegime c)))
        * (2.0 - factor consensus) ->
  fuse M env c consensus validSignals masterLogic
  = fuse M env' c consensus validSignals masterLogic.
Proof.
  intros Hj Hpos. apply NumFacts.gtb_true in Hpos.
  unfold fuse. cbv zeta. rewrite Hj, !Hpos. reflexivity.
Qed.

Lemma openCycle_tie i n w nw mv ins f ns t t' j history stats st :
  openCycle M (mkEnv i n w nw mv ins f ns t j) history stats st
  = openCycle M (mkEnv i n w nw mv ins f ns t' j) history stats st.
Proof.
  unfold openCycle, getCurrentISTHour, getRealTimeExternalData, periodOrNow.
  cbn [istHour now rndWeather rndNews rndMarketVol]. reflexivity.
Qed.

Lemma gatherSignals_tie i n w nw mv ins f ns t t' j time profile aggression cur trendContext
    entropy history confirmedHistory table0 :
  gatherSignals M (mkEnv i n w nw mv ins f ns t j) time profile aggression cur trendContext
    entropy history confirmedHistory table0
  = gatherSignals M (mkEnv i n w nw mv ins f ns t' j) time profile aggression cur
      trendContext entropy history confirmedHistory table0.
Proof. unfold gatherSignals. cbv zeta. cbn [rndFusion]. reflexivity. Qed.

Lemma collectSignals_tie i n w nw mv ins f ns t t' j history c :
  collectSignals M (mkEnv i n w nw mv ins f ns t j) history c
  = collectSignals M (mkEnv i n w nw mv ins f ns t' j) history c.
Proof.
  unfold collectSignals. cbv zeta.
  rewrite (gatherSignals_tie i n w nw mv ins f ns t t' j). reflexivity.
Qed.

Lemma ultraAIPredict_tie i n w nw mv ins f ns t t' j history stats st :
  ultraAIPredict M (mkEnv i n w nw mv ins f ns t j) history stats st
  = ultraAIPredict M (mkEnv i n w nw mv ins f ns t' j) history stats st.
Proof.
  unfold ultraAIPredict. cbv zeta.
  rewrite (openCycle_tie i n w nw mv ins f ns t t' j).
  set (env' := mkEnv i n w nw mv ins f ns t' j).
  destruct (length (List.filter confirmed history) <? 52)%nat; [reflexivity |].
  rewrite (collectSignals_tie i n w nw mv ins f ns t t' j). fold env'.
  destruct (FusionRange.collectSignals_consensus M env' history
              (openCycle M env' history stats st)) as [signals0 Hcons].
  pose proof (FusionRange.openCycle_fields M env' history stats st)
    as (_ & _ & _ & _ & _ & Hadv).
  cbv zeta in Hadv. revert Hcons Hadv.
  generalize (collectSignals M env' history (openCycle M env' history stats st)).
  generalize (openCycle M env' history stats st).
  intros c [g consensus] Hcons Hadv. cbn [fst snd] in *.
  unfold decide. cbv zeta.
  destruct (length (validSignalsOf g) =? 0)%nat eqn:E; [reflexivity |].
  f_equal. apply fuse_tie; [reflexivity |].
  rewrite Hcons, Hadv. apply totalScore_positive; [| apply validSignalsOf_above].
  intros Hnil. rewrite Hnil in E. discriminate.
Qed.

End WithMath.
End TieFacts.

(** X21.  [ultraAIPredict] never uses the tie-break draw of its final
    decision.  A fusion is only reached with at least one vote whose adjusted
    weight is above [MIN_ABSOLUTE_WEIGHT], the regime tilt is at least 0.25
    and both consensus factors are at least 0.4, so the total score is
    positive; the returned object and the module state are the same for
    every value of that draw. *)
Theorem ultraAIPredict_ignores_tie_draw
    (M : MathOps) (env : Engine.Env) (tie : Q) (history : list Carry.HistoryRecord)
    (stats : option Carry.Stats) (st : Engine.State) :
  Engine.ultraAIPredict M
    (Engine.mkEnv (Engine.istHour env) (Engine.now env) (Engine.rndWeather env)
       (Engine.rndNews env) (Engine.rndMarketVol env) (Engine.rndInsufficient env)
       (Engine.rndFusion env) (Engine.rndNoSignals env) tie (Engine.rndJitter env))
    history stats st
  = Engine.ultraAIPredict M env history stats st.
Proof.
  destruct env as [i n w nw mv ins f ns t j].
  cbn [Engine.istHour Engine.now Engine.rndWeather Engine.rndNews Engine.rndMarketVol
       Engine.rndInsufficient Engine.rndFusion Engine.rndNoSignals Engine.rndJitter].
  apply TieFacts.ultraAIPredict_tie.
Qed.

(** ** The weights the analyzers return *)

Module WeightFacts.
Import JS Carry Stats Context Analyzers Indicators Market Ensemble Engine.

(** The weight of a result, when there is one, as a multiple of the base
    weight. *)
Definition scaled (lo hi baseWeight : Q) (r : option RawSignal) : Prop :=
  match r with
  | Some s => lo * baseWeight <= r_weight s <= hi * baseWeight
  | None => True
  end.

Lemma scaled_None lo hi baseWeight : scaled lo hi baseWeight None.
Proof. exact I. Qed.

Lemma scaled_factor lo hi baseWeight o f source :
  0 <= baseWeight -> lo <= f <= hi ->
  scaled lo hi baseWeight (Some (mkRawSignal o (baseWeight * f) source)).
Proof. intros Hb Hf. unfold scaled. cbn [r_weight]. nra. Qed.

Lemma scaled_wider lo hi lo' hi' baseWeight r :
  0 <= baseWeight -> lo' <= lo -> hi <= hi' ->
  scaled lo hi baseWeight r -> scaled lo' hi' baseWeight r.
Proof. intros Hb Hlo Hhi. destruct r as [s|]; [| trivial]. unfold scaled. nra. Qed.

(** Two shares of a positive total. *)
Lemma shares (a b : nat) :
  (0 < a + b)%nat ->
  0 <= Num.ofNat a / Num.ofNat (a + b)
  /\ 0 <= Num.ofNat b / Num.ofNat (a + b)
  /\ Num.ofNat a / Num.ofNat (a + b) + Num.ofNat b / Num.ofNat (a + b) == 1.
Proof.
  intros Hpos.
  pose proof (NumFacts.ofNat_pos (a + b) Hpos) as Ht.
  pose proof (NumFacts.ofNat_nonneg a) as Ha.
  pose proof (NumFacts.ofNat_nonneg b) as Hb.
  assert (Num.ofNat (a + b) == Num.ofNat a + Num.ofNat b) as Hsum.
  { unfold Num.ofNat. rewrite Nat2Z.inj_add, inject_Z_plus. reflexivity. }
  split; [apply Qle_shift_div_l; [exact Ht | lra] |].
  split; [apply Qle_shift_div_l; [exact Ht | lra] |].
  rewrite Hsum in *. field. lra.
Qed.

Lemma analyzeTransitions_scaled history baseWeight :
  0 <= baseWeight -> scaled 0.65 1 baseWeight (analyzeTransitions history baseWeight).
Proof.
  intros Hb. unfold analyzeTransitions. cbv zeta.
  destruct (length history <? 15)%nat; [exact I |].
  destruct (head (outcomesOf history)) as [[lastOutcome|]|]; try exact I.
  generalize (countTransitions lastOutcome BIG (outcomesOf history)).
  generalize (countTransitions lastOutcome SMALL (outcomesOf history)).
  intros b a.
  destruct (a + b <? 6)%nat eqn:E; [exact I |]. apply Nat.ltb_ge in E.
  destruct (shares a b) as (Hp & Hq & Hsum); [lia |].
  revert Hp Hq Hsum.
  generalize (Num.ofNat a / Num.ofNat (a + b)) (Num.ofNat b / Num.ofNat (a + b)).
  intros p q Hp Hq Hsum.
  destruct (Num.gtb p (q + 0.30)) eqn:E1; [num_props; apply scaled_factor; [exact Hb | lra] |].
  destruct (Num.gtb q (p + 0.30)) eqn:E2; [num_props; apply scaled_factor; [exact Hb | lra] |].
  exact I.
Qed.

Lemma analyzeStreaks_scaled history baseWeight :
  0 <= baseWeight -> scaled 0.81 0.95 baseWeight (analyzeStreaks history baseWeight).
Proof.
  intros Hb. unfold analyzeStreaks. cbv zeta.
  destruct (length history <? 3)%nat; [exact I |].
  destruct (length (validOutcomesOf history) <? 3)%nat; [exact I |].
  destruct (validOutcomesOf history) as [| o rest] eqn:Ev; [exact I |].
  destruct (2 <=? streakLength o (o :: rest))%nat eqn:E; [| exact I].
  apply Nat.leb_le in E.
  destruct (getOppositeOutcome (Some o)); [| exact I].
  apply scaled_factor; [exact Hb |].
  assert (Num.ofNat 2 <= Num.ofNat (streakLength o (o :: rest))) as Hn
      by (apply NumFacts.ofNat_le; exact E).
  change (Num.ofNat 2) with 2 in Hn.
  destruct (NumFacts.Qmin_cases (0.45 + Num.ofNat (streakLength o (o :: rest)) * 0.18) 0.95)
    as [[? ?]|[? ?]]; lra.
Qed.

Lemma analyzeAlternatingPatterns_scaled history baseWeight :
  0 <= baseWeight ->
  scaled 1.15 1.15 baseWeight (analyzeAlternatingPatterns history baseWeight).
Proof.
  intros Hb. unfold analyzeAlternatingPatterns. cbv zeta.
  repeat match goal with
         | |- context [if ?b then _ else _] => destruct b
         end; try exact I; apply scaled_factor; [exact Hb | lra | exact Hb | lra].
Qed.

Lemma analyzeTwoPlusOnePatterns_scaled history baseWeight :
  0 <= baseWeight ->
  scaled 0.85 0.85 baseWeight (analyzeTwoPlusOnePatterns history baseWeight).
Proof.
  intros Hb. unfold analyzeTwoPlusOnePatterns. cbv zeta.
  repeat match goal with
         | |- context [if ?b then _ else _] => destruct b
         end; try exact I; apply scaled_factor; [exact Hb | lra | exact Hb | lra].
Qed.

Lemma analyzeDoublePatterns_scaled history baseWeight :
  0 <= baseWeight -> scaled 1.1 1.1 baseWeight (analyzeDoublePatterns history baseWeight).
Proof.
  intros Hb. unfold analyzeDoublePatterns. cbv zeta.
  repeat match goal with
         | |- context [if ?b then _ else _] => destruct b
         end; try exact I; apply scaled_factor; [exact Hb | lra | exact Hb | lra].
Qed.

Lemma analyzeMirrorPatterns_scaled history baseWeight :
  0 <= baseWeight -> scaled 1.2 1.2 baseWeight (analyzeMirrorPatterns history baseWeight).
Proof.
  intros Hb. unfold analyzeMirrorPatterns. cbv zeta.
  destruct (length history <? 4)%nat; [exact I |].
  destruct (someNull _); [exact I |].
  destruct (_ && _); [| exact I].
  destruct (_ !! 0%nat); [| exact I].
  apply scaled_factor; [exact Hb | lra].
Qed.

Lemma analyzeWaveformPatterns_scaled history baseWeight :
  0 <= baseWeight -> scaled 1 1.2 baseWeight (analyzeWaveformPatterns history baseWeight).
Proof.
  intros Hb. unfold analyzeWaveformPatterns. cbv zeta.
  destruct (length (validOutcomesOf history) <? 8)%nat; [exact I |].
  destruct (_ && _); [apply scaled_factor; [exact Hb | lra] |].
  destruct (_ && _); [| exact I].
  unfold scaled. cbn [r_weight]. lra.
Qed.

Lemma analyzeQuantumTunneling_scaled history baseWeight :
  0 <= baseWeight -> scaled 1 1 baseWeight (analyzeQuantumTunneling history baseWeight).
Proof.
  intros Hb. unfold analyzeQuantumTunneling. cbv zeta.
  destruct (List.filter _ _) as [| lastNum [| prevNum rest]]; try exact I.
  destruct (_ || _); [| exact I].
  unfold scaled. cbn [r_weight]. lra.
Qed.

(** A non-negative number over a positive one. *)
Lemma ratio_nonneg a b : 0 <= a -> 0 < b -> 0 <= a / b.
Proof. intros Ha Hb. apply Qle_shift_div_l; [exact Hb | lra]. Qed.

Lemma analyzeRSI_scaled history rsiPeriod baseWeight volatility :
  0 <= baseWeight ->
  scaled 0.6 1 baseWeight (analyzeRSI history rsiPeriod baseWeight volatility).
Proof.
  intros Hb. unfold analyzeRSI. cbv zeta.
  destruct (rsiPeriod <=? 0)%Z; [exact I |].
  destruct (_ <? _)%Z; [exact I |].
  destruct (calculateRSI (numbersOf history) rsiPeriod) as [rsiValue|]; [| exact I].
  repeat match goal with
         | |- context [if String.eqb ?a ?b then _ else _] => destruct (String.eqb a b)
         end;
    match goal with
    | |- context [Num.ltb rsiValue ?lo] => destruct (Num.ltb rsiValue lo) eqn:E1
    end;
    try match goal with
    | |- context [Num.gtb rsiValue ?hi] => destruct (Num.gtb rsiValue hi) eqn:E2
    end;
    try exact I; num_props; apply scaled_factor; try exact Hb;
    match goal with
    | |- context [Qmin (?a / ?b) 1.0] =>
        assert (0 <= a / b) as Hs by (apply ratio_nonneg; lra);
        revert Hs; generalize (a / b); intros sf Hs;
        destruct (NumFacts.Qmin_cases sf 1.0) as [[? ?]|[? ?]]; lra
    end.
Qed.

Lemma analyzeMACD_scaled history shortPeriod longPeriod signalPeriod baseWeight :
  0 <= baseWeight ->
  scaled 0.55 1 baseWeight (analyzeMACD history shortPeriod longPeriod signalPeriod baseWeight).
Proof.
  intros Hb. unfold analyzeMACD. cbv zeta.
  destruct (_ || _); [exact I |].
  destruct (_ <? _)%Z; [exact I |].
  destruct (calculateEMA (numbersOf history) shortPeriod) as [emaShort|]; [| exact I].
  destruct (calculateEMA (numbersOf history) longPeriod) as [emaLong|]; [| exact I].
  destruct (_ <? _)%Z; [exact I |].
  destruct (Qred <$> _) as [signalLine|]; [| exact I].
  match goal with
  | |- scaled _ _ _ (match ?p with Some _ => _ | None => _ end) => destruct p as [o|]
  end; [| exact I].
  apply scaled_factor; [exact Hb |].
  match goal with
  | |- context [Qmin (Qabs ?h / 0.6) 1.0] =>
      assert (0 <= Qabs h / 0.6) as Hs
          by (apply ratio_nonneg; [apply Qabs_nonneg | lra]);
      revert Hs; generalize (Qabs h / 0.6); intros sf Hs;
      destruct (NumFacts.Qmin_cases sf 1.0) as [[? ?]|[? ?]]; lra
  end.
Qed.

Lemma analyzeStateSpaceMomentum_scaled history period baseWeight :
  0 <= baseWeight ->
  scaled 0 1 baseWeight (analyzeStateSpaceMomentum history period baseWeight).
Proof.
  intros Hb. unfold analyzeStateSpaceMomentum. cbv zeta.
  destruct (_ <? _)%Z; [exact I |].
  match goal with
  | |- scaled _ _ _ (match ?p with Some _ => _ | None => _ end) => destruct p as [o|]
  end; [| exact I].
  apply scaled_factor; [exact Hb |].
  match goal with
  | |- context [Qmin 1 (Qabs ?a / (Qabs ?b + 1))] =>
      assert (0 <= Qabs a / (Qabs b + 1)) as Hs
          by (apply ratio_nonneg; [apply Qabs_nonneg | pose proof (Qabs_nonneg b); lra]);
      revert Hs; generalize (Qabs a / (Qabs b + 1)); intros sf Hs;
      destruct (NumFacts.Qmin_cases 1 sf) as [[? ?]|[? ?]]; lra
  end.
Qed.

Lemma ichimokuVerdict_range tk pvc chikou prediction strengthFactor :
  ichimokuVerdict tk pvc chikou = Some (prediction, strengthFactor) ->
  0.5 <= strengthFactor <= 0.95.
Proof.
  unfold ichimokuVerdict.
  destruct tk as [t|], pvc as [p|];
    repeat match goal with
           | |- context [if ?b then _ else _] => destruct b
           end;
    intros H; inversion H; subst; lra.
Qed.

Lemma analyzeIchimokuCloud_scaled history tenkanPeriod kijunPeriod senkouBPeriod baseWeight :
  0 <= baseWeight ->
  scaled 0.5 1 baseWeight
    (analyzeIchimokuCloud history tenkanPeriod kijunPeriod senkouBPeriod baseWeight).
Proof.
  intros Hb. unfold analyzeIchimokuCloud. cbv zeta.
  destruct (_ || _); [exact I |].
  destruct (_ <? _)%Z; [exact I |].
  repeat match goal with
         | |- scaled _ _ _ (match ichimokuVerdict _ _ _ with Some _ => _ | None => _ end) =>
             fail 1
         | |- scaled _ _ _ (match ?x with Some _ => _ | None => _ end) =>
             destruct x; [| exact I]
         end.
  match goal with
  | |- context [ichimokuVerdict ?a ?b ?d] =>
      pose proof (ichimokuVerdict_range a b d) as Hv;
      destruct (ichimokuVerdict a b d) as [[prediction strengthFactor]|]; [| exact I]
  end.
  specialize (Hv _ _ eq_refl).
  apply scaled_factor; [exact Hb |].
  match goal with
  | |- context [if ?b then _ else _] => destruct b
  end; [| lra].
  destruct (NumFacts.Qmin_cases 1.0 (strengthFactor + 0.15)) as [[? ?]|[? ?]]; lra.
Qed.

Lemma analyzeStochastic_scaled history kPeriod dPeriod smoothK baseWeight volatility :
  0 <= baseWeight ->
  scaled 0.625 1 baseWeight
    (analyzeStochastic history kPeriod dPeriod smoothK baseWeight volatility).
Proof.
  intros Hb. unfold analyzeStochastic. cbv zeta.
  destruct (_ || _); [exact I |].
  repeat match goal with
         | |- scaled _ _ _ (if (_ <? _)%Z then None else _) => destruct (_ <? _)%Z; [exact I |]
         end.
  destruct (_ || _); [exact I |].
  repeat match goal with
         | |- scaled _ _ _ (match ?x with Some _ => _ | None => _ end) =>
             destruct x; [| exact I]
         end.
  match goal with
  | |- scaled _ _ _ (let '(a, b) := ?x in _) => destruct x as [overbought oversold]
  end.
  match goal with
  | |- scaled _ _ _ (match ?v with Some _ => _ | None => _ end) =>
      assert (match v with Some (_, sf) => 0.25 <= sf | None => True end) as Hv;
      [| destruct v as [[prediction strengthFactor]|]; [| exact I]]
  end.
  { repeat match goal with
           | |- context [if ?b then _ else _] => destruct b
           end; try exact I;
      match goal with
      | |- _ <= Qmax ?a ?b => destruct (NumFacts.Qmax_cases a b) as [[? ?]|[? ?]]; lra
      end. }
  apply scaled_factor; [exact Hb |].
  destruct (NumFacts.Qmin_cases strengthFactor 1.0) as [[? ?]|[? ?]]; lra.
Qed.

Lemma analyzeVolatilityTrendFusion_scaled coin trendContext marketEntropyState baseWeight :
  0 <= baseWeight ->
  scaled 0.8 1.4 baseWeight
    (analyzeVolatilityTrendFusion coin trendContext marketEntropyState baseWeight).
Proof.
  intros Hb. unfold analyzeVolatilityTrendFusion. cbv zeta.
  repeat match goal with
         | |- context [if ?b && ?c then _ else _] => destruct (b && c)
         end; try exact I; apply scaled_factor; try exact Hb; lra.
Qed.

Lemma weightFor_nonneg {C} (classOf : string -> option C) eqb c o (signals : list Signal) :
  Forall (fun s => 0 <= adjustedWeight s) signals ->
  0 <= weightFor classOf eqb c o signals.
Proof.
  intros Hall. unfold weightFor.
  apply (FusionRange.fold_left_nonneg _ (fun s => 0 <= adjustedWeight s));
    [| exact Hall | lra].
  intros acc s Hacc Hs. destruct (classOf (source s)); [| exact Hacc].
  destruct (_ && _); lra.
Qed.

Lemma totalAdjusted_nonneg (signals : list Signal) :
  Forall (fun s => 0 <= adjustedWeight s) signals -> 0 <= totalAdjusted signals.
Proof.
  intros Hall. unfold totalAdjusted.
  apply (FusionRange.fold_left_nonneg _ (fun s => 0 <= adjustedWeight s));
    [| exact Hall | lra].
  intros acc s Hacc Hs. lra.
Qed.

(** The posteriors stay a distribution. *)
Lemma posterior_step (pb ps catBig catSmall : Q) :
  0 <= pb -> 0 <= ps -> pb + ps == 1 -> 0 <= catBig -> 0 <= catSmall ->
  let total := catBig + catSmall in
  let r :=
    if Num.gtb total 0 then
      let newPosteriorBig := catBig / total * pb in
      let newPosteriorSmall := catSmall / total * ps in
      let normalization := newPosteriorBig + newPosteriorSmall in
      if Num.gtb normalization 0
      then (newPosteriorBig / normalization, newPosteriorSmall / normalization)
      else (pb, ps)
    else (pb, ps) in
  0 <= fst r /\ 0 <= snd r /\ fst r + snd r == 1.
Proof.
  intros Hpb Hps Hsum Hcb Hcs. cbv zeta.
  destruct (Num.gtb (catBig + catSmall) 0) eqn:Et; [| cbn [fst snd]; auto].
  num_props.
  assert (0 <= catBig / (catBig + catSmall) * pb) as Hnb.
  { pose proof (ratio_nonneg catBig (catBig + catSmall) Hcb Et). nra. }
  assert (0 <= catSmall / (catBig + catSmall) * ps) as Hns.
  { pose proof (ratio_nonneg catSmall (catBig + catSmall) Hcs Et). nra. }
  revert Hnb Hns.
  generalize (catBig / (catBig + catSmall) * pb) (catSmall / (catBig + catSmall) * ps).
  intros nb ns Hnb Hns.
  destruct (Num.gtb (nb + ns) 0) eqn:En; [| cbn [fst snd]; auto].
  num_props. cbn [fst snd].
  split; [apply ratio_nonneg; assumption |].
  split; [apply ratio_nonneg; assumption |].
  field. lra.
Qed.

Lemma analyzeBayesianInference_scaled (signals : list Signal) baseWeight :
  0 <= baseWeight -> Forall (fun s => 0 <= adjustedWeight s) signals ->
  scaled 0.3 1 baseWeight (analyzeBayesianInference signals baseWeight).
Proof.
  intros Hb Hall. unfold analyzeBayesianInference. cbv zeta.
  destruct (length signals <? 5)%nat; [exact I |].
  match goal with
  | |- context [fold_left ?f ?l ?a] =>
      assert (0 <= fst (fold_left f l a) /\ 0 <= snd (fold_left f l a)
              /\ fst (fold_left f l a) + snd (fold_left f l a) == 1) as Hp;
      [| revert Hp; generalize (fold_left f l a)]
  end.
  { match goal with
    | |- context [fold_left ?f ?l ?a] =>
        assert (forall cats p,
                   0 <= fst p /\ 0 <= snd p /\ fst p + snd p == 1 ->
                   0 <= fst (fold_left f cats p) /\ 0 <= snd (fold_left f cats p)
                   /\ fst (fold_left f cats p) + snd (fold_left f cats p) == 1) as Hfold
    end.
    { induction cats as [| cat cats IH]; intros [pb ps] (Hpb & Hps & Hsum);
        cbn [fold_left]; [auto |].
      apply IH. cbn [fst snd] in Hpb, Hps, Hsum.
      pose proof (posterior_step pb ps
                    (weightFor evidenceOf Evidence_eqb cat BIG signals)
                    (weightFor evidenceOf Evidence_eqb cat SMALL signals) Hpb Hps Hsum
                    (weightFor_nonneg evidenceOf Evidence_eqb cat BIG signals Hall)
                    (weightFor_nonneg evidenceOf Evidence_eqb cat SMALL signals Hall)) as H.
      cbv zeta in H. exact H. }
    apply Hfold. cbn [fst snd]. repeat split; lra. }
  intros [pb ps] (Hpb & Hps & Hsum). cbn [fst snd] in *.
  destruct (Num.gtb pb ps && Num.gtb pb 0.65) eqn:E1.
  - apply andb_true_iff in E1 as [E1 E1']. num_props. unfold scaled. cbn [r_weight]. nra.
  - destruct (Num.gtb ps pb && Num.gtb ps 0.65) eqn:E2; [| exact I].
    apply andb_true_iff in E2 as [E2 E2']. num_props. unfold scaled. cbn [r_weight]. nra.
Qed.

Lemma totalAdjusted_filter (signals : list Signal) (keep : Signal -> bool) :
  Forall (fun s => 0 <= adjustedWeight s) signals ->
  0 <= totalAdjusted (List.filter keep signals).
Proof.
  intros Hall. apply totalAdjusted_nonneg.
  induction Hall as [| s rest Hs Hrest IH]; cbn [List.filter]; [constructor |].
  destruct (keep s); [constructor; assumption | exact IH].
Qed.

Lemma analyzeQuantumSuperpositionState_scaled (signals : list Signal) consensus baseWeight :
  0 <= baseWeight -> Forall (fun s => 0 <= adjustedWeight s) signals ->
  0.4 <= factor consensus <= 1.6 ->
  match analyzeQuantumSuperpositionState signals consensus baseWeight with
  | Some s => 0 < r_weight s <= baseWeight \/ (baseWeight == 0 /\ r_weight s == 0)
  | None => True
  end.
Proof.
  intros Hb Hall Hf. unfold analyzeQuantumSuperpositionState. cbv zeta.
  destruct (length signals <? 5)%nat; [exact I |].
  destruct (Num.ltb (totalAdjusted signals) 0.1) eqn:Et; [exact I |]. num_props.
  pose proof (totalAdjusted_filter signals
                (fun s => Outcome_eqb (prediction s) BIG) Hall) as Hbw.
  pose proof (totalAdjusted_filter signals
                (fun s => Outcome_eqb (prediction s) SMALL) Hall) as Hsw.
  revert Hbw Hsw.
  generalize (totalAdjusted (List.filter (fun s => Outcome_eqb (prediction s) BIG) signals)).
  generalize (totalAdjusted (List.filter (fun s => Outcome_eqb (prediction s) SMALL) signals)).
  intros sw bw Hbw Hsw.
  assert (0 <= bw / totalAdjusted signals * factor consensus) as Hpb.
  { pose proof (ratio_nonneg bw (totalAdjusted signals) Hbw). nra. }
  assert (0 <= sw / totalAdjusted signals * (2.0 - factor consensus)) as Hps.
  { pose proof (ratio_nonneg sw (totalAdjusted signals) Hsw). nra. }
  revert Hpb Hps.
  generalize (bw / totalAdjusted signals * factor consensus)
             (sw / totalAdjusted signals * (2.0 - factor consensus)).
  intros pb ps Hpb Hps.
  assert (forall d, 0 < d ->
            0 < baseWeight * Qmin 1.0 d <= baseWeight
            \/ (baseWeight == 0 /\ baseWeight * Qmin 1.0 d == 0)) as Hkey.
  { intros d Hd.
    destruct (NumFacts.Qmin_cases 1.0 d) as [[? Hm]|[? Hm]];
      destruct (Qlt_le_dec 0 baseWeight) as [Hpos | Hzero];
      try (left; rewrite Hm; nra);
      right; (split; [lra |]); rewrite Hm; nra. }
  destruct (Num.gtb pb (ps * 1.3)) eqn:E1.
  - num_props. cbn [r_weight]. apply Hkey. lra.
  - destruct (Num.gtb ps (pb * 1.3)) eqn:E2; [| exact I].
    num_props. cbn [r_weight]. apply Hkey. lra.
Qed.

Section WithMath.
Variable M : MathOps.

Lemma analyzeBollingerBands_scaled history period stdDevMultiplier baseWeight :
  0 <= baseWeight -> 0 <= stdDevMultiplier ->
  scaled 0.65 0.965 baseWeight
    (analyzeBollingerBands M history period stdDevMultiplier baseWeight).
Proof.
  intros Hb Hm. unfold analyzeBollingerBands. cbv zeta.
  destruct (period <=? 0)%Z; [exact I |].
  destruct (_ <? _)%Z; [exact I |].
  destruct (calculateSMA _ _) as [sma|]; [| exact I].
  destruct (calculateStdDev M _ _) as [stdDev|]; [| exact I].
  destruct (numbersOf history) as [| lastNumber rest]; [exact I |].
  destruct (Num.ltb stdDev 0.05) eqn:Es; [exact I |]. num_props.
  match goal with
  | |- scaled _ _ _ (match ?p with Some _ => _ | None => _ end) => destruct p as [o|]
  end; [| exact I].
  apply scaled_factor; [exact Hb |].
  match goal with
  | |- context [Qmin (Qabs ?a / ?b) 0.9] =>
      assert (0 <= Qabs a / b) as Hs
          by (apply ratio_nonneg; [apply Qabs_nonneg | nra]);
      revert Hs; generalize (Qabs a / b); intros sf Hs;
      destruct (NumFacts.Qmin_cases sf 0.9) as [[? ?]|[? ?]]; lra
  end.
Qed.

Lemma analyzeZScoreAnomaly_scaled history period threshold baseWeight :
  0 <= baseWeight -> 0 < threshold ->
  scaled 0.5 1 baseWeight (analyzeZScoreAnomaly M history period threshold baseWeight).
Proof.
  intros Hb Ht. unfold analyzeZScoreAnomaly. cbv zeta.
  destruct (_ <? _)%Z; [exact I |].
  destruct (calculateSMA _ _) as [mean|]; [| exact I].
  destruct (calculateStdDev M _ _) as [stdDev|]; [| exact I].
  destruct (numbersOf history) as [| lastNumber rest]; [exact I |].
  destruct (Num.ltb stdDev 0.1) eqn:Es; [exact I |].
  generalize ((lastNumber - mean) / stdDev). intros zScore.
  assert (forall o,
             threshold < Qabs zScore ->
             scaled 0.5 1 baseWeight
               (Some (mkRawSignal o
                        (baseWeight
                         * (0.5 + Qmin 1.0 ((Qabs zScore - threshold) / threshold) * 0.5))
                        "ZScoreAnomaly"))) as Hkey.
  { intros o Hz. apply scaled_factor; [exact Hb |].
    assert (0 <= (Qabs zScore - threshold) / threshold) as Hs
        by (apply ratio_nonneg; lra).
    revert Hs. generalize ((Qabs zScore - threshold) / threshold). intros sf Hs.
    destruct (NumFacts.Qmin_cases 1.0 sf) as [[? ?]|[? ?]]; lra. }
  destruct (Num.gtb zScore threshold) eqn:E1.
  - apply Hkey. num_props. pose proof (Qle_Qabs zScore). lra.
  - destruct (Num.ltb zScore (- threshold)) eqn:E2; [| exact I].
    apply Hkey. num_props. pose proof (Qle_Qabs (- zScore)) as Ha.
    rewrite Qabs_opp in Ha. lra.
Qed.

End WithMath.

End WeightFacts.

(** ** The signals of a cycle *)

Module GatherFacts.
Import JS Carry Stats Context Analyzers Indicators Market Ensemble Engine.

(** A signal as the signal block leaves it. *)
Definition okSignal (s : Signal) : Prop :=
  0 < weight s <= 0.35 /\ Learner.MIN_ABSOLUTE_WEIGHT <= adjustedWeight s.

(** A result the signal block can take in. *)
Definition bounded (r : option RawSignal) : Prop :=
  match r with
  | Some s => 0 <= r_weight s <= 0.35
  | None => True
  end.

Lemma scaled_bounded lo hi baseWeight r :
  0 <= lo -> 0 <= baseWeight -> hi * baseWeight <= 0.35 ->
  WeightFacts.scaled lo hi baseWeight r -> bounded r.
Proof.
  intros Hlo Hb Hhi. destruct r as [s|]; [| trivial].
  unfold WeightFacts.scaled, bounded. nra.
Qed.

Lemma okSignal_nonneg (signals : list Signal) :
  Forall okSignal signals -> Forall (fun s => 0 <= adjustedWeight s) signals.
Proof.
  intros H. eapply Forall_impl; [exact H |].
  intros s [_ Hs]. unfold Learner.MIN_ABSOLUTE_WEIGHT in Hs. lra.
Qed.

Lemma getDynamicWeightAdjustment_floor {A} source baseWeight cur regime (hist : list A) table :
  Learner.MIN_ABSOLUTE_WEIGHT
  <= fst (Learner.getDynamicWeightAdjustment source baseWeight cur regime hist table).
Proof.
  unfold Learner.getDynamicWeightAdjustment.
  destruct (table !! source); cbn [fst]; apply Q.le_max_r.
Qed.

Lemma addSignal_ok profile aggression cur regime hist fn signalType g :
  Forall okSignal (signals g) ->
  (Forall okSignal (signals g) -> bounded (fn (signals g))) ->
  Forall okSignal (signals (addSignal profile aggression cur regime hist fn signalType g)).
Proof.
  intros Hg Hfn. specialize (Hfn Hg). unfold addSignal.
  destruct (negb (isActive profile signalType)); [exact Hg |].
  destruct (fn (signals g)) as [result|]; [| exact Hg].
  cbv zeta. destruct (Num.eqb (Qred (r_weight result)) 0) eqn:Ez; [exact Hg |].
  match goal with
  | |- context [Learner.getDynamicWeightAdjustment ?a ?b ?c ?d ?e ?f] =>
      pose proof (getDynamicWeightAdjustment_floor a b c d e f) as Hw;
      destruct (Learner.getDynamicWeightAdjustment a b c d e f) as [adjusted table1]
  end.
  cbn [fst signals] in *. apply Forall_app_2; [exact Hg |].
  constructor; [| constructor]. split; [| exact Hw]. cbn [weight].
  unfold bounded in Hfn. unfold Num.eqb in Ez.
  assert (~ Qred (r_weight result) == 0) as Hnz.
  { intros Hq. apply Qeq_bool_iff in Hq. congruence. }
  rewrite Qred_correct in Hnz |- *. lra.
Qed.

Section WithMath.
Variable M : MathOps.

Lemma mlCall_bounded history trendContext time :
  bounded
    match createFeatureSetForML M history trendContext time with
    | Some features => analyzeMLModelSignal features 0.40
    | None => None
    end.
Proof.
  rewrite AnalyzerFacts.mlCall_cases.
  destruct (_ && _); [| exact I]. unfold bounded. cbn [r_weight].
  assert (Qmin 1.0 0.4 == 0.4) as -> by (apply Q.min_r; lra). lra.
Qed.

Lemma gatherSignals_ok env time profile aggression cur trendContext entropy hist
    confirmedHistory table0 :
  Forall okSignal
    (signals (gatherSignals M env time profile aggression cur trendContext entropy hist
                confirmedHistory table0)).
Proof.
  unfold gatherSignals. cbv zeta.
  repeat (apply addSignal_ok; [| intros Hsofar; cbv beta]); [constructor | ..].
  all: try (apply mlCall_bounded).
  all: try (eapply scaled_bounded;
            [| |
             | first [ apply WeightFacts.analyzeTransitions_scaled
                     | apply WeightFacts.analyzeStreaks_scaled
                     | apply WeightFacts.analyzeAlternatingPatterns_scaled
                     | apply WeightFacts.analyzeTwoPlusOnePatterns_scaled
                     | apply WeightFacts.analyzeDoublePatterns_scaled
                     | apply WeightFacts.analyzeMirrorPatterns_scaled
                     | apply WeightFacts.analyzeRSI_scaled
                     | apply WeightFacts.analyzeMACD_scaled
                     | apply WeightFacts.analyzeBollingerBands_scaled
                     | apply WeightFacts.analyzeIchimokuCloud_scaled
                     | apply WeightFacts.analyzeStochastic_scaled
                     | apply WeightFacts.analyzeZScoreAnomaly_scaled
                     | apply WeightFacts.analyzeStateSpaceMomentum_scaled
                     | apply WeightFacts.analyzeWaveformPatterns_scaled
                     | apply WeightFacts.analyzeQuantumTunneling_scaled
                     | apply WeightFacts.analyzeVolatilityTrendFusion_scaled
                     | apply WeightFacts.analyzeBayesianInference_scaled ];
               try lra; try (apply okSignal_nonneg; exact Hsofar) ];
            lra).
Qed.

Lemma collectSignals_ok env hist c :
  Forall okSignal (signals (fst (collectSignals M env hist c))).
Proof.
  unfold collectSignals. cbv zeta.
  match goal with
  | |- context [gatherSignals M ?a ?b ?d ?e ?f ?g ?h ?i ?j ?k] =>
      pose proof (gatherSignals_ok a b d e f g h i j k) as Hg;
      revert Hg; generalize (gatherSignals M a b d e f g h i j k)
  end.
  intros g Hg.
  pose proof (WeightFacts.analyzeQuantumSuperpositionState_scaled (signals g)
                (analyzePredictionConsensus M (signals g) (c_trendContext c)) 0.22) as Hq.
  destruct (analyzeQuantumSuperpositionState (signals g)
              (analyzePredictionConsensus M (signals g) (c_trendContext c)) 0.22)
    as [superpositionSignal|]; [| exact Hg].
  match goal with
  | |- context [Learner.getDynamicWeightAdjustment ?a ?b ?c ?d ?e ?f] =>
      pose proof (getDynamicWeightAdjustment_floor a b c d e f) as Hw;
      destruct (Learner.getDynamicWeightAdjustment a b c d e f) as [adjusted table1]
  end.
  cbn [fst signals] in *. apply Forall_app_2; [exact Hg |].
  constructor; [| constructor]. split; [| exact Hw]. cbn [weight].
  destruct Hq as [Hq | [Hq _]];
    [lra | apply okSignal_nonneg; exact Hg
     | apply FusionRange.consensus_factor_bounds | lra | lra].
Qed.

(** The votes a cycle hands to the next one. *)
Definition okVote (v : Vote) : Prop :=
  Learner.MIN_ABSOLUTE_WEIGHT < v_weight v /\ is_Some (v_prediction v)
  /\ v_isOnProbation v = false.

Lemma votesOf_ok (validSignals : list Signal) :
  Forall (fun s => Learner.MIN_ABSOLUTE_WEIGHT < adjustedWeight s) validSignals ->
  Forall okVote (votesOf validSignals).
Proof.
  intros H. unfold votesOf. induction H as [| s rest Hs Hrest IH]; cbn [map]; constructor;
    [| exact IH].
  unfold okVote. cbn [v_weight v_prediction v_isOnProbation]. eauto.
Qed.

Lemma ultraAIPredict_votes env history stats st :
  Forall okVote (Engine.lastPredictionSignals (fst (ultraAIPredict M env history stats st))).
Proof.
  apply (FusionFacts.ultraAIPredict_cases M env history stats st
           (fun out => Forall okVote (Engine.lastPredictionSignals out))).
  - intros. constructor.
  - intros consensus validSignals masterLogic -> _.
    unfold fuse. cbv zeta. cbn [Engine.lastPredictionSignals].
    apply votesOf_ok, TieFacts.validSignalsOf_above.
Qed.

End WithMath.
End GatherFacts.

(** X22.  The weight of a pattern signal, as a multiple of a non-negative
    base weight: [analyzeTransitions] returns between 0.65 and 1 times the
    base weight, [analyzeStreaks] between 0.81 and 0.95, [analyzeAlternatingPatterns]
    1.15, [analyzeDoublePatterns] 1.1, [analyzeMirrorPatterns] 1.2,
    [analyzeWaveformPatterns] between 1 and 1.2, [analyzeQuantumTunneling]
    1, whenever they return a signal. *)
Theorem pattern_analyzers_weight_ranges
    (history : list Carry.HistoryRecord) (baseWeight : Q) :
  0 <= baseWeight ->
  WeightFacts.scaled 0.65 1 baseWeight (Analyzers.analyzeTransitions history baseWeight)
  /\ WeightFacts.scaled 0.81 0.95 baseWeight (Analyzers.analyzeStreaks history baseWeight)
  /\ WeightFacts.scaled 1.15 1.15 baseWeight
       (Analyzers.analyzeAlternatingPatterns history baseWeight)
  /\ WeightFacts.scaled 1.1 1.1 baseWeight (Analyzers.analyzeDoublePatterns history baseWeight)
  /\ WeightFacts.scaled 1.2 1.2 baseWeight (Analyzers.analyzeMirrorPatterns history baseWeight)
  /\ WeightFacts.scaled 1 1.2 baseWeight
       (Analyzers.analyzeWaveformPatterns history baseWeight)
  /\ WeightFacts.scaled 1 1 baseWeight (Analyzers.analyzeQuantumTunneling history baseWeight).
Proof.
  intros Hb.
  split; [apply WeightFacts.analyzeTransitions_scaled, Hb |].
  split; [apply WeightFacts.analyzeStreaks_scaled, Hb |].
  split; [apply WeightFacts.analyzeAlternatingPatterns_scaled, Hb |].
  split; [apply WeightFacts.analyzeDoublePatterns_scaled, Hb |].
  split; [apply WeightFacts.analyzeMirrorPatterns_scaled, Hb |].
  split; [apply WeightFacts.analyzeWaveformPatterns_scaled, Hb
         | apply WeightFacts.analyzeQuantumTunneling_scaled, Hb].
Qed.

(** The mirror history, at the base weight of the mirror analyzer. *)
Lemma pattern_analyzers_weight_ranges_witness :
  WeightFacts.scaled 0.65 1 0.08
    (Analyzers.analyzeTransitions EngineScenario.mirrorHistory 0.08)
  /\ WeightFacts.scaled 0.81 0.95 0.08
       (Analyzers.analyzeStreaks EngineScenario.mirrorHistory 0.08)
  /\ WeightFacts.scaled 1.15 1.15 0.08
       (Analyzers.analyzeAlternatingPatterns EngineScenario.mirrorHistory 0.08)
  /\ WeightFacts.scaled 1.1 1.1 0.08
       (Analyzers.analyzeDoublePatterns EngineScenario.mirrorHistory 0.08)
  /\ WeightFacts.scaled 1.2 1.2 0.08
       (Analyzers.analyzeMirrorPatterns EngineScenario.mirrorHistory 0.08)
  /\ WeightFacts.scaled 1 1.2 0.08
       (Analyzers.analyzeWaveformPatterns EngineScenario.mirrorHistory 0.08)
  /\ WeightFacts.scaled 1 1 0.08
       (Analyzers.analyzeQuantumTunneling EngineScenario.mirrorHistory 0.08).
Proof.
  apply (pattern_analyzers_weight_ranges EngineScenario.mirrorHistory 0.08). lra.
Defined.

(** X23.  The weight of an indicator signal, as a multiple of a
    non-negative base weight: [analyzeRSI] returns between 0.6 and 1 times
    the base weight, [analyzeMACD] between 0.55 and 1, [analyzeIchimokuCloud]
    between 0.5 and 1, [analyzeStochastic] between 0.625 and 1,
    [analyzeStateSpaceMomentum] between 0 and 1, [analyzeBollingerBands]
    between 0.65 and 0.965 (for a non-negative band multiplier) and
    [analyzeZScoreAnomaly] between 0.5 and 1 (for a positive threshold),
    whenever they return a signal, for every history, period and volatility
    label. *)
Theorem indicator_analyzers_weight_ranges
    (M : MathOps) (history : list Carry.HistoryRecord) (baseWeight : Q) :
  0 <= baseWeight ->
  (forall rsiPeriod volatility,
      WeightFacts.scaled 0.6 1 baseWeight
        (Indicators.analyzeRSI history rsiPeriod baseWeight volatility))
  /\ (forall shortPeriod longPeriod signalPeriod,
        WeightFacts.scaled 0.55 1 baseWeight
          (Indicators.analyzeMACD history shortPeriod longPeriod signalPeriod baseWeight))
  /\ (forall tenkanPeriod kijunPeriod senkouBPeriod,
        WeightFacts.scaled 0.5 1 baseWeight
          (Indicators.analyzeIchimokuCloud history tenkanPeriod kijunPeriod senkouBPeriod
             baseWeight))
  /\ (forall kPeriod dPeriod smoothK volatility,
        WeightFacts.scaled 0.625 1 baseWeight
          (Indicators.analyzeStochastic history kPeriod dPeriod smoothK baseWeight volatility))
  /\ (forall period,
        WeightFacts.scaled 0 1 baseWeight
          (Indicators.analyzeStateSpaceMomentum history period baseWeight))
  /\ (forall period stdDevMultiplier,
        0 <= stdDevMultiplier ->
        WeightFacts.scaled 0.65 0.965 baseWeight
          (Indicators.analyzeBollingerBands M history period stdDevMultiplier baseWeight))
  /\ (forall period threshold,
        0 < threshold ->
        WeightFacts.scaled 0.5 1 baseWeight
          (Indicators.analyzeZScoreAnomaly M history period threshold baseWeight)).
Proof.
  intros Hb.
  split; [intros; apply WeightFacts.analyzeRSI_scaled, Hb |].
  split; [intros; apply WeightFacts.analyzeMACD_scaled, Hb |].
  split; [intros; apply WeightFacts.analyzeIchimokuCloud_scaled, Hb |].
  split; [intros; apply WeightFacts.analyzeStochastic_scaled, Hb |].
  split; [intros; apply WeightFacts.analyzeStateSpaceMomentum_scaled, Hb |].
  split; [intros; apply WeightFacts.analyzeBollingerBands_scaled; assumption
         | intros; apply WeightFacts.analyzeZScoreAnomaly_scaled; assumption].
Qed.

(** The mirror history, at the base weight of the Ichimoku analyzer. *)
Lemma indicator_analyzers_weight_ranges_witness :
  (forall rsiPeriod volatility,
      WeightFacts.scaled 0.6 1 0.14
        (Indicators.analyzeRSI EngineScenario.mirrorHistory rsiPeriod 0.14 volatility))
  /\ (forall shortPeriod longPeriod signalPeriod,
        WeightFacts.scaled 0.55 1 0.14
          (Indicators.analyzeMACD EngineScenario.mirrorHistory shortPeriod longPeriod
             signalPeriod 0.14))
  /\ (forall tenkanPeriod kijunPeriod senkouBPeriod,
        WeightFacts.scaled 0.5 1 0.14
          (Indicators.analyzeIchimokuCloud EngineScenario.mirrorHistory tenkanPeriod
             kijunPeriod senkouBPeriod 0.14))
  /\ (forall kPeriod dPeriod smoothK volatility,
        WeightFacts.scaled 0.625 1 0.14
          (Indicators.analyzeStochastic EngineScenario.mirrorHistory kPeriod dPeriod smoothK
             0.14 volatility))
  /\ (forall period,
        WeightFacts.scaled 0 1 0.14
          (Indicators.analyzeStateSpaceMomentum EngineScenario.mirrorHistory period 0.14))
  /\ (forall period stdDevMultiplier,
        0 <= stdDevMultiplier ->
        WeightFacts.scaled 0.65 0.965 0.14
          (Indicators.analyzeBollingerBands Approx.math EngineScenario.mirrorHistory period
             stdDevMultiplier 0.14))
  /\ (forall period threshold,
        0 < threshold ->
        WeightFacts.scaled 0.5 1 0.14
          (Indicators.analyzeZScoreAnomaly Approx.math EngineScenario.mirrorHistory period
             threshold 0.14)).
Proof.
  apply (indicator_analyzers_weight_ranges Approx.math EngineScenario.mirrorHistory 0.14). lra.
Defined.

(** X24.  The weight of a meta signal, for a non-negative base weight and
    signals whose adjusted weights are not negative: [analyzeVolatilityTrendFusion]
    returns between 0.8 and 1.4 times the base weight,
    [analyzeBayesianInference] between 0.3 and 1 times, and, for a consensus
    factor in [0.4, 1.6], [analyzeQuantumSuperpositionState] a positive weight
    of at most the base weight (or 0 when the base weight is 0), whenever they
    return a signal. *)
Theorem meta_signals_weight_ranges
    (signals : list Ensemble.Signal) (baseWeight : Q) :
  0 <= baseWeight ->
  Forall (fun s => 0 <= Ensemble.adjustedWeight s) signals ->
  (forall coin trendContext marketEntropyState,
      WeightFacts.scaled 0.8 1.4 baseWeight
        (Ensemble.analyzeVolatilityTrendFusion coin trendContext marketEntropyState
           baseWeight))
  /\ WeightFacts.scaled 0.3 1 baseWeight (Ensemble.analyzeBayesianInference signals baseWeight)
  /\ (forall consensus,
        0.4 <= Ensemble.factor consensus <= 1.6 ->
        match Ensemble.analyzeQuantumSuperpositionState signals consensus baseWeight with
        | Some s =>
            0 < Analyzers.r_weight s <= baseWeight
            \/ (baseWeight == 0 /\ Analyzers.r_weight s == 0)
        | None => True
        end).
Proof.
  intros Hb Hall.
  split; [intros; apply WeightFacts.analyzeVolatilityTrendFusion_scaled, Hb |].
  split; [apply WeightFacts.analyzeBayesianInference_scaled; assumption |].
  intros consensus Hf.
  apply WeightFacts.analyzeQuantumSuperpositionState_scaled; assumption.
Qed.

(** Five votes for BIG. *)
Lemma meta_signals_weight_ranges_witness :
  let signals :=
    [Ensemble.mkSignal JS.BIG 0.09 "MACD_CrossB" 0.09;
     Ensemble.mkSignal JS.BIG 0.14 "Ichimoku" 0.14;
     Ensemble.mkSignal JS.BIG 0.08 "RSI" 0.08;
     Ensemble.mkSignal JS.BIG 0.07 "Bollinger" 0.07;
     Ensemble.mkSignal JS.BIG 0.05 "Transition" 0.05] in
  (forall coin trendContext marketEntropyState,
      WeightFacts.scaled 0.8 1.4 0.15
        (Ensemble.analyzeVolatilityTrendFusion coin trendContext marketEntropyState 0.15))
  /\ WeightFacts.scaled 0.3 1 0.15 (Ensemble.analyzeBayesianInference signals 0.15)
  /\ (forall consensus,
        0.4 <= Ensemble.factor consensus <= 1.6 ->
        match Ensemble.analyzeQuantumSuperpositionState signals consensus 0.15 with
        | Some s =>
            0 < Analyzers.r_weight s <= 0.15 \/ (0.15 == 0 /\ Analyzers.r_weight s == 0)
        | None => True
        end).
Proof.
  apply (meta_signals_weight_ranges
           [Ensemble.mkSignal JS.BIG 0.09 "MACD_CrossB" 0.09;
            Ensemble.mkSignal JS.BIG 0.14 "Ichimoku" 0.14;
            Ensemble.mkSignal JS.BIG 0.08 "RSI" 0.08;
            Ensemble.mkSignal JS.BIG 0.07 "Bollinger" 0.07;
            Ensemble.mkSignal JS.BIG 0.05 "Transition" 0.05] 0.15).
  - lra.
  - repeat constructor; cbn; lra.
Defined.

(** X25.  The signals of a cycle.  Every signal the signal block and the
    superposition step put in [signals] has a raw weight above 0 and at most
    0.35 (the fusion signal at its largest factor) and an adjusted weight of
    at least [MIN_ABSOLUTE_WEIGHT]; every vote [ultraAIPredict] hands on in
    [lastPredictionSignals] has a weight above [MIN_ABSOLUTE_WEIGHT], a
    prediction and no probation flag.  This holds for every history,
    statistics object, module state, clock and random draws. *)
Theorem ultraAIPredict_signal_weights
    (M : MathOps) (env : Engine.Env) (history : list Carry.HistoryRecord)
    (stats : option Carry.Stats) (st : Engine.State) :
  Forall (fun s =>
            0 < Ensemble.weight s <= 0.35
            /\ Learner.MIN_ABSOLUTE_WEIGHT <= Ensemble.adjustedWeight s)
    (Engine.signals
       (fst (Engine.collectSignals M env history (Engine.openCycle M env history stats st))))
  /\ Forall (fun v =>
               Learner.MIN_ABSOLUTE_WEIGHT < Carry.v_weight v
               /\ is_Some (Carry.v_prediction v)
               /\ Carry.v_isOnProbation v = false)
       (Engine.lastPredictionSignals (fst (Engine.ultraAIPredict M env history stats st))).
Proof.
  split.
  - apply GatherFacts.collectSignals_ok.
  - apply GatherFacts.ultraAIPredict_votes.
Qed.

(** ** The scores of the ensemble *)

Module ScoreFacts.
Import JS Carry Stats Context Analyzers Indicators Market Ensemble Engine.

Lemma analyzeSignalConsistency_range signals trendContext :
  0.5 <= consistencyScore (analyzeSignalConsistency signals trendContext) <= 1.
Proof.
  unfold analyzeSignalConsistency. cbv zeta.
  destruct (length signals <? 3)%nat; [cbn [consistencyScore]; lra |].
  generalize (length (List.filter (fun s => Outcome_eqb (prediction s) BIG) signals)).
  generalize (length (List.filter (fun s => Outcome_eqb (prediction s) SMALL) signals)).
  intros small big.
  destruct (big + small =? 0)%nat eqn:E; [cbn [consistencyScore]; lra |].
  apply Nat.eqb_neq in E. cbn [consistencyScore].
  assert (0 < Num.ofNat (big + small)) as Ht by (apply NumFacts.ofNat_pos; lia).
  assert (Num.ofNat (Nat.max big small) <= Num.ofNat (big + small)) as Hle
      by (apply NumFacts.ofNat_le; lia).
  assert (Num.ofNat (big + small) <= Num.ofNat (2 * Nat.max big small)) as Hge
      by (apply NumFacts.ofNat_le; lia).
  assert (Num.ofNat (2 * Nat.max big small) == 2 * Num.ofNat (Nat.max big small)) as H2.
  { unfold Num.ofNat. rewrite Nat2Z.inj_mul, inject_Z_mult. reflexivity. }
  rewrite H2 in Hge. split.
  - apply Qle_shift_div_l; [exact Ht | lra].
  - apply Qle_shift_div_r; [exact Ht | lra].
Qed.

Lemma analyzePathConfluenceStrength_range signals finalPrediction :
  0 <= confluenceScore (analyzePathConfluenceStrength signals finalPrediction) <= 0.30.
Proof.
  unfold analyzePathConfluenceStrength. cbv zeta.
  destruct (length signals =? 0)%nat; [cbn [confluenceScore]; lra |].
  destruct (length _ <? 2)%nat; [cbn [confluenceScore]; lra |].
  cbn [confluenceScore].
  match goal with
  | |- context [Qmin (Num.ofNat ?n * 0.02) 0.10] =>
      pose proof (NumFacts.ofNat_nonneg n) as Hn; revert Hn; generalize (Num.ofNat n)
  end.
  intros k Hk.
  match goal with
  | |- context [Qmin (?a + Qmin ?b ?c) 0.30] =>
      destruct (NumFacts.Qmin_cases b c) as [[? ?]|[? ?]];
      destruct (NumFacts.Qmin_cases (a + Qmin b c) 0.30) as [[? ?]|[? ?]];
      assert (0 <= a) by (repeat match goal with
                                 | |- context [if ?t then _ else _] => destruct t
                                 end; lra)
  end; split; lra.
Qed.

Section WithMath.
Variable M : MathOps.

Lemma analyzePredictionConsensus_range signals trendContext :
  0 <= consensusScore (analyzePredictionConsensus M signals trendContext) <= 1
  /\ 0.6 <= factor (analyzePredictionConsensus M signals trendContext) <= 1.4.
Proof.
  unfold analyzePredictionConsensus. cbv zeta.
  destruct (length signals <? 4)%nat; [cbn [consensusScore factor]; lra |].
  match goal with
  | |- context [fold_left ?f ?l ?a] => destruct (fold_left f l a) as [[bigCats smallCats] mixedCats]
  end.
  cbn [consensusScore factor].
  match goal with
  | |- context [Qmin 1.6 (if ?conflict then _ else _)] => generalize conflict
  end.
  intros conflict.
  assert (0 <= (if (0 <? bigCats + smallCats + mixedCats)%nat
                then (Num.ofNat (Nat.max bigCats smallCats)
                      - Num.ofNat (Nat.min bigCats smallCats))
                     / Num.ofNat (bigCats + smallCats + mixedCats)
                else 0.5) <= 1) as Hs.
  { destruct (0 <? bigCats + smallCats + mixedCats)%nat eqn:E; [| lra].
    apply Nat.ltb_lt in E.
    assert (0 < Num.ofNat (bigCats + smallCats + mixedCats)) as Ht
        by (apply NumFacts.ofNat_pos; lia).
    assert (Num.ofNat (Nat.min bigCats smallCats) <= Num.ofNat (Nat.max bigCats smallCats))
      as Hmm by (apply NumFacts.ofNat_le; lia).
    assert (Num.ofNat (Nat.max bigCats smallCats)
            <= Num.ofNat (bigCats + smallCats + mixedCats)) as Hmt
        by (apply NumFacts.ofNat_le; lia).
    pose proof (NumFacts.ofNat_nonneg (Nat.min bigCats smallCats)) as Hmin.
    split.
    - apply Qle_shift_div_l; [exact Ht | lra].
    - apply Qle_shift_div_r; [exact Ht | lra]. }
  revert Hs.
  match goal with
  | |- 0 <= ?s <= 1 -> _ => generalize s
  end.
  intros score Hs. split; [exact Hs |].
  destruct conflict;
    match goal with
    | |- context [Qmax 0.4 (Qmin 1.6 ?f)] =>
        destruct (NumFacts.Qmin_cases 1.6 f) as [[? ?]|[? ?]];
        destruct (NumFacts.Qmax_cases 0.4 (Qmin 1.6 f)) as [[? ?]|[? ?]]
    end; split; lra.
Qed.

(** Outside a strong trend the factor never falls below 1, whichever class
    the categories agree on. *)
Lemma analyzePredictionConsensus_tilt signals trendContext :
  String.eqb (strength trendContext) "STRONG" = false ->
  1 <= factor (analyzePredictionConsensus M signals trendContext) <= 1.4.
Proof.
  intros Hweak.
  pose proof (analyzePredictionConsensus_range signals trendContext) as [Hs _].
  revert Hs. unfold analyzePredictionConsensus. cbv zeta.
  destruct (length signals <? 4)%nat; [cbn [consensusScore factor]; lra |].
  match goal with
  | |- context [fold_left ?f ?l ?a] => destruct (fold_left f l a) as [[bigCats smallCats] mixedCats]
  end.
  cbn [consensusScore factor]. rewrite Hweak. cbn [andb].
  match goal with
  | |- 0 <= ?s <= 1 -> _ => generalize s
  end.
  intros score Hs.
  destruct (NumFacts.Qmin_cases 1.6 (1.0 + score * 0.4)) as [[? ?]|[? ?]];
    destruct (NumFacts.Qmax_cases 0.4 (Qmin 1.6 (1.0 + score * 0.4))) as [[? ?]|[? ?]];
    split; lra.
Qed.

End WithMath.
End ScoreFacts.

(** X26.  The scores of the ensemble stay in range for every list of
    signals: the consistency score in [0.5, 1], the confluence score in
    [0, 0.30], the consensus score in [0, 1] and the consensus factor in
    [0.6, 1.4], so the clamp to [0.4, 1.6] is never active.  Outside a STRONG
    trend the factor is at least 1 whichever class the categories agree on:
    it never scales the BIG score down and never scales the SMALL score
    (which is multiplied by 2 - factor) up. *)
Theorem ensemble_scores_in_range
    (M : MathOps) (signals : list Ensemble.Signal) (trendContext : Context.TrendContext)
    (finalPrediction : JS.Outcome) :
  0.5 <= Ensemble.consistencyScore (Ensemble.analyzeSignalConsistency signals trendContext)
  <= 1
  /\ 0 <= Ensemble.confluenceScore
            (Ensemble.analyzePathConfluenceStrength signals finalPrediction) <= 0.30
  /\ 0 <= Ensemble.consensusScore (Ensemble.analyzePredictionConsensus M signals trendContext)
     <= 1
  /\ 0.6 <= Ensemble.factor (Ensemble.analyzePredictionConsensus M signals trendContext)
     <= 1.4
  /\ (String.eqb (Context.strength trendContext) "STRONG" = false ->
      1 <= Ensemble.factor (Ensemble.analyzePredictionConsensus M signals trendContext)
      /\ 2.0 - Ensemble.factor (Ensemble.analyzePredictionConsensus M signals trendContext)
         <= 1).
Proof.
  split; [apply ScoreFacts.analyzeSignalConsistency_range |].
  split; [apply ScoreFacts.analyzePathConfluenceStrength_range |].
  destruct (ScoreFacts.analyzePredictionConsensus_range M signals trendContext) as [Hs Hf].
  split; [exact Hs |]. split; [exact Hf |].
  intros Hweak.
  pose proof (ScoreFacts.analyzePredictionConsensus_tilt M signals trendContext Hweak) as Ht.
  split; lra.
Qed.

(** ** The labels of the trend context *)

Module ContextFacts.
Import JS Carry Stats Context.

Lemma numbersOf_length history : (length (numbersOf history) <= length history)%nat.
Proof.
  unfold numbersOf. induction history as [| r rest IH]; cbn [omap list_omap length]; [lia |].
  destruct (inject_Z <$> numberOf r); cbn [length]; lia.
Qed.

Lemma calculateEMA_is_Some data period :
  (0 < period <= Z.of_nat (length data))%Z -> is_Some (calculateEMA data period).
Proof.
  intros H. destruct (calculateEMA data period) eqn:E; [eauto |].
  apply StatsFacts.calculateEMA_null in E. lia.
Qed.

Section WithMath.
Variable M : MathOps.

Lemma stackOf_labels shortMA mediumMA longMA normalizedSpread :
  let r := stackOf shortMA mediumMA longMA normalizedSpread in
  (In (fst r) ["BIG"; "SMALL"] /\ In (snd r) ["STRONG"; "MODERATE"; "WEAK"])
  \/ (In (fst r) ["BIG_BIASED_RANGE"; "SMALL_BIASED_RANGE"; "NONE"] /\ snd r = "RANGING").
Proof.
  cbv zeta. unfold stackOf.
  repeat match goal with
         | |- context [if ?b then _ else _] => destruct b
         end; cbn [fst snd In]; tauto.
Qed.

Lemma volatilityOf_labels numbers :
  (15 <= length numbers)%nat ->
  In (fst (volatilityOf M numbers)) ["HIGH"; "MEDIUM"; "LOW"; "VERY_LOW"].
Proof.
  intros Hlen. unfold volatilityOf. cbv zeta.
  rewrite StatsFacts.slice_prefix by lia. rewrite Nat2Z.id.
  rewrite length_take.
  assert ((15 <=? Nat.min (Nat.min (length numbers) 30) (length numbers))%nat = true) as ->
      by (apply Nat.leb_le; lia).
  unfold calculateStdDev.
  assert ((Z.of_nat (length (take (Nat.min (length numbers) 30) numbers))
           <? Z.of_nat (Nat.min (Nat.min (length numbers) 30) (length numbers)))%Z = false)
    as -> by (apply Z.ltb_ge; rewrite length_take; lia).
  assert ((Z.of_nat (Nat.min (Nat.min (length numbers) 30) (length numbers)) <=? 0)%Z = false)
    as -> by (apply Z.leb_gt; lia).
  cbn [orb]. cbv zeta.
  match goal with
  | |- context [(length ?l <? 2)%nat] =>
      assert ((length l <? 2)%nat = false) as ->
  end.
  { apply Nat.ltb_ge. rewrite StatsFacts.slice_prefix by lia.
    rewrite !length_take. lia. }
  repeat match goal with
         | |- context [if ?b then _ else _] => destruct b
         end; cbn [fst In]; tauto.
Qed.

Lemma getTrendContext_known history shortMALookback mediumMALookback longMALookback :
  (0 < shortMALookback <= longMALookback)%Z ->
  (0 < mediumMALookback <= longMALookback)%Z ->
  (15 <= longMALookback)%Z ->
  (longMALookback <= Z.of_nat (length (numbersOf history)))%Z ->
  let ctx := getTrendContext M history shortMALookback mediumMALookback longMALookback in
  ((In (direction ctx) ["BIG"; "SMALL"] /\ In (strength ctx) ["STRONG"; "MODERATE"; "WEAK"])
   \/ (In (direction ctx) ["BIG_BIASED_RANGE"; "SMALL_BIASED_RANGE"; "NONE"]
       /\ strength ctx = "RANGING"))
  /\ In (volatility ctx) ["HIGH"; "MEDIUM"; "LOW"; "VERY_LOW"].
Proof.
  intros Hs Hm Hl Hn. cbv zeta. unfold getTrendContext.
  pose proof (numbersOf_length history) as Hle.
  assert ((Z.of_nat (length history) <? longMALookback)%Z = false) as ->
      by (apply Z.ltb_ge; lia).
  cbv zeta.
  assert ((Z.of_nat (length (numbersOf history)) <? longMALookback)%Z = false) as ->
      by (apply Z.ltb_ge; lia).
  destruct (calculateEMA_is_Some (numbersOf history) shortMALookback) as [shortMA ->]; [lia |].
  destruct (calculateEMA_is_Some (numbersOf history) mediumMALookback) as [mediumMA ->];
    [lia |].
  destruct (calculateEMA_is_Some (numbersOf history) longMALookback) as [longMA ->]; [lia |].
  match goal with
  | |- context [stackOf ?a ?b ?c ?d] =>
      pose proof (stackOf_labels a b c d) as Hst; cbv zeta in Hst;
      destruct (stackOf a b c d) as [direction strength]
  end.
  pose proof (volatilityOf_labels (numbersOf history)) as Hv.
  destruct (volatilityOf M (numbersOf history)) as [volatility volDetails].
  cbn [fst snd Context.direction Context.strength Context.volatility] in *.
  split; [exact Hst | apply Hv; lia].
Qed.

Lemma getTrendContext_unknown history shortMALookback mediumMALookback longMALookback :
  (Z.of_nat (length (numbersOf history)) < longMALookback)%Z ->
  let ctx := getTrendContext M history shortMALookback mediumMALookback longMALookback in
  strength ctx = "UNKNOWN" /\ direction ctx = "NONE" /\ volatility ctx = "UNKNOWN".
Proof.
  intros Hn. cbv zeta. unfold getTrendContext.
  destruct (Z.of_nat (length history) <? longMALookback)%Z; [repeat split |].
  cbv zeta.
  assert ((Z.of_nat (length (numbersOf history)) <? longMALookback)%Z = true) as ->
      by (apply Z.ltb_lt; lia).
  repeat split.
Qed.

End WithMath.
End ContextFacts.

(** X27.  The labels of [getTrendContext].  With positive short and medium
    lookbacks not above the long one, a long lookback of at least 15 and at
    least that many parsable numbers in the history, the context is never the
    unknown one: the direction is BIG or SMALL with strength STRONG, MODERATE
    or WEAK, or a range direction with strength RANGING, and the volatility
    is HIGH, MEDIUM, LOW or VERY_LOW (the return for a failed average is
    never taken).  With fewer numbers than the long lookback the context is
    UNKNOWN / NONE / UNKNOWN. *)
Theorem getTrendContext_labels
    (M : MathOps) (history : list Carry.HistoryRecord)
    (shortMALookback mediumMALookback longMALookback : Z) :
  (0 < shortMALookback <= longMALookback)%Z ->
  (0 < mediumMALookback <= longMALookback)%Z ->
  (15 <= longMALookback)%Z ->
  let ctx :=
    Context.getTrendContext M history shortMALookback mediumMALookback longMALookback in
  ((longMALookback <= Z.of_nat (length (Carry.numbersOf history)))%Z ->
   ((In (Context.direction ctx) ["BIG"; "SMALL"]
     /\ In (Context.strength ctx) ["STRONG"; "MODERATE"; "WEAK"])
    \/ (In (Context.direction ctx) ["BIG_BIASED_RANGE"; "SMALL_BIASED_RANGE"; "NONE"]
        /\ Context.strength ctx = "RANGING"))
   /\ In (Context.volatility ctx) ["HIGH"; "MEDIUM"; "LOW"; "VERY_LOW"])
  /\ ((Z.of_nat (length (Carry.numbersOf history)) < longMALookback)%Z ->
      Context.strength ctx = "UNKNOWN" /\ Context.direction ctx = "NONE"
      /\ Context.volatility ctx = "UNKNOWN").
Proof.
  intros Hs Hm Hl. cbv zeta. split.
  - intros Hn. apply ContextFacts.getTrendContext_known; assumption.
  - intros Hn. apply ContextFacts.getTrendContext_unknown; assumption.
Qed.

(** The lookbacks [ultraAIPredict] uses, on the mirror history. *)
Lemma getTrendContext_labels_witness :
  let ctx := Context.getTrendContext Approx.math EngineScenario.mirrorHistory 5 10 20 in
  ((20 <= Z.of_nat (length (Carry.numbersOf EngineScenario.mirrorHistory)))%Z ->
   ((In (Context.direction ctx) ["BIG"; "SMALL"]
     /\ In (Context.strength ctx) ["STRONG"; "MODERATE"; "WEAK"])
    \/ (In (Context.direction ctx) ["BIG_BIASED_RANGE"; "SMALL_BIASED_RANGE"; "NONE"]
        /\ Context.strength ctx = "RANGING"))
   /\ In (Context.volatility ctx) ["HIGH"; "MEDIUM"; "LOW"; "VERY_LOW"])
  /\ ((Z.of_nat (length (Carry.numbersOf EngineScenario.mirrorHistory)) < 20)%Z ->
      Context.strength ctx = "UNKNOWN" /\ Context.direction ctx = "NONE"
      /\ Context.volatility ctx = "UNKNOWN").
Proof.
  apply (getTrendContext_labels Approx.math EngineScenario.mirrorHistory 5 10 20); lia.
Defined.

(** ** Stability, entropy and the probabilistic regime *)

Module MarketFacts.
Import JS Carry Stats Context Analyzers Market Ensemble Engine.

Section WithMath.
Variable M : MathOps.

Lemma analyzeTrendStability_reasons history :
  let s := analyzeTrendStability M history in
  (isStable s = true /\ dominance s = "NONE")
  \/ (isStable s = false
      /\ ((reason s = "Unstable: Extreme Outcome Dominance"
           /\ In (dominance s) ["BIG_DOMINANCE"; "SMALL_DOMINANCE"])
          \/ (In (reason s)
                ["Unstable: Very Low Entropy (Highly Predictable/Stuck)";
                 "Unstable: High Numerical Volatility"; "Unstable: Excessive Choppiness"]
              /\ dominance s = "NONE"))).
Proof.
  cbv zeta. unfold analyzeTrendStability. cbv zeta.
  repeat match goal with
         | |- context [if ?b then _ else _] => destruct b
         end; cbn [isStable reason dominance In]; tauto.
Qed.

Lemma analyzeMarketEntropyState_labels history trendContext stability :
  let e := analyzeMarketEntropyState M history trendContext stability in
  In (state e)
     ["UNCERTAIN_ENTROPY"; "ORDERLY"; "STABLE_MODERATE"; "STABLE_CHAOS"; "RISING_CHAOS";
      "SUBSIDING_CHAOS"; "POTENTIAL_CHAOS_FROM_INSTABILITY"]
  /\ (isStable stability = false ->
      state e <> "ORDERLY" /\ state e <> "STABLE_MODERATE").
Proof.
  cbv zeta. unfold analyzeMarketEntropyState. cbv zeta.
  destruct (_ <? _)%Z; [cbn [state In]; split; [tauto | intros _; split; discriminate] |].
  destruct (calculateEntropyForSignal M _ 10) as [eS|];
    [| cbn [state In]; split; [tauto | intros _; split; discriminate]].
  destruct (calculateEntropyForSignal M _ 25) as [eL|];
    [| cbn [state In]; split; [tauto | intros _; split; discriminate]].
  match goal with
  | |- context [if negb (isStable stability) && (String.eqb ?st "ORDERLY" || _) then _ else _] =>
      assert (In st ["ORDERLY"; "STABLE_MODERATE"; "STABLE_CHAOS"; "RISING_CHAOS";
                     "SUBSIDING_CHAOS"]) as Hst;
      [| revert Hst; generalize st]
  end.
  { repeat match goal with
           | |- context [match ?x with Some _ => _ | None => _ end] => destruct x
           | |- context [let '(a, b) := ?x in _] => destruct x
           | |- context [if ?b then _ else _] => destruct b
           end; cbn [In]; tauto. }
  intros st Hst. cbn [In] in Hst.
  destruct (isStable stability);
    repeat (destruct Hst as [<- | Hst]; [cbn; split; [tauto | intros; try discriminate; split; discriminate] |]);
    contradiction.
Qed.

Lemma analyzeAdvancedMarketRegime_tilt trendContext marketEntropyState :
  let p := probabilities (analyzeAdvancedMarketRegime M trendContext marketEntropyState) in
  bullTrend p + bearTrend p + volatileRange p + quietRange p == 1
  /\ (state marketEntropyState <> "ORDERLY" -> bullTrend p = bearTrend p).
Proof.
  cbv zeta. unfold analyzeAdvancedMarketRegime. cbv zeta. cbn [probabilities].
  destruct (String.eqb_spec (state marketEntropyState) "ORDERLY") as [-> | Hne].
  - repeat match goal with
           | |- context [if ?b then _ else _] => destruct b
           end; cbn [bullTrend bearTrend volatileRange quietRange];
      (split; [lra | intros H; congruence]).
  - rewrite !andb_false_r.
    repeat match goal with
           | |- context [if ?b then _ else _] => destruct b
           end; cbn [bullTrend bearTrend volatileRange quietRange];
      (split; [lra | reflexivity]).
Qed.

Lemma openCycle_concentration env history stats st :
  isStable (c_stability (openCycle M env history stats st)) = false ->
  c_concentrationModeEngaged (openCycle M env history stats st) = true.
Proof.
  unfold openCycle. cbv zeta.
  destruct (getRealTimeExternalData env) as [realTimeFactor realTimeReason].
  destruct (Reflex.checkForAnomalousPerformance stats (reflexState st))
    as [isReflexiveCorrection reflex1].
  repeat match goal with
         | |- context [let '(a, b) := ?x in _] => destruct x
         end.
  cbn [c_stability c_concentrationModeEngaged]. intros ->. reflexivity.
Qed.

(** What the returned object copies from the opening of the cycle. *)
Lemma ultraAIPredict_copies env history stats st :
  let c := openCycle M env history stats st in
  let out := fst (ultraAIPredict M env history stats st) in
  Engine.concentrationModeEngaged out = c_concentrationModeEngaged c
  /\ marketEntropyState out = state (c_marketEntropyAnalysis c)
  /\ currentMacroRegime out = macroRegime (c_trendContext c)
  /\ Engine.lastVolatilityRegime out = volatility (c_trendContext c).
Proof.
  cbv zeta.
  apply (FusionFacts.ultraAIPredict_cases M env history stats st
           (fun out =>
              Engine.concentrationModeEngaged out
              = c_concentrationModeEngaged (openCycle M env history stats st)
              /\ marketEntropyState out
                 = state (c_marketEntropyAnalysis (openCycle M env history stats st))
              /\ currentMacroRegime out
                 = macroRegime (c_trendContext (openCycle M env history stats st))
              /\ Engine.lastVolatilityRegime out
                 = volatility (c_trendContext (openCycle M env history stats st)))).
  - intros. repeat split.
  - intros. unfold fuse. cbv zeta. repeat split.
Qed.

End WithMath.
End MarketFacts.

(** X28.  A cycle on an unstable trend.  When [analyzeTrendStability]
    reports the history as unstable, [ultraAIPredict] engages concentration
    mode, the entropy state it returns is neither ORDERLY nor STABLE_MODERATE
    (the stability override turns both into
    POTENTIAL_CHAOS_FROM_INSTABILITY), and the probabilities of
    [analyzeAdvancedMarketRegime] give the same weight to the bull and the
    bear trend, so the regime does not tilt the two scores.  The four
    probabilities always add up to 1, and the entropy state is always one of
    seven labels. *)
Theorem unstable_trend_cycles
    (M : MathOps) (env : Engine.Env) (history : list Carry.HistoryRecord)
    (stats : option Carry.Stats) (st : Engine.State) :
  Market.isStable (Market.analyzeTrendStability M history) = false ->
  let c := Engine.openCycle M env history stats st in
  let out := fst (Engine.ultraAIPredict M env history stats st) in
  let p := Market.probabilities (Engine.c_advancedRegime c) in
  Engine.concentrationModeEngaged out = true
  /\ In (Engine.marketEntropyState out)
       ["UNCERTAIN_ENTROPY"; "STABLE_CHAOS"; "RISING_CHAOS"; "SUBSIDING_CHAOS";
        "POTENTIAL_CHAOS_FROM_INSTABILITY"]
  /\ Market.bullTrend p = Market.bearTrend p
  /\ Market.bullTrend p + Market.bearTrend p + Market.volatileRange p + Market.quietRange p
     == 1.
Proof.
  intros Hunstable. cbv zeta.
  destruct (MarketFacts.ultraAIPredict_copies M env history stats st) as (-> & -> & _).
  pose proof (FusionRange.openCycle_fields M env history stats st)
    as (_ & _ & _ & Hstab & Hent & Hadv).
  cbv zeta in Hstab, Hent, Hadv.
  split.
  - apply MarketFacts.openCycle_concentration. rewrite Hstab. exact Hunstable.
  - rewrite Hadv, Hent, Hstab.
    destruct (MarketFacts.analyzeMarketEntropyState_labels M history
                (Engine.c_trendContext (Engine.openCycle M env history stats st))
                (Market.analyzeTrendStability M history)) as [Hin Hno].
    cbv zeta in Hin, Hno. destruct (Hno Hunstable) as [Hn1 Hn2].
    destruct (MarketFacts.analyzeAdvancedMarketRegime_tilt M
                (Engine.c_trendContext (Engine.openCycle M env history stats st))
                (Market.analyzeMarketEntropyState M history
                   (Engine.c_trendContext (Engine.openCycle M env history stats st))
                   (Market.analyzeTrendStability M history))) as [Hsum Htilt].
    cbv zeta in Hsum, Htilt.
    split; [| split; [exact (Htilt Hn1) | exact Hsum]].
    cbn [In] in Hin |- *. intuition congruence.
Qed.

(** The silent history, whose numbers are too widely spread. *)
Lemma unstable_trend_cycles_witness :
  let c :=
    Engine.openCycle Approx.math EngineScenario.eveningPeak EngineScenario.silentHistory
      (Some EngineScenario.serverStats) Engine.initialState in
  let out :=
    fst (Engine.ultraAIPredict Approx.math EngineScenario.eveningPeak
           EngineScenario.silentHistory (Some EngineScenario.serverStats)
           Engine.initialState) in
  let p := Market.probabilities (Engine.c_advancedRegime c) in
  Engine.concentrationModeEngaged out = true
  /\ In (Engine.marketEntropyState out)
       ["UNCERTAIN_ENTROPY"; "STABLE_CHAOS"; "RISING_CHAOS"; "SUBSIDING_CHAOS";
        "POTENTIAL_CHAOS_FROM_INSTABILITY"]
  /\ Market.bullTrend p = Market.bearTrend p
  /\ Market.bullTrend p + Market.bearTrend p + Market.volatileRange p + Market.quietRange p
     == 1.
Proof.
  apply (unstable_trend_cycles Approx.math EngineScenario.eveningPeak
           EngineScenario.silentHistory (Some EngineScenario.serverStats)
           Engine.initialState).
  vm_compute. reflexivity.
Defined.

(** ** What the server feeds back *)

Module EchoFacts.
Import JS Carry Context Market Ensemble Engine Server.

(** A request that brings no outcome: no history, or a newest entry whose
    [actual] is missing or empty. *)
Definition silent (rq : Request) : Prop :=
  match clientHistory rq with
  | newest :: _ => truthy (actual newest) = false
  | [] => True
  end.

Section WithMath.
Variable M : MathOps.

(** What a cycle leaves alone when the statistics carry no outcome. *)
Lemma openCycle_no_outcome env0 history s st :
  truthy (lastActualOutcome s) = false ->
  reflexState st = Reflex.initial ->
  let c := openCycle M env0 history (Some s) st in
  signalPerformance (c_state c) = signalPerformance st
  /\ regimeProfiles (c_state c) = regimeProfiles st
  /\ reflexState (c_state c) = Reflex.initial
  /\ c_isReflexiveCorrection c = false.
Proof.
  intros Hno Hinit. cbv zeta. unfold openCycle. cbv zeta.
  destruct (getRealTimeExternalData env0) as [realTimeFactor realTimeReason].
  assert (Reflex.checkForAnomalousPerformance (Some s) (reflexState st)
          = (false, Reflex.initial)) as ->.
  { rewrite Hinit. unfold Reflex.checkForAnomalousPerformance, Reflex.scored.
    rewrite Hno, andb_false_r. reflexivity. }
  match goal with
  | |- context [let '(a, b) := ?x in _] => destruct x as [driftState detector1]
  end.
  match goal with
  | |- context [let '(a, b) := ?x in _] =>
      assert (x = (signalPerformance st, regimeProfiles st)) as ->
  end.
  { destruct (Carry.lastPredictionSignals s); [| reflexivity]. rewrite Hno. reflexivity. }
  cbn [c_state c_isReflexiveCorrection signalPerformance regimeProfiles reflexState].
  repeat split.
Qed.

Lemma ultraAIPredict_no_outcome env0 history s st :
  truthy (lastActualOutcome s) = false ->
  reflexState st = Reflex.initial ->
  regimeProfiles (snd (ultraAIPredict M env0 history (Some s) st)) = regimeProfiles st
  /\ reflexState (snd (ultraAIPredict M env0 history (Some s) st)) = Reflex.initial
  /\ Engine.reflexiveCorrectionActive (fst (ultraAIPredict M env0 history (Some s) st))
     = false.
Proof.
  intros Hno Hinit.
  destruct (openCycle_no_outcome env0 history s st Hno Hinit) as (_ & Hp & Hr & Hc).
  cbv zeta in Hp, Hr, Hc.
  unfold ultraAIPredict. cbv zeta. revert Hp Hr Hc.
  generalize (openCycle M env0 history (Some s) st). intros c Hp Hr Hc.
  destruct (length (List.filter confirmed history) <? 52)%nat;
    [cbn [fst snd forcedOutput Engine.reflexiveCorrectionActive]; auto |].
  generalize (collectSignals M env0 history c). intros gathered.
  unfold decide. cbv zeta.
  destruct (length (validSignalsOf (fst gathered)) =? 0)%nat;
    cbn [fst snd forcedOutput withTable regimeProfiles reflexState
         Engine.reflexiveCorrectionActive]; auto.
Qed.

(** The server while no request brings an outcome. *)
Lemma serve_silent requests :
  Forall silent requests ->
  lastActualOutcome (sharedStats (serve M requests initial)) = Null
  /\ regimeProfiles (engine (serve M requests initial)) = REGIME_SIGNAL_PROFILES
  /\ reflexState (engine (serve M requests initial)) = Reflex.initial.
Proof.
  induction requests as [| rq requests IH] using rev_ind; intros Hall.
  - repeat split.
  - apply Forall_app in Hall as [Hall Hrq]. apply Forall_inv in Hrq.
    destruct (IH Hall) as (Ha & Hp & Hr).
    rewrite ServerFacts.serve_snoc, ServerFacts.predict_stats, ServerFacts.predict_engine.
    destruct (ultraAIPredict_no_outcome (env rq) (sharedHistory (serve M requests initial))
                (sharedStats (serve M requests initial))
                (engine (serve M requests initial))) as (Hp' & Hr' & _);
      [rewrite Ha; reflexivity | exact Hr |].
    split; [| split; [congruence | exact Hr']].
    cbn [nextStats lastActualOutcome]. unfold silent in Hrq.
    destruct (clientHistory rq) as [| newest rest]; [exact Ha |].
    rewrite Hrq. exact Ha.
Qed.

End WithMath.
End EchoFacts.

(** X29.  The engine only learns from what the client sends back.  While
    no request carries a history whose newest entry has a non-empty
    [actual], the server's [lastActualOutcome] stays [null]: the regime
    profiles are still the ones the module was loaded with, the counters of
    the reflexive correction are still 0, the next cycle opens with the
    performance table as the last one left it (the performance update is
    skipped), and its answer is not given under reflexive correction. *)
Theorem silent_client_never_trains
    (M : MathOps) (requests : list Server.Request) (rq : Server.Request) :
  Forall EchoFacts.silent requests ->
  let sv := Server.serve M requests Server.initial in
  Carry.lastActualOutcome (Server.sharedStats sv) = JS.Null
  /\ Engine.regimeProfiles (Server.engine sv) = Engine.REGIME_SIGNAL_PROFILES
  /\ Engine.reflexState (Server.engine sv) = Reflex.initial
  /\ Engine.signalPerformance
       (Engine.c_state
          (Engine.openCycle M (Server.env rq) (Server.sharedHistory sv)
             (Some (Server.sharedStats sv)) (Server.engine sv)))
     = Engine.signalPerformance (Server.engine sv)
  /\ Engine.reflexiveCorrectionActive
       (Server.predictionResult (fst (Server.predict M rq sv))) = false.
Proof.
  intros Hsilent. cbv zeta.
  destruct (EchoFacts.serve_silent M requests Hsilent) as (Ha & Hp & Hr).
  split; [exact Ha |]. split; [exact Hp |]. split; [exact Hr |]. split.
  - apply EchoFacts.openCycle_no_outcome; [rewrite Ha; reflexivity | exact Hr].
  - rewrite ServerFacts.predict_result.
    apply EchoFacts.ultraAIPredict_no_outcome; [rewrite Ha; reflexivity | exact Hr].
Qed.

(** Two requests without a history, and a third. *)
Lemma silent_client_never_trains_witness :
  let requests :=
    [Server.mkRequest [] EngineScenario.eveningPeak 1718270000001 1718270000002 0.35;
     Server.mkRequest [] EngineScenario.eveningPeak 1718270060001 1718270060002 0.81] in
  let rq :=
    Server.mkRequest HistoryScenario.sample25 EngineScenario.eveningPeak 1718270120001
      1718270120002 0 in
  let sv := Server.serve Approx.math requests Server.initial in
  Carry.lastActualOutcome (Server.sharedStats sv) = JS.Null
  /\ Engine.regimeProfiles (Server.engine sv) = Engine.REGIME_SIGNAL_PROFILES
  /\ Engine.reflexState (Server.engine sv) = Reflex.initial
  /\ Engine.signalPerformance
       (Engine.c_state
          (Engine.openCycle Approx.math (Server.env rq) (Server.sharedHistory sv)
             (Some (Server.sharedStats sv)) (Server.engine sv)))
     = Engine.signalPerformance (Server.engine sv)
  /\ Engine.reflexiveCorrectionActive
       (Server.predictionResult (fst (Server.predict Approx.math rq sv))) = false.
Proof.
  apply (silent_client_never_trains Approx.math
           [Server.mkRequest [] EngineScenario.eveningPeak 1718270000001 1718270000002 0.35;
            Server.mkRequest [] EngineScenario.eveningPeak 1718270060001 1718270060002 0.81]
           (Server.mkRequest HistoryScenario.sample25 EngineScenario.eveningPeak
              1718270120001 1718270120002 0)).
  repeat constructor.
Defined.
